(* ===== verification/_CoqProject ===== *)
-Q . S2P
Prelude.v
Dates.v
DateFormat.v
BookingTypes.v
Calendar.v
Cost.v
Booking.v
Reschedule.v
Api.v
Backend.v
Dashboard.v
Student.v
Routes.v
JsNumber.v
RescheduleModal.v
TutorProfile.v
Wallet.v
FindTutor.v
Reviews.v
Auth.v
Admin.v
AdminHome.v
Nav.v
Endpoints.v
Scenarios.v
