(* ===== verification/Prelude.v ===== *)
(** * TutorLink: a verification development of the booking front end

    TutorLink ([src/frontend/src], React and TypeScript) lets tutors
    publish a weekly availability template and lets students book,
    cancel and reschedule one-to-one sessions.  The repository holds the
    browser client only; the server it talks to is reached through
    [api/bookingAPI.ts].  The parts that carry the booking logic, and
    how they interact:

    - the availability calendar ([components/AvailabilityCalendar.tsx])
      resolves every day of a month to a status from the template and
      the booked dates it is given, lays the days out on a weekday grid,
      and decides which clicks reach the page;
    - the date helpers inside it ([formatDate], [isPastDate],
      [getMonthDates], the month arrows) and JavaScript's [Date], which
      reads the server's date-only strings as UTC midnight;
    - the cost computations of [components/BookingModal.tsx] (estimate)
      and [pages/student/ViewTutorDetails.tsx] (amount sent);
    - the bookings API ([api/bookingAPI.ts], [types/BookingType.ts]) and
      the server behind it, whose lifecycle the specification describes;
    - the pages that drive it: the tutor's dashboard
      ([pages/tutor/TutorDashboard.tsx]: accept, reject, approve or
      reject a reschedule, each followed by an optimistic patch or a
      refetch), the student's booking page ([ViewTutorDetails.tsx]) and
      dashboard ([pages/student/StudentDashboard.tsx] with the cards of
      [components/BookingCard.tsx]).

    ** Files (library [S2P], in dependency order)

    - [Prelude]: the error monad [result] with [Ok]/[Err] and the
      [assert! b else e; k] notation (scope [tl_scope]), the hint
      databases [tutorlink] and [tutorlink_rw], the tactics
      [inv_result], [zlia], [zsimpl], [decide_prop], list lemmas
      ([find_unique], [NoDup_fmap_elem_inj], a [Proper] instance of
      [List.filter] for permutations), the JavaScript helpers [truthy],
      [orElse] ([||]), [imgSrc] ([url || defaultProfile]), [capitalize],
      [trim], [lowerStr], [strIncludes], [splitChar] (with [noChar],
      [splitChar_app] and [splitChar_append], the segments of an append
      through [glue]) and [sortBy]
      ([Array.prototype.sort] with a comparator), and the
      reflexive-transitive closure [star] with [star_invariant].
    - [Dates]: a local [Date] as the record [JsDate] of its getters
      (month 0-based); [daysInMonth], [validDate], [prevDay], [nextDay],
      [newDate] ([new Date(y, m, d)] with month overflow and day 0),
      [getDay] (Sakamoto), [dateLtb], [isPastDate], [getMonthDates],
      [goPrevMonth], [goNextMonth] of [AvailabilityCalendar.tsx].
    - [DateFormat]: [String(n)] ([Z_to_string], 20 digits of fuel),
      [padStart2], [formatDate] (also [formatLocalDate] of
      [RescheduleModal.tsx]), the parser [parseIsoDate] of date-only
      strings, [jsDateOfString tz], i.e. [new Date(s)] read through
      the local getters in a zone [tz] minutes east of UTC, and
      [toDateString].
    - [BookingTypes]: [BookingRequest], [BookingResponse], the five
      statuses and their wire strings, the error kinds.
    - [Calendar]: the component as a Section over its props: the four
      date sets ([datesSetWith]), [getSlotStatus], [dayKey]/[slotOf],
      [cellLabel], [onDayClick], [renderMonth]; the month state and its
      spinner ([CalState], [calStep], [calRun]: the spinner is cleared
      only by a new [bookedSlots] array from the parent); and the
      specification's resolver [resolve], the contract [getSlotStatus]
      is proved to implement.
    - [Cost]: [split(":").map(Number)] ([splitColon], [jsNumber]), the
      time strings of [new Date("1970-01-01T..")] ([parseTimeOfDay]),
      [bookingModalEstimate] and [confirmBookingCost], over exact
      rationals [Q].
    - [Booking]: the server's lifecycle engine, modelled from the
      specification (section 4.3) since the repository does not contain
      it: a [gmap] store of records with the next fresh id, one
      operation per endpoint returning [result BookingError], the step
      relation [step] and [reachable]; the concrete lifecycle [exEnv],
      [exStore1..3] used by the witnesses.
    - [Reschedule]: the pairing invariant of on-hold requests and frozen
      originals.
    - [Api]: the class [BookingApi] (one operation per export of
      [bookingAPI.ts] the pages call) and the class [BookingApiLaws]
      (what the server promises: the records each call leaves, when a
      call succeeds, one live booking per tutor and date); its reads
      return [result unit _], since each page wraps its read in a
      [try]/[catch], and their laws hold of a successful read; the
      row patch [patchStatus] of the optimistic update.
    - [Backend]: [engineApi env] and [engineApiLaws env]: the engine of
      [Booking] implements the interface.
    - [Dashboard] (Module [TutorDashboard]): the page state [TutorView],
      the three fetches with their [catch] (a failed read keeps the
      list), the mount effect [onMount] (rerun by
      [onMonthChange]), [modal], [cancelBooking], [confirmBooking],
      [approveRescheduleBooking], proved against any [BookingApiLaws];
      the panels with their rows (the local day each row shows), the
      profile card with its picture modal, banners and buttons of the
      page.
    - [Student]: Modules [BookingModal] (lesson-type select, Confirm,
      cost line, the details it shows), [ViewTutorDetails]
      ([fetchBookingsForMonth], [confirmBooking], the profile card and
      panels), [BookingCard] (hover state, overlays, badge,
      and the callbacks of each click as [onEvent]) and
      [StudentDashboard] ([fetchBookings] with its toast on failure,
      [handleCancelBooking] with its refetch of bookings and wallet,
      [upcomingBookings], the wallet and profile fetches, the profile
      card and its picture modal, the reschedule hand-off).
    - [Routes]: React Router's path matching ([splitSlash], [segments],
      [segsMatch], [matchPath]), the route table of [App.tsx] with
      [routeFor], and the guards [AdminRoute], [StudentRoute] and
      [UserRoute] as the state machine [GuardMachine] (timer, change of
      user, answers of the role checks in any order, the redirect and
      its toast), and [Session], [App]'s restore of the stored user.
    - [JsNumber]: [Number(s)] on the strings of number inputs,
      [parseFloat] (longest numeric prefix) and [toFixed(2)] as
      [round2], over [Q].
    - [RescheduleModal]: the student's reschedule modal (fetch of the
      tutor and of three months of bookings, slot click, confirm, and
      what it shows: the loading view or the slot picker).
    - [TutorProfile]: Modules [AvailabilityPicker] (the weekly template
      editor as a [gmap]), [LessonTypeInput] (add, remove, suggestions)
      and [TutorProfile] (the profile editor: fetch, uploads, rate
      input, the checks and effects of [handleSave]).
    - [Wallet]: the class [WalletApi] of [api/walletAPI.ts]; Modules
      [WalletCore] (fetch, balance card, the PIN modal as a step
      relation), [StudentWallet] (top-up and Confirm Top-up modals,
      checkout, PIN),
      [TutorWallet] (withdrawal) and [WalletSuccess] (the Stripe return
      page).
    - [FindTutor]: the search filters as a step relation (the selects'
      options, the slider's range), the request they send, Clear
      Filters and the profile links.
    - [Reviews]: Modules [ReviewModal] (stars, comment, submit as a
      step relation), [PastSessions] and [TutorReviews] (search, stars).
    - [Auth]: Modules [Login] (both login pages as one [loginFlow] with
      the page's role check), [Email] (the registration e-mail pattern
      and its matcher) and [Register] (the form as a step relation on
      the page state and react-hook-form's values, [validate], [body],
      [onSubmit]).
    - [Admin]: [Paging] (slice, and the pager: Prev, numbered and Next
      buttons with [click]), [Accounts] (the suspend, activate and
      delete handlers over a role), [Rows] (the status cell and labels
      of a table row), the Modules [ManageTutors] (search, stable sort
      by column, button rules), [ManageStudents] (table, pager, the
      page's events as a step relation) and [ManageAdmins] (table).
    - [AdminHome]: [CreateAdmin] (the create-admin modal as a step
      relation, with the edit prefill of its effect) and
      [AdminDashboard] (fetches, rings, profile card, earnings).
    - [Nav]: Modules [NavLinks] (the links of each role filtered by
      permission, the active link, logout) and [Notifications] (the
      bar's notification list as a run of events: fetch answer, stream
      messages, reads), [Permissions] (the admin-permission refresh
      rerun on each change of the store's user); [userDashboardLogout] of
      [pages/user/UserDashboard.tsx].
    - [Endpoints]: the request each export of [api/tutorAPI.ts],
      [api/sequenceAPI.ts] and [api/notificationAPI.ts] sends (method,
      path, token, content type), [encodeURIComponent] and
      [decodeURIComponent] ([Uri]) on strings of code units below 256,
      those from 128 on escaped as their two UTF-8 bytes, and
      [queryParam], the
      server's reading of a query parameter; every export of
      [api/bookingAPI.ts] as its request ([BookingEndpoints], the
      [params] through axios's encoder [axiosEncode]) and [route], the
      method and path segments a server's router sees.
    - [Scenarios]: the pages against the engine on concrete data.

    State and effects: React state is a record per page ([TutorView],
    [View]); a handler is a function from the server state and the page
    state to the new server state, the new page state and the alert it
    shows, with the branches of its guards and of its [try]/[catch]/
    [finally] written out (a [return] inside [try] still runs
    [finally]); a failing request is [Err] and leaves the server state
    unchanged.  Requests that the code does not await are modelled as
    completed before the next event.

    ** What the theorems show

    - Server: every reachable store has at most one live booking per
      tutor and date; of two requests for one slot the second fails
      with [SlotUnavailable]; accept and cancel behave as the transition
      table says, with [InvalidTransition] and [NotFound] on the other
      states; a reschedule followed by approval or rejection ends as
      specified, rejection restoring the original exactly; every
      on-hold request can be approved and rejected, and every frozen
      original has exactly one request.
    - Calendar: [getSlotStatus] implements [resolve] for the server's
      date strings in a zone at or east of UTC; cancelled rows never
      matter; the grid puts each day under its weekday; a click reaches
      the page exactly when the role's rule allows; the Monday example
      of the specification; and, west of UTC, a booking shows on the day
      before its date (a finding).
    - Cost: the estimate shown equals the amount sent; for two
      different times an amount is always sent, the rate times the
      slot's length modulo a day (overnight slots included), positive
      and below a day's pay; a zero-length slot is refused.
    - Dates: parsing and formatting are inverse (four-digit years);
      [getDay] advances by one a day; the month arrows are inverse;
      [getMonthDates] lists exactly the month's days.
    - Pages: every handler of the tutor's modal keeps the month's list
      equal, up to order, to what a reload returns when the refetch it
      ends with succeeds (so the optimistic accept is right, and the
      calendar shows what a reload would show), and a failed refetch
      leaves the rows shown before the click (a finding); the modal of a
      day shows the tutor's one live booking with the buttons its status
      calls for, and those buttons succeed on the server (on an on-hold
      row, approve and [RejectReschedule]); a successful month read
      loads exactly the month's bookings; the student's optimistic
      append agrees with a refetch and blocks the booked day; the
      card's Cancel is honoured by the server and refetches bookings
      and wallet, and no confirmed booking offers it (a finding); an
      accepted reschedule request closes the modal and, when the
      dashboard's refetch succeeds, lists the new on-hold request.
    - Routing: the table's patterns never overlap; every protected path
      is behind the guard of its area (tutor pages behind [UserRoute], a
      finding); a guard whose user changes only after the last check
      shows its page exactly to an accepted token, a stale answer shows
      it to the next user (a finding), a check slower than the guard's
      one-second timer sends an accepted user to the login page (a
      finding), a reload with a stored session restores the user and
      shows the page once the check answers within the timer, and every
      guard settles (no endless spinner).  The login pages send each accepted role to a
      route of its guard, and the user a login stores is restored after
      a reload and let in by the guard of its dashboard.
    - Forms: the registration form never sends [RegisterUser] (a
      finding); its e-mail matcher is the pattern; the review modal
      sends ratings of one to five only; the lesson list keeps only
      trimmed, non-empty lessons and no duplicates; the profile editor sends its update
      whatever the confirm dialog answers (a finding); the success page
      of a top-up credits the wallet on every visit (a finding); the
      reschedule modal's calendar stays on its spinner after any month
      arrow (a finding); every PIN request carries four to six
      characters; the Confirm Top-up modal always shows an amount above
      zero and a larger balance after it; every tutor search asks for a price range within the
      slider's bounds and options of the selects.
    - Tutor dashboard mount: once a logged-in tutor's profile arrives,
      each list holds the answer of its read or, when that read fails,
      its previous value; when the profile request fails on a month
      change the calendar keeps the previous month's rows (a finding); every row of the Past Sessions panel reads "Confirmed",
      and west of UTC each row shows the day before its date.
    - Admin pages: the numbered pages show every row once, in order;
      a refetch with fewer pages leaves an empty table with no control
      (a finding), and on a page past the last the pager's Next does
      nothing; from a page in range every pager click lands in range;
      the create-admin modal keeps
      the last admin's values after a success (a finding), and in its
      edit mode would register a second account (a finding); the
      dashboard stays on its loading message after any failed request,
      since its effect reruns only on a change of [user?.id] (a
      finding); Suspend/Activate and Delete of both tables call the API
      only with the permission, the confirmation and the right status.
    - Navigation: every link the bar shows opens a page behind its
      role's guard; the initial fetch of notifications drops whatever
      the stream delivered before its answer (a finding); for an
      administrator without permissions the bar requests them without
      end (a finding).
    - Requests: the file key of [GetTutorFileViewUrl] reaches the
      server intact ([encodeURIComponent] is undone by decoding and
      leaves no delimiter), while [fetchNotifications] sends the user
      id unescaped (a finding); the thirteen exports of
      [bookingAPI.ts] reach thirteen distinct routes for ids that are
      non-empty, free of ["/"] and ["?"] and not a literal segment,
      while other ids, passed unescaped, can reach another export's
      route (a finding).

    ** Bounds and fuel

    [Z_to_string] has 20 digits of fuel, proved enough for every
    integer of absolute value below [10^20] and so for every safe
    integer of JavaScript ([Z_to_string_fuel_enough]).  Dates are proved for four-digit years (1000 to
    9999, where [formatDate] and the ISO form agree).  The time zone is
    an offset in minutes, [-1440 < tz < 1440]; only its sign decides
    the local date of a UTC midnight.  Times are [HH:mm] strings, hours
    0 to 23 and minutes 0 to 59; lengths and prices are exact
    rationals, so the floating-point rounding of the code is not
    modelled.

    ** Not modelled

    The create-admin modal's edit mode (no page opens it with an
    admin), the drawing of the admin dashboard's chart, file uploads
    beyond the list the editor keeps, the profile-picture modal
    ([components/ProfilePicModal.tsx] is not in the repository), the
    text [toLocaleDateString] makes of a day (the day itself is
    modelled), the CSS classes of the pages and all rendering beyond the statuses, labels
    and buttons the theorems read: they are listed with the reason in
    the project manifest.  The axios instance [getApiInstance] is not
    in the repository: a request is modelled as its method, path,
    bearer token and content type.  The server is reached only through the
    answers the handlers take, except the booking engine of [Booking],
    modelled from the specification.  The locale of
    [toLocaleDateString] is taken to be English (weekday keys
    ["Mon"]..["Sun"]).  Floating-point numbers are exact rationals.
    *)

From stdpp Require Export base strings gmap list.
From Stdlib Require Export ZArith Lia Sorted Ascii.

(** ** An error monad of the development's own *)

Declare Scope tl_scope.
Delimit Scope tl_scope with tl.
Open Scope tl_scope.

(** [result E A]: the outcome of a fallible operation, [Ok a] or [Err e]. *)
Inductive result (E A : Type) : Type :=
| Ok (a : A)
| Err (e : E).
Arguments Ok {E A} a.
Arguments Err {E A} e.

#[export] Instance result_ret E : MRet (result E) := λ A a, Ok a.
#[export] Instance result_bind E : MBind (result E) :=
  λ A B f r, match r with Ok a => f a | Err e => Err e end.

(** [isOk r]: the read or write [r] succeeded. *)
Definition isOk {E A} (r : result E A) : bool :=
  match r with Ok _ => true | Err _ => false end.

(** [fetched r old new]: a list that a [try { setX(await read) } catch]
    refreshes holds the answer of a successful [r], and its [old]
    value when [r] fails. *)
Definition fetched {E A} (r : result E A) (old new : A) : Prop :=
  match r with Ok a => new = a | Err _ => new = old end.

(** [check b e]: fail with [e] unless the guard [b] holds. *)
Definition check {E} (b : bool) (e : E) : result E unit :=
  if b then Ok tt else Err e.

Notation "'assert!' b 'else' e ; k" := (mbind (λ _ : unit, k) (check b e))
  (at level 100, b at next level, e at next level, right associativity) : tl_scope.

Create HintDb tutorlink discriminated.
Create Rewrite HintDb tutorlink_rw.

Section ResultLemmas.
Context {E A B : Type}.

Lemma bind_Ok (m : result E A) (f : A → result E B) b :
  mbind f m = Ok b ↔ ∃ a, m = Ok a ∧ f a = Ok b.
Proof.
  destruct m as [a|e]; simpl; split.
  - intros H. by exists a.
  - by intros (? & [= ->] & ?).
  - discriminate.
  - intros (? & ? & ?); discriminate.
Qed.

Lemma bind_Err (m : result E A) (f : A → result E B) e :
  mbind f m = Err e ↔ m = Err e ∨ ∃ a, m = Ok a ∧ f a = Err e.
Proof.
  destruct m as [a|e']; simpl; split.
  - intros H. right. by exists a.
  - intros [? | (? & [= ->] & ?)]; [discriminate | done].
  - intros [= ->]. by left.
  - intros [H | (? & H & ?)]; [by injection H as -> | discriminate H].
Qed.

Lemma check_Ok b (e : E) : check b e = Ok tt ↔ b = true.
Proof. destruct b; simpl; split; congruence. Qed.

Lemma check_true (e : E) : check true e = Ok tt.
Proof. reflexivity. Qed.

Lemma check_false (e : E) : check false e = Err e.
Proof. reflexivity. Qed.
End ResultLemmas.

#[export] Hint Rewrite @check_true @check_false : tutorlink_rw.

(** [inv_result]: decompose hypotheses [mbind f m = Ok _] and [check b e = Ok _]
    into their components. *)
Ltac inv_result :=
  repeat match goal with
  | H : mbind _ _ = Ok _ |- _ =>
      apply bind_Ok in H as (? & ? & ?)
  | H : check _ _ = Ok ?x |- _ =>
      destruct x; apply check_Ok in H
  | H : bool_decide _ = true |- _ => apply bool_decide_eq_true in H
  | H : Ok _ = Ok _ |- _ => injection H as H
  | H : Err _ = Ok _ |- _ => discriminate H
  | H : Ok _ = Err _ |- _ => discriminate H
  end.

(** ** Lists *)

Section ListLemmas.
Context {A : Type}.

Lemma existsb_filter (p q : A → bool) (l : list A) :
  existsb p (List.filter q l) = existsb (λ x, q x && p x) l.
Proof. induction l as [|x l IH]; simpl; [done|]. destruct (q x); simpl; by rewrite IH. Qed.

Lemma existsb_app' (p : A → bool) (l1 l2 : list A) :
  existsb p (l1 ++ l2) = existsb p l1 || existsb p l2.
Proof. apply existsb_app. Qed.

Lemma existsb_map {B} (p : B → bool) (f : A → B) (l : list A) :
  existsb p (map f l) = existsb (λ x, p (f x)) l.
Proof. induction l; simpl; congruence. Qed.

Lemma existsb_ext (p q : A → bool) (l : list A) :
  (∀ x, In x l → p x = q x) → existsb p l = existsb q l.
Proof.
  induction l as [|x l IH]; intros Hpq; simpl; [done|].
  rewrite (Hpq x) by (left; done). rewrite IH; [done|]. intros y Hy. apply Hpq. by right.
Qed.

Lemma filter_all_false (p : A → bool) (l : list A) :
  (∀ x, In x l → p x = false) → List.filter p l = [].
Proof.
  induction l as [|x l IH]; intros Hp; simpl; [done|].
  rewrite (Hp x) by (left; done). apply IH. intros y Hy. apply Hp. by right.
Qed.
(** [l.filter(p).length > 0] is [l.some(p)]. *)
Lemma filter_length_zero (p : A → bool) (l : list A) :
  length (List.filter p l) = 0%nat ↔ Forall (λ x, p x = false) l.
Proof.
  induction l as [|x l IH]; simpl; [split; auto|].
  rewrite Forall_cons. destruct (p x); simpl.
  - split; [discriminate | by intros [? _]].
  - rewrite IH. split; [by split | by intros [_ ?]].
Qed.
(** [l.filter(p)] keeps a list free of duplicates. *)
Lemma NoDup_List_filter (p : A → bool) (l : list A) : NoDup l → NoDup (List.filter p l).
Proof. rewrite !NoDup_ListNoDup. apply List.NoDup_filter. Qed.

Lemma NoDup_fmap_List_filter {B} (f : A → B) (p : A → bool) (l : list A) :
  NoDup (f <$> l) → NoDup (f <$> List.filter p l).
Proof.
  induction l as [|x l IH]; [done|]. cbn [List.filter]. rewrite fmap_cons, NoDup_cons. intros [Hx Hl].
  destruct (p x); [rewrite fmap_cons, NoDup_cons; split|]; auto.
  intros Hin. apply Hx. apply list_elem_of_fmap in Hin as (y & -> & Hy).
  apply list_elem_of_fmap_2. apply list_elem_of_In in Hy. apply filter_In in Hy as [Hy _].
  by apply list_elem_of_In.
Qed.

(** [!l.some(p)]: no element passes. *)
Lemma existsb_false (p : A → bool) (l : list A) x : existsb p l = false → In x l → p x = false.
Proof.
  intros Hl Hx. destruct (p x) eqn:Hp; [|done].
  assert (existsb p l = true) by (apply existsb_exists; eauto). congruence.
Qed.

(** [l.every(p)] as a [Forall]. *)
Lemma forallb_Forall (p : A → bool) (l : list A) : forallb p l = true ↔ Forall (λ x, p x = true) l.
Proof. rewrite forallb_forall, Forall_forall. by setoid_rewrite list_elem_of_In. Qed.

Lemma find_all_false (p : A → bool) (l : list A) :
  (∀ x, In x l → p x = false) → List.find p l = None.
Proof.
  induction l as [|x l IH]; intros Hp; simpl; [done|].
  rewrite (Hp x) by (left; done). apply IH. intros y Hy. apply Hp. by right.
Qed.

(** When at most one element passes [p], [find] returns exactly it. *)
Lemma find_filter_single (p : A → bool) (l : list A) x :
  (length (List.filter p l) ≤ 1)%nat → List.find p l = Some x ↔ List.filter p l = [x].
Proof.
  induction l as [|y l IH]; simpl; [split; [done|intros [=]]|].
  destruct (p y) eqn:Hy; simpl; intros Hl; [|by apply IH].
  assert (List.filter p l = []) as -> by (destruct (List.filter p l); simpl in *; [done|lia]).
  split; by intros [= ->].
Qed.
(** [Array.prototype.find] finds the one element a predicate selects. *)
Lemma find_unique (p : A → bool) (l : list A) x :
  x ∈ l → p x = true → (∀ y, y ∈ l → p y = true → y = x) → List.find p l = Some x.
Proof.
  intros Hx Hp Huniq. destruct (List.find p l) as [y|] eqn:E.
  - apply find_some in E as [Hy Hpy]. f_equal. by apply Huniq; [apply list_elem_of_In|].
  - exfalso. apply list_elem_of_In in Hx. pose proof (find_none p l E x Hx). congruence.
Qed.

Lemma find_elem (p : A → bool) (l : list A) x :
  List.find p l = Some x → x ∈ l ∧ p x = true.
Proof. intros E. apply find_some in E as [? ?]. by split; [apply list_elem_of_In|]. Qed.

Lemma find_None (p : A → bool) (l : list A) x :
  List.find p l = None → x ∈ l → p x = false.
Proof. intros E Hx. apply list_elem_of_In in Hx. exact (find_none p l E x Hx). Qed.
#[export] Instance List_filter_perm (p : A → bool) : Proper ((≡ₚ) ==> (≡ₚ)) (List.filter p).
Proof.
  intros l1 l2 Hp. induction Hp as [|x l1 l2 _ IH|x y l|l1 l2 l3 _ IH1 _ IH2]; simpl.
  - done.
  - destruct (p x); [by rewrite IH | done].
  - destruct (p x), (p y); [apply perm_swap | done..].
  - by rewrite IH1.
Qed.

(** A key that is unique in a list picks one element. *)
Lemma NoDup_fmap_elem_inj {B} (f : A → B) (l : list A) x y :
  NoDup (f <$> l) → x ∈ l → y ∈ l → f x = f y → x = y.
Proof.
  induction l as [|a l IH]; intros Hnd Hx Hy Hf; [by apply not_elem_of_nil in Hx|].
  rewrite fmap_cons, NoDup_cons in Hnd. destruct Hnd as [Ha Hnd].
  apply elem_of_cons in Hx as [->|Hx], Hy as [->|Hy]; [done| | |by apply IH].
  - exfalso. apply Ha. rewrite Hf. by apply list_elem_of_fmap_2.
  - exfalso. apply Ha. rewrite <- Hf. by apply list_elem_of_fmap_2.
Qed.
End ListLemmas.

(** [if (!x)] on a string: the empty string is falsy. *)
Definition truthy (x : string) : bool := negb (String.eqb x "").

(** An [<img src={url || defaultProfile}>]: the uploaded picture, or
    the bundled default picture when the URL is empty. *)
Inductive ImgSrc := Uploaded (url : string) | DefaultPicture.

Definition imgSrc (url : string) : ImgSrc := if truthy url then Uploaded url else DefaultPicture.

(** [x || d] on an optional string. *)
Definition jsOrStr (x : option string) (d : string) : string :=
  match x with Some m => if truthy m then m else d | None => d end.

(** JavaScript's [a || b] where [a] and [b] are an object or [undefined]. *)
Definition orElse {A} (a b : option A) : option A :=
  match a with Some x => Some x | None => b end.

(** ** JavaScript strings on ASCII text *)

(** [toLowerCase] *)
Definition lowerAscii (c : ascii) : ascii :=
  let n := nat_of_ascii c in
  if (65 <=? n)%nat && (n <=? 90)%nat then ascii_of_nat (n + 32) else c.

(** [toUpperCase] of one character. *)
Definition upperAscii (c : ascii) : ascii :=
  let n := nat_of_ascii c in
  if (97 <=? n)%nat && (n <=? 122)%nat then ascii_of_nat (n - 32) else c.

(** [word.charAt(0).toUpperCase() + word.slice(1)] *)
Definition capitalize (w : string) : string :=
  match w with String c rest => String (upperAscii c) rest | EmptyString => "" end.

(** [s.split(sep)] on a one-character separator. *)
Fixpoint splitChar (sep : ascii) (s : string) : list string :=
  match s with
  | EmptyString => [""]
  | String c s' =>
      let r := splitChar sep s' in
      if Ascii.eqb c sep then "" :: r
      else match r with seg :: rest => String c seg :: rest | [] => [String c ""] end
  end.

Fixpoint lowerStr (s : string) : string :=
  match s with
  | EmptyString => EmptyString
  | String c s' => String (lowerAscii c) (lowerStr s')
  end.

(** The white space [trim] removes: tab to carriage return, and space. *)
Definition isSpace (c : ascii) : bool :=
  let n := nat_of_ascii c in ((9 <=? n)%nat && (n <=? 13)%nat) || (n =? 32)%nat.

Fixpoint trimStart (s : string) : string :=
  match s with
  | String c s' => if isSpace c then trimStart s' else s
  | EmptyString => EmptyString
  end.

Definition strRev (s : string) : string :=
  String.string_of_list_ascii (rev (String.list_ascii_of_string s)).

(** [trim] *)
Definition trim (s : string) : string := strRev (trimStart (strRev (trimStart s))).

(** [trim] on the characters: [dropSpace] is [trimStart]. *)
Fixpoint dropSpace (l : list ascii) : list ascii :=
  match l with
  | c :: l' => if isSpace c then dropSpace l' else l
  | [] => []
  end.

Lemma trimStart_list s : String.list_ascii_of_string (trimStart s) = dropSpace (String.list_ascii_of_string s).
Proof. induction s as [|c s IH]; simpl; [done|]. by destruct (isSpace c). Qed.

Lemma dropSpace_suffix l : ∃ p, l = (p ++ dropSpace l)%list.
Proof.
  induction l as [|c l [p IH]]; simpl; [by exists []|].
  destruct (isSpace c); [exists (c :: p); by rewrite IH at 1|by exists []].
Qed.

Lemma dropSpace_head l x t : dropSpace l = x :: t → isSpace x = false.
Proof.
  induction l as [|c l IH]; simpl; [done|]. destruct (isSpace c) eqn:E; [done|]. by intros [= <- _].
Qed.

Lemma dropSpace_fix l : (∀ x t, l = x :: t → isSpace x = false) → dropSpace l = l.
Proof. destruct l as [|c l]; simpl; [done|]. intros H. by rewrite (H c l eq_refl). Qed.

Lemma dropSpace_idem l : dropSpace (dropSpace l) = dropSpace l.
Proof. apply dropSpace_fix. apply dropSpace_head. Qed.

Lemma trim_list s :
  String.list_ascii_of_string (trim s) = rev (dropSpace (rev (dropSpace (String.list_ascii_of_string s)))).
Proof.
  unfold trim, strRev. rewrite String.list_ascii_of_string_of_list_ascii, trimStart_list,
    String.list_ascii_of_string_of_list_ascii, trimStart_list. done.
Qed.

(** [trim] is idempotent: a trimmed string has no white space at
    either end. *)
Lemma trim_idem s : trim (trim s) = trim s.
Proof.
  rewrite <- (String.string_of_list_ascii_of_string (trim (trim s))),
    <- (String.string_of_list_ascii_of_string (trim s)). f_equal.
  rewrite !trim_list. set (k := dropSpace (String.list_ascii_of_string s)).
  set (m := dropSpace (rev k)). rewrite String.list_ascii_of_string_of_list_ascii.
  assert (Hm : dropSpace (rev m) = rev m).
  { apply dropSpace_fix. intros x t Hx. destruct (dropSpace_suffix (rev k)) as [p Hp].
    apply (dropSpace_head (String.list_ascii_of_string s) x (t ++ rev p)).
    fold k. rewrite <- (rev_involutive k), Hp. fold m. rewrite rev_app_distr, Hx. done. }
  rewrite Hm, rev_involutive. unfold m. by rewrite dropSpace_idem.
Qed.

(** [s.includes(sub)] *)
Fixpoint strIncludes (s sub : string) : bool :=
  String.prefix sub s || match s with String _ s' => strIncludes s' sub | EmptyString => false end.

Lemma str_app_assoc a b c : String.append (String.append a b) c = String.append a (String.append b c).
Proof.
  induction a as [|x a IH]; [done|].
  change (String x (String.append (String.append a b) c) = String x (String.append a (String.append b c))).
  by rewrite IH.
Qed.

(** A string none of whose characters is [sep]. *)
Definition noChar (sep : ascii) (s : string) : bool :=
  forallb (λ c, negb (Ascii.eqb c sep)) (String.list_ascii_of_string s).

Lemma splitChar_noChar sep s : noChar sep s = true → splitChar sep s = [s].
Proof.
  induction s as [|c s IH]; [done|]. unfold noChar. simpl.
  intros [Hc Hs]%andb_true_iff. apply negb_true_iff in Hc. rewrite Hc, IH by done. done.
Qed.

(** Splitting at the first separator. *)
Lemma splitChar_app sep a b :
  noChar sep a = true → splitChar sep (a ++ String sep b) = a :: splitChar sep b.
Proof.
  induction a as [|c a IH]; simpl; [by rewrite Ascii.eqb_refl|].
  unfold noChar. simpl. intros [Hc Ha]%andb_true_iff. apply negb_true_iff in Hc. by rewrite Hc, IH.
Qed.

(** The segments of [a ++ b]: those of [a] with its last one joined to
    the first one of [b]. *)
Fixpoint glue (l1 l2 : list string) : list string :=
  match l1 with
  | [] => l2
  | [x] => match l2 with [] => [x] | y :: r => String.append x y :: r end
  | x :: r => x :: glue r l2
  end.

Lemma splitChar_ne sep s : splitChar sep s ≠ [].
Proof. induction s as [|c s IH]; simpl; [done|]. destruct (Ascii.eqb c sep); [done|]. by destruct (splitChar sep s). Qed.

Lemma glue_head c x r l2 :
  glue (String c x :: r) l2 = match glue (x :: r) l2 with seg :: rest => String c seg :: rest | [] => [String c ""] end.
Proof. destruct r; [destruct l2|]; done. Qed.

Lemma splitChar_append sep a b : splitChar sep (String.append a b) = glue (splitChar sep a) (splitChar sep b).
Proof.
  induction a as [|c a IH].
  - simpl. destruct (splitChar sep b) eqn:E; [exfalso; exact (splitChar_ne _ _ E)|done].
  - change (splitChar sep (String c (String.append a b)) = glue (splitChar sep (String c a)) (splitChar sep b)).
    cbn [splitChar]. rewrite IH.
    destruct (splitChar sep a) as [|x r] eqn:E; [exfalso; exact (splitChar_ne _ _ E)|].
    destruct (Ascii.eqb c sep); [done|]. by rewrite glue_head.
Qed.

Lemma str_app_nil s : String.append s "" = s.
Proof. induction s as [|c s IH]; [done|]. change (String c (String.append s "") = String c s). by rewrite IH. Qed.

Lemma noChar_cons sep c s : noChar sep (String c s) = negb (Ascii.eqb c sep) && noChar sep s.
Proof. done. Qed.

Lemma noChar_app sep a b : noChar sep (a ++ b) = noChar sep a && noChar sep b.
Proof. unfold noChar. induction a as [|c a IH]; simpl; [done|]. by rewrite IH, andb_assoc. Qed.

#[export] Hint Rewrite @existsb_app' @existsb_map : tutorlink_rw.

(** ** Integers *)

Lemma Z_mod_shift (n a d : Z) : ((a + d) mod n = ((a + 1) mod n + d - 1) mod n)%Z.
Proof.
  replace ((a + 1) mod n + d - 1)%Z with ((a + 1) mod n + (d - 1))%Z by lia.
  rewrite Zplus_mod_idemp_l. f_equal. lia.
Qed.

(** [in_list H]: split [H : x ∈ [a; b; ...]] into the equalities it
    allows, discarding those between different constructors. *)
Ltac in_list H :=
  repeat (apply elem_of_cons in H as [H|H]; [simplify_eq/=|]);
  try (apply not_elem_of_nil in H; contradiction).

(** [zlia]: linear arithmetic with [/] and [mod] by constants, after
    naming quotients and remainders. *)
Ltac zlia := Z.to_euclidean_division_equations; lia.

(** [zsimpl]: reduce a goal without unfolding integer arithmetic on
    symbolic arguments (which [simpl] may expand at length). *)
(** [decide_prop]: close a decidable proposition on concrete values by
    evaluating its decision procedure. *)
Ltac decide_prop :=
  match goal with |- ?P => apply (bool_decide_unpack P); vm_compute; reflexivity end.

Ltac zsimpl := cbn -[Z.div Z.modulo Z.add Z.mul Z.sub Z.ltb Z.leb Z.eqb].

(** ** Transition systems *)

Section Star.
Context {A : Type} (R : A → A → Prop).

(** Zero or more steps of [R]. *)
Inductive star : A → A → Prop :=
| star_refl a : star a a
| star_step a b c : R a b → star b c → star a c.

Lemma star_one a b : R a b → star a b.
Proof. intros H. eapply star_step; [exact H | constructor]. Qed.

Lemma star_trans a b c : star a b → star b c → star a c.
Proof. induction 1; eauto using star. Qed.

Lemma star_right a b c : star a b → R b c → star a c.
Proof. eauto using star_trans, star_one. Qed.

(** An invariant that holds initially and is preserved by every step
    holds in every reachable state. *)
Lemma star_invariant (P : A → Prop) a b :
  (∀ x y, P x → R x y → P y) → P a → star a b → P b.
Proof. intros Hstep Ha Hab. induction Hab; eauto. Qed.
End Star.

#[export] Hint Resolve star_refl star_one : tutorlink.

(** ** [Array.prototype.sort] with a comparator

    The sort is stable (ECMAScript 2019); an insertion sort that puts
    each element after the ones it does not precede computes the same
    list. *)

Section SortBy.
Context {A : Type} (cmp : A → A → comparison).

Fixpoint insertBy (x : A) (l : list A) : list A :=
  match l with
  | [] => [x]
  | y :: l' => if cmp x y is Lt then x :: y :: l' else y :: insertBy x l'
  end.

Definition sortBy (l : list A) : list A := fold_left (λ acc x, insertBy x acc) l [].

Lemma insertBy_perm x l : insertBy x l ≡ₚ x :: l.
Proof.
  induction l as [|y l IH]; simpl; [done|].
  destruct (cmp x y); [|done|]; rewrite IH; apply perm_swap.
Qed.

Lemma sortBy_perm l : sortBy l ≡ₚ l.
Proof.
  unfold sortBy. rewrite <- (app_nil_l l) at 2.
  generalize (@nil A). induction l as [|x l IH]; intros acc; simpl; [by rewrite app_nil_r|].
  rewrite IH, insertBy_perm. simpl. apply Permutation_middle.
Qed.

(** A comparator that answers [0] everywhere keeps the order. *)
Lemma sortBy_all_eq l : (∀ x y, cmp x y = Eq) → sortBy l = l.
Proof.
  intros Heq. unfold sortBy. rewrite <- (app_nil_l l) at 2. generalize (@nil A).
  induction l as [|x l IH]; intros acc; simpl; [by rewrite app_nil_r|].
  assert (insertBy x acc = acc ++ [x]) as ->.
  { induction acc as [|y acc IHa]; simpl; [done|]. by rewrite Heq, IHa. }
  by rewrite IH, <- app_assoc.
Qed.

(** With a comparator whose [Lt] and [Gt] are converse, the result is
    sorted. *)
Context (Hantisym : ∀ x y, cmp x y = Lt ↔ cmp y x = Gt).

Definition cmpLe (x y : A) : Prop := cmp x y ≠ Gt.

Lemma insertBy_sorted x l : Sorted cmpLe l → Sorted cmpLe (insertBy x l).
Proof.
  induction 1 as [|y l Hl IH Hhd]; simpl; [repeat constructor|].
  destruct (cmp x y) eqn:E.
  2: { constructor; [by constructor|]. constructor. unfold cmpLe. by rewrite E. }
  all: constructor; [done|].
  all: assert (cmpLe y x) as Hyx by (unfold cmpLe; intros Hg; apply Hantisym in Hg; congruence).
  all: destruct l as [|z l]; simpl; [by repeat constructor|].
  all: inversion Hhd; subst; destruct (cmp x z); by constructor.
Qed.

Lemma sortBy_sorted l : Sorted cmpLe (sortBy l).
Proof.
  unfold sortBy. assert (Sorted cmpLe []) as H0 by constructor. revert H0.
  generalize (@nil A). induction l as [|x l IH]; intros acc Hacc; simpl; [done|].
  apply IH, insertBy_sorted, Hacc.
Qed.
End SortBy.
