(* ===== verification/Dates.v ===== *)
(** * Dates: the local calendar dates of [AvailabilityCalendar.tsx]

    A JS [Date] at local midnight is modelled by its local fields
    [getFullYear], [getMonth] (0-based, as in JS) and [getDate].  The
    built-ins the component calls ([new Date(y, m, d)], [getDay], the
    [<] comparison of two midnights) are modelled by their meaning on
    these fields; [getMonthDates], [isPastDate], [goPrevMonth] and
    [goNextMonth] are translated from the component. *)

From S2P Require Import Prelude.

Local Open Scope Z_scope.

Record JsDate := mkJsDate { getFullYear : Z; getMonth : Z; getDate : Z }.

#[export] Instance JsDate_eq_dec : EqDecision JsDate.
Proof. solve_decision. Defined.

(** ** Calendar arithmetic of the JS runtime *)

Definition isLeapYear (y : Z) : bool :=
  ((y mod 4 =? 0) && negb (y mod 100 =? 0)) || (y mod 400 =? 0).

(** Length of month [m] (0-based) of year [y]. *)
Definition daysInMonth (y m : Z) : Z :=
  if m =? 1 then (if isLeapYear y then 29 else 28)
  else if (m =? 3) || (m =? 5) || (m =? 8) || (m =? 10) then 30
  else 31.

(** A date whose fields the runtime can hold at local midnight. *)
Definition validDate (d : JsDate) : bool :=
  (0 <=? getMonth d) && (getMonth d <? 12) &&
  (1 <=? getDate d) && (getDate d <=? daysInMonth (getFullYear d) (getMonth d)).

(** The day before a date, across month and year boundaries. *)
Definition prevDay (d : JsDate) : JsDate :=
  let '(mkJsDate y m dd) := d in
  if 1 <? dd then mkJsDate y m (dd - 1)
  else if 0 <? m then mkJsDate y (m - 1) (daysInMonth y (m - 1))
  else mkJsDate (y - 1) 11 31.

(** The day after a date. *)
Definition nextDay (d : JsDate) : JsDate :=
  let '(mkJsDate y m dd) := d in
  if dd <? daysInMonth y m then mkJsDate y m (dd + 1)
  else if m <? 11 then mkJsDate y (m + 1) 1
  else mkJsDate (y + 1) 0 1.

(** [new Date(y, m, d)]: the month overflows into the year; a day in
    [1 .. daysInMonth] is kept and day [0] is the last day of the
    previous month (the only out-of-range day the component passes). *)
Definition newDate (y m d : Z) : JsDate :=
  let y' := y + m / 12 in
  let m' := m mod 12 in
  if d =? 0 then prevDay (mkJsDate y' m' 1) else mkJsDate y' m' d.

(** [getDay]: day of the week, 0 = Sunday (Sakamoto's rule). *)
Definition monthOffset (m : Z) : Z :=
  match m with
  | 0 => 0 | 1 => 3 | 2 => 2 | 3 => 5 | 4 => 0 | 5 => 3
  | 6 => 5 | 7 => 1 | 8 => 4 | 9 => 6 | 10 => 2 | _ => 4
  end.

Definition weekBase (y : Z) : Z := y + y / 4 - y / 100 + y / 400.

Definition getDay (d : JsDate) : Z :=
  let y := if getMonth d <? 2 then getFullYear d - 1 else getFullYear d in
  (weekBase y + monthOffset (getMonth d) + getDate d) mod 7.

(** [a < b] on two local midnights compares the calendar dates. *)
Definition dateLtb (a b : JsDate) : bool :=
  (getFullYear a <? getFullYear b) ||
  ((getFullYear a =? getFullYear b) &&
   ((getMonth a <? getMonth b) ||
    ((getMonth a =? getMonth b) && (getDate a <? getDate b)))).

(** ** The component's date helpers *)

(** [isPastDate]: [today] is [new Date()] with [setHours(0,0,0,0)]. *)
Definition isPastDate (today date : JsDate) : bool := dateLtb date today.

(** [getMonthDates]: every day of the month containing [start]. *)
Definition getMonthDates (start : JsDate) : list JsDate :=
  let year := getFullYear start in
  let month := getMonth start in
  let lastDay := getDate (newDate year (month + 1) 0) in
  map (λ d : nat, newDate year month (Z.of_nat d)) (seq 1 (Z.to_nat lastDay)).

(** The month state: [new Date(y, m, 1)] at mount, and the arrows. *)
Definition monthStartOf (d : JsDate) : JsDate :=
  newDate (getFullYear d) (getMonth d) 1.

Definition goPrevMonth (prev : JsDate) : JsDate :=
  newDate (getFullYear prev) (getMonth prev - 1) 1.

Definition goNextMonth (prev : JsDate) : JsDate :=
  newDate (getFullYear prev) (getMonth prev + 1) 1.

(** [getTime] of midnight: days since 1 January 1970 (proleptic
    Gregorian calendar, Hinnant's [days_from_civil]). *)
Definition dayNumber (d : JsDate) : Z :=
  let m := getMonth d + 1 in
  let y := if m <=? 2 then getFullYear d - 1 else getFullYear d in
  let era := y / 400 in
  let yoe := y - era * 400 in
  let doy := (153 * (if m >? 2 then m - 3 else m + 9) + 2) / 5 + getDate d - 1 in
  let doe := yoe * 365 + yoe / 4 - yoe / 100 + doy in
  era * 146097 + doe - 719468.

Definition msPerDay : Z := 86400000.

(** The instant [new Date(s)] of a date-only string: UTC midnight. *)
Definition utcMidnight (d : JsDate) : Z := dayNumber d * msPerDay.

(** The instant [new Date(y, m, d)]: local midnight, in a zone [tz]
    minutes east of UTC. *)
Definition localMidnight (tz : Z) (d : JsDate) : Z := dayNumber d * msPerDay - tz * 60000.

(** [new Date(d).setMonth(m)]: the same day of the month [m] months
    from January of [d]'s year, overflowing into the next month
    ([MakeDay(y, m, date)]). *)
Definition setMonth (d : JsDate) (m : Z) : JsDate :=
  Nat.iter (Z.to_nat (getDate d - 1)) nextDay (newDate (getFullYear d) m 1).

(** ** Lemmas *)

Lemma daysInMonth_bounds y m : 28 <= daysInMonth y m <= 31.
Proof. unfold daysInMonth. repeat case_match; lia. Qed.

Lemma newDate_in_month y m d :
  0 <= m < 12 → d ≠ 0 → newDate y m d = mkJsDate y m d.
Proof.
  intros Hm Hd. unfold newDate.
  rewrite Z.div_small, Z.mod_small by lia.
  destruct (Z.eqb_spec d 0); [lia|]. f_equal. lia.
Qed.

(** [new Date(year, month + 1, 0).getDate()] is the length of the month. *)
Lemma lastDay_eq y m :
  0 <= m < 12 → getDate (newDate y (m + 1) 0) = daysInMonth y m.
Proof.
  intros Hm. unfold newDate. simpl.
  destruct (Z.eq_dec m 11) as [->|Hne].
  - reflexivity.
  - rewrite Z.div_small, Z.mod_small by lia. simpl.
    destruct (Z.ltb_spec 0 (m + 1)); [|lia].
    simpl. f_equal; lia.
Qed.

#[export] Hint Resolve daysInMonth_bounds : tutorlink.

Lemma validDate_spec d :
  validDate d = true ↔
  0 <= getMonth d < 12 ∧ 1 <= getDate d <= daysInMonth (getFullYear d) (getMonth d).
Proof.
  unfold validDate. rewrite !andb_true_iff, Z.leb_le, Z.ltb_lt, !Z.leb_le. tauto.
Qed.

Lemma in_seq_Z (lo : nat) (n : nat) (x : nat) :
  In x (seq lo n) ↔ (lo <= x < lo + n)%nat.
Proof. apply in_seq. Qed.

Section MonthDates.
Variable start : JsDate.
Hypothesis Hmonth : 0 <= getMonth start < 12.

Let year := getFullYear start.
Let month := getMonth start.

Lemma getMonthDates_unfold :
  getMonthDates start =
  map (λ d : nat, mkJsDate year month (Z.of_nat d))
      (seq 1 (Z.to_nat (daysInMonth year month))).
Proof.
  unfold getMonthDates. fold year month. rewrite lastDay_eq by exact Hmonth.
  apply map_ext_in. intros d Hd%in_seq.
  apply newDate_in_month; [exact Hmonth | lia].
Qed.

Lemma getMonthDates_length :
  length (getMonthDates start) = Z.to_nat (daysInMonth year month).
Proof. rewrite getMonthDates_unfold, length_map, length_seq. reflexivity. Qed.

(** [getMonthDates] lists exactly the real dates of the month of its
    argument. *)
Lemma getMonthDates_spec d :
  In d (getMonthDates start) ↔
  validDate d = true ∧ getFullYear d = year ∧ getMonth d = month.
Proof.
  rewrite getMonthDates_unfold, in_map_iff, validDate_spec.
  pose proof (daysInMonth_bounds year month). split.
  - intros (n & <- & Hn%in_seq). simpl. subst year month. lia.
  - destruct d as [y m dd]; simpl. intros (? & -> & ->).
    exists (Z.to_nat dd). split; [f_equal; lia|]. apply in_seq. lia.
Qed.

(** The [i]-th cell of the month is day [i + 1]. *)
Lemma getMonthDates_nth i :
  (i < Z.to_nat (daysInMonth year month))%nat →
  nth_error (getMonthDates start) i = Some (mkJsDate year month (Z.of_nat i + 1)).
Proof.
  intros Hi. rewrite getMonthDates_unfold, nth_error_map, nth_error_seq.
  destruct (Nat.ltb_spec i (Z.to_nat (daysInMonth year month))); [|lia].
  simpl. repeat f_equal. lia.
Qed.
End MonthDates.

(** Within a month the weekday advances by one per day. *)
Lemma getDay_in_month y m d :
  getDay (mkJsDate y m d) = (getDay (mkJsDate y m 1) + d - 1) mod 7.
Proof.
  unfold getDay; simpl.
  rewrite <- Z_mod_shift. reflexivity.
Qed.

Ltac month_cases m :=
  let H := fresh in
  assert (H : m = 0 ∨ m = 1 ∨ m = 2 ∨ m = 3 ∨ m = 4 ∨ m = 5 ∨ m = 6 ∨
              m = 7 ∨ m = 8 ∨ m = 9 ∨ m = 10 ∨ m = 11) by lia;
  repeat destruct H as [H|H]; subst m.

(** The weekday base advances by the length of the year, modulo 7. *)
Lemma weekBase_step y :
  weekBase y = weekBase (y - 1) + 1 + (if isLeapYear y then 1 else 0).
Proof.
  unfold weekBase, isLeapYear.
  destruct (Z.eqb_spec (y mod 4) 0), (Z.eqb_spec (y mod 100) 0), (Z.eqb_spec (y mod 400) 0);
    simpl; zlia.
Qed.

(** From the last day of a month to the first of the next, the month
    offset advances by the month's length, modulo 7. *)
Lemma monthOffset_step y m :
  0 <= m < 11 → m ≠ 1 →
  (monthOffset m + daysInMonth y m - monthOffset (m + 1)) mod 7 = 0.
Proof. intros Hm Hne. month_cases m; try lia; reflexivity. Qed.

(** [getDay] of the next day is one more, modulo 7, across month and
    year ends. *)
Lemma getDay_nextDay d :
  validDate d = true → getDay (nextDay d) = (getDay d + 1) mod 7.
Proof.
  intros Hv%validDate_spec. destruct d as [y m dd]; simpl in *.
  unfold nextDay.
  destruct (Z.ltb_spec dd (daysInMonth y m)).
  { rewrite (getDay_in_month y m (dd + 1)), (getDay_in_month y m dd).
    rewrite Zplus_mod_idemp_l. f_equal. lia. }
  assert (dd = daysInMonth y m) as -> by lia.
  unfold getDay; simpl. rewrite Zplus_mod_idemp_l.
  destruct (Z.ltb_spec m 11).
  - destruct (Z.eq_dec m 1) as [->|Hne].
    + simpl. rewrite (weekBase_step (y)). unfold daysInMonth; simpl.
      destruct (isLeapYear y); zlia.
    + pose proof (monthOffset_step y m ltac:(lia) Hne). simpl.
      replace (m + 1 <? 2) with (m <? 2) by (destruct (Z.ltb_spec m 2), (Z.ltb_spec (m + 1) 2); lia).
      zlia.
  - assert (m = 11) as -> by lia. simpl. unfold daysInMonth; simpl.
    replace (y + 1 - 1) with y by lia. zlia.
Qed.

(** The day before the day after a real date is that date. *)
Lemma prevDay_nextDay d : validDate d = true → prevDay (nextDay d) = d.
Proof.
  intros Hv%validDate_spec. destruct d as [y m dd]; simpl in *.
  unfold nextDay, prevDay.
  destruct (Z.ltb_spec dd (daysInMonth y m)).
  - destruct (Z.ltb_spec 1 (dd + 1)); [f_equal; lia | lia].
  - assert (dd = daysInMonth y m) as -> by lia.
    destruct (Z.ltb_spec m 11); simpl.
    + destruct (Z.ltb_spec 0 (m + 1)); [|lia]. f_equal; try lia. f_equal. lia.
    + assert (m = 11) as -> by lia. f_equal. lia.
Qed.

Lemma nextDay_prevDay d : validDate d = true → nextDay (prevDay d) = d.
Proof.
  intros Hv%validDate_spec. destruct d as [y m dd]; simpl in *.
  unfold nextDay, prevDay.
  destruct (Z.ltb_spec 1 dd).
  - destruct (Z.ltb_spec (dd - 1) (daysInMonth y m)); [f_equal; lia | lia].
  - assert (dd = 1) as -> by lia.
    destruct (Z.ltb_spec 0 m).
    + destruct (Z.ltb_spec (daysInMonth y (m - 1)) (daysInMonth y (m - 1))); [lia|].
      destruct (Z.ltb_spec (m - 1) 11); [|lia]. f_equal. lia.
    + assert (m = 0) as -> by lia. simpl.
      unfold daysInMonth. cbn. f_equal. lia.
Qed.

Lemma validDate_nextDay d : validDate d = true → validDate (nextDay d) = true.
Proof.
  intros Hv%validDate_spec. apply validDate_spec. destruct d as [y m dd]; simpl in *.
  unfold nextDay.
  pose proof (daysInMonth_bounds y (m + 1)). pose proof (daysInMonth_bounds (y + 1) 0).
  destruct (Z.ltb_spec dd (daysInMonth y m)); simpl; [lia|].
  destruct (Z.ltb_spec m 11); simpl; lia.
Qed.

Lemma validDate_prevDay d : validDate d = true → validDate (prevDay d) = true.
Proof.
  intros Hv%validDate_spec. apply validDate_spec. destruct d as [y m dd]; simpl in *.
  unfold prevDay.
  pose proof (daysInMonth_bounds y (m - 1)).
  destruct (Z.ltb_spec 1 dd); simpl; [lia|].
  destruct (Z.ltb_spec 0 m); simpl; [lia|]. unfold daysInMonth; simpl. lia.
Qed.

Lemma prevDay_year d : getFullYear d - 1 <= getFullYear (prevDay d) <= getFullYear d.
Proof. destruct d as [y m dd]. unfold prevDay. repeat case_match; simpl; lia. Qed.

(** ** The month arrows *)

(** [a < b] is false: [b]'s year is not after [a]'s. *)
Lemma dateLtb_false_year a b : dateLtb a b = false → getFullYear b <= getFullYear a.
Proof. unfold dateLtb. intros [H _]%orb_false_iff. apply Z.ltb_ge in H. lia. Qed.

Lemma newDate_first y m : newDate y m 1 = mkJsDate (y + m / 12) (m mod 12) 1.
Proof. reflexivity. Qed.

(** [goNextMonth] undoes [goPrevMonth] and conversely, on the first day
    of a month (the only dates [monthStart] holds), across year ends. *)
Theorem monthNav_roundtrip ms :
  0 <= getMonth ms < 12 → getDate ms = 1 →
  goNextMonth (goPrevMonth ms) = ms ∧ goPrevMonth (goNextMonth ms) = ms.
Proof.
  intros Hm Hd. destruct ms as [y m d]; simpl in *; subst d.
  unfold goNextMonth, goPrevMonth. rewrite !newDate_first. simpl.
  split; f_equal; zlia.
Qed.

Lemma monthNav_roundtrip_witness :
  goNextMonth (goPrevMonth (mkJsDate 2025 0 1)) = mkJsDate 2025 0 1 ∧
  goPrevMonth (goNextMonth (mkJsDate 2025 0 1)) = mkJsDate 2025 0 1.
Proof. apply monthNav_roundtrip; simpl; lia. Defined.

Lemma getMonthDates_spec_witness :
  In (mkJsDate 2024 1 29) (getMonthDates (mkJsDate 2024 1 1)) ↔
  validDate (mkJsDate 2024 1 29) = true ∧
  getFullYear (mkJsDate 2024 1 29) = getFullYear (mkJsDate 2024 1 1) ∧
  getMonth (mkJsDate 2024 1 29) = getMonth (mkJsDate 2024 1 1).
Proof. exact (getMonthDates_spec (mkJsDate 2024 1 1) ltac:(simpl; lia) (mkJsDate 2024 1 29)). Defined.

Lemma getDay_nextDay_witness :
  getDay (nextDay (mkJsDate 2025 11 31)) = (getDay (mkJsDate 2025 11 31) + 1) mod 7.
Proof. apply getDay_nextDay. reflexivity. Defined.

Lemma prevDay_nextDay_witness : prevDay (nextDay (mkJsDate 2024 1 29)) = mkJsDate 2024 1 29.
Proof. apply prevDay_nextDay. reflexivity. Defined.

Example dayNumber_epoch : dayNumber (mkJsDate 1970 0 1) = 0 ∧ dayNumber (mkJsDate 2025 10 10) = 20402.
Proof. split; reflexivity. Qed.
