(* ===== verification/DateFormat.v ===== *)
(** * DateFormat: the date strings of the calendar

    [formatDate] of [AvailabilityCalendar.tsx] (the same helper is
    [formatLocalDate] in [RescheduleModal.tsx]) turns a local date into
    ["yyyy-MM-dd"]; [new Date(b.date)] turns the server's date string
    back into a [Date].  JS reads a date-only ISO string as midnight UTC,
    and the local getters then shift it by the time-zone offset: the
    model keeps that offset [tz] (minutes east of UTC) as a parameter of
    the runtime. *)

From S2P Require Import Prelude Dates.
From Stdlib Require Import Ascii.

Local Open Scope Z_scope.

(** ** [String(n)] and [padStart(2, "0")] *)

Definition digitChar (k : Z) : ascii := ascii_of_nat (48 + Z.to_nat k).
Arguments digitChar : simpl never.

(** Decimal digits of [n >= 0], most significant first, prepended to [acc]. *)
Fixpoint digitsRev (fuel : nat) (n : Z) (acc : string) : string :=
  match fuel with
  | O => acc
  | S f =>
      let acc' := String (digitChar (n mod 10)) acc in
      if n <? 10 then acc' else digitsRev f (n / 10) acc'
  end.

(** [String(n)] on an integer; 20 digits cover every safe JS integer. *)
Definition Z_to_string (n : Z) : string :=
  if n <? 0 then String "-" (digitsRev 20 (- n) EmptyString)
  else digitsRev 20 n EmptyString.

Definition padStart2 (s : string) : string :=
  match String.length s with
  | 0%nat => "00"
  | 1%nat => String "0" s
  | _ => s
  end.

Definition formatDate (d : JsDate) : string :=
  Z_to_string (getFullYear d) ++ "-" ++
  padStart2 (Z_to_string (getMonth d + 1)) ++ "-" ++
  padStart2 (Z_to_string (getDate d)).

(** [formatDate] of an Invalid Date: every getter returns [NaN]. *)
Definition formatDateOpt (d : option JsDate) : string :=
  match d with Some d => formatDate d | None => "NaN-NaN-NaN" end.

(** [Date.prototype.toDateString]: ["Www Mmm dd yyyy"], for the
    four-digit years [formatDate] also assumes. *)
Definition dayNames : list string := ["Sun"; "Mon"; "Tue"; "Wed"; "Thu"; "Fri"; "Sat"].
Definition monthNames : list string :=
  ["Jan"; "Feb"; "Mar"; "Apr"; "May"; "Jun"; "Jul"; "Aug"; "Sep"; "Oct"; "Nov"; "Dec"].

Definition toDateString (d : JsDate) : string :=
  nth (Z.to_nat (getDay d)) dayNames "" ++ " " ++ nth (Z.to_nat (getMonth d)) monthNames "" ++ " " ++
  padStart2 (Z_to_string (getDate d)) ++ " " ++ Z_to_string (getFullYear d).

(** ** [new Date("yyyy-MM-dd")] *)

Definition digitVal (c : ascii) : option Z :=
  let n := nat_of_ascii c in
  if (48 <=? n)%nat && (n <=? 57)%nat then Some (Z.of_nat n - 48) else None.
Arguments digitVal : simpl never.

(** The date-only ISO form; any other string, and a day the month does
    not have, is an Invalid Date. *)
Definition parseIsoDate (s : string) : option JsDate :=
  match s with
  | String y1 (String y2 (String y3 (String y4 (String h1
      (String m1 (String m2 (String h2 (String d1 (String d2 EmptyString))))))))) =>
      if Ascii.eqb h1 "-" && Ascii.eqb h2 "-" then
        a1 ← digitVal y1; a2 ← digitVal y2; a3 ← digitVal y3; a4 ← digitVal y4;
        b1 ← digitVal m1; b2 ← digitVal m2; c1 ← digitVal d1; c2 ← digitVal d2;
        let d := mkJsDate (1000 * a1 + 100 * a2 + 10 * a3 + a4)
                          (10 * b1 + b2 - 1) (10 * c1 + c2) in
        if validDate d then Some d else None
      else None
  | _ => None
  end.

(** The local date of midnight UTC of [d], in a zone [tz] minutes east of
    UTC, [-1440 < tz < 1440]. *)
Definition utcMidnightToLocal (tz : Z) (d : JsDate) : JsDate :=
  if tz <? 0 then prevDay d else d.

(** [new Date(s)] read through the local getters. *)
Definition jsDateOfString (tz : Z) (s : string) : option JsDate :=
  utcMidnightToLocal tz <$> parseIsoDate s.

(** ** Round trip *)

Lemma digitsRev_small f n acc :
  0 <= n < 10 → digitsRev (S f) n acc = String (digitChar n) acc.
Proof.
  intros Hn. simpl. rewrite Z.mod_small by lia.
  destruct (Z.ltb_spec n 10); [done | lia].
Qed.

Lemma digitsRev_large f n acc :
  10 <= n → digitsRev (S f) n acc = digitsRev f (n / 10) (String (digitChar (n mod 10)) acc).
Proof. intros Hn. simpl. destruct (Z.ltb_spec n 10); [lia | done]. Qed.

Lemma digitVal_digitChar k : 0 <= k < 10 → digitVal (digitChar k) = Some k.
Proof.
  intros Hk.
  assert (k = 0 ∨ k = 1 ∨ k = 2 ∨ k = 3 ∨ k = 4 ∨ k = 5 ∨ k = 6 ∨ k = 7 ∨ k = 8 ∨ k = 9)
    as Hc by lia.
  repeat destruct Hc as [-> | Hc]; [..| subst k]; vm_compute; reflexivity.
Qed.

Lemma Z_to_string_4digits y :
  1000 <= y <= 9999 →
  Z_to_string y =
  String (digitChar (y / 10 / 10 / 10)) (String (digitChar (y / 10 / 10 mod 10))
    (String (digitChar (y / 10 mod 10)) (String (digitChar (y mod 10)) EmptyString))).
Proof.
  intros Hy. unfold Z_to_string. destruct (Z.ltb_spec y 0); [lia|].
  change 20%nat with (S (S (S (S 16)))).
  rewrite digitsRev_large, digitsRev_large, digitsRev_large, digitsRev_small by zlia.
  reflexivity.
Qed.

Lemma padStart2_Z_to_string k :
  0 <= k < 100 →
  padStart2 (Z_to_string k) =
  String (digitChar (k / 10)) (String (digitChar (k mod 10)) EmptyString).
Proof.
  intros Hk. unfold Z_to_string. destruct (Z.ltb_spec k 0); [lia|].
  change 20%nat with (S (S 18)).
  destruct (Z.ltb_spec k 10).
  - rewrite digitsRev_small by lia. rewrite Z.div_small, Z.mod_small by lia. reflexivity.
  - rewrite digitsRev_large, digitsRev_small by zlia. reflexivity.
Qed.

(** Parsing ten digit-and-dash characters. *)
Lemma parseIsoDate_digits k1 k2 k3 k4 k5 k6 k7 k8 :
  Forall (λ k, 0 <= k < 10) [k1; k2; k3; k4; k5; k6; k7; k8] →
  parseIsoDate
    (String (digitChar k1) (String (digitChar k2) (String (digitChar k3)
      (String (digitChar k4) (String "-" (String (digitChar k5)
      (String (digitChar k6) (String "-" (String (digitChar k7)
      (String (digitChar k8) EmptyString)))))))))) =
  let d := mkJsDate (1000 * k1 + 100 * k2 + 10 * k3 + k4) (10 * k5 + k6 - 1) (10 * k7 + k8) in
  if validDate d then Some d else None.
Proof.
  intros Hk. repeat (apply Forall_cons_1 in Hk as [? Hk]).
  unfold parseIsoDate. rewrite !digitVal_digitChar by done. reflexivity.
Qed.

(** Parsing the formatted date gives the date back (four-digit years). *)
Theorem parseIsoDate_formatDate d :
  1000 <= getFullYear d <= 9999 → validDate d = true →
  parseIsoDate (formatDate d) = Some d.
Proof.
  intros Hy Hv. pose proof Hv as Hv'. apply validDate_spec in Hv' as [Hm Hd].
  pose proof (daysInMonth_bounds (getFullYear d) (getMonth d)).
  unfold formatDate.
  rewrite Z_to_string_4digits, !padStart2_Z_to_string by lia.
  cbv [String.append]. rewrite parseIsoDate_digits by (repeat constructor; zlia).
  destruct d as [y m dd]; simpl in *.
  match goal with
  | |- (if validDate ?e then _ else _) = _ =>
      replace e with (mkJsDate y m dd) by (f_equal; zlia)
  end.
  by rewrite Hv.
Qed.

Corollary formatDate_inj d1 d2 :
  1000 <= getFullYear d1 <= 9999 → validDate d1 = true →
  1000 <= getFullYear d2 <= 9999 → validDate d2 = true →
  formatDate d1 = formatDate d2 → d1 = d2.
Proof.
  intros Hy1 Hv1 Hy2 Hv2 Heq.
  apply (f_equal parseIsoDate) in Heq.
  rewrite !parseIsoDate_formatDate in Heq by done. congruence.
Qed.

(** Whatever [new Date] parses is a real date. *)
Lemma parseIsoDate_valid s d : parseIsoDate s = Some d → validDate d = true.
Proof.
  unfold parseIsoDate. intros H. repeat case_match; simplify_option_eq; try done.
  match goal with H : (if ?b then _ else _) = _ |- _ => destruct b eqn:E; by simplify_eq end.
Qed.

Lemma digitChar_digitVal c k : digitVal c = Some k → 0 <= k < 10 ∧ digitChar k = c.
Proof.
  unfold digitVal. destruct (_ && _) eqn:E; [|discriminate]. intros [= <-].
  apply andb_true_iff in E as [E1%Nat.leb_le E2%Nat.leb_le]. split; [lia|].
  unfold digitChar.
  replace (48 + Z.to_nat (Z.of_nat (nat_of_ascii c) - 48))%nat with (nat_of_ascii c) by lia.
  apply ascii_nat_embedding.
Qed.

(** C28: [formatDate] and the date-only [new Date] are inverse: formatting a
    real date with a four-digit year and parsing it gives it back, and
    every string the parser accepts with a four-digit year is the
    formatted form of the date it denotes. *)
Theorem isoDate_roundtrip :
  (∀ d, 1000 <= getFullYear d <= 9999 → validDate d = true → parseIsoDate (formatDate d) = Some d) ∧
  (∀ s d, parseIsoDate s = Some d → 1000 <= getFullYear d → formatDate d = s).
Proof.
  split; [apply parseIsoDate_formatDate|].
  intros s d H Hy.
  do 10 (destruct s as [|? s]; [discriminate|]). destruct s; [|discriminate].
  unfold parseIsoDate in H.
  destruct (_ && _) eqn:Hdash; [|discriminate].
  apply andb_true_iff in Hdash as [->%Ascii.eqb_eq ->%Ascii.eqb_eq].
  simplify_option_eq.
  match goal with H : (if validDate ?e then _ else _) = _ |- _ =>
    destruct (validDate e) eqn:Hv; simplify_eq end.
  repeat match goal with
  | H : digitVal ?c = Some ?k |- _ => apply digitChar_digitVal in H as [? <-]
  end.
  apply validDate_spec in Hv as [Hm Hd]. simpl in *.
  pose proof (daysInMonth_bounds (1000 * H0 + 100 * H1 + 10 * H2 + H3) (10 * H4 + H5 - 1)).
  unfold formatDate. simpl getFullYear. simpl getMonth. simpl getDate.
  rewrite Z_to_string_4digits, !padStart2_Z_to_string by lia.
  cbv [String.append]. repeat f_equal; zlia.
Qed.

Lemma isoDate_roundtrip_witness :
  parseIsoDate (formatDate (mkJsDate 2025 10 10)) = Some (mkJsDate 2025 10 10) ∧
  formatDate (mkJsDate 2025 10 10) = "2025-11-10".
Proof.
  split.
  - apply (proj1 isoDate_roundtrip); [simpl; lia | reflexivity].
  - apply (proj2 isoDate_roundtrip); [vm_compute; reflexivity | simpl; lia].
Defined.

(** ** Fuel of [String(n)] *)

(** A number below [10 ^ (f + 1)] has at most [f + 1] digits: the digit
    loop stops before [f + 1] steps of fuel run out, and more fuel gives
    the same string. *)
Lemma digitsRev_fuel f g n acc :
  0 <= n < 10 ^ Z.of_nat (S f) → (f ≤ g)%nat → digitsRev (S g) n acc = digitsRev (S f) n acc.
Proof.
  revert g n acc. induction f as [|f IH]; intros g n acc Hn Hfg.
  - rewrite !digitsRev_small by (simpl in Hn; lia). done.
  - destruct g as [|g]; [lia|]. destruct (Z.ltb_spec n 10).
    + by rewrite !digitsRev_small by lia.
    + rewrite !(digitsRev_large (S _)) by lia. apply IH; [|lia].
      rewrite Nat2Z.inj_succ, Z.pow_succ_r in Hn by lia.
      split; [apply Z.div_pos; lia|]. apply Z.div_lt_upper_bound; lia.
Qed.

(** [String(n)]'s digit loop terminates within its twenty steps of
    fuel for every integer of absolute value below [10^20], every safe JS
    integer among them: with any more fuel the string is the same. *)
Theorem Z_to_string_fuel_enough n k :
  - 10 ^ 20 < n < 10 ^ 20 →
  Z_to_string n = if n <? 0 then String "-" (digitsRev (20 + k) (- n) EmptyString)
                  else digitsRev (20 + k) n EmptyString.
Proof.
  intros Hn. unfold Z_to_string. change 20%nat with (S 19).
  destruct (Z.ltb_spec n 0); [f_equal|]; symmetry; apply digitsRev_fuel; simpl; lia.
Qed.

Lemma Z_to_string_fuel_enough_witness :
  Z_to_string 9007199254740991 = digitsRev 25 9007199254740991 EmptyString ∧
  Z_to_string 9007199254740991 = "9007199254740991".
Proof.
  split; [|vm_compute; reflexivity].
  exact (Z_to_string_fuel_enough 9007199254740991 5 (conj eq_refl eq_refl)).
Defined.

Lemma toDateString_example : toDateString (mkJsDate 2025 10 3) = "Mon Nov 03 2025".
Proof. reflexivity. Qed.
