(* ===== verification/BookingTypes.v ===== *)
(** * BookingTypes: the wire types of [types/BookingType.ts]

    Requests and responses of the bookings API, and the booking status.
    The status travels as a string; the server's five statuses are the
    constructors of [BookingStatus], and [statusToString]/[parseStatus]
    are its wire encoding.  Booking ids are opaque strings in the client;
    the model numbers them with [nat] (the client only passes them back). *)

From S2P Require Import Prelude Dates DateFormat.
From Stdlib Require Import QArith.

Inductive BookingStatus :=
| Pending
| Confirmed
| Cancelled
| OnHold
| RescheduleRequested.

#[export] Instance BookingStatus_eq_dec : EqDecision BookingStatus.
Proof. solve_decision. Defined.

Definition statusToString (s : BookingStatus) : string :=
  match s with
  | Pending => "pending"
  | Confirmed => "confirmed"
  | Cancelled => "cancelled"
  | OnHold => "on_hold"
  | RescheduleRequested => "reschedule_requested"
  end.

Definition parseStatus (s : string) : option BookingStatus :=
  if String.eqb s "pending" then Some Pending
  else if String.eqb s "confirmed" then Some Confirmed
  else if String.eqb s "cancelled" then Some Cancelled
  else if String.eqb s "on_hold" then Some OnHold
  else if String.eqb s "reschedule_requested" then Some RescheduleRequested
  else None.

(** The ways a call of the bookings API fails (section 4.3 of the
    specification); the pages only catch them. *)
Inductive BookingError :=
| InvalidTransition
| SlotUnavailable
| ValidationError
| NotFound.

#[export] Instance BookingError_eq_dec : EqDecision BookingError.
Proof. solve_decision. Defined.

(** A live booking holds its slot: every status but [cancelled]. *)
Definition isLive (s : BookingStatus) : bool :=
  match s with Cancelled => false | _ => true end.

Abbreviation BookingId := nat (only parsing).

(** [BookingRequest]; [amount] is sent by [ViewTutorDetails] only. *)
Record BookingRequest := mkBookingRequest {
  req_tutorId : string;
  req_studentId : string;
  req_tutorName : string;
  req_studentName : string;
  req_date : string;
  req_start : string;
  req_end : string;
  req_lessonType : string;
  req_amount : option Q
}.

(** [BookingResponse], with the [status] as it travels. *)
Record BookingResponse := mkBookingResponse {
  resp_id : BookingId;
  resp_tutorId : string;
  resp_studentId : string;
  resp_tutorName : string;
  resp_studentName : string;
  resp_date : string;
  resp_start : string;
  resp_end : string;
  resp_status : string;
  resp_lessonType : string
}.

#[export] Instance BookingResponse_eq_dec : EqDecision BookingResponse.
Proof. solve_decision. Defined.

Lemma parseStatus_statusToString s : parseStatus (statusToString s) = Some s.
Proof. by destruct s. Qed.

Lemma statusToString_inj s1 s2 : statusToString s1 = statusToString s2 → s1 = s2.
Proof.
  intros H. apply (f_equal parseStatus) in H.
  rewrite !parseStatus_statusToString in H. congruence.
Qed.

Lemma parseStatus_Some x s : parseStatus x = Some s → x = statusToString s.
Proof.
  unfold parseStatus.
  repeat match goal with
  | |- context [String.eqb ?a ?b] => destruct (String.eqb_spec a b)
  end; intros; simplify_eq; done.
Qed.

Lemma isLive_not_cancelled st : st ≠ Cancelled → isLive st = true.
Proof. destruct st; simpl; congruence. Qed.
