(* ===== verification/Calendar.v ===== *)
(** * Calendar: the slot status resolver and month grid of
    [components/AvailabilityCalendar.tsx]

    The component receives the tutor's weekly template ([availability],
    weekday key to [TimeSlot]) and the tutor's bookings as
    [{date, status}] strings.  It files each booking date under one of
    four sets by status, and [getSlotStatus] ranks them: confirmed,
    pending, on hold, reschedule requested, then expired or available.
    The grid puts [getDay] blank cells before the first of the month and
    one cell per day after them; the click handler decides which cells
    call [onSlotClick].  The runtime (time zone and today's date) is the
    section variable [rt].  The month shown and the loading spinner are
    the state [CalState], driven by the arrows and by the parent's
    answer to [onMonthChange] ([calRun]). *)

From S2P Require Import Prelude Dates DateFormat BookingTypes.

Local Open Scope Z_scope.

Inductive SlotStatus :=
| booked
| pending
| on_hold
| reschedule_requested
| available
| disabled
| expired.

#[export] Instance SlotStatus_eq_dec : EqDecision SlotStatus.
Proof. solve_decision. Defined.

Record TimeSlot := mkTimeSlot { enabled : bool; start : string; end_ : string }.

Record BookedSlot := mkBookedSlot { date : string; status : string }.

Inductive Role := student | tutor.

#[export] Instance Role_eq_dec : EqDecision Role.
Proof. solve_decision. Defined.

(** The JS runtime: the zone offset in minutes east of UTC, and the
    local date of [new Date()]. *)
Record Runtime := mkRuntime { tz : Z; today : JsDate }.

(** [toLocaleDateString(undefined, { weekday: "short" })] in an English
    locale. *)
Definition weekdayShort (k : Z) : string :=
  match k with
  | 0 => "Sun" | 1 => "Mon" | 2 => "Tue" | 3 => "Wed"
  | 4 => "Thu" | 5 => "Fri" | _ => "Sat"
  end.

(** The header row of the grid. *)
Definition weekdays : list string := ["Sun"; "Mon"; "Tue"; "Wed"; "Thu"; "Fri"; "Sat"].

Record DayCell := mkDayCell {
  cell_date : JsDate;
  cell_status : SlotStatus;
  cell_label : option string
}.

Section Component.
Variable rt : Runtime.
Variable role : Role.
Variable availability : gmap string TimeSlot.
Variable bookedSlots : list BookedSlot.

(** [bookedDatesSet], [pendingDatesSet], [onHoldDatesSet],
    [rescheduleDatesSet]: the dates of the bookings with one status. *)
Definition datesSetWith (st : string) : gset string :=
  list_to_set
    (map (λ b, formatDateOpt (jsDateOfString (tz rt) (date b)))
         (List.filter (λ b, String.eqb (status b) st) bookedSlots)).

Definition bookedDatesSet := datesSetWith "confirmed".
Definition pendingDatesSet := datesSetWith "pending".
Definition onHoldDatesSet := datesSetWith "on_hold".
Definition rescheduleDatesSet := datesSetWith "reschedule_requested".

Definition getSlotStatus (d : JsDate) (enabled : bool) : SlotStatus :=
  if negb enabled then disabled else
  let formatted := formatDate d in
  if bool_decide (formatted ∈ bookedDatesSet) then booked
  else if bool_decide (formatted ∈ pendingDatesSet) then pending
  else if bool_decide (formatted ∈ onHoldDatesSet) then on_hold
  else if bool_decide (formatted ∈ rescheduleDatesSet) then reschedule_requested
  else if isPastDate (today rt) d then expired
  else available.

(** [dayKey], [slot = availability?.[dayKey]], [slot?.enabled ?? false]. *)
Definition dayKey (d : JsDate) : string := weekdayShort (getDay d).
Definition slotOf (d : JsDate) : option TimeSlot := availability !! dayKey d.
Definition slotEnabled (slot : option TimeSlot) : bool :=
  match slot with Some s => enabled s | None => false end.

Definition cellStatus (d : JsDate) : SlotStatus :=
  getSlotStatus d (slotEnabled (slotOf d)).

(** The text under the day number. *)
Definition cellLabel (st : SlotStatus) (slot : option TimeSlot) : option string :=
  match st, slot with
  | booked, _ => Some "Booked"
  | pending, _ => Some "Pending"
  | on_hold, _ => Some "On Hold"
  | reschedule_requested, _ => Some "Reschedule Requested"
  | available, Some s => if enabled s then Some (start s +:+ " - " +:+ end_ s) else None
  | expired, _ => Some "Expired"
  | _, _ => None
  end.

Definition renderDay (d : JsDate) : DayCell :=
  mkDayCell d (cellStatus d) (cellLabel (cellStatus d) (slotOf d)).

(** The [onClick] of a day: [Some (date, slot)] is the call
    [onSlotClick(date, slot)], [None] a click that does nothing. *)
Definition onDayClick (d : JsDate) : option (JsDate * TimeSlot) :=
  if isPastDate (today rt) d then None else
  match slotOf d with
  | Some slot =>
      if negb (enabled slot) then None
      else
        let bookingStatus := cellStatus d in
        if (bool_decide (role = student) && bool_decide (bookingStatus = available)) ||
           (bool_decide (role = tutor) && negb (bool_decide (bookingStatus = reschedule_requested)))
        then Some (d, slot) else None
  | None => None
  end.

(** The day grid: [getDay] of the first day blank cells, then the days. *)
Definition renderMonth (monthStart : JsDate) : list (option DayCell) :=
  let monthDates := getMonthDates monthStart in
  match monthDates with
  | [] => []
  | first :: _ =>
      repeat None (Z.to_nat (getDay first)) ++ map (λ d, Some (renderDay d)) monthDates
  end.
End Component.

(** ** The component's own state: the month shown and the spinner

    [monthStart] starts at the first of [initialMonth] (or of today).
    The effect on [[monthStart]] sets [isLoading] and calls
    [onMonthChange]; the effect on [[bookedSlots]] clears [isLoading]
    whenever the parent passes a new array ([bookedSlots.length >= 0]
    always holds).  Both run on mount, in that order. *)
Record CalState := mkCalState { cs_monthStart : JsDate; cs_isLoading : bool }.

Definition initCal (initialMonth : option JsDate) (todayDate : JsDate) : CalState :=
  mkCalState (monthStartOf (default todayDate initialMonth)) false.

(** The arrows, and a new [bookedSlots] array from the parent. *)
Inductive CalEvent := PrevMonth | NextMonth | NewBookedSlots.

(** One event: the new state and the month passed to [onMonthChange]. *)
Definition calStep (e : CalEvent) (c : CalState) : CalState * option JsDate :=
  match e with
  | PrevMonth => let ms := goPrevMonth (cs_monthStart c) in (mkCalState ms true, Some ms)
  | NextMonth => let ms := goNextMonth (cs_monthStart c) in (mkCalState ms true, Some ms)
  | NewBookedSlots => (mkCalState (cs_monthStart c) false, None)
  end.

(** An event followed by the parent's answer: [react ms] is true when
    the parent then passes a new [bookedSlots] array. *)
Definition calEvent (react : JsDate → bool) (e : CalEvent) (c : CalState) : CalState :=
  let '(c', call) := calStep e c in
  match call with
  | Some ms => if react ms then (calStep NewBookedSlots c').1 else c'
  | None => c'
  end.

Definition calRun (react : JsDate → bool) (es : list CalEvent) (c : CalState) : CalState :=
  foldl (λ c e, calEvent react e c) c es.

(** [isLoading ? spinner : grid] *)
Definition calShown (rt : Runtime) (availability : gmap string TimeSlot) (bookedSlots : list BookedSlot)
    (c : CalState) : option (list (option DayCell)) :=
  if cs_isLoading c then None else Some (renderMonth rt availability bookedSlots (cs_monthStart c)).

(** [studentClasses] and [tutorClasses], reduced to the cursor each shows. *)
Definition showsPointer (r : Role) (st : SlotStatus) : bool :=
  match r, st with
  | student, available => true
  | tutor, (booked | pending | on_hold) => true
  | _, _ => false
  end.

(** ** The resolver's contract

    [resolve] is the resolver of the specification (section 4.1): the
    template entry, the statuses of the bookings on the date, and
    whether the date is past, ranked confirmed > pending > on hold >
    reschedule requested > expired > available. *)
Definition resolve (enabled : bool) (statuses : list BookingStatus) (past : bool) : SlotStatus :=
  if negb enabled then disabled
  else if bool_decide (Confirmed ∈ statuses) then booked
  else if bool_decide (Pending ∈ statuses) then pending
  else if bool_decide (OnHold ∈ statuses) then on_hold
  else if bool_decide (RescheduleRequested ∈ statuses) then reschedule_requested
  else if past then expired else available.

(** The statuses of the bookings dated [d]. *)
Definition statusesOn (d : JsDate) (bs : list BookedSlot) : list BookingStatus :=
  omap (λ b, if String.eqb (date b) (formatDate d) then parseStatus (status b) else None) bs.

(** A date the server sends: ["yyyy-MM-dd"] of a real date. *)
Definition wireDate (s : string) : Prop :=
  ∃ d, s = formatDate d ∧ validDate d = true ∧ 1000 <= getFullYear d <= 9999.

Definition calendarDate (d : JsDate) : Prop :=
  validDate d = true ∧ 1000 <= getFullYear d <= 9999.

#[export] Instance calendarDate_dec d : Decision (calendarDate d).
Proof. unfold calendarDate. apply _. Defined.

(** ** Lemmas *)

Lemma elem_of_datesSetWith rt bs st k :
  k ∈ datesSetWith rt bs st ↔
  ∃ b, In b bs ∧ status b = st ∧ formatDateOpt (jsDateOfString (tz rt) (date b)) = k.
Proof.
  unfold datesSetWith. rewrite elem_of_list_to_set, list_elem_of_In, in_map_iff.
  setoid_rewrite filter_In. setoid_rewrite String.eqb_eq. split; [intros (? & <- & ? & ?); eauto | intros (b & ? & ? & <-); eauto].
Qed.

(** The component reads [bookedSlots] as a set: the order of the rows
    does not matter. *)
#[export] Instance datesSetWith_perm rt : Proper ((≡ₚ) ==> eq ==> eq) (datesSetWith rt).
Proof.
  intros bs1 bs2 Hp st ? <-. apply set_eq. intros k. rewrite !elem_of_datesSetWith.
  split; intros (b & Hb & Hs & Hk); exists b; split_and!; try done;
    apply list_elem_of_In; [rewrite <- Hp | rewrite Hp]; by apply list_elem_of_In.
Qed.

#[export] Instance getSlotStatus_perm rt : Proper ((≡ₚ) ==> eq ==> eq ==> eq) (getSlotStatus rt).
Proof.
  intros bs1 bs2 Hp d ? <- en ? <-.
  assert (∀ st, datesSetWith rt bs1 st = datesSetWith rt bs2 st) as E by (intros; by rewrite Hp).
  unfold getSlotStatus, bookedDatesSet, pendingDatesSet, onHoldDatesSet, rescheduleDatesSet.
  by rewrite !E.
Qed.

Lemma jsDateOfString_formatDate tz d :
  calendarDate d →
  jsDateOfString tz (formatDate d) = Some (utcMidnightToLocal tz d).
Proof. intros [Hv Hy]. unfold jsDateOfString. by rewrite parseIsoDate_formatDate. Qed.

(** In a zone at or east of UTC a wire date is filed under itself. *)
Lemma wireDate_key tz s :
  0 <= tz → wireDate s → formatDateOpt (jsDateOfString tz s) = s.
Proof.
  intros Htz (d & -> & Hd). rewrite jsDateOfString_formatDate by done.
  unfold utcMidnightToLocal. destruct (Z.ltb_spec tz 0); [lia|done].
Qed.

Lemma wireDate_eq s d :
  wireDate s → calendarDate d → s = formatDate d ↔ parseIsoDate s = Some d.
Proof.
  intros (d' & -> & Hv' & Hy') [Hv Hy]. rewrite parseIsoDate_formatDate by done.
  split; [intros ->%formatDate_inj; auto | congruence].
Qed.

Lemma elem_of_statusesOn d bs s :
  s ∈ statusesOn d bs ↔ ∃ b, In b bs ∧ date b = formatDate d ∧ status b = statusToString s.
Proof.
  unfold statusesOn. rewrite list_elem_of_omap. split.
  - intros (b & Hb%list_elem_of_In & Hs).
    destruct (String.eqb_spec (date b) (formatDate d)); [|discriminate].
    exists b. split_and!; [done..|].
    by apply parseStatus_Some.
  - intros (b & Hb & Hd & Hs). exists b. split; [by apply list_elem_of_In|].
    rewrite Hd, String.eqb_refl, Hs. apply parseStatus_statusToString.
Qed.

(** The four sets of the component agree with the statuses on the date. *)
Lemma datesSet_statusesOn rt bs d s :
  0 <= tz rt → Forall (λ b, wireDate (date b)) bs → calendarDate d →
  formatDate d ∈ datesSetWith rt bs (statusToString s) ↔ s ∈ statusesOn d bs.
Proof.
  intros Htz Hbs Hd. rewrite elem_of_datesSetWith, elem_of_statusesOn.
  rewrite List.Forall_forall in Hbs. split.
  - intros (b & Hb & Hs & Hk). rewrite wireDate_key in Hk by auto. eauto.
  - intros (b & Hb & Hk & Hs). exists b. rewrite wireDate_key by auto. done.
Qed.

Lemma getDay_bounds d : 0 <= getDay d < 7.
Proof. unfold getDay. apply Z.mod_pos_bound. lia. Qed.

#[export] Hint Resolve getDay_bounds : tutorlink.

Lemma weekdayShort_inj k1 k2 :
  0 <= k1 < 7 → 0 <= k2 < 7 → weekdayShort k1 = weekdayShort k2 → k1 = k2.
Proof.
  intros H1 H2.
  assert (k1 = 0 ∨ k1 = 1 ∨ k1 = 2 ∨ k1 = 3 ∨ k1 = 4 ∨ k1 = 5 ∨ k1 = 6) as Hk1 by lia.
  assert (k2 = 0 ∨ k2 = 1 ∨ k2 = 2 ∨ k2 = 3 ∨ k2 = 4 ∨ k2 = 5 ∨ k2 = 6) as Hk2 by lia.
  repeat destruct Hk1 as [-> | Hk1]; repeat destruct Hk2 as [-> | Hk2];
    try subst; done.
Qed.

(** A slot the component reports as anything but [disabled] has an
    enabled template entry. *)
Lemma getSlotStatus_enabled rt bs d en :
  getSlotStatus rt bs d en ≠ disabled → en = true.
Proof. unfold getSlotStatus. destruct en; simpl; [done|]. congruence. Qed.

Lemma getSlotStatus_available rt bs d en :
  getSlotStatus rt bs d en = available →
  en = true ∧ isPastDate (today rt) d = false.
Proof.
  unfold getSlotStatus. destruct en; simpl; [|discriminate].
  repeat case_bool_decide; try discriminate.
  destruct (isPastDate _ _); [discriminate|done].
Qed.

Lemma getSlotStatus_not_past rt bs d :
  isPastDate (today rt) d = false →
  getSlotStatus rt bs d true ∈ [booked; pending; on_hold; reschedule_requested; available].
Proof.
  intros Hp. unfold getSlotStatus. simpl. rewrite Hp.
  repeat case_bool_decide; set_solver.
Qed.

(** A row of a live status dated [d] keeps [d] from showing [available]
    (in a zone at or east of UTC). *)
Lemma getSlotStatus_live_row rt bs d en st :
  0 <= tz rt → calendarDate d → In (mkBookedSlot (formatDate d) st) bs →
  st ∈ ["confirmed"; "pending"; "on_hold"; "reschedule_requested"] →
  getSlotStatus rt bs d en ≠ available.
Proof.
  intros Htz Hd Hin Hst.
  assert (formatDate d ∈ datesSetWith rt bs st) as Hk.
  { apply elem_of_datesSetWith. exists (mkBookedSlot (formatDate d) st).
    split_and!; [done..|]. simpl. apply wireDate_key; [done|].
    destruct Hd. by exists d. }
  unfold getSlotStatus, bookedDatesSet, pendingDatesSet, onHoldDatesSet, rescheduleDatesSet.
  destruct en; simpl; [|done].
  repeat case_bool_decide; try done. exfalso.
  repeat (apply elem_of_cons in Hst as [->|Hst]; [done|]). by apply not_elem_of_nil in Hst.
Qed.

(** ** Properties of the resolver *)

(** C2: The component's resolver implements the specification's: with the
    server's date strings and a zone at or east of UTC, the four string
    sets rank exactly the statuses of the bookings on the date. *)
Theorem getSlotStatus_refines rt bs d en :
  0 <= tz rt → Forall (λ b, wireDate (date b)) bs → calendarDate d →
  getSlotStatus rt bs d en = resolve en (statusesOn d bs) (isPastDate (today rt) d).
Proof.
  intros Htz Hbs Hd. unfold getSlotStatus, resolve,
    bookedDatesSet, pendingDatesSet, onHoldDatesSet, rescheduleDatesSet.
  change "confirmed" with (statusToString Confirmed).
  change "pending" with (statusToString Pending).
  change "on_hold" with (statusToString OnHold).
  change "reschedule_requested" with (statusToString RescheduleRequested).
  rewrite !(bool_decide_ext _ _ (datesSet_statusesOn rt bs d _ Htz Hbs Hd)).
  reflexivity.
Qed.

(** Bookings in any other state, [cancelled] included, do not change
    what a day shows. *)
Theorem getSlotStatus_ignores_other rt bs extra d en :
  Forall (λ b, status b ∉ ["confirmed"; "pending"; "on_hold"; "reschedule_requested"]) extra →
  getSlotStatus rt (bs ++ extra) d en = getSlotStatus rt bs d en.
Proof.
  intros Hextra.
  assert (∀ st, st ∈ ["confirmed"; "pending"; "on_hold"; "reschedule_requested"] →
            datesSetWith rt (bs ++ extra) st = datesSetWith rt bs st) as Hsame.
  { intros st Hst. unfold datesSetWith. rewrite List.filter_app.
    rewrite (filter_all_false _ extra), app_nil_r; [done|].
    intros b Hb. apply String.eqb_neq. intros Heq. rewrite List.Forall_forall in Hextra.
    apply (Hextra b Hb). by rewrite Heq. }
  unfold getSlotStatus, bookedDatesSet, pendingDatesSet, onHoldDatesSet, rescheduleDatesSet.
  rewrite !Hsame by set_solver. reflexivity.
Qed.

(** ** Properties of the grid *)

Lemma renderMonth_unfold rt av bs ms :
  0 <= getMonth ms < 12 →
  renderMonth rt av bs ms =
  repeat None (Z.to_nat (getDay (mkJsDate (getFullYear ms) (getMonth ms) 1))) ++
  map (λ d, Some (renderDay rt av bs d)) (getMonthDates ms).
Proof.
  intros Hm. unfold renderMonth. rewrite (getMonthDates_unfold ms Hm).
  pose proof (daysInMonth_bounds (getFullYear ms) (getMonth ms)).
  destruct (Z.to_nat (daysInMonth _ _)) as [|n] eqn:E; [lia|]. reflexivity.
Qed.

Lemma weekdays_nth k :
  0 <= k < 7 → nth_error weekdays (Z.to_nat k) = Some (weekdayShort k).
Proof.
  intros Hk.
  assert (k = 0 ∨ k = 1 ∨ k = 2 ∨ k = 3 ∨ k = 4 ∨ k = 5 ∨ k = 6) as Hc by lia.
  repeat destruct Hc as [-> | Hc]; [..| subst k]; reflexivity.
Qed.

(** Every day sits in the grid column headed by its own weekday: the
    [getDay] blank cells put the first of the month under its weekday,
    and each later day one column further, modulo 7. *)
Theorem renderMonth_layout rt av bs ms i c :
  0 <= getMonth ms < 12 →
  nth_error (renderMonth rt av bs ms) i = Some (Some c) →
  nth_error weekdays (i mod 7) = Some (dayKey (cell_date c)).
Proof.
  intros Hm Hi. rewrite renderMonth_unfold in Hi by done.
  set (k := Z.to_nat (getDay (mkJsDate (getFullYear ms) (getMonth ms) 1))) in Hi.
  destruct (Nat.lt_ge_cases i k) as [Hlt | Hge].
  { rewrite nth_error_app1 in Hi by (rewrite repeat_length; done).
    rewrite nth_error_repeat in Hi by done. discriminate. }
  rewrite nth_error_app2, repeat_length, nth_error_map in Hi by (rewrite repeat_length; done).
  destruct (nth_error (getMonthDates ms) (i - k)) as [dd|] eqn:Hdd; [|discriminate].
  injection Hi as <-. cbn [cell_date renderDay].
  assert (i - k < Z.to_nat (daysInMonth (getFullYear ms) (getMonth ms)))%nat as Hlen.
  { rewrite <- getMonthDates_length by done. apply nth_error_Some. congruence. }
  rewrite getMonthDates_nth in Hdd by done. injection Hdd as <-.
  unfold dayKey. rewrite getDay_in_month.
  pose proof (getDay_bounds (mkJsDate (getFullYear ms) (getMonth ms) 1)).
  rewrite <- weekdays_nth by (apply Z.mod_pos_bound; lia). f_equal.
  subst k. set (g := getDay _) in *.
  apply Nat2Z.inj. rewrite Nat2Z.inj_mod, Z2Nat.id by (apply Z.mod_pos_bound; lia).
  rewrite Nat2Z.inj_sub, Z2Nat.id by lia. zlia.
Qed.

(** With no bookings and a template enabled on Monday only, every Monday
    of the month is available (expired when past) and every other day is
    disabled (section 8 of the specification). *)
Theorem renderMonth_monday_only rt slot ms c :
  enabled slot = true → 0 <= getMonth ms < 12 →
  In (Some c) (renderMonth rt {[ "Mon" := slot ]} [] ms) →
  cell_status c =
  if getDay (cell_date c) =? 1 then
    (if isPastDate (today rt) (cell_date c) then expired else available)
  else disabled.
Proof.
  intros Hen Hm Hc. rewrite renderMonth_unfold in Hc by done.
  apply in_app_or in Hc as [Hc | Hc].
  { apply repeat_spec in Hc. discriminate. }
  apply in_map_iff in Hc as (d & [= <-] & _). simpl.
  unfold cellStatus, slotOf, dayKey.
  destruct (Z.eqb_spec (getDay d) 1) as [H1 | H1].
  - rewrite H1. simpl. rewrite lookup_singleton_eq. simpl. rewrite Hen. simpl.
    unfold getSlotStatus; simpl. rewrite !bool_decide_eq_false_2 by set_solver. done.
  - rewrite lookup_singleton_ne; [done|].
    intros Heq. apply H1, (weekdayShort_inj (getDay d) 1); auto with tutorlink; lia.
Qed.

(** ** The click handler *)

(** A student's click reaches [onSlotClick] exactly on the days shown
    [available], with the day's template slot. *)
Theorem onDayClick_student rt av bs d d' slot :
  onDayClick rt student av bs d = Some (d', slot) ↔
  d' = d ∧ slotOf av d = Some slot ∧ cellStatus rt av bs d = available.
Proof.
  unfold onDayClick. split.
  - destruct (isPastDate _ _); [discriminate|].
    destruct (slotOf av d) as [s|]; [|discriminate].
    destruct (enabled s); simpl; [|discriminate].
    case_bool_decide; simpl; [|discriminate]. intros [= -> ->]. done.
  - intros (-> & Hs & Hst). pose proof Hst as Hav.
    unfold cellStatus in Hav. apply getSlotStatus_available in Hav as [Hen Hpast].
    rewrite Hpast, Hs. rewrite Hs in Hen. simpl in Hen. rewrite Hen. simpl.
    rewrite bool_decide_eq_true_2 by done. done.
Qed.

(** A tutor's click reaches [onSlotClick] on every enabled day that is
    not past and not frozen by a reschedule request. *)
Theorem onDayClick_tutor rt av bs d d' slot :
  onDayClick rt tutor av bs d = Some (d', slot) ↔
  d' = d ∧ slotOf av d = Some slot ∧ isPastDate (today rt) d = false ∧
  cellStatus rt av bs d ∈ [booked; pending; on_hold; available].
Proof.
  unfold onDayClick, cellStatus. split.
  - destruct (isPastDate _ _) eqn:Hp; [discriminate|].
    destruct (slotOf av d) as [s|]; [|discriminate].
    destruct (enabled s) eqn:Hen; simpl; [|discriminate].
    case_bool_decide as Hrr; simpl; [discriminate|]. intros [= <- <-].
    split_and!; [done..|]. simpl. rewrite Hen in *.
    pose proof (getSlotStatus_not_past rt bs d Hp). set_solver.
  - intros (-> & Hs & Hp & Hst). rewrite Hp, Hs. rewrite Hs in Hst. simpl in Hst.
    destruct (enabled slot) eqn:Hen; simpl.
    + rewrite (bool_decide_eq_false_2 (getSlotStatus _ _ _ _ = reschedule_requested));
        [reflexivity|].
      intros Heq. rewrite Hen, Heq in *. set_solver.
    + unfold getSlotStatus in Hst. simpl in Hst. set_solver.
Qed.

(** ** The time zone *)

Lemma calRun_arrows_loading c es :
  cs_isLoading c = true → NewBookedSlots ∉ es → cs_isLoading (calRun (λ _, false) es c) = true.
Proof.
  revert c. induction es as [|e es IH]; intros c Hc Hn; [done|].
  apply not_elem_of_cons in Hn as [He Hn]. apply (IH (calEvent (λ _, false) e c)); [|done].
  by destruct e.
Qed.

(** Once a month arrow is clicked, a parent that answers
    [onMonthChange] without passing a new [bookedSlots] array leaves the
    calendar on its spinner for good, whatever arrows follow; a parent
    that passes a new array after each change never leaves it there. *)
Theorem calendar_spins_without_new_slots rt av bs c arrow es :
  arrow = PrevMonth ∨ arrow = NextMonth →
  (NewBookedSlots ∉ es → calShown rt av bs (calRun (λ _, false) (arrow :: es) c) = None) ∧
  (cs_isLoading c = false → ∀ es', NewBookedSlots ∉ es' → cs_isLoading (calRun (λ _, true) es' c) = false).
Proof.
  intros Ha. split.
  - intros Hn. unfold calShown.
    change (calRun (λ _, false) (arrow :: es) c) with (calRun (λ _, false) es (calEvent (λ _, false) arrow c)).
    rewrite calRun_arrows_loading; [done| |done]. by destruct Ha as [-> | ->].
  - intros Hc es' _. revert c Hc. induction es' as [|e es' IH]; intros c Hc; [done|].
    apply (IH (calEvent (λ _, true) e c)). by destruct e.
Qed.

Lemma prevDay_neq d : validDate d = true → prevDay d ≠ d.
Proof.
  intros Hv. destruct d as [y m dd]. unfold prevDay.
  destruct (Z.ltb_spec 1 dd); [intros [=]; lia|].
  destruct (Z.ltb_spec 0 m); intros [=]; lia.
Qed.

(** The day before a date of a four-digit year after 1000 is formatted
    differently. *)
Lemma formatDate_prevDay_neq db :
  calendarDate db → 1001 <= getFullYear db → formatDate db ≠ formatDate (prevDay db).
Proof.
  intros [Hv Hy] Hy1. pose proof (prevDay_year db). intros Heq.
  apply formatDate_inj in Heq; [by apply (prevDay_neq db)|lia|done|lia|].
  by apply validDate_prevDay.
Qed.

(** C18: West of UTC ([tz < 0]) the component files a booking under the day
    before its date: [new Date("yyyy-MM-dd")] is midnight UTC, which is
    the previous evening locally.  The previous day then shows
    [booked], and the booked day itself does not. *)
Theorem getSlotStatus_west_of_utc rt db :
  tz rt < 0 → calendarDate db → 1001 <= getFullYear db →
  let bs := [mkBookedSlot (formatDate db) "confirmed"] in
  getSlotStatus rt bs (prevDay db) true = booked ∧
  getSlotStatus rt bs db true ≠ booked.
Proof.
  intros Htz [Hv Hy] Hy1 bs.
  assert (Hkey : formatDateOpt (jsDateOfString (tz rt) (formatDate db)) = formatDate (prevDay db)).
  { rewrite jsDateOfString_formatDate by done.
    unfold utcMidnightToLocal. destruct (Z.ltb_spec (tz rt) 0); [done|lia]. }
  assert (Hneq : formatDate db ≠ formatDate (prevDay db)) by (by apply formatDate_prevDay_neq).
  assert (formatDate db ∉ bookedDatesSet rt bs ∧ formatDate (prevDay db) ∈ bookedDatesSet rt bs)
    as [Hnot Hin].
  { unfold bookedDatesSet. rewrite !elem_of_datesSetWith. split.
    - intros (b & [<- | []] & _ & Heq). simpl in Heq. rewrite Hkey in Heq. by apply Hneq.
    - eexists. split; [left; done|]. split; [done|]. exact Hkey. }
  unfold getSlotStatus. simpl. split.
  - by rewrite bool_decide_eq_true_2.
  - rewrite bool_decide_eq_false_2 by done. repeat case_bool_decide; try done; case_match; done.
Qed.

(** ** Witnesses

    Singapore time (UTC+8, the zone of the application's currency) and
    New York time (UTC-5); today is Sunday 9 November 2025. *)

Lemma getSlotStatus_refines_witness :
  getSlotStatus (mkRuntime 480 (mkJsDate 2025 10 9)) [mkBookedSlot "2025-11-10" "pending"]
    (mkJsDate 2025 10 10) true =
  resolve true (statusesOn (mkJsDate 2025 10 10) [mkBookedSlot "2025-11-10" "pending"])
    (isPastDate (mkJsDate 2025 10 9) (mkJsDate 2025 10 10)).
Proof.
  apply getSlotStatus_refines; [decide_prop| |decide_prop].
  constructor; [|constructor]. exists (mkJsDate 2025 10 10). split; [vm_compute; reflexivity|split; [reflexivity|decide_prop]].
Defined.

Lemma getSlotStatus_ignores_other_witness :
  getSlotStatus (mkRuntime 480 (mkJsDate 2025 10 9))
    ([mkBookedSlot "2025-11-12" "confirmed"] ++ [mkBookedSlot "2025-11-10" "cancelled"])
    (mkJsDate 2025 10 10) true =
  getSlotStatus (mkRuntime 480 (mkJsDate 2025 10 9)) [mkBookedSlot "2025-11-12" "confirmed"]
    (mkJsDate 2025 10 10) true.
Proof. apply getSlotStatus_ignores_other. constructor; [decide_prop|constructor]. Defined.

Lemma renderMonth_layout_witness :
  nth_error weekdays (6 mod 7) =
  Some (dayKey (cell_date (renderDay (mkRuntime 480 (mkJsDate 2025 10 9)) ∅ [] (mkJsDate 2025 10 1)))).
Proof.
  apply (renderMonth_layout (mkRuntime 480 (mkJsDate 2025 10 9)) ∅ [] (mkJsDate 2025 10 1)); [decide_prop|].
  vm_compute. reflexivity.
Defined.

Lemma renderMonth_monday_only_witness :
  let rt := mkRuntime 480 (mkJsDate 2025 10 9) in
  let slot := mkTimeSlot true "10:00" "11:00" in
  let c := renderDay rt {[ "Mon" := slot ]} [] (mkJsDate 2025 10 3) in
  cell_status c =
  if getDay (cell_date c) =? 1 then
    (if isPastDate (today rt) (cell_date c) then expired else available)
  else disabled.
Proof.
  intros rt slot c. apply (renderMonth_monday_only rt slot (mkJsDate 2025 10 1)); [reflexivity|decide_prop|].
  apply (nth_error_In _ 8). vm_compute. reflexivity.
Defined.

Lemma getSlotStatus_west_of_utc_witness :
  let rt := mkRuntime (-300) (mkJsDate 2025 10 9) in
  let bs := [mkBookedSlot (formatDate (mkJsDate 2025 10 12)) "confirmed"] in
  getSlotStatus rt bs (prevDay (mkJsDate 2025 10 12)) true = booked ∧
  getSlotStatus rt bs (mkJsDate 2025 10 12) true ≠ booked.
Proof.
  apply getSlotStatus_west_of_utc; decide_prop.
Defined.
