(* ===== verification/Cost.v ===== *)
(** * Cost: session length and price

    Two pieces of the client compute the length of a slot and its price:
    the effect of [components/BookingModal.tsx] (through [Date] values
    ["1970-01-01THH:mm:00"]) shows the estimate, and [confirmBooking] of
    [pages/student/ViewTutorDetails.tsx] (through
    [split(":").map(Number)]) computes the [amount] sent with the
    booking.  Both treat an end before the start as crossing midnight.
    Lengths are exact rationals here ([Q]); the code's floating-point
    rounding is not modelled. *)

From S2P Require Import Prelude Dates DateFormat.
From Stdlib Require Import Ascii QArith.

Local Open Scope Z_scope.

(** ** Strings of the time inputs *)

(** [s.split(":")]. *)
Fixpoint splitColon (s : string) : list string :=
  match s with
  | EmptyString => [EmptyString]
  | String c rest =>
      if Ascii.eqb c ":" then EmptyString :: splitColon rest
      else match splitColon rest with
           | [] => [String c EmptyString]
           | w :: ws => String c w :: ws
           end
  end.

(** [Number(s)] on the strings a time input produces: a string of
    decimal digits, or the empty string (which is [0]); anything else
    is [NaN] ([None]). *)
Fixpoint digitsValue (s : string) (acc : Z) : option Z :=
  match s with
  | EmptyString => Some acc
  | String c rest => k ← digitVal c; digitsValue rest (10 * acc + k)
  end.

Definition jsNumber (s : string) : option Z := digitsValue s 0.

(** [new Date(`1970-01-01T${s}:00`)]: minutes after midnight of an
    ["HH:mm"] string, [NaN] otherwise. *)
Definition parseTimeOfDay (s : string) : option Z :=
  match s with
  | String h1 (String h2 (String c (String m1 (String m2 EmptyString)))) =>
      if Ascii.eqb c ":" then
        a ← digitVal h1; b ← digitVal h2; x ← digitVal m1; y ← digitVal m2;
        let h := 10 * a + b in let m := 10 * x + y in
        if (h <? 24) && (m <? 60) then Some (60 * h + m) else None
      else None
  | _ => None
  end.

(** ** [BookingModal]: [diffHours] and [estimatedCost] *)

Record Estimate := mkEstimate { diffHours : option Q; estimatedCost : option Q }.

(** The effect, from the initial state [{null, null}]; it runs only when
    [hourlyRate] is truthy (not [0]).  An unparsable time gives [NaN]:
    every comparison with it is false, so [diffHours] is [NaN] (kept as
    [None]) and the cost stays [null]. *)
Definition bookingModalEstimate (hourlyRate : Q) (start end_ : string) : Estimate :=
  if Qeq_bool hourlyRate 0 then mkEstimate None None else
  match parseTimeOfDay start, parseTimeOfDay end_ with
  | Some st, Some en =>
      if en =? st then mkEstimate (Some 0%Q) None
      else
        let endTime := if en <? st then en + 1440 else en in
        let diffHours := (inject_Z (endTime - st) / 60)%Q in
        if Qlt_le_dec 0 diffHours then mkEstimate (Some diffHours) (Some (diffHours * hourlyRate)%Q)
        else mkEstimate (Some diffHours) None
  | _, _ => mkEstimate None None
  end.

(** ** [ViewTutorDetails.confirmBooking]: [hours] and [totalCost] *)

Definition fieldsOf (s : string) : option Z * option Z :=
  match map jsNumber (splitColon s) with
  | [] => (None, None)
  | [h] => (h, None)
  | h :: m :: _ => (h, m)
  end.

(** [Some totalCost] when the booking goes ahead, [None] when the toast
    "Invalid duration or hourly rate" stops it. *)
Definition confirmBookingCost (hourlyRate : Q) (start end_ : string) : option Q :=
  match fieldsOf start, fieldsOf end_ with
  | (Some sh, Some sm), (Some eh, Some em) =>
      let hours := ((inject_Z eh + inject_Z em / 60) - (inject_Z sh + inject_Z sm / 60))%Q in
      let hours := if Qlt_le_dec hours 0 then (hours + 24)%Q else hours in
      let totalCost := (hourlyRate * hours)%Q in
      if Qle_bool totalCost 0 then None else Some totalCost
  | _, _ => None
  end.

#[export] Instance Qlt_decision (x y : Q) : Decision (x < y)%Q :=
  match Qlt_le_dec x y with left H => left H | right H => right (Qle_not_lt y x H) end.

(** The strings [<input type="time">] produces. *)
Definition timeString (h m : Z) : string :=
  padStart2 (Z_to_string h) +:+ ":" +:+ padStart2 (Z_to_string m).

(** ** Lemmas *)

Lemma digitChar_not_colon k : 0 <= k < 10 → Ascii.eqb (digitChar k) ":" = false.
Proof.
  intros Hk.
  assert (k = 0 ∨ k = 1 ∨ k = 2 ∨ k = 3 ∨ k = 4 ∨ k = 5 ∨ k = 6 ∨ k = 7 ∨ k = 8 ∨ k = 9)
    as Hc by lia.
  repeat destruct Hc as [-> | Hc]; [..| subst k]; vm_compute; reflexivity.
Qed.

Lemma timeString_chars h m :
  0 <= h < 24 → 0 <= m < 60 →
  timeString h m =
  String (digitChar (h / 10)) (String (digitChar (h mod 10)) (String ":"
    (String (digitChar (m / 10)) (String (digitChar (m mod 10)) EmptyString)))).
Proof.
  intros Hh Hm. unfold timeString.
  rewrite !padStart2_Z_to_string by lia. reflexivity.
Qed.

Lemma parseTimeOfDay_timeString h m :
  0 <= h < 24 → 0 <= m < 60 → parseTimeOfDay (timeString h m) = Some (60 * h + m).
Proof.
  intros Hh Hm. rewrite timeString_chars by done. unfold parseTimeOfDay.
  rewrite !digitVal_digitChar by zlia. zsimpl.
  replace (10 * (h / 10) + h mod 10) with h by zlia.
  replace (10 * (m / 10) + m mod 10) with m by zlia.
  destruct (Z.ltb_spec h 24), (Z.ltb_spec m 60); [done|lia..].
Qed.

Lemma fieldsOf_timeString h m :
  0 <= h < 24 → 0 <= m < 60 → fieldsOf (timeString h m) = (Some h, Some m).
Proof.
  intros Hh Hm. rewrite timeString_chars by done. unfold fieldsOf. zsimpl.
  rewrite !digitChar_not_colon by zlia. zsimpl.
  unfold jsNumber. zsimpl. rewrite !digitVal_digitChar by zlia. zsimpl.
  f_equal; f_equal; zlia.
Qed.

(** Minutes from [st] to [en], crossing midnight when [en < st]. *)
Definition slotMinutes (st en : Z) : Z := (en - st) mod 1440.

(** Two optional prices are the same number. *)
Definition optQeq (a b : option Q) : Prop :=
  match a, b with
  | Some x, Some y => (x == y)%Q
  | None, None => True
  | _, _ => False
  end.

Ltac qunfold := unfold Qeq, Qlt, Qle, Qminus, Qplus, Qopp, Qdiv, Qmult, Qinv, inject_Z;
  cbn -[Z.mul Z.add Z.sub Z.opp]; rewrite ?Pos2Z.inj_mul.

Lemma hours_eq h1 m1 h2 m2 :
  ((inject_Z h2 + inject_Z m2 / 60) - (inject_Z h1 + inject_Z m1 / 60) ==
   inject_Z (60 * h2 + m2 - (60 * h1 + m1)) / 60)%Q.
Proof. qunfold. lia. Qed.

Lemma div60_pos z : (0 < inject_Z z / 60)%Q ↔ 0 < z.
Proof. qunfold. lia. Qed.

Lemma div60_neg z : (inject_Z z / 60 < 0)%Q ↔ z < 0.
Proof. qunfold. lia. Qed.

Lemma div60_plus24 z : (inject_Z z / 60 + 24 == inject_Z (z + 1440) / 60)%Q.
Proof. qunfold. lia. Qed.

Lemma div60_lt24 z : (inject_Z z / 60 < 24)%Q ↔ z < 1440.
Proof. qunfold. lia. Qed.

Lemma rate_mult_nonpos rate q : (0 < rate)%Q → (rate * q <= 0)%Q ↔ (q <= 0)%Q.
Proof.
  intros Hr. rewrite <- (Qmult_le_l q 0 rate Hr), Qmult_0_r. reflexivity.
Qed.

Lemma optQeq_trans a b c : optQeq a b → optQeq b c → optQeq a c.
Proof. destruct a, b, c; simpl; try tauto. apply Qeq_trans. Qed.

Lemma optQeq_sym a b : optQeq a b → optQeq b a.
Proof. destruct a, b; simpl; try tauto. apply Qeq_sym. Qed.

Section ValidTimes.
Variables h1 m1 h2 m2 : Z.
Hypothesis Hh1 : 0 <= h1 < 24.
Hypothesis Hm1 : 0 <= m1 < 60.
Hypothesis Hh2 : 0 <= h2 < 24.
Hypothesis Hm2 : 0 <= m2 < 60.

Let st := 60 * h1 + m1.
Let en := 60 * h2 + m2.
Let dm := slotMinutes st en.

Lemma st_en_bounds : 0 <= st < 1440 ∧ 0 <= en < 1440.
Proof. subst st en. lia. Qed.

Lemma dm_bounds : 0 <= dm < 1440 ∧ (dm = 0 ↔ en = st).
Proof. subst dm st en. unfold slotMinutes. zlia. Qed.

(** [BookingModal]'s estimate in closed form. *)
Lemma bookingModalEstimate_timeString rate :
  ¬ (rate == 0)%Q →
  bookingModalEstimate rate (timeString h1 m1) (timeString h2 m2) =
  if dm =? 0 then mkEstimate (Some 0%Q) None
  else mkEstimate (Some (inject_Z dm / 60)%Q) (Some (inject_Z dm / 60 * rate)%Q).
Proof.
  intros Hr. unfold bookingModalEstimate.
  destruct (Qeq_bool rate 0) eqn:E; [apply Qeq_bool_iff in E; contradiction|].
  rewrite !parseTimeOfDay_timeString by done. fold st en.
  pose proof dm_bounds as [Hb Hz].
  destruct (Z.eqb_spec en st) as [Heq|Hne].
  - rewrite (proj2 Hz Heq). reflexivity.
  - destruct (Z.eqb_spec dm 0) as [H0|H0]; [tauto|].
    replace ((if en <? st then en + 1440 else en) - st) with dm
      by (subst dm; unfold slotMinutes; destruct (Z.ltb_spec en st); zlia).
    destruct (Qlt_le_dec 0 (inject_Z dm / 60)) as [|Hle]; [done|].
    exfalso. apply (Qle_not_lt _ _ Hle). apply div60_pos. lia.
Qed.

(** [confirmBooking]'s amount in closed form. *)
Lemma confirmBookingCost_timeString rate :
  (0 < rate)%Q →
  optQeq (confirmBookingCost rate (timeString h1 m1) (timeString h2 m2))
         (if dm =? 0 then None else Some (inject_Z dm / 60 * rate)%Q).
Proof.
  intros Hr. unfold confirmBookingCost.
  rewrite !fieldsOf_timeString by done. cbn iota beta zeta.
  pose proof dm_bounds as [Hb Hz]. pose proof st_en_bounds.
  set (hours := ((inject_Z h2 + inject_Z m2 / 60) - (inject_Z h1 + inject_Z m1 / 60))%Q).
  assert (Hh : (hours == inject_Z (en - st) / 60)%Q) by apply hours_eq.
  assert (Hadj : ((if Qlt_le_dec hours 0 then hours + 24 else hours) == inject_Z dm / 60)%Q).
  { destruct (Qlt_le_dec hours 0) as [Hlt|Hge]; rewrite Hh in *.
    - apply (proj1 (div60_neg (en - st))) in Hlt. rewrite div60_plus24. f_equiv. f_equiv.
      subst dm. unfold slotMinutes. zlia.
    - f_equiv. f_equiv. subst dm. unfold slotMinutes.
      assert (0 <= en - st) by (destruct (Z.ltb_spec (en - st) 0); [|lia];
        exfalso; apply (Qle_not_lt _ _ Hge), (proj2 (div60_neg (en - st))); lia).
      zlia. }
  destruct (Qle_bool _ 0) eqn:Hle.
  - apply Qle_bool_iff in Hle. rewrite Hadj, rate_mult_nonpos in Hle by done.
    destruct (Z.eqb_spec dm 0); [done|].
    apply (Qle_not_lt _ _ Hle), (proj2 (div60_pos dm)). lia.
  - destruct (Z.eqb_spec dm 0) as [H0|H0]; simpl.
    + exfalso. assert (Hz0 : (rate * (if Qlt_le_dec hours 0 then hours + 24 else hours) <= 0)%Q).
      { rewrite Hadj, H0, rate_mult_nonpos by done. qunfold. lia. }
      apply Qle_bool_iff in Hz0. congruence.
    + rewrite Hadj. apply Qmult_comm.
Qed.
End ValidTimes.

Lemma Qpos_neq0 q : (0 < q)%Q → ¬ (q == 0)%Q.
Proof. intros Hq Heq. rewrite Heq in Hq. apply (Qlt_irrefl 0 Hq). Qed.

(** ** Properties *)

(** C24: The estimate [BookingModal] shows is the amount [ViewTutorDetails]
    sends, for every pair of times the time inputs can produce and every
    positive rate, overnight slots included; both are absent for a
    zero-length slot. *)
Theorem estimate_matches_amount rate h1 m1 h2 m2 :
  (0 < rate)%Q → 0 <= h1 < 24 → 0 <= m1 < 60 → 0 <= h2 < 24 → 0 <= m2 < 60 →
  optQeq (estimatedCost (bookingModalEstimate rate (timeString h1 m1) (timeString h2 m2)))
         (confirmBookingCost rate (timeString h1 m1) (timeString h2 m2)).
Proof.
  intros Hr ????.
  rewrite bookingModalEstimate_timeString by auto using Qpos_neq0.
  eapply optQeq_trans; [|apply optQeq_sym, confirmBookingCost_timeString; done].
  destruct (_ =? 0); simpl; [done | reflexivity].
Qed.

(** C25: For two different times the time inputs can produce and a
    positive rate, [confirmBooking] always sends an amount: the rate
    times the slot's length in hours, where a slot that ends before it
    starts runs past midnight (its length is taken modulo a day); that
    amount is positive and less than a day at the hourly rate. *)
Theorem confirmBookingCost_bounds rate h1 m1 h2 m2 :
  (0 < rate)%Q → 0 <= h1 < 24 → 0 <= m1 < 60 → 0 <= h2 < 24 → 0 <= m2 < 60 →
  (h1, m1) ≠ (h2, m2) →
  ∃ c, confirmBookingCost rate (timeString h1 m1) (timeString h2 m2) = Some c ∧
    (c == inject_Z (((60 * h2 + m2) - (60 * h1 + m1)) mod 1440) / 60 * rate)%Q ∧
    (0 < c)%Q ∧ (c < 24 * rate)%Q.
Proof.
  intros Hr Hh1 Hm1 Hh2 Hm2 Hne.
  pose proof (confirmBookingCost_timeString h1 m1 h2 m2 Hh1 Hm1 Hh2 Hm2 rate Hr) as Heq.
  pose proof (dm_bounds h1 m1 h2 m2 Hh1 Hm1 Hh2 Hm2) as [Hb Hz].
  destruct (Z.eqb_spec (slotMinutes (60 * h1 + m1) (60 * h2 + m2)) 0) as [H0|H0].
  { exfalso. apply Hne. apply Hz in H0. f_equal; lia. }
  destruct (confirmBookingCost _ _ _) as [c|]; [|done]. simpl in Heq.
  exists c. split_and!; [done|exact Heq|..]; rewrite Heq.
  - apply Qmult_lt_0_compat; [apply div60_pos; lia | done].
  - apply Qmult_lt_r; [done|]. apply div60_lt24. lia.
Qed.

(** A slot whose end equals its start has no estimate and cannot be
    booked, whatever the rate. *)
Theorem zero_length_slot_rejected rate h m :
  0 <= h < 24 → 0 <= m < 60 →
  estimatedCost (bookingModalEstimate rate (timeString h m) (timeString h m)) = None ∧
  confirmBookingCost rate (timeString h m) (timeString h m) = None.
Proof.
  intros Hh Hm. split.
  - unfold bookingModalEstimate. destruct (Qeq_bool rate 0); [done|].
    rewrite parseTimeOfDay_timeString by done. by rewrite Z.eqb_refl.
  - unfold confirmBookingCost. rewrite fieldsOf_timeString by done. cbn iota beta zeta.
    set (hours := ((inject_Z h + inject_Z m / 60) - (inject_Z h + inject_Z m / 60))%Q).
    assert (Hz : (hours == 0)%Q) by (subst hours; qunfold; lia).
    destruct (Qlt_le_dec hours 0) as [Hlt|_].
    { rewrite Hz in Hlt. by apply Qlt_irrefl in Hlt. }
    replace (Qle_bool (rate * hours) 0) with true; [done|].
    symmetry. apply Qle_bool_iff. rewrite Hz, Qmult_0_r. apply Qle_refl.
Qed.

(** The examples of section 8 of the specification. *)
Example estimate_two_hours : bookingModalEstimate 50 "10:00" "12:00" = mkEstimate (Some (120 # 60)) (Some (6000 # 60)).
Proof. reflexivity. Qed.

(** An overnight slot from 23:00 to 01:00 at 50 an hour costs 100,
    the example of section 8 of the specification. *)
Example amount_overnight : optQeq (confirmBookingCost 50 "23:00" "01:00") (Some 100%Q).
Proof. vm_compute. reflexivity. Qed.

(** ** Witnesses *)

Lemma estimate_matches_amount_witness :
  optQeq (estimatedCost (bookingModalEstimate 50 (timeString 23 0) (timeString 1 30)))
         (confirmBookingCost 50 (timeString 23 0) (timeString 1 30)).
Proof. apply estimate_matches_amount; decide_prop. Defined.

(** 23:00 to 01:30 at 50 an hour: two and a half hours, 125. *)
Lemma confirmBookingCost_bounds_witness :
  ∃ c, confirmBookingCost 50 (timeString 23 0) (timeString 1 30) = Some c ∧
    (c == inject_Z (((60 * 1 + 30) - (60 * 23 + 0)) mod 1440) / 60 * 50)%Q ∧
    (0 < c)%Q ∧ (c < 24 * 50)%Q.
Proof. apply (confirmBookingCost_bounds 50 23 0 1 30); decide_prop. Defined.

Lemma zero_length_slot_rejected_witness :
  estimatedCost (bookingModalEstimate 50 (timeString 10 0) (timeString 10 0)) = None ∧
  confirmBookingCost 50 (timeString 10 0) (timeString 10 0) = None.
Proof. apply zero_length_slot_rejected; decide_prop. Defined.
