(* ===== verification/Booking.v ===== *)
(** * Booking: the booking lifecycle engine behind [api/bookingAPI.ts]

    The repository holds only the client of the bookings API; the
    server that owns the booking records is modelled here from the
    specification (section 4.3): one operation per endpoint the client
    calls ([CreateBooking], [AcceptBooking], [CancelBooking],
    [RequestReschedule], [ApproveReschedule], [RejectReschedule]), each
    a function from the store to [result BookingError], so that a
    failing call leaves the store as it was.  The slot check uses the
    resolver contract [resolve] of [Calendar].  The store is a [gmap]
    from booking ids to records, with the next fresh id. *)

From S2P Require Import Prelude Dates DateFormat BookingTypes Calendar Cost.
From Stdlib Require Import QArith.

Local Open Scope Z_scope.

Record Booking := mkBooking {
  b_tutorId : string;
  b_studentId : string;
  b_tutorName : string;
  b_studentName : string;
  b_date : string;
  b_start : string;
  b_end : string;
  b_lessonType : string;
  b_status : BookingStatus;
  b_related : option nat;
  b_amount : option Q
}.

Record Store := mkStore { bookings : gmap nat Booking; nextId : nat }.

(** What the engine reads from its collaborators: each tutor's weekly
    template (the profile service) and today's date (the clock). *)
Record Env := mkEnv { templates : gmap string (gmap string TimeSlot); clock : JsDate }.

Definition initStore : Store := mkStore ∅ 0.

Definition withStatus (st : BookingStatus) (b : Booking) : Booking :=
  mkBooking (b_tutorId b) (b_studentId b) (b_tutorName b) (b_studentName b)
    (b_date b) (b_start b) (b_end b) (b_lessonType b) st (b_related b) (b_amount b).

Definition setStatus (id : nat) (st : BookingStatus) (s : Store) : Store :=
  mkStore (alter (withStatus st) id (bookings s)) (nextId s).

Definition lookupBooking (id : nat) (s : Store) : result BookingError Booking :=
  match bookings s !! id with Some b => Ok b | None => Err NotFound end.

(** ** The slot check *)

(** The statuses of the tutor's bookings on a date. *)
Definition statusesAt (s : Store) (tutorId date : string) : list BookingStatus :=
  map b_status
    (List.filter (λ b, String.eqb (b_tutorId b) tutorId && String.eqb (b_date b) date)
       (map snd (map_to_list (bookings s)))).

Definition slotStatusAt (env : Env) (s : Store) (tutorId date : string) : SlotStatus :=
  match parseIsoDate date with
  | None => disabled
  | Some d =>
      let en := match templates env !! tutorId with
                | Some av => slotEnabled (slotOf av d)
                | None => false
                end in
      resolve en (statusesAt s tutorId date) (isPastDate (clock env) d)
  end.

(** A bookable request: a date, a slot of positive length (overnight
    slots cross midnight), and a positive amount when one is sent. *)
Definition validRequest (req : BookingRequest) : bool :=
  match parseIsoDate (req_date req), parseTimeOfDay (req_start req), parseTimeOfDay (req_end req) with
  | Some _, Some st, Some en =>
      negb (slotMinutes st en =? 0) &&
      match req_amount req with Some a => negb (Qle_bool a 0) | None => true end
  | _, _, _ => false
  end.

Definition newBooking (req : BookingRequest) (st : BookingStatus) (related : option nat) : Booking :=
  mkBooking (req_tutorId req) (req_studentId req) (req_tutorName req) (req_studentName req)
    (req_date req) (req_start req) (req_end req) (req_lessonType req) st related (req_amount req).

Definition insertNew (b : Booking) (s : Store) : nat * Store :=
  (nextId s, mkStore (<[nextId s := b]> (bookings s)) (S (nextId s))).

(** ** The six operations *)

Definition createBooking (env : Env) (req : BookingRequest) (s : Store)
    : result BookingError (nat * Store) :=
  assert! validRequest req else ValidationError;
  assert! bool_decide (slotStatusAt env s (req_tutorId req) (req_date req) = available)
    else SlotUnavailable;
  Ok (insertNew (newBooking req Pending None) s).

Definition acceptBooking (id : nat) (s : Store) : result BookingError Store :=
  b ← lookupBooking id s;
  assert! bool_decide (b_status b = Pending) else InvalidTransition;
  Ok (setStatus id Confirmed s).

Definition cancelBooking (id : nat) (actor : string) (s : Store) : result BookingError Store :=
  b ← lookupBooking id s;
  assert! bool_decide (b_status b = Pending ∨ b_status b = Confirmed) else InvalidTransition;
  assert! String.eqb actor (b_tutorId b) || String.eqb actor (b_studentId b)
    else InvalidTransition;
  Ok (setStatus id Cancelled s).

Definition requestReschedule (env : Env) (id : nat) (req : BookingRequest) (s : Store)
    : result BookingError (nat * Store) :=
  orig ← lookupBooking id s;
  assert! bool_decide (b_status orig = Confirmed) else InvalidTransition;
  assert! String.eqb (req_tutorId req) (b_tutorId orig) else ValidationError;
  assert! validRequest req else ValidationError;
  assert! bool_decide (slotStatusAt env s (req_tutorId req) (req_date req) = available)
    else SlotUnavailable;
  Ok (insertNew (newBooking req OnHold (Some id)) (setStatus id RescheduleRequested s)).

(** The original booking of a reschedule request [nb]. *)
Definition originalOf (nb : Booking) (s : Store) : result BookingError (nat * Booking) :=
  match b_related nb with
  | None => Err InvalidTransition
  | Some oid =>
      ob ← lookupBooking oid s;
      assert! bool_decide (b_status ob = RescheduleRequested) else InvalidTransition;
      Ok (oid, ob)
  end.

Definition approveReschedule (nid : nat) (s : Store) : result BookingError Store :=
  nb ← lookupBooking nid s;
  assert! bool_decide (b_status nb = OnHold) else InvalidTransition;
  '(oid, _) ← originalOf nb s;
  Ok (setStatus oid Cancelled (setStatus nid Confirmed s)).

Definition rejectReschedule (nid : nat) (s : Store) : result BookingError Store :=
  nb ← lookupBooking nid s;
  assert! bool_decide (b_status nb = OnHold) else InvalidTransition;
  '(oid, _) ← originalOf nb s;
  Ok (setStatus oid Confirmed (setStatus nid Cancelled s)).

(** ** The store invariant *)

Definition live (b : Booking) : bool := isLive (b_status b).

(** At most one live booking per tutor and date. *)
Definition oneLivePerSlot (m : gmap nat Booking) : Prop :=
  ∀ i j bi bj, m !! i = Some bi → m !! j = Some bj →
    b_tutorId bi = b_tutorId bj → b_date bi = b_date bj →
    live bi = true → live bj = true → i = j.

(** Every id in use is below the next fresh id. *)
Definition idsBelow (s : Store) : Prop :=
  ∀ i, is_Some (bookings s !! i) → (i < nextId s)%nat.

Definition storeInv (s : Store) : Prop := oneLivePerSlot (bookings s) ∧ idsBelow s.

(** No live booking of [t] on [d]. *)
Definition slotFree (m : gmap nat Booking) (t d : string) : Prop :=
  ∀ i b, m !! i = Some b → b_tutorId b = t → b_date b = d → live b = false.

Lemma initStore_inv : storeInv initStore.
Proof. split; intros ?; simpl; [intros ????; by rewrite lookup_empty|by rewrite lookup_empty; intros []]. Qed.

Lemma elem_of_statusesAt s t d st :
  In st (statusesAt s t d) ↔
  ∃ i b, bookings s !! i = Some b ∧ b_tutorId b = t ∧ b_date b = d ∧ b_status b = st.
Proof.
  unfold statusesAt. rewrite in_map_iff. setoid_rewrite filter_In.
  setoid_rewrite in_map_iff. setoid_rewrite andb_true_iff. setoid_rewrite String.eqb_eq.
  split.
  - intros (b & <- & ([i b'] & <- & Hin) & Ht & Hd).
    apply list_elem_of_In, elem_of_map_to_list in Hin. eauto 10.
  - intros (i & b & Hb & Ht & Hd & <-). exists b. split; [done|]. split; [|done].
    exists (i, b). split; [done|]. by apply list_elem_of_In, elem_of_map_to_list.
Qed.

Lemma resolve_available en sts past :
  resolve en sts past = available → ∀ st, isLive st = true → st ∉ sts.
Proof.
  unfold resolve. destruct en; simpl; [|discriminate].
  repeat case_bool_decide; try discriminate.
  intros _ st Hl. destruct st; done.
Qed.

Lemma slotStatusAt_free env s t d :
  slotStatusAt env s t d = available → slotFree (bookings s) t d.
Proof.
  unfold slotStatusAt. destruct (parseIsoDate d); [|discriminate].
  intros Hav i b Hb Ht Hd. unfold live.
  destruct (isLive (b_status b)) eqn:Hl; [|done]. exfalso.
  apply (resolve_available _ _ _ Hav (b_status b) Hl).
  apply list_elem_of_In, elem_of_statusesAt. eauto 10.
Qed.

Lemma lookup_setStatus s id st i :
  bookings (setStatus id st s) !! i =
  if decide (id = i) then withStatus st <$> bookings s !! id else bookings s !! i.
Proof. apply lookup_alter. Qed.

(** Changing a status that does not make a cancelled booking live keeps
    the invariant. *)
Lemma setStatus_inv s id st :
  storeInv s →
  (∀ b, bookings s !! id = Some b → isLive st = true → isLive (b_status b) = true) →
  storeInv (setStatus id st s).
Proof.
  intros [Hone Hids] Hlive. split.
  - intros i j bi bj Hi Hj Ht Hd Hli Hlj.
    rewrite lookup_setStatus in Hi, Hj.
    destruct (decide (id = i)) as [<-|Hi'], (decide (id = j)) as [<-|Hj']; [done|..].
    + apply fmap_Some in Hi as (b0 & Hb0 & ->).
      apply (Hone id j b0 bj); unfold live in *; simpl in *; eauto.
    + apply fmap_Some in Hj as (b0 & Hb0 & ->).
      apply (Hone i id bi b0); unfold live in *; simpl in *; eauto.
    + eauto.
  - intros i Hi. apply Hids. rewrite lookup_setStatus in Hi.
    case_decide; [|done]. subst. by rewrite fmap_is_Some in Hi.
Qed.

(** Adding a booking at the fresh id keeps the invariant when its slot
    is free or the booking is not live. *)
Lemma insertNew_inv s b :
  storeInv s → (live b = true → slotFree (bookings s) (b_tutorId b) (b_date b)) →
  storeInv (mkStore (<[nextId s := b]> (bookings s)) (S (nextId s))).
Proof.
  intros [Hone Hids] Hfree. split.
  - assert (bookings s !! nextId s = None) as Hfresh.
    { destruct (bookings s !! nextId s) eqn:E; [|done].
      exfalso. specialize (Hids (nextId s) ltac:(by rewrite E)). lia. }
    intros i j bi bj Hi Hj Ht Hd Hli Hlj. simpl in Hi, Hj.
    rewrite lookup_insert in Hi, Hj.
    destruct (decide (nextId s = i)) as [<-|], (decide (nextId s = j)) as [<-|];
      simplify_eq; try done.
    + exfalso. pose proof (Hfree Hli j bj Hj (eq_sym Ht) (eq_sym Hd)). congruence.
    + exfalso. pose proof (Hfree Hlj i bi Hi Ht Hd). congruence.
    + eauto.
  - intros i Hi. simpl in *. rewrite lookup_insert in Hi.
    case_decide; [lia|]. specialize (Hids i Hi). lia.
Qed.

Lemma lookupBooking_Ok id s b : lookupBooking id s = Ok b ↔ bookings s !! id = Some b.
Proof. unfold lookupBooking. destruct (bookings s !! id); split; congruence. Qed.

Lemma originalOf_Ok nb s oid ob :
  originalOf nb s = Ok (oid, ob) →
  b_related nb = Some oid ∧ bookings s !! oid = Some ob ∧ b_status ob = RescheduleRequested.
Proof.
  unfold originalOf. destruct (b_related nb) as [o|]; [|discriminate].
  intros H. inv_result. apply lookupBooking_Ok in H. by simplify_eq.
Qed.

Ltac inv_booking :=
  repeat (first [progress inv_result | match goal with
  | H : lookupBooking _ _ = Ok _ |- _ => apply lookupBooking_Ok in H
  | H : originalOf _ _ = Ok (_, _) |- _ => apply originalOf_Ok in H as (? & ? & ?)
  | H : originalOf _ _ = Ok ?p |- _ => destruct p
  end]).

(** [status_live]: close [isLive (b_status b) = true] from a lookup of
    [b] and the status the operation checked. *)
Ltac status_live :=
  repeat match goal with
  | H1 : ?m !! ?i = Some ?a, H2 : ?m !! ?i = Some ?b |- _ =>
      rewrite H1 in H2; injection H2 as ->
  end;
  repeat match goal with
  | H : b_status ?b = _ |- context [b_status ?b] => rewrite H
  end; done.

Lemma slotFree_setStatus s id st t d :
  slotFree (bookings s) t d →
  (∀ b, bookings s !! id = Some b → isLive st = true → isLive (b_status b) = true) →
  slotFree (bookings (setStatus id st s)) t d.
Proof.
  intros Hfree Hlive i b Hb Ht Hd. rewrite lookup_setStatus in Hb.
  case_decide as Hid; [subst id|by eapply Hfree].
  apply fmap_Some in Hb as (b0 & Hb0 & ->). unfold live in *; simpl in *.
  destruct (isLive st) eqn:E; [|done].
  specialize (Hfree i b0 Hb0 Ht Hd). unfold live in Hfree. rewrite Hlive in Hfree; done.
Qed.

Lemma createBooking_inv env req s id s' :
  storeInv s → createBooking env req s = Ok (id, s') → storeInv s'.
Proof.
  intros Hinv H. unfold createBooking in H. inv_booking. simplify_eq.
  apply insertNew_inv; [done|]. intros _. by apply slotStatusAt_free with env.
Qed.

Lemma acceptBooking_inv id s s' : storeInv s → acceptBooking id s = Ok s' → storeInv s'.
Proof.
  intros Hinv H. unfold acceptBooking in H. inv_booking. simplify_eq.
  apply setStatus_inv; [done|]. intros b Hb _. status_live.
Qed.

Lemma cancelBooking_inv id actor s s' : storeInv s → cancelBooking id actor s = Ok s' → storeInv s'.
Proof.
  intros Hinv H. unfold cancelBooking in H. inv_booking. simplify_eq.
  apply setStatus_inv; [done|]. discriminate.
Qed.

Lemma requestReschedule_inv env id req s nid s' :
  storeInv s → requestReschedule env id req s = Ok (nid, s') → storeInv s'.
Proof.
  intros Hinv H. unfold requestReschedule in H. inv_booking. simplify_eq.
  assert (∀ b, bookings s !! id = Some b → isLive RescheduleRequested = true →
            isLive (b_status b) = true) as Hl by (intros; status_live).
  apply (insertNew_inv (setStatus id RescheduleRequested s)); [by apply setStatus_inv|]. intros _.
  apply slotFree_setStatus; [|done]. by apply slotStatusAt_free with env.
Qed.

Lemma approveReschedule_inv nid s s' : storeInv s → approveReschedule nid s = Ok s' → storeInv s'.
Proof.
  intros Hinv H. unfold approveReschedule in H. inv_booking. simplify_eq.
  apply setStatus_inv; [|discriminate].
  apply setStatus_inv; [done|]. intros ? ? _. status_live.
Qed.

Lemma rejectReschedule_inv nid s s' : storeInv s → rejectReschedule nid s = Ok s' → storeInv s'.
Proof.
  intros Hinv H. unfold rejectReschedule in H. inv_booking. simplify_eq.
  apply setStatus_inv; [by apply setStatus_inv|].
  intros bo Hbo _. rewrite lookup_setStatus in Hbo.
  case_decide; [subst; congruence|]. status_live.
Qed.

(** ** The lifecycle as a transition system *)

(** One successful call of an endpoint, with whatever template and clock
    the collaborators supply at that moment. *)
Inductive step : Store → Store → Prop :=
| step_create env req id s s' : createBooking env req s = Ok (id, s') → step s s'
| step_accept id s s' : acceptBooking id s = Ok s' → step s s'
| step_cancel id actor s s' : cancelBooking id actor s = Ok s' → step s s'
| step_request env id req nid s s' : requestReschedule env id req s = Ok (nid, s') → step s s'
| step_approve nid s s' : approveReschedule nid s = Ok s' → step s s'
| step_reject nid s s' : rejectReschedule nid s = Ok s' → step s s'.

Definition reachable (s : Store) : Prop := star step initStore s.

Lemma step_storeInv s s' : storeInv s → step s s' → storeInv s'.
Proof.
  intros Hinv Hstep. destruct Hstep; eauto using createBooking_inv, acceptBooking_inv, cancelBooking_inv,
    requestReschedule_inv, approveReschedule_inv, rejectReschedule_inv.
Qed.

Lemma reachable_storeInv s : reachable s → storeInv s.
Proof. apply star_invariant; [apply step_storeInv | apply initStore_inv]. Qed.

(** ** Lemmas on single operations *)

Lemma withStatus_status st b : b_status (withStatus st b) = st.
Proof. reflexivity. Qed.

Lemma withStatus_id b : withStatus (b_status b) b = b.
Proof. by destruct b. Qed.

Lemma withStatus_twice st1 st2 b : withStatus st1 (withStatus st2 b) = withStatus st1 b.
Proof. reflexivity. Qed.

#[export] Hint Rewrite withStatus_status withStatus_twice : tutorlink_rw.

Lemma resolve_pending_unavailable en sts past :
  Pending ∈ sts → resolve en sts past ≠ available.
Proof. intros Hp. unfold resolve. destruct en; simpl; repeat case_bool_decide; done. Qed.

Lemma createBooking_Ok env req s id s' :
  createBooking env req s = Ok (id, s') →
  validRequest req = true ∧
  slotStatusAt env s (req_tutorId req) (req_date req) = available ∧
  id = nextId s ∧ s' = mkStore (<[id := newBooking req Pending None]> (bookings s)) (S id).
Proof. intros H. unfold createBooking in H. inv_booking. by simplify_eq. Qed.

Lemma requestReschedule_Ok env id req s nid s' :
  requestReschedule env id req s = Ok (nid, s') →
  ∃ orig, bookings s !! id = Some orig ∧ b_status orig = Confirmed ∧
    nid = nextId s ∧
    s' = mkStore (<[nid := newBooking req OnHold (Some id)]>
                    (alter (withStatus RescheduleRequested) id (bookings s))) (S nid).
Proof. intros H. unfold requestReschedule in H. inv_booking. simplify_eq. eauto 10. Qed.

Lemma lookup_setStatus_eq s id st :
  bookings (setStatus id st s) !! id = withStatus st <$> bookings s !! id.
Proof. rewrite lookup_setStatus. by rewrite decide_True. Qed.

Lemma lookup_setStatus_ne s id st i :
  id ≠ i → bookings (setStatus id st s) !! i = bookings s !! i.
Proof. intros Hne. rewrite lookup_setStatus. by rewrite decide_False. Qed.

#[export] Hint Rewrite lookup_setStatus_eq : tutorlink_rw.

(** [accept] on a pending booking confirms it. *)
Lemma acceptBooking_pending id s b :
  bookings s !! id = Some b → b_status b = Pending →
  acceptBooking id s = Ok (setStatus id Confirmed s).
Proof.
  intros Hb Hst. unfold acceptBooking, lookupBooking. rewrite Hb. simpl.
  by rewrite bool_decide_eq_true_2.
Qed.

(** [cancel] by a party to the booking, from pending or confirmed. *)
Lemma cancelBooking_party id actor s b :
  bookings s !! id = Some b → b_status b = Pending ∨ b_status b = Confirmed →
  actor = b_tutorId b ∨ actor = b_studentId b →
  cancelBooking id actor s = Ok (setStatus id Cancelled s).
Proof.
  intros Hb Hst Hactor. unfold cancelBooking, lookupBooking. rewrite Hb. simpl.
  rewrite bool_decide_eq_true_2 by done. simpl.
  destruct Hactor as [-> | ->]; rewrite String.eqb_refl; [done|].
  by rewrite orb_true_r.
Qed.

(** ** Properties of the lifecycle *)

(** C1: Every reachable store holds at most one live booking (pending,
    confirmed, on hold or reschedule requested) per tutor and date; in
    particular at most one in pending, confirmed or on hold, the
    invariant of section 3 of the specification. *)
Theorem reachable_one_live_per_slot s i j bi bj :
  reachable s →
  bookings s !! i = Some bi → bookings s !! j = Some bj →
  b_tutorId bi = b_tutorId bj → b_date bi = b_date bj →
  b_status bi ≠ Cancelled → b_status bj ≠ Cancelled → i = j.
Proof.
  intros Hr Hi Hj Ht Hd Hsi Hsj. destruct (reachable_storeInv s Hr) as [Hone _].
  apply (Hone i j bi bj); try done; by apply isLive_not_cancelled.
Qed.

(** C5: A request for a slot that a live booking holds fails with
    [SlotUnavailable]: of two requests for the same tutor and date, the
    second one sees the first one's pending booking. *)
Theorem create_twice_slot_unavailable env req req' s id s1 :
  createBooking env req s = Ok (id, s1) →
  validRequest req' = true →
  req_tutorId req' = req_tutorId req → req_date req' = req_date req →
  createBooking env req' s1 = Err SlotUnavailable.
Proof.
  intros Hc Hv Ht Hd. apply createBooking_Ok in Hc as (_ & _ & -> & ->).
  unfold createBooking. rewrite Hv. simpl.
  rewrite bool_decide_eq_false_2; [done|].
  unfold slotStatusAt. rewrite Ht, Hd.
  destruct (parseIsoDate (req_date req)); [|done].
  apply resolve_pending_unavailable, list_elem_of_In, elem_of_statusesAt.
  exists (nextId s), (newBooking req Pending None).
  split_and!; [apply lookup_insert_eq | done..].
Qed.

(** C8: From a new booking, [accept] then [cancel], or [cancel] alone, by
    either party, ends [cancelled] (section 8 of the specification). *)
Theorem create_accept_cancel env req s id s1 actor :
  createBooking env req s = Ok (id, s1) →
  actor = req_tutorId req ∨ actor = req_studentId req →
  (∃ s2 s3, acceptBooking id s1 = Ok s2 ∧ cancelBooking id actor s2 = Ok s3 ∧
     b_status <$> bookings s3 !! id = Some Cancelled) ∧
  (∃ s2, cancelBooking id actor s1 = Ok s2 ∧
     b_status <$> bookings s2 !! id = Some Cancelled).
Proof.
  intros Hc Hactor. apply createBooking_Ok in Hc as (_ & _ & -> & ->).
  set (s1 := mkStore _ _).
  assert (Hb : bookings s1 !! nextId s = Some (newBooking req Pending None))
    by apply lookup_insert_eq.
  split.
  - set (b1 := withStatus Confirmed (newBooking req Pending None)).
    exists (setStatus (nextId s) Confirmed s1),
      (setStatus (nextId s) Cancelled (setStatus (nextId s) Confirmed s1)).
    split; [by eapply acceptBooking_pending|].
    split; [apply (cancelBooking_party _ _ _ b1); [by rewrite lookup_setStatus_eq, Hb | by right | exact Hactor]|].
    by rewrite !lookup_setStatus_eq, Hb.
  - exists (setStatus (nextId s) Cancelled s1).
    split; [apply (cancelBooking_party _ _ _ _ Hb); [by left | exact Hactor]|].
    by rewrite lookup_setStatus_eq, Hb.
Qed.

(** C9: [accept] succeeds only on a pending booking: on a confirmed (or any
    other) booking it fails with [InvalidTransition], on an unknown id
    with [NotFound]. *)
Theorem acceptBooking_not_pending id s :
  match bookings s !! id with
  | Some b => b_status b ≠ Pending → acceptBooking id s = Err InvalidTransition
  | None => acceptBooking id s = Err NotFound
  end.
Proof.
  unfold acceptBooking, lookupBooking. destruct (bookings s !! id) as [b|]; [|done].
  intros Hne. simpl. by rewrite bool_decide_eq_false_2.
Qed.

Lemma originalOf_related nb s oid ob :
  b_related nb = Some oid → bookings s !! oid = Some ob → b_status ob = RescheduleRequested →
  originalOf nb s = Ok (oid, ob).
Proof.
  intros Hr Ho Hst. unfold originalOf, lookupBooking. rewrite Hr, Ho. simpl.
  by rewrite bool_decide_eq_true_2.
Qed.

Lemma approveReschedule_onHold nid s nb oid ob :
  bookings s !! nid = Some nb → b_status nb = OnHold →
  originalOf nb s = Ok (oid, ob) →
  approveReschedule nid s = Ok (setStatus oid Cancelled (setStatus nid Confirmed s)).
Proof.
  intros Hn Hst Ho. unfold approveReschedule, lookupBooking. rewrite Hn. simpl.
  rewrite bool_decide_eq_true_2 by done. simpl. by rewrite Ho.
Qed.

Lemma rejectReschedule_onHold nid s nb oid ob :
  bookings s !! nid = Some nb → b_status nb = OnHold →
  originalOf nb s = Ok (oid, ob) →
  rejectReschedule nid s = Ok (setStatus oid Confirmed (setStatus nid Cancelled s)).
Proof.
  intros Hn Hst Ho. unfold rejectReschedule, lookupBooking. rewrite Hn. simpl.
  rewrite bool_decide_eq_true_2 by done. simpl. by rewrite Ho.
Qed.

(** The store right after a reschedule request: the request is on hold
    at the fresh id and points to the original, now frozen. *)
Section AfterRequest.
Variables (env : Env) (id : nat) (req : BookingRequest) (s : Store) (nid : nat) (s1 : Store).
Hypothesis Hinv : storeInv s.
Hypothesis Hreq : requestReschedule env id req s = Ok (nid, s1).

Lemma after_request :
  ∃ orig, bookings s !! id = Some orig ∧ b_status orig = Confirmed ∧ id ≠ nid ∧
    bookings s1 !! nid = Some (newBooking req OnHold (Some id)) ∧
    bookings s1 !! id = Some (withStatus RescheduleRequested orig) ∧
    (∀ k, k ≠ id → k ≠ nid → bookings s1 !! k = bookings s !! k) ∧
    originalOf (newBooking req OnHold (Some id)) s1 = Ok (id, withStatus RescheduleRequested orig).
Proof.
  destruct (requestReschedule_Ok _ _ _ _ _ _ Hreq) as (orig & Ho & Hc & -> & ->).
  assert (id ≠ nextId s) as Hne.
  { destruct Hinv as [_ Hids]. specialize (Hids id ltac:(by rewrite Ho)). lia. }
  assert (Hid : bookings (mkStore (<[nextId s := newBooking req OnHold (Some id)]>
            (alter (withStatus RescheduleRequested) id (bookings s))) (S (nextId s))) !! id =
            Some (withStatus RescheduleRequested orig)).
  { simpl. rewrite lookup_insert_ne by done. by rewrite lookup_alter, decide_True, Ho. }
  exists orig. split_and!; try done.
  - apply lookup_insert_eq.
  - intros k Hk1 Hk2. simpl. rewrite lookup_insert_ne by done.
    by rewrite lookup_alter_ne.
  - by apply originalOf_related.
Qed.
End AfterRequest.

(** C7: A reschedule request followed by its approval leaves the new slot
    confirmed, the original cancelled, and every other booking as it
    was (section 8 of the specification). *)
Theorem reschedule_then_approve env id req s nid s1 :
  storeInv s → requestReschedule env id req s = Ok (nid, s1) →
  ∃ s2, approveReschedule nid s1 = Ok s2 ∧
    bookings s2 !! nid = Some (newBooking req Confirmed (Some id)) ∧
    b_status <$> bookings s2 !! id = Some Cancelled ∧
    (∀ k, k ≠ id → k ≠ nid → bookings s2 !! k = bookings s !! k).
Proof.
  intros Hinv Hreq.
  destruct (after_request env id req s nid s1 Hinv Hreq)
    as (orig & Ho & Hc & Hne & Hn1 & Hid1 & Hrest & Horig).
  eexists. split; [by eapply approveReschedule_onHold|]. split_and!.
  - by rewrite lookup_setStatus_ne, lookup_setStatus_eq, Hn1.
  - by rewrite lookup_setStatus_eq, lookup_setStatus_ne, Hid1 by done.
  - intros k Hk1 Hk2. rewrite !lookup_setStatus_ne by done. by apply Hrest.
Qed.

(** C6: A reschedule request followed by its rejection restores the original
    booking exactly and leaves the request as a cancelled record
    (section 8 of the specification). *)
Theorem reschedule_then_reject env id req s nid s1 :
  storeInv s → requestReschedule env id req s = Ok (nid, s1) →
  ∃ s2, rejectReschedule nid s1 = Ok s2 ∧
    bookings s2 = <[nid := newBooking req Cancelled (Some id)]> (bookings s).
Proof.
  intros Hinv Hreq.
  destruct (after_request env id req s nid s1 Hinv Hreq)
    as (orig & Ho & Hc & Hne & Hn1 & Hid1 & Hrest & Horig).
  eexists. split; [by eapply rejectReschedule_onHold|].
  apply map_eq. intros k.
  destruct (decide (k = nid)) as [->|Hk1]; [|destruct (decide (k = id)) as [->|Hk2]].
  - rewrite lookup_insert_eq, lookup_setStatus_ne, lookup_setStatus_eq, Hn1 by done. done.
  - rewrite lookup_insert_ne, lookup_setStatus_eq, lookup_setStatus_ne, Hid1, Ho by done.
    change (Some (withStatus Confirmed (withStatus RescheduleRequested orig)) = Some orig).
    by rewrite withStatus_twice, <- Hc, withStatus_id.
  - rewrite lookup_insert_ne, !lookup_setStatus_ne by done. by apply Hrest.
Qed.

(** ** A concrete lifecycle

    Tutor [t1] teaches on Mondays and Tuesdays, 10:00 to 11:00; today
    is Sunday 9 November 2025.  Student [s1] books Monday the 10th, the
    tutor accepts, and the student asks to move the lesson to Tuesday
    the 11th. *)
Definition exEnv : Env :=
  mkEnv {[ "t1" := {[ "Mon" := mkTimeSlot true "10:00" "11:00";
                      "Tue" := mkTimeSlot true "10:00" "11:00" ]} ]}
        (mkJsDate 2025 10 9).

Definition exReq (date : string) : BookingRequest :=
  mkBookingRequest "t1" "s1" "Tutor" "Student" date "10:00" "11:00" "Beginner Lesson" (Some 50%Q).

Definition exStore1 : Store := mkStore {[0%nat := newBooking (exReq "2025-11-10") Pending None]} 1.

Definition exStore2 : Store := setStatus 0 Confirmed exStore1.

Definition exStore3 : Store :=
  mkStore (<[1%nat := newBooking (exReq "2025-11-11") OnHold (Some 0%nat)]>
             (bookings (setStatus 0 RescheduleRequested exStore2))) 2.

Lemma exStore1_create : createBooking exEnv (exReq "2025-11-10") initStore = Ok (0%nat, exStore1).
Proof. vm_compute. reflexivity. Qed.

Lemma exStore3_request :
  requestReschedule exEnv 0 (exReq "2025-11-11") exStore2 = Ok (1%nat, exStore3).
Proof. vm_compute. reflexivity. Qed.

Lemma exStore1_reachable : reachable exStore1.
Proof. apply star_one. eapply step_create. apply exStore1_create. Qed.

Lemma exStore2_reachable : reachable exStore2.
Proof.
  apply (star_right step initStore exStore1); [apply exStore1_reachable|].
  apply (step_accept 0). vm_compute. reflexivity.
Qed.

Lemma exStore3_reachable : reachable exStore3.
Proof.
  apply (star_right step initStore exStore2); [apply exStore2_reachable|].
  eapply step_request. apply exStore3_request.
Qed.

(** ** Witnesses *)

Lemma reachable_one_live_per_slot_witness : (1 = 1)%nat.
Proof.
  apply (reachable_one_live_per_slot exStore3 1 1
    (newBooking (exReq "2025-11-11") OnHold (Some 0%nat))
    (newBooking (exReq "2025-11-11") OnHold (Some 0%nat))
    exStore3_reachable); try reflexivity; discriminate.
Defined.

Lemma create_twice_slot_unavailable_witness :
  createBooking exEnv (exReq "2025-11-10") exStore1 = Err SlotUnavailable.
Proof.
  apply (create_twice_slot_unavailable exEnv (exReq "2025-11-10") _ initStore 0 exStore1
    exStore1_create); reflexivity.
Defined.

Lemma create_accept_cancel_witness :
  (∃ s2 s3, acceptBooking 0 exStore1 = Ok s2 ∧ cancelBooking 0 "s1" s2 = Ok s3 ∧
     b_status <$> bookings s3 !! 0%nat = Some Cancelled) ∧
  (∃ s2, cancelBooking 0 "s1" exStore1 = Ok s2 ∧ b_status <$> bookings s2 !! 0%nat = Some Cancelled).
Proof.
  apply (create_accept_cancel exEnv (exReq "2025-11-10") initStore 0 exStore1 "s1" exStore1_create).
  by right.
Defined.

Lemma acceptBooking_not_pending_witness : acceptBooking 0 exStore2 = Err InvalidTransition.
Proof. exact (acceptBooking_not_pending 0 exStore2 ltac:(discriminate)). Defined.

Lemma reschedule_then_approve_witness :
  ∃ s2, approveReschedule 1 exStore3 = Ok s2 ∧
    bookings s2 !! 1%nat = Some (newBooking (exReq "2025-11-11") Confirmed (Some 0%nat)) ∧
    b_status <$> bookings s2 !! 0%nat = Some Cancelled ∧
    (∀ k, k ≠ 0%nat → k ≠ 1%nat → bookings s2 !! k = bookings exStore2 !! k).
Proof.
  exact (reschedule_then_approve exEnv 0 (exReq "2025-11-11") exStore2 1 exStore3
    (reachable_storeInv _ exStore2_reachable) exStore3_request).
Defined.

Lemma reschedule_then_reject_witness :
  ∃ s2, rejectReschedule 1 exStore3 = Ok s2 ∧
    bookings s2 = <[1%nat := newBooking (exReq "2025-11-11") Cancelled (Some 0%nat)]> (bookings exStore2).
Proof.
  exact (reschedule_then_reject exEnv 0 (exReq "2025-11-11") exStore2 1 exStore3
    (reachable_storeInv _ exStore2_reachable) exStore3_request).
Defined.
