(* ===== verification/Reschedule.v ===== *)
(** * Reschedule: reschedule requests stay paired with their originals

    A reschedule request ([RequestReschedule]) freezes the confirmed
    original as [reschedule_requested] and records the new slot as an
    [on_hold] booking that points back to it ([b_related]).  This file
    proves that every reachable store keeps the two paired: each on-hold
    request names a frozen original, no original has two requests, and
    each frozen original has its request.  So the tutor's [Approve] and
    [Reject] buttons of [TutorDashboard.tsx] always succeed on an
    on-hold booking, and no original stays frozen without a request. *)

From S2P Require Import Prelude Dates DateFormat BookingTypes Calendar Cost Booking.
From Stdlib Require Import QArith.

(** The statuses of a pending reschedule. *)
Definition rescheduling (st : BookingStatus) : bool :=
  match st with OnHold | RescheduleRequested => true | _ => false end.

Definition requestsPaired (m : gmap nat Booking) : Prop :=
  (∀ nid nb, m !! nid = Some nb → b_status nb = OnHold →
     ∃ oid ob, b_related nb = Some oid ∧ m !! oid = Some ob ∧
       b_status ob = RescheduleRequested) ∧
  (∀ n1 n2 nb1 nb2 oid, m !! n1 = Some nb1 → m !! n2 = Some nb2 →
     b_status nb1 = OnHold → b_status nb2 = OnHold →
     b_related nb1 = Some oid → b_related nb2 = Some oid → n1 = n2) ∧
  (∀ oid ob, m !! oid = Some ob → b_status ob = RescheduleRequested →
     ∃ nid nb, m !! nid = Some nb ∧ b_status nb = OnHold ∧ b_related nb = Some oid).

(** [status_contra]: close a goal whose hypotheses give one booking two
    statuses, or a status outside its known class. *)
Ltac status_contra :=
  simpl in *; simplify_map_eq; subst;
  repeat match goal with
  | H : b_status ?b = _, H' : context [b_status ?b] |- _ => rewrite H in H'
  end; simpl in *; try congruence.

(** [lookup_cases]: split the lookups of an altered or extended map into
    the updated key and the others, and close the cases whose statuses
    contradict each other. *)
Ltac lookup_cases :=
  repeat match goal with
  | H : alter _ _ _ !! _ = Some _ |- _ =>
      apply lookup_alter_Some in H as [(<- & ? & ? & ->) | (? & H)]
  | H : <[_ := _]> _ !! _ = Some _ |- _ =>
      apply lookup_insert_Some in H as [(<- & <-) | (? & H)]
  end;
  status_contra.

Lemma requestsPaired_empty : requestsPaired ∅.
Proof. split_and!; intros ?; by rewrite ?lookup_empty. Qed.

(** A status change outside the reschedule statuses keeps the pairing. *)
Lemma requestsPaired_alter_quiet m id b st :
  requestsPaired m → m !! id = Some b →
  rescheduling (b_status b) = false → rescheduling st = false →
  requestsPaired (alter (withStatus st) id m).
Proof.
  intros (H1 & H2 & H3) Hb Hq Hst. split_and!.
  - intros nid nb Hn Hon. lookup_cases.
    destruct (H1 nid nb Hn Hon) as (oid & ob & Hr & Ho & Hos).
    exists oid, ob. split_and!; [done| |done].
    rewrite lookup_alter_ne; [done|]. intros <-. status_contra.
  - intros n1 n2 nb1 nb2 oid Hn1 Hn2 Hs1 Hs2 Hr1 Hr2. lookup_cases. eauto.
  - intros oid ob Ho Hos. lookup_cases.
    destruct (H3 oid ob Ho Hos) as (nid & nb & Hn & Hns & Hr).
    exists nid, nb. split_and!; [|done|done].
    rewrite lookup_alter_ne; [done|]. intros <-. status_contra.
Qed.

(** A new booking outside the reschedule statuses at a fresh key keeps
    the pairing. *)
Lemma requestsPaired_insert_quiet m k b :
  requestsPaired m → m !! k = None → rescheduling (b_status b) = false →
  requestsPaired (<[k := b]> m).
Proof.
  intros (H1 & H2 & H3) Hk Hq. split_and!.
  - intros nid nb Hn Hon. lookup_cases.
    destruct (H1 nid nb Hn Hon) as (oid & ob & Hr & Ho & Hos).
    exists oid, ob. split_and!; [done| |done].
    rewrite lookup_insert_ne; [done|]. intros <-. status_contra.
  - intros n1 n2 nb1 nb2 oid Hn1 Hn2 Hs1 Hs2 Hr1 Hr2. lookup_cases. eauto.
  - intros oid ob Ho Hos. lookup_cases.
    destruct (H3 oid ob Ho Hos) as (nid & nb & Hn & Hns & Hr).
    exists nid, nb. split_and!; [|done|done].
    rewrite lookup_insert_ne; [done|]. intros <-. status_contra.
Qed.

(** A reschedule request freezes a confirmed original and adds its
    on-hold request at a fresh key. *)
Lemma requestsPaired_request m id orig nid req :
  requestsPaired m → m !! id = Some orig → b_status orig = Confirmed → m !! nid = None →
  requestsPaired (<[nid := newBooking req OnHold (Some id)]>
                    (alter (withStatus RescheduleRequested) id m)).
Proof.
  intros (H1 & H2 & H3) Ho Hc Hn. assert (id ≠ nid) by congruence. split_and!.
  - intros n nb Hnb Hon. lookup_cases.
    + exists id, (withStatus RescheduleRequested orig). split_and!; [done| |done].
      by rewrite lookup_insert_ne, lookup_alter_eq, Ho.
    + destruct (H1 n nb Hnb Hon) as (oid & ob & Hr & Hob & Hos).
      exists oid, ob. split_and!; [done| |done].
      rewrite lookup_insert_ne, lookup_alter_ne; [done|..]; intros <-; status_contra.
  - intros n1 n2 nb1 nb2 oid Hn1 Hn2 Hs1 Hs2 Hr1 Hr2. lookup_cases; [..|eauto];
      match goal with
      | Hk : m !! ?k = Some ?b, Hs : b_status ?b = OnHold |- _ =>
          destruct (H1 k b Hk Hs) as (? & ? & ? & ? & ?); status_contra
      end.
  - intros oid ob Hob Hos. lookup_cases.
    + exists nid, (newBooking req OnHold (Some id)). by rewrite lookup_insert_eq.
    + destruct (H3 oid ob Hob Hos) as (n & nb & Hnb & Hns & Hr).
      exists n, nb. split_and!; [|done|done].
      rewrite lookup_insert_ne, lookup_alter_ne; [done|..]; intros <-; status_contra.
Qed.

(** Approving or rejecting a request moves both the request and its
    original out of the reschedule statuses. *)
Lemma requestsPaired_resolve m nid nb oid ob st1 st2 :
  requestsPaired m → m !! nid = Some nb → b_status nb = OnHold → b_related nb = Some oid →
  m !! oid = Some ob → b_status ob = RescheduleRequested →
  rescheduling st1 = false → rescheduling st2 = false →
  requestsPaired (alter (withStatus st2) oid (alter (withStatus st1) nid m)).
Proof.
  intros (H1 & H2 & H3) Hn Hns Hr Ho Hos Hq1 Hq2.
  assert (nid ≠ oid) by (intros <-; status_contra). split_and!.
  - intros n nb' Hnb Hon. lookup_cases.
    destruct (H1 n nb' Hnb Hon) as (o & ob' & Hr' & Hob & Hos').
    assert (o ≠ oid) by (intros <-; assert (n = nid) by eauto; congruence).
    exists o, ob'. split_and!; [done| |done].
    rewrite !lookup_alter_ne; [done|..]; intros <-; status_contra.
  - intros n1 n2 nb1 nb2 o Hn1 Hn2 Hs1 Hs2 Hr1 Hr2. lookup_cases. eauto.
  - intros o ob' Hob Hos'. lookup_cases.
    destruct (H3 o ob' Hob Hos') as (n & nb' & Hnb & Hns' & Hr').
    exists n, nb'. split_and!; [|done|done].
    rewrite !lookup_alter_ne; [done|..]; intros <-; status_contra.
Qed.

Lemma storeInv_fresh s : storeInv s → bookings s !! nextId s = None.
Proof.
  intros [_ Hids]. destruct (bookings s !! nextId s) eqn:E; [|done].
  specialize (Hids (nextId s) ltac:(by rewrite E)). lia.
Qed.

Lemma step_requestsPaired s s' :
  storeInv s → requestsPaired (bookings s) → step s s' → requestsPaired (bookings s').
Proof.
  intros Hinv Hp Hstep. destruct Hstep as [env req id s s' H|id s s' H|id actor s s' H
    |env id req nid s s' H|nid s s' H|nid s s' H].
  - apply createBooking_Ok in H as (_ & _ & -> & ->).
    by apply requestsPaired_insert_quiet; [|apply storeInv_fresh|].
  - unfold acceptBooking in H. inv_booking. simplify_eq.
    eapply requestsPaired_alter_quiet; [done..| |done]. match goal with H : b_status _ = Pending |- _ => by rewrite H end.
  - unfold cancelBooking in H. inv_booking. simplify_eq.
    eapply requestsPaired_alter_quiet; [done..| |done].
    match goal with H : b_status _ = Pending ∨ _ |- _ => by destruct H as [-> | ->] end.
  - apply requestReschedule_Ok in H as (orig & Ho & Hc & -> & ->).
    by eapply requestsPaired_request; [..|apply storeInv_fresh].
  - unfold approveReschedule in H. inv_booking. simplify_eq.
    by eapply requestsPaired_resolve.
  - unfold rejectReschedule in H. inv_booking. simplify_eq.
    by eapply requestsPaired_resolve.
Qed.

Lemma reachable_requestsPaired s : reachable s → storeInv s ∧ requestsPaired (bookings s).
Proof.
  apply (star_invariant _ (λ s, storeInv s ∧ requestsPaired (bookings s))).
  { intros s1 s2 [Hinv Hp] Hstep. split; [by eapply step_storeInv|by eapply step_requestsPaired]. }
  split; [apply initStore_inv | apply requestsPaired_empty].
Qed.

(** ** The tutor's decision on a request *)

Lemma paired_onHold_resolvable s nid nb :
  requestsPaired (bookings s) → bookings s !! nid = Some nb → b_status nb = OnHold →
  ∃ oid, b_related nb = Some oid ∧
    approveReschedule nid s = Ok (setStatus oid Cancelled (setStatus nid Confirmed s)) ∧
    rejectReschedule nid s = Ok (setStatus oid Confirmed (setStatus nid Cancelled s)).
Proof.
  intros (H1 & _ & _) Hn Hon.
  destruct (H1 nid nb Hn Hon) as (oid & ob & Hrel & Ho & Hos).
  pose proof (originalOf_related nb s oid ob Hrel Ho Hos) as Horig.
  exists oid. split_and!; [done | by eapply approveReschedule_onHold | by eapply rejectReschedule_onHold].
Qed.

(** C3: On every reachable store, an on-hold request can be both approved
    and rejected: each names its frozen original, approval cancels the
    original and confirms the request, rejection does the converse. *)
Theorem reachable_onHold_resolvable s nid nb :
  reachable s → bookings s !! nid = Some nb → b_status nb = OnHold →
  ∃ oid, b_related nb = Some oid ∧
    approveReschedule nid s = Ok (setStatus oid Cancelled (setStatus nid Confirmed s)) ∧
    rejectReschedule nid s = Ok (setStatus oid Confirmed (setStatus nid Cancelled s)).
Proof. intros Hr. apply paired_onHold_resolvable, reachable_requestsPaired, Hr. Qed.

(** C4: On every reachable store, a booking frozen as [reschedule_requested]
    has exactly one on-hold request pointing to it. *)
Theorem reachable_frozen_has_request s oid ob :
  reachable s → bookings s !! oid = Some ob → b_status ob = RescheduleRequested →
  ∃ nid nb, bookings s !! nid = Some nb ∧ b_status nb = OnHold ∧ b_related nb = Some oid ∧
    ∀ n nb', bookings s !! n = Some nb' → b_status nb' = OnHold → b_related nb' = Some oid → n = nid.
Proof.
  intros Hr Ho Hos. destruct (reachable_requestsPaired s Hr) as (_ & _ & H2 & H3).
  destruct (H3 oid ob Ho Hos) as (nid & nb & Hn & Hns & Hrel).
  exists nid, nb. split_and!; [done..|]. intros n nb' Hn' Hs' Hr'. by eapply H2.
Qed.

Lemma reachable_onHold_resolvable_witness :
  ∃ oid, b_related (newBooking (exReq "2025-11-11") OnHold (Some 0%nat)) = Some oid ∧
    approveReschedule 1 exStore3 = Ok (setStatus oid Cancelled (setStatus 1 Confirmed exStore3)) ∧
    rejectReschedule 1 exStore3 = Ok (setStatus oid Confirmed (setStatus 1 Cancelled exStore3)).
Proof.
  apply (reachable_onHold_resolvable exStore3 1 _ exStore3_reachable); reflexivity.
Defined.

Lemma reachable_frozen_has_request_witness :
  ∃ nid nb, bookings exStore3 !! nid = Some nb ∧ b_status nb = OnHold ∧ b_related nb = Some 0%nat ∧
    ∀ n nb', bookings exStore3 !! n = Some nb' → b_status nb' = OnHold →
      b_related nb' = Some 0%nat → n = nid.
Proof.
  apply (reachable_frozen_has_request exStore3 0
    (withStatus RescheduleRequested (withStatus Confirmed (newBooking (exReq "2025-11-10") Pending None)))
    exStore3_reachable); reflexivity.
Defined.
