(* ===== verification/Api.v ===== *)
(** * Api: the bookings API as the pages see it

    [api/bookingAPI.ts] is a thin client: each export sends one HTTP
    request and returns the server's answer.  The pages only rely on
    what those answers promise, so the API is an interface here: the
    class [BookingApi] has one operation per export the pages call
    (a failing request is an [Err], reads included, and a
    state-changing one returns the new server state), and
    [BookingApiLaws] states what the server promises about the records
    it serves: what a read returns when it succeeds, what a write
    changes.  Whether a request fails (network, server error) is left to
    the implementation, so every page theorem covers the [catch]
    branches.  The page models of [Dashboard] and
    [Student] are proved against the class; [Backend] shows that the
    booking engine of [Booking] implements it. *)

From S2P Require Import Prelude Dates DateFormat BookingTypes.

(** A row with another status: [{ ...b, status: st }]. *)
Definition withRespStatus (st : string) (b : BookingResponse) : BookingResponse :=
  mkBookingResponse (resp_id b) (resp_tutorId b) (resp_studentId b) (resp_tutorName b)
    (resp_studentName b) (resp_date b) (resp_start b) (resp_end b) st (resp_lessonType b).

(** The optimistic update of [TutorDashboard.confirmBooking]:
    [b.id === bookingId ? { ...b, status: st } : b]. *)
Definition patchStatus (bookingId : nat) (st : string) (b : BookingResponse) : BookingResponse :=
  if Nat.eqb (resp_id b) bookingId then withRespStatus st b else b.

(** The record a successful [CreateBooking] adds, as the reads return it. *)
Definition requestRow (id : nat) (req : BookingRequest) : BookingResponse :=
  mkBookingResponse id (req_tutorId req) (req_studentId req) (req_tutorName req)
    (req_studentName req) (req_date req) (req_start req) (req_end req) "pending"
    (req_lessonType req).

(** [GetBookingsForTutorRange(tutorId, startDate, endDate)] selects the
    tutor's bookings dated from [startDate] to [endDate] inclusive. *)
Definition inRange (tutorId startDate endDate : string) (b : BookingResponse) : bool :=
  String.eqb (resp_tutorId b) tutorId &&
  match parseIsoDate startDate, parseIsoDate endDate, parseIsoDate (resp_date b) with
  | Some lo, Some hi, Some d => negb (dateLtb d lo) && negb (dateLtb hi d)
  | _, _, _ => false
  end.

Class BookingApi (S : Type) := {
  api_records : S → list BookingResponse;
  api_range : string → string → string → S → result unit (list BookingResponse);
  api_recent : string → S → result unit (list BookingResponse);
  api_past : string → S → result unit (list BookingResponse);
  api_student : string → S → result unit (list BookingResponse);
  api_create : BookingRequest → S → result BookingError (nat * S);
  api_accept : nat → S → result BookingError S;
  api_cancel : nat → string → S → result BookingError S;
  api_approve : nat → S → result BookingError S;
  api_reject : nat → S → result BookingError S;
  api_reschedule : nat → BookingRequest → S → result BookingError S
}.

(** What the server promises.  [api_wf] is the server's own invariant
    (for the engine of [Booking]: the store is reachable). *)
Class BookingApiLaws (S : Type) `{!BookingApi S} := {
  api_wf : S → Prop;
  (** Every record has its own id. *)
  api_ids_nodup s : NoDup (resp_id <$> api_records s);
  (** A range read that succeeds returns the tutor's records in the range. *)
  api_range_spec t lo hi s l : api_range t lo hi s = Ok l → l ≡ₚ List.filter (inRange t lo hi) (api_records s);
  (** A student read that succeeds returns the student's records. *)
  api_student_spec st s l :
    api_student st s = Ok l → l ≡ₚ List.filter (λ r, String.eqb (resp_studentId r) st) (api_records s);
  (** A successful create adds one pending record. *)
  api_create_ok req s id s' :
    api_wf s → api_create req s = Ok (id, s') → api_records s' ≡ₚ requestRow id req :: api_records s;
  (** A successful accept confirms the booking; cancel cancels it. *)
  api_accept_ok id s s' :
    api_accept id s = Ok s' → api_records s' ≡ₚ patchStatus id "confirmed" <$> api_records s;
  api_cancel_ok id actor s s' :
    api_cancel id actor s = Ok s' → api_records s' ≡ₚ patchStatus id "cancelled" <$> api_records s;
  (** Approve and reject settle the request and its original. *)
  api_approve_ok nid s s' :
    api_approve nid s = Ok s' → ∃ oid,
      api_records s' ≡ₚ patchStatus oid "cancelled" <$> (patchStatus nid "confirmed" <$> api_records s);
  api_reject_ok nid s s' :
    api_reject nid s = Ok s' → ∃ oid,
      api_records s' ≡ₚ patchStatus oid "confirmed" <$> (patchStatus nid "cancelled" <$> api_records s);
  (** A successful reschedule request freezes the original and adds the
      request on hold. *)
  api_reschedule_ok id req s s' :
    api_wf s → api_reschedule id req s = Ok s' → ∃ nid,
      api_records s' ≡ₚ withRespStatus "on_hold" (requestRow nid req) ::
                         (patchStatus id "reschedule_requested" <$> api_records s);
  (** When the calls succeed. *)
  api_accept_pending s r :
    r ∈ api_records s → resp_status r = "pending" → ∃ s', api_accept (resp_id r) s = Ok s';
  api_cancel_party s r actor :
    r ∈ api_records s → resp_status r = "pending" ∨ resp_status r = "confirmed" →
    actor = resp_tutorId r ∨ actor = resp_studentId r →
    ∃ s', api_cancel (resp_id r) actor s = Ok s';
  api_onHold_resolvable s r :
    api_wf s → r ∈ api_records s → resp_status r = "on_hold" →
    (∃ s', api_approve (resp_id r) s = Ok s') ∧ (∃ s', api_reject (resp_id r) s = Ok s');
  (** One live booking per tutor and date. *)
  api_one_live s r1 r2 :
    api_wf s → r1 ∈ api_records s → r2 ∈ api_records s →
    resp_tutorId r1 = resp_tutorId r2 → resp_date r1 = resp_date r2 →
    resp_status r1 ≠ "cancelled" → resp_status r2 ≠ "cancelled" → r1 = r2
}.

(** ** What the pages derive from the laws *)

Lemma inRange_patchStatus t lo hi id st b :
  inRange t lo hi (patchStatus id st b) = inRange t lo hi b.
Proof. unfold patchStatus. by destruct (Nat.eqb _ _). Qed.

Lemma filter_patchStatus t lo hi id st (l : list BookingResponse) :
  List.filter (inRange t lo hi) (patchStatus id st <$> l) =
  patchStatus id st <$> List.filter (inRange t lo hi) l.
Proof.
  induction l as [|b l IH]; [done|]. rewrite fmap_cons. cbn [List.filter].
  rewrite inRange_patchStatus. destruct (inRange t lo hi b); [rewrite fmap_cons|]; by rewrite IH.
Qed.

Lemma elem_of_filter_inRange r t lo hi (l : list BookingResponse) :
  r ∈ List.filter (inRange t lo hi) l ↔ r ∈ l ∧ inRange t lo hi r = true.
Proof. rewrite !list_elem_of_In. apply filter_In. Qed.

Section Derived.
Context {S : Type} `{!BookingApi S, !BookingApiLaws S}.

(** What a successful range or student read returns, up to order. *)
Definition rangeOf (t lo hi : string) (s : S) : list BookingResponse :=
  List.filter (inRange t lo hi) (api_records s).
Definition studentOf (st : string) (s : S) : list BookingResponse :=
  List.filter (λ r, String.eqb (resp_studentId r) st) (api_records s).

Lemma api_range_ok t lo hi s l : api_range t lo hi s = Ok l → l ≡ₚ rangeOf t lo hi s.
Proof. apply api_range_spec. Qed.

Lemma api_student_ok st s l : api_student st s = Ok l → l ≡ₚ studentOf st s.
Proof. apply api_student_spec. Qed.

(** A change of status in the records shows in every range. *)
Lemma rangeOf_patch s s' id st t lo hi :
  api_records s' ≡ₚ patchStatus id st <$> api_records s →
  rangeOf t lo hi s' ≡ₚ patchStatus id st <$> rangeOf t lo hi s.
Proof. intros Hs. unfold rangeOf. by rewrite Hs, filter_patchStatus. Qed.

Lemma elem_of_rangeOf r t lo hi s :
  r ∈ rangeOf t lo hi s ↔ r ∈ api_records s ∧ inRange t lo hi r = true.
Proof. apply elem_of_filter_inRange. Qed.

(** A successful create shows in every range that covers it. *)
Lemma rangeOf_create s s' req id t lo hi :
  api_wf s → api_create req s = Ok (id, s') → inRange t lo hi (requestRow id req) = true →
  rangeOf t lo hi s' ≡ₚ requestRow id req :: rangeOf t lo hi s.
Proof.
  intros Hwf Hc Hin. unfold rangeOf. rewrite (api_create_ok req s id s' Hwf Hc).
  simpl. by rewrite Hin.
Qed.

Lemma elem_of_studentOf r st s :
  r ∈ studentOf st s ↔ r ∈ api_records s ∧ resp_studentId r = st.
Proof. unfold studentOf. by rewrite !list_elem_of_In, filter_In, String.eqb_eq. Qed.

Lemma api_records_id_inj s r1 r2 :
  r1 ∈ api_records s → r2 ∈ api_records s → resp_id r1 = resp_id r2 → r1 = r2.
Proof. apply NoDup_fmap_elem_inj, api_ids_nodup. Qed.
End Derived.
