(* ===== verification/Backend.v ===== *)
(** * Backend: the booking engine implements the bookings API

    The instance of [Api.BookingApi] on the engine's [Store] of
    [Booking], for one [Env] (templates and clock): the reads return the
    store's records as [BookingResponse]s and never fail, the writes are the engine's
    operations.  [BookingApiLaws] holds with [api_wf] the reachable
    stores, so every theorem proved of the pages against the interface
    holds of the pages talking to this engine. *)

From S2P Require Import Prelude Dates DateFormat BookingTypes Calendar Cost Booking Reschedule Api.
From Stdlib Require Import QArith.

(** A record as the reads return it. *)
Definition toResponse (i : nat) (b : Booking) : BookingResponse :=
  mkBookingResponse i (b_tutorId b) (b_studentId b) (b_tutorName b) (b_studentName b)
    (b_date b) (b_start b) (b_end b) (statusToString (b_status b)) (b_lessonType b).

Definition storeRecords (s : Store) : list BookingResponse :=
  (λ p, toResponse p.1 p.2) <$> map_to_list (bookings s).

(** The upcoming and past reads: the tutor's bookings not before, and
    before, today. *)
Definition tutorRecordsWhen (env : Env) (upcoming : bool) (t : string) (s : Store) : list BookingResponse :=
  List.filter (λ r, String.eqb (resp_tutorId r) t &&
                    match parseIsoDate (resp_date r) with
                    | Some d => Bool.eqb upcoming (negb (isPastDate (clock env) d))
                    | None => false
                    end) (storeRecords s).

Definition engineApi (env : Env) : BookingApi Store := {|
  api_records := storeRecords;
  api_range t lo hi s := Ok (List.filter (inRange t lo hi) (storeRecords s));
  api_recent t s := Ok (tutorRecordsWhen env true t s);
  api_past t s := Ok (tutorRecordsWhen env false t s);
  api_student st s := Ok (List.filter (λ r, String.eqb (resp_studentId r) st) (storeRecords s));
  api_create req s := createBooking env req s;
  api_accept := acceptBooking;
  api_cancel := cancelBooking;
  api_approve := approveReschedule;
  api_reject := rejectReschedule;
  api_reschedule id req s :=
    match requestReschedule env id req s with Ok (_, s') => Ok s' | Err e => Err e end
|}.

Lemma elem_of_storeRecords r s :
  r ∈ storeRecords s ↔ ∃ i b, bookings s !! i = Some b ∧ r = toResponse i b.
Proof.
  unfold storeRecords. rewrite list_elem_of_fmap. split.
  - intros ([i b] & -> & Hin). apply elem_of_map_to_list in Hin. eauto.
  - intros (i & b & Hb & ->). exists (i, b). split; [done|]. by apply elem_of_map_to_list.
Qed.

Lemma patchStatus_toResponse i b st :
  patchStatus i (statusToString st) (toResponse i b) = toResponse i (withStatus st b).
Proof. unfold patchStatus. simpl. by rewrite Nat.eqb_refl. Qed.

(** Patching an id that no entry has changes nothing. *)
Lemma patchStatus_absent (l : list (nat * Booking)) id st :
  (∀ p, p ∈ l → p.1 ≠ id) →
  patchStatus id st <$> ((λ p, toResponse p.1 p.2) <$> l) = (λ p, toResponse p.1 p.2) <$> l.
Proof.
  intros Hl. rewrite <- list_fmap_compose. apply list_fmap_ext.
  intros k [i b] Hk. apply list_elem_of_lookup_2, Hl in Hk. simpl in Hk.
  unfold compose, patchStatus. simpl. by rewrite (proj2 (Nat.eqb_neq i id) Hk).
Qed.

Lemma storeRecords_setStatus s id st :
  storeRecords (setStatus id st s) ≡ₚ patchStatus id (statusToString st) <$> storeRecords s.
Proof.
  unfold storeRecords, setStatus. simpl. destruct (bookings s !! id) as [b|] eqn:Hb.
  - rewrite (alter_alt_Some _ _ _ b Hb), <- insert_delete_eq.
    rewrite map_to_list_insert by apply lookup_delete_eq.
    rewrite <- (map_to_list_delete _ _ _ Hb). simpl.
    rewrite patchStatus_toResponse, patchStatus_absent; [done|].
    intros [i b'] Hin Heq. simpl in Heq. subst i.
    apply elem_of_map_to_list in Hin. by rewrite lookup_delete_eq in Hin.
  - rewrite alter_alt, Hb, patchStatus_absent; [done|].
    intros [i b'] Hin Heq. simpl in Heq. subst i.
    apply elem_of_map_to_list in Hin. congruence.
Qed.

Lemma storeRecords_insert_fresh s k b :
  bookings s !! k = None →
  storeRecords (mkStore (<[k := b]> (bookings s)) (S k)) ≡ₚ toResponse k b :: storeRecords s.
Proof. intros Hk. unfold storeRecords. simpl. by rewrite map_to_list_insert. Qed.

Lemma toResponse_status i b st :
  resp_status (toResponse i b) = statusToString st → b_status b = st.
Proof. apply statusToString_inj. Qed.

Definition engineApiLaws (env : Env) : @BookingApiLaws Store (engineApi env).
Proof.
  refine {| api_wf := reachable |}; simpl.
  - intros s. unfold storeRecords. rewrite <- list_fmap_compose.
    erewrite list_fmap_ext; [apply NoDup_fst_map_to_list|]. by intros ? [].
  - by intros t lo hi s l [= ->].
  - by intros st s l [= ->].
  - intros req s id s' Hr Hc. apply createBooking_Ok in Hc as (_ & _ & -> & ->).
    rewrite storeRecords_insert_fresh; [done|].
    apply storeInv_fresh, reachable_storeInv, Hr.
  - intros id s s' H. unfold acceptBooking in H. inv_booking. simplify_eq.
    apply storeRecords_setStatus.
  - intros id actor s s' H. unfold cancelBooking in H. inv_booking. simplify_eq.
    apply storeRecords_setStatus.
  - intros nid s s' H. unfold approveReschedule in H. inv_booking. simplify_eq.
    eexists. by rewrite !storeRecords_setStatus.
  - intros nid s s' H. unfold rejectReschedule in H. inv_booking. simplify_eq.
    eexists. by rewrite !storeRecords_setStatus.
  - intros id req s s' Hr H. destruct (requestReschedule env id req s) as [[nid s'']|] eqn:Hq; [|done].
    injection H as <-. apply requestReschedule_Ok in Hq as (orig & Ho & _ & -> & ->).
    exists (nextId s). pose proof (storeInv_fresh s (reachable_storeInv s Hr)) as Hf.
    rewrite (storeRecords_insert_fresh (setStatus id RescheduleRequested s)) by (simpl; by rewrite lookup_alter_None).
    by rewrite storeRecords_setStatus.
  - intros s r Hr Hst. apply elem_of_storeRecords in Hr as (i & b & Hb & ->).
    eexists. apply (acceptBooking_pending _ _ b Hb). by apply (toResponse_status i).
  - intros s r actor Hr Hst Hact. apply elem_of_storeRecords in Hr as (i & b & Hb & ->).
    eexists. apply (cancelBooking_party _ _ _ b Hb); [|done].
    destruct Hst as [Hst | Hst]; [left | right]; by apply (toResponse_status i).
  - intros s r Hwf Hr Hst. apply elem_of_storeRecords in Hr as (i & b & Hb & ->).
    destruct (paired_onHold_resolvable s i b (proj2 (reachable_requestsPaired s Hwf)) Hb
      (toResponse_status i b OnHold Hst))
      as (oid & _ & Ha & Hj). eauto.
  - intros s r1 r2 Hwf Hr1 Hr2 Ht Hd Hs1 Hs2.
    apply elem_of_storeRecords in Hr1 as (i & b1 & Hb1 & ->).
    apply elem_of_storeRecords in Hr2 as (j & b2 & Hb2 & ->).
    assert (i = j) as <-.
    { apply (proj1 (reachable_storeInv s Hwf) i j b1 b2); try done;
        apply isLive_not_cancelled; intros Hc; [apply Hs1 | apply Hs2]; simpl; by rewrite Hc. }
    by simplify_eq.
Defined.
