(* ===== verification/Dashboard.v ===== *)
(** * Dashboard: the tutor's dashboard, [pages/tutor/TutorDashboard.tsx]

    The page keeps three lists of booking rows (the displayed month's
    [bookedSlots], the upcoming [recentBookedSlots], the past
    [pastBookedSlots]), the clicked day [selectedSlot] and the modal
    flag.  Clicking a day opens the modal of the first non-cancelled row
    with that date; its buttons run [confirmBooking] (optimistic patch
    of the lists), [approveRescheduleBooking] (refetch) or
    [cancelBooking] (reject a reschedule or cancel, then refetch).  The
    mount effect [onMount] fetches the profile and then the three lists,
    and runs again on every month change ([onMonthChange]); each fetch's
    [catch] only logs, so a failed read ([monthRead] and the others
    returning [Err]) leaves its list as it was.  The
    handlers are functions of the server state [S] of any
    implementation of [Api.BookingApi], returning the new server state,
    the new page state, and the alert shown. *)

From S2P Require Import Prelude Dates DateFormat BookingTypes Calendar Api.

Local Open Scope Z_scope.
Local Open Scope string_scope.

Module TutorDashboard.

(** The logged-in user of the store ([state.user]). *)
Record User := mkUser { user_id : string; user_token : string }.

Record TutorView := mkTutorView {
  bookedSlots : list BookingResponse;
  recentBookedSlots : list BookingResponse;
  pastBookedSlots : list BookingResponse;
  selectedSlot : option (JsDate * TimeSlot);
  showModal : bool;
  monthStart : JsDate
}.

Definition setBookedSlots (l : list BookingResponse) (v : TutorView) : TutorView :=
  mkTutorView l (recentBookedSlots v) (pastBookedSlots v) (selectedSlot v) (showModal v) (monthStart v).
Definition setRecentBookedSlots (l : list BookingResponse) (v : TutorView) : TutorView :=
  mkTutorView (bookedSlots v) l (pastBookedSlots v) (selectedSlot v) (showModal v) (monthStart v).
Definition setPastBookedSlots (l : list BookingResponse) (v : TutorView) : TutorView :=
  mkTutorView (bookedSlots v) (recentBookedSlots v) l (selectedSlot v) (showModal v) (monthStart v).

(** [finally { setShowModal(false); setSelectedSlot(null); }] *)
Definition closeModal (v : TutorView) : TutorView :=
  mkTutorView (bookedSlots v) (recentBookedSlots v) (pastBookedSlots v) None false (monthStart v).

(** [handleSlotClick] *)
Definition handleSlotClick (d : JsDate) (slot : TimeSlot) (v : TutorView) : TutorView :=
  mkTutorView (bookedSlots v) (recentBookedSlots v) (pastBookedSlots v) (Some (d, slot)) true (monthStart v).

(** The alerts the handlers show. *)
Inductive Notice :=
| MustLogIn | BookingNotFound | RescheduleRejected | BookingRejected | RejectFailed
| BookingAccepted | AcceptFailed | RescheduleApproved | ApproveFailed | Silent.

(** [firstDay] and [lastDay] of [fetchBookingsForMonth]. *)
Definition monthRange (ms : JsDate) : string * string :=
  let year := getFullYear ms in
  let month := getMonth ms in
  (Z_to_string year ++ "-" ++ padStart2 (Z_to_string (month + 1)) ++ "-01",
   Z_to_string year ++ "-" ++ padStart2 (Z_to_string (month + 1)) ++ "-" ++
     padStart2 (Z_to_string (getDate (newDate year (month + 1) 0)))).

(** The row of the modal: the first non-cancelled row dated [d] in the
    month's list, else in the upcoming list, else in the past list. *)
Definition modalBooking (v : TutorView) (d : JsDate) : option BookingResponse :=
  let p item := String.eqb (resp_date item) (formatDate d) &&
                negb (String.eqb (resp_status item) "cancelled") in
  orElse (List.find p (bookedSlots v))
    (orElse (List.find p (recentBookedSlots v)) (List.find p (pastBookedSlots v))).

(** The handler a button runs. *)
Inductive Action := DoConfirm (id : nat) | DoApprove (id : nat) | DoCancel (id : nat).

Inductive Modal :=
| ModalAccept (b : BookingResponse) (onAccept onReject : Action)
| ModalView (b : BookingResponse).

(** [modal(data)] *)
Definition modal (v : TutorView) (d : JsDate) : option Modal :=
  match modalBooking v d with
  | None => None
  | Some b =>
      if String.eqb (resp_status b) "pending" then
        Some (ModalAccept b (DoConfirm (resp_id b)) (DoCancel (resp_id b)))
      else if String.eqb (resp_status b) "on_hold" then
        Some (ModalAccept b (DoApprove (resp_id b)) (DoCancel (resp_id b)))
      else Some (ModalView b)
  end.

(** [{showModal && selectedSlot && modal(selectedSlot)}] *)
Definition shownModal (v : TutorView) : option Modal :=
  if showModal v then
    match selectedSlot v with Some (d, _) => modal v d | None => None end
  else None.

(** The View button of an upcoming row:
    [handleSlotClick(new Date(b.date), { enabled: false, start, end })].
    An unparsable date would select an Invalid Date, for which [modal]
    finds no row; the model leaves the view as it is. *)
Definition viewUpcomingRow (tz : Z) (b : BookingResponse) (v : TutorView) : TutorView :=
  match jsDateOfString tz (resp_date b) with
  | Some d => handleSlotClick d (mkTimeSlot false (resp_start b) (resp_end b)) v
  | None => v
  end.

(** The status of an upcoming row:
    [status.charAt(0).toUpperCase() + status.slice(1).replace("_", " ")],
    which replaces the first underscore only. *)
Definition replaceFirst (c r : ascii) (s : string) : string :=
  let fix go s := match s with
                  | EmptyString => EmptyString
                  | String x s' => if Ascii.eqb x c then String r s' else String x (go s')
                  end in go s.

Definition upcomingStatusText (status : string) : string :=
  match status with
  | String c rest => String (upperAscii c) (replaceFirst "_" " " rest)
  | EmptyString => ""
  end.

(** A row of the Upcoming Sessions panel: the day of [new Date(b.date)]
    in the local zone (the text [toLocaleDateString] makes of it is the
    runtime's), the lesson type, the start and the status text. *)
Record UpcomingRow := mkUpcomingRow {
  ur_day : option JsDate; ur_lessonType : string; ur_start : string; ur_status : string
}.

Definition upcomingRow (tz : Z) (b : BookingResponse) : UpcomingRow :=
  mkUpcomingRow (jsDateOfString tz (resp_date b)) (resp_lessonType b) (resp_start b)
    (upcomingStatusText (resp_status b)).

(** A row of the Past Sessions panel: the local day, [start - end], the
    lesson type, the student and [status.charAt(0).toUpperCase() +
    status.slice(1)]. *)
Record PastRow := mkPastRow {
  pr_day : option JsDate; pr_start : string; pr_end : string; pr_lessonType : string;
  pr_studentName : string; pr_status : string
}.

Definition pastRow (tz : Z) (b : BookingResponse) : PastRow :=
  mkPastRow (jsDateOfString tz (resp_date b)) (resp_start b) (resp_end b) (resp_lessonType b)
    (resp_studentName b) (capitalize (resp_status b)).

(** [handleEdit]: navigate to the editor if the tutor confirms. *)
Definition handleEdit (confirmed : bool) : option string := if confirmed then Some "/tutor/profile" else None.

(** [handleViewFile(fileKey)]: [resp] is [GetTutorFileViewUrl]'s URL. *)
Inductive FileEffect := OpenWindow (url : string) | FileToast (msg : string).

Definition handleViewFile (token : string) (resp : result unit string) : list FileEffect :=
  if negb (truthy token) then [FileToast "Missing token, please login again."] else
  match resp with
  | Ok url => if truthy url then [OpenWindow url] else [FileToast "Failed to retrieve file URL"]
  | Err _ => [FileToast "Unable to load file. Please try again later."]
  end.

(** The banners over the panels. *)
Definition pendingBanner (td : option string) : bool :=
  match td with Some st => String.eqb st "PENDING_APPROVAL" | None => false end.

(** The row a modal shows. *)
Definition modalRow (m : Modal) : BookingResponse := match m with ModalAccept b _ _ | ModalView b => b end.

Definition findById (bookingId : nat) (l : list BookingResponse) : option BookingResponse :=
  List.find (λ b, Nat.eqb (resp_id b) bookingId) l.

Section Handlers.
Context {S : Type} `{!BookingApi S}.

(** [GetBookingsForTutorRange] for the month of [ms]. *)
Definition monthRead (u : User) (s : S) (ms : JsDate) : result unit (list BookingResponse) :=
  api_range (user_id u) (monthRange ms).1 (monthRange ms).2 s.

(** The three fetches; each returns early without an id or a token, and
    its [catch] only logs, leaving the list as it was. *)
Definition fetchBookingsForMonth (u : User) (s : S) (v : TutorView) : TutorView :=
  if truthy (user_id u) && truthy (user_token u) then
    match monthRead u s (monthStart v) with
    | Ok l => setBookedSlots l v
    | Err _ => v
    end
  else v.

Definition fetchRecentBookings (u : User) (s : S) (v : TutorView) : TutorView :=
  if truthy (user_id u) && truthy (user_token u) then
    match api_recent (user_id u) s with Ok l => setRecentBookedSlots l v | Err _ => v end
  else v.

Definition fetchRecentPastBookings (u : User) (s : S) (v : TutorView) : TutorView :=
  if truthy (user_id u) && truthy (user_token u) then
    match api_past (user_id u) s with Ok l => setPastBookedSlots l v | Err _ => v end
  else v.

(** [cancelBooking]: the reject button of both modals. *)
Definition cancelBooking (user : option User) (bookingId : nat) (s : S) (v : TutorView)
    : S * TutorView * Notice :=
  match user, selectedSlot v with
  | Some u, Some _ =>
      if truthy (user_token u) && truthy (user_id u) then
        let booking := orElse (findById bookingId (bookedSlots v))
                         (orElse (findById bookingId (recentBookedSlots v))
                                 (findById bookingId (pastBookedSlots v))) in
        match booking with
        | None => (s, closeModal v, BookingNotFound)
        | Some b =>
            let onHold := String.eqb (resp_status b) "on_hold" in
            let call := if onHold then api_reject bookingId s
                        else api_cancel bookingId (user_id u) s in
            match call with
            | Ok s' =>
                (s', closeModal (fetchRecentPastBookings u s'
                       (fetchRecentBookings u s' (fetchBookingsForMonth u s' v))),
                 if onHold then RescheduleRejected else BookingRejected)
            | Err _ => (s, closeModal v, RejectFailed)
            end
        end
      else (s, v, MustLogIn)
  | _, _ => (s, v, MustLogIn)
  end.

(** [confirmBooking]: accept, then patch the two lists in place. *)
Definition confirmBooking (user : option User) (bookingId : nat) (s : S) (v : TutorView)
    : S * TutorView * Notice :=
  match user, selectedSlot v with
  | Some u, Some _ =>
      if truthy (user_token u) && truthy (user_id u) then
        match api_accept bookingId s with
        | Ok s' =>
            (s', closeModal (setRecentBookedSlots
                               (patchStatus bookingId "confirmed" <$> recentBookedSlots v)
                               (setBookedSlots
                                  (patchStatus bookingId "confirmed" <$> bookedSlots v) v)),
             BookingAccepted)
        | Err _ => (s, closeModal v, AcceptFailed)
        end
      else (s, v, MustLogIn)
  | _, _ => (s, v, MustLogIn)
  end.

(** [approveRescheduleBooking]: approve, refetch the month and the
    upcoming list, close the modal; on failure the modal stays. *)
Definition approveRescheduleBooking (user : option User) (bookingId : nat) (s : S) (v : TutorView)
    : S * TutorView * Notice :=
  match user, selectedSlot v with
  | Some u, Some _ =>
      if truthy (user_token u) then
        match api_approve bookingId s with
        | Ok s' =>
            (s', closeModal (fetchRecentBookings u s' (fetchBookingsForMonth u s' v)),
             RescheduleApproved)
        | Err _ => (s, v, ApproveFailed)
        end
      else (s, v, Silent)
  | _, _ => (s, v, Silent)
  end.

Definition runAction (user : option User) (a : Action) (s : S) (v : TutorView)
    : S * TutorView * Notice :=
  match a with
  | DoConfirm id => confirmBooking user id s v
  | DoApprove id => approveRescheduleBooking user id s v
  | DoCancel id => cancelBooking user id s v
  end.

(** What a successful refetch of the month shows, up to order. *)
Definition monthRows (u : User) (s : S) (ms : JsDate) : list BookingResponse :=
  rangeOf (user_id u) (monthRange ms).1 (monthRange ms).2 s.

(** The month's list holds the server's rows of the month, in any order. *)
Definition synced (u : User) (s : S) (v : TutorView) : Prop :=
  bookedSlots v ≡ₚ monthRows u s (monthStart v).
End Handlers.


(** ** The session lists and the profile card *)

(** [new Date(b.date).getTime()]: UTC midnight of the row's date, or
    [NaN] ([None]) when the string is not a date. *)
Definition rowTime (b : BookingResponse) : option Z := utcMidnight <$> parseIsoDate (resp_date b).

(** The sign of [x - y] as [Array.prototype.sort] reads it: a [NaN]
    difference counts as [0]. *)
Definition timeDiffCmp (x y : option Z) : comparison :=
  match x, y with Some a, Some b => Z.compare a b | _, _ => Eq end.

Definition isCancelled (b : BookingResponse) : bool := String.eqb (resp_status b) "cancelled".

Definition isUpcomingStatus (b : BookingResponse) : bool :=
  String.eqb (resp_status b) "confirmed" || String.eqb (resp_status b) "pending" ||
  String.eqb (resp_status b) "on_hold".

(** The "Upcoming Sessions" panel: [None] is the "No upcoming sessions
    yet." message, shown when every upcoming row is cancelled; else the
    list of confirmed, pending and on-hold rows, earliest first. *)
Definition upcomingSessions (v : TutorView) : option (list BookingResponse) :=
  if negb (length (List.filter (λ b, negb (isCancelled b)) (recentBookedSlots v)) =? 0)%nat then
    Some (sortBy (λ a b, timeDiffCmp (rowTime a) (rowTime b))
            (List.filter isUpcomingStatus (recentBookedSlots v)))
  else None.

(** [new Date(b.date) < new Date()], [now] the current instant. *)
Definition beforeNow (now : Z) (b : BookingResponse) : bool :=
  match rowTime b with Some t => (t <? now)%Z | None => false end.

(** The "Past Sessions" panel: the message when no past row is dated
    before now; else the confirmed rows dated before now, latest first. *)
Definition pastSessions (now : Z) (v : TutorView) : option (list BookingResponse) :=
  if negb (length (List.filter (beforeNow now) (pastBookedSlots v)) =? 0)%nat then
    Some (sortBy (λ a b, timeDiffCmp (rowTime b) (rowTime a))
            (List.filter (λ b, String.eqb (resp_status b) "confirmed" && beforeNow now b)
               (pastBookedSlots v)))
  else None.

(** [bookingDate >= new Date(now.getFullYear(), now.getMonth(),
    now.getDate())]: UTC midnight of the row's date against local
    midnight of today. *)
Definition notBeforeToday (rt : Runtime) (b : BookingResponse) : bool :=
  match rowTime b with Some t => (localMidnight (tz rt) (today rt) <=? t)%Z | None => false end.

(** [hasConfirmedBookings], which disables "Update Profile". *)
Definition hasConfirmedBookings (rt : Runtime) (v : TutorView) : bool :=
  let hascurrentBookings :=
    existsb (λ b, (String.eqb (resp_status b) "confirmed" || String.eqb (resp_status b) "pending")
                  && notBeforeToday rt b) (bookedSlots v) in
  let hasPastConfirmedBookings := existsb (λ _, false) (pastBookedSlots v) in
  let hasRecentConfirmedBookings :=
    existsb (λ b, String.eqb (resp_status b) "confirmed" && notBeforeToday rt b)
      (recentBookedSlots v) in
  hascurrentBookings || hasPastConfirmedBookings || hasRecentConfirmedBookings.

(** The fields of [Tutor] the dashboard reads. *)
Record TutorDetails := mkTutorDetails {
  td_id : string;
  td_status : string;
  td_subject : string;
  td_rejectedReason : string;
  td_profileImageUrl : string;
  td_availability : gmap string TimeSlot;
  td_lessonType : list string;
  (** Each qualification's name and [path], the key [handleViewFile] takes. *)
  td_qualifications : list (string * string)
}.

(** The body of [GetTutorProfile]: [response.data], with its
    [stagedProfile] when the tutor has submitted changes. *)
Record TutorProfileData := mkTutorProfileData { tpd_tutor : TutorDetails; tpd_stagedProfile : option TutorDetails }.

Inductive ProfileNotice := NoTokenFound | FetchTutorFailed | ProfileLoaded.

(** [fetchTutorDetails]: [resp] is the answer of [GetTutorProfile]
    ([Err] when it throws, [Ok None] for an empty body).  Returns the
    new [tutorDetails] (unchanged when [None]), the value returned, and
    the toast. *)
Definition fetchTutorDetails (token : string) (resp : result unit (option TutorProfileData))
    (old : option TutorDetails) : option TutorDetails * option TutorDetails * ProfileNotice :=
  if negb (truthy token) then (old, None, NoTokenFound) else
  match resp with
  | Err _ => (old, None, FetchTutorFailed)
  | Ok None => (old, None, ProfileLoaded)
  | Ok (Some data) =>
      let t := tpd_tutor data in
      match tpd_stagedProfile data with
      | Some sp =>
          if String.eqb (td_status t) "PENDING_APPROVAL" then
            let staged := mkTutorDetails (td_id t) "PENDING_APPROVAL" (td_subject sp)
                            (td_rejectedReason sp) (td_profileImageUrl sp) (td_availability sp)
                            (td_lessonType sp) (td_qualifications sp) in
            (Some staged, Some staged, ProfileLoaded)
          else (Some t, Some t, ProfileLoaded)
      | None => (Some t, Some t, ProfileLoaded)
      end
  end.

(** The status badge of the profile card. *)
Inductive Badge := Live | PendingVerification | Unverified.

Definition statusBadge (t : TutorDetails) : Badge :=
  if String.eqb (td_status t) "ACTIVE" then Live
  else if String.eqb (td_status t) "PENDING_APPROVAL" then PendingVerification
  else Unverified.

(** [disabled] of "Update Profile". *)
Definition updateDisabled (rt : Runtime) (td : option TutorDetails) (v : TutorView) : bool :=
  match td with Some t => String.eqb (td_status t) "PENDING_APPROVAL" | None => false end
  || hasConfirmedBookings rt v.

(** A logged-in user: [user.id] and [user.token] are set. *)
Definition loggedIn (u : User) : bool := truthy (user_id u) && truthy (user_token u).

(** The rows as [AvailabilityCalendar] reads them ([bookedSlots={bookedSlots}]). *)
Definition toBookedSlot (b : BookingResponse) : BookedSlot := mkBookedSlot (resp_date b) (resp_status b).

(** The rejection banner: [tutorDetails?.rejectedReason && ...]. *)
Definition rejectedBanner (td : option TutorDetails) : option string :=
  match td with Some t => if truthy (td_rejectedReason t) then Some (td_rejectedReason t) else None | None => None end.

(** The tooltips over the disabled "Update Profile". *)
Definition updateTooltips (rt : Runtime) (td : option TutorDetails) (v : TutorView) : list string :=
  ((if pendingBanner (td_status <$> td) then ["Your profile is under review. You cannot update it at this time."] else []) ++
   (if hasConfirmedBookings rt v then ["You have confirmed bookings. You cannot update it at this time."] else []))%list.

(** "Update Profile": [handleEdit] runs only on an enabled button. *)
Definition updateProfileClick (rt : Runtime) (td : option TutorDetails) (v : TutorView) (confirmed : bool) : option string :=
  if updateDisabled rt td v then None else handleEdit confirmed.

(** The Lesson Types and Qualifications panels: [None] is their
    message; a qualification's View runs [handleViewFile] on its path. *)
Definition lessonTypesShown (td : option TutorDetails) : option (list string) :=
  match td with Some t => match td_lessonType t with [] => None | l => Some l end | None => None end.
Definition qualificationsShown (td : option TutorDetails) : option (list (string * string)) :=
  match td with Some t => match td_qualifications t with [] => None | l => Some l end | None => None end.

(** The profile card: the picture, the badge, [user?.name],
    [user?.email] (no fallback here) and the subject; [None] is
    "Loading tutor details...". *)
Record ProfileCard := mkProfileCard {
  pc_img : ImgSrc; pc_badge : Badge; pc_fullName : string; pc_email : string; pc_specialization : string
}.

Definition profileCard (userName userEmail : string) (td : option TutorDetails) : option ProfileCard :=
  (λ t, mkProfileCard (imgSrc (td_profileImageUrl t)) (statusBadge t) userName userEmail (td_subject t)) <$> td.

(** The profile-picture modal: Change Profile Pic opens it, its
    [onClose] closes it ([isModalOpen]); its [refreshProfile] is
    [fetchTutorDetails(user!.id)], where [user!.id] throws without a
    user ([None]). *)
Inductive PicEvent := ChangeProfilePic | ClosePicModal.

Definition picModalStep (e : PicEvent) (isModalOpen : bool) : bool :=
  match e with ChangeProfilePic => true | ClosePicModal => false end.

Definition refreshProfile (user : option User) (resp : result unit (option TutorProfileData))
    (old : option TutorDetails) : option (option TutorDetails * option TutorDetails * ProfileNotice) :=
  (λ u, fetchTutorDetails (user_token u) resp old) <$> user.

(** "Go to Wallet" *)
Definition goToWallet : string := "/tutor/wallet".

(** ** The mount effect *)

Inductive MountEffect := MNavigate (to : string) | MToast (msg : string).

(** The toasts and redirect of [fetchTutorDetails]. *)
Definition profileEffects (n : ProfileNotice) : list MountEffect :=
  match n with
  | NoTokenFound => [MToast "No token found. Please login again."; MNavigate "/"]
  | FetchTutorFailed => [MToast "Failed to fetch tutor details"]
  | ProfileLoaded => []
  end.

Section Mount.
Context {S : Type} `{!BookingApi S}.

(** The effect of [[user, monthStart, navigate]]: [user] is the store's
    user, [resp] the answer of [GetTutorProfile], [td] the current
    [tutorDetails].  Once the profile is in, the three fetches start
    without being awaited; each takes [data.id] only for its early
    return and asks for [user.id]'s rows, and each sets its own list,
    so their order does not matter. *)
Definition onMount (user : option User) (resp : result unit (option TutorProfileData)) (s : S)
    (td : option TutorDetails) (v : TutorView) : option TutorDetails * TutorView * list MountEffect :=
  match user with
  | None => (td, v, [MNavigate "/"])
  | Some u =>
      if negb (truthy (user_id u)) then (td, v, [MToast "User ID missing. Please login again."; MNavigate "/"]) else
      let '(td', ret, n) := fetchTutorDetails (user_token u) resp td in
      match ret with
      | Some data =>
          if truthy (td_id data)
          then (td', fetchRecentBookings u s (fetchBookingsForMonth u s (fetchRecentPastBookings u s v)), profileEffects n)
          else (td', v, profileEffects n)
      | None => (td', v, (profileEffects n ++ [MToast "Failed to load tutor data."])%list)
      end
  end.

(** [onMonthChange={(newMonth) => setMonthStart(newMonth)}]: the new
    month reruns the whole effect. *)
Definition onMonthChange (ms : JsDate) (user : option User) (resp : result unit (option TutorProfileData)) (s : S)
    (td : option TutorDetails) (v : TutorView) : option TutorDetails * TutorView * list MountEffect :=
  onMount user resp s td (mkTutorView (bookedSlots v) (recentBookedSlots v) (pastBookedSlots v)
                                      (selectedSlot v) (showModal v) ms).

End Mount.

(** ** The month the page fetches *)

Lemma monthRange_formatDate ms :
  0 <= getMonth ms < 12 →
  monthRange ms =
    (formatDate (mkJsDate (getFullYear ms) (getMonth ms) 1),
     formatDate (mkJsDate (getFullYear ms) (getMonth ms) (daysInMonth (getFullYear ms) (getMonth ms)))).
Proof.
  intros Hm. unfold monthRange, formatDate. cbn [getFullYear getMonth getDate].
  rewrite lastDay_eq by done. reflexivity.
Qed.

(** A real date lies between the first and the last day of a month
    exactly when it is in that month. *)
Lemma month_window y m d :
  validDate d = true → 0 <= m < 12 →
  negb (dateLtb d (mkJsDate y m 1)) && negb (dateLtb (mkJsDate y m (daysInMonth y m)) d) = true ↔
  getFullYear d = y ∧ getMonth d = m.
Proof.
  intros [Hdm Hdd]%validDate_spec Hm. destruct d as [yd md dd]; simpl in *.
  unfold dateLtb; simpl.
  split.
  - intros [H1 H2]%andb_true_iff. apply negb_true_iff in H1, H2.
    repeat (apply orb_false_iff in H1 as [? H1] || apply orb_false_iff in H2 as [? H2]
            || apply andb_false_iff in H1 as [H1|H1] || apply andb_false_iff in H2 as [H2|H2]);
    repeat match goal with
    | H : (_ <? _) = false |- _ => apply Z.ltb_ge in H
    | H : (_ =? _) = false |- _ => apply Z.eqb_neq in H
    end; lia.
  - intros [-> ->]. rewrite !Z.eqb_refl, !Z.ltb_irrefl. simpl.
    apply andb_true_iff; split; apply negb_true_iff, Z.ltb_ge; lia.
Qed.

Lemma inRange_month t ms r :
  0 <= getMonth ms < 12 → 1000 <= getFullYear ms <= 9999 →
  inRange t (monthRange ms).1 (monthRange ms).2 r = true ↔
  resp_tutorId r = t ∧ ∃ d, parseIsoDate (resp_date r) = Some d ∧
    getFullYear d = getFullYear ms ∧ getMonth d = getMonth ms.
Proof.
  intros Hm Hy. pose proof (daysInMonth_bounds (getFullYear ms) (getMonth ms)).
  rewrite monthRange_formatDate by done. unfold inRange. simpl.
  rewrite !parseIsoDate_formatDate by (simpl; try apply validDate_spec; simpl; lia).
  rewrite andb_true_iff, String.eqb_eq.
  destruct (parseIsoDate (resp_date r)) as [d|] eqn:Hd.
  - rewrite month_window by eauto using parseIsoDate_valid. naive_solver.
  - naive_solver.
Qed.

Section Properties.
Context {S : Type} `{!BookingApi S, !BookingApiLaws S}.
Implicit Types (s : S) (v : TutorView) (u : User).

Lemma synced_closeModal u s v : synced u s v → synced u s (closeModal v).
Proof. done. Qed.

(** The recent and past fetches touch only their own list. *)
Lemma fetchRecentBookings_keeps u s v :
  bookedSlots (fetchRecentBookings u s v) = bookedSlots v ∧
  monthStart (fetchRecentBookings u s v) = monthStart v ∧
  pastBookedSlots (fetchRecentBookings u s v) = pastBookedSlots v.
Proof. unfold fetchRecentBookings. by repeat case_match. Qed.
Lemma fetchRecentPastBookings_keeps u s v :
  bookedSlots (fetchRecentPastBookings u s v) = bookedSlots v ∧
  monthStart (fetchRecentPastBookings u s v) = monthStart v ∧
  recentBookedSlots (fetchRecentPastBookings u s v) = recentBookedSlots v.
Proof. unfold fetchRecentPastBookings. by repeat case_match. Qed.
Lemma fetchBookingsForMonth_keeps u s v :
  pastBookedSlots (fetchBookingsForMonth u s v) = pastBookedSlots v ∧
  recentBookedSlots (fetchBookingsForMonth u s v) = recentBookedSlots v ∧
  monthStart (fetchBookingsForMonth u s v) = monthStart v.
Proof. unfold fetchBookingsForMonth. by repeat case_match. Qed.

Lemma synced_fetchRecentBookings u s s' v : synced u s v → synced u s (fetchRecentBookings u s' v).
Proof. unfold synced. by destruct (fetchRecentBookings_keeps u s' v) as (-> & -> & _). Qed.
Lemma synced_fetchRecentPastBookings u s s' v : synced u s v → synced u s (fetchRecentPastBookings u s' v).
Proof. unfold synced. by destruct (fetchRecentPastBookings_keeps u s' v) as (-> & -> & _). Qed.

(** For a logged-in user each fetch is its read and its catch. *)
Lemma fetchRecentBookings_fetched u s v :
  loggedIn u = true → fetched (api_recent (user_id u) s) (recentBookedSlots v) (recentBookedSlots (fetchRecentBookings u s v)).
Proof. unfold loggedIn, fetchRecentBookings, fetched. intros ->. by case_match. Qed.
Lemma fetchRecentPastBookings_fetched u s v :
  loggedIn u = true → fetched (api_past (user_id u) s) (pastBookedSlots v) (pastBookedSlots (fetchRecentPastBookings u s v)).
Proof. unfold loggedIn, fetchRecentPastBookings, fetched. intros ->. by case_match. Qed.
(** For a logged-in user the month fetch is the read and its catch. *)
Lemma fetchBookingsForMonth_fetched u s v :
  loggedIn u = true → fetched (monthRead u s (monthStart v)) (bookedSlots v) (bookedSlots (fetchBookingsForMonth u s v)).
Proof. unfold loggedIn, fetchBookingsForMonth, fetched. intros ->. by case_match. Qed.

Lemma fetchBookingsForMonth_synced u s v :
  loggedIn u = true → isOk (monthRead u s (monthStart v)) = true → synced u s (fetchBookingsForMonth u s v).
Proof.
  intros Hl. pose proof (fetchBookingsForMonth_fetched u s v Hl) as Hf.
  unfold synced, monthRows. rewrite (proj2 (proj2 (fetchBookingsForMonth_keeps u s v))).
  destruct (monthRead u s (monthStart v)) as [l|] eqn:E; [|done]. intros _. rewrite Hf.
  by apply api_range_ok.
Qed.

(** A failed month read leaves the list as it was. *)
Lemma fetchBookingsForMonth_failed u s v :
  isOk (monthRead u s (monthStart v)) = false → bookedSlots (fetchBookingsForMonth u s v) = bookedSlots v.
Proof. unfold fetchBookingsForMonth. destruct (monthRead _ _ _); [done|]. by case_match. Qed.

#[local] Hint Resolve synced_closeModal synced_fetchRecentBookings
  synced_fetchRecentPastBookings fetchBookingsForMonth_synced : tutorlink.

Lemma elem_of_monthRows u s ms r :
  r ∈ monthRows u s ms → r ∈ api_records s ∧ resp_tutorId r = user_id u.
Proof.
  unfold monthRows. rewrite elem_of_rangeOf. intros [Hr Hin]. unfold inRange in Hin.
  apply andb_true_iff in Hin as [Ht _]. by apply String.eqb_eq in Ht.
Qed.

Lemma synced_elem u s v r : synced u s v → r ∈ bookedSlots v →
  r ∈ api_records s ∧ resp_tutorId r = user_id u.
Proof. intros Hs Hr. rewrite Hs in Hr. by eapply elem_of_monthRows. Qed.

Lemma findById_synced u s v r :
  synced u s v → r ∈ bookedSlots v → findById (resp_id r) (bookedSlots v) = Some r.
Proof.
  intros Hs Hr. apply find_unique; [done|apply Nat.eqb_refl|].
  intros y Hy Hid%Nat.eqb_eq.
  apply (api_records_id_inj s); [by eapply synced_elem..|done].
Qed.

(** The optimistic patch of [confirmBooking] keeps the month in sync. *)
Lemma confirmBooking_synced u id s v s' v' n :
  synced u s v → confirmBooking (Some u) id s v = (s', v', n) → synced u s' v'.
Proof.
  intros Hs. unfold confirmBooking. destruct (selectedSlot v); [|by intros; simplify_eq].
  destruct (_ && _); [|by intros; simplify_eq].
  destruct (api_accept id s) as [s1|] eqn:E; intros; simplify_eq; [|done].
  unfold synced, monthRows in *. simpl. rewrite Hs. symmetry.
  by apply rangeOf_patch, api_accept_ok.
Qed.

(** After a successful write, [cancelBooking] and [approveRescheduleBooking]
    refetch the month: with that read succeeding the month is in sync
    with the new server; with it failing the list is the one shown
    before the click.  A failed write changes neither. *)
Lemma cancelBooking_synced u id s v s' v' n :
  loggedIn u = true → synced u s v → isOk (monthRead u s' (monthStart v)) = true →
  cancelBooking (Some u) id s v = (s', v', n) → synced u s' v'.
Proof.
  intros Hl Hs Hok. unfold cancelBooking. repeat case_match; intros; simplify_eq; auto with tutorlink.
Qed.

Lemma cancelBooking_failed u id s v s' v' n :
  isOk (monthRead u s' (monthStart v)) = false →
  cancelBooking (Some u) id s v = (s', v', n) → bookedSlots v' = bookedSlots v.
Proof.
  intros Hf. unfold cancelBooking. repeat case_match; intros; simplify_eq; try done; cbn;
  rewrite (proj1 (fetchRecentPastBookings_keeps _ _ _)), (proj1 (fetchRecentBookings_keeps _ _ _));
  by apply fetchBookingsForMonth_failed.
Qed.

Lemma approveRescheduleBooking_synced u id s v s' v' n :
  loggedIn u = true → synced u s v → isOk (monthRead u s' (monthStart v)) = true →
  approveRescheduleBooking (Some u) id s v = (s', v', n) → synced u s' v'.
Proof.
  intros Hl Hs Hok. unfold approveRescheduleBooking.
  repeat case_match; intros; simplify_eq; auto with tutorlink.
Qed.

Lemma approveRescheduleBooking_failed u id s v s' v' n :
  isOk (monthRead u s' (monthStart v)) = false →
  approveRescheduleBooking (Some u) id s v = (s', v', n) → bookedSlots v' = bookedSlots v.
Proof.
  intros Hf. unfold approveRescheduleBooking. repeat case_match; intros; simplify_eq; try done; cbn;
  rewrite (proj1 (fetchRecentBookings_keeps _ _ _)); by apply fetchBookingsForMonth_failed.
Qed.

(** No handler moves the displayed month. *)
Lemma runAction_monthStart u a s v s' v' n :
  runAction (Some u) a s v = (s', v', n) → monthStart v' = monthStart v.
Proof.
  destruct a; cbn [runAction];
    [unfold confirmBooking|unfold approveRescheduleBooking|unfold cancelBooking];
    repeat case_match; intros; simplify_eq; cbn; try done;
    repeat first [rewrite (proj1 (proj2 (fetchRecentBookings_keeps _ _ _)))
                 |rewrite (proj1 (proj2 (fetchRecentPastBookings_keeps _ _ _)))];
    apply fetchBookingsForMonth_keeps.
Qed.

Lemma loggedIn_truthy u :
  loggedIn u = true → truthy (user_id u) = true ∧ truthy (user_token u) = true.
Proof. apply andb_true_iff. Qed.

Lemma modalBooking_synced u s v d r :
  api_wf s → synced u s v → r ∈ bookedSlots v → resp_date r = formatDate d →
  resp_status r ≠ "cancelled" → modalBooking v d = Some r.
Proof.
  intros Hwf Hs Hr Hd Hst. unfold modalBooking.
  rewrite (find_unique _ _ r); [done|done| |].
  - rewrite Hd, String.eqb_refl. simpl. by apply negb_true_iff, String.eqb_neq.
  - intros y Hy [Hyd%String.eqb_eq Hys]%andb_true_iff.
    apply negb_true_iff, String.eqb_neq in Hys.
    destruct (synced_elem u s v y Hs Hy) as [Hy' Hty], (synced_elem u s v r Hs Hr) as [Hr' Htr].
    apply (api_one_live s y r Hwf Hy' Hr'); congruence.
Qed.

(** [cancelBooking] on a row of the month calls the API the row's
    status selects. *)
Lemma cancelBooking_row u s v p r :
  loggedIn u = true → synced u s v → selectedSlot v = Some p → r ∈ bookedSlots v →
  cancelBooking (Some u) (resp_id r) s v =
    let onHold := String.eqb (resp_status r) "on_hold" in
    match (if onHold then api_reject (resp_id r) s else api_cancel (resp_id r) (user_id u) s) with
    | Ok s' => (s', closeModal (fetchRecentPastBookings u s'
                 (fetchRecentBookings u s' (fetchBookingsForMonth u s' v))),
                if onHold then RescheduleRejected else BookingRejected)
    | Err _ => (s, closeModal v, RejectFailed)
    end.
Proof.
  intros [Hid Htok]%loggedIn_truthy Hs Hp Hr. unfold cancelBooking.
  by rewrite Hp, Hid, Htok, (findById_synced u s v r Hs Hr).
Qed.

(** The mount effect of a logged-in tutor: once the profile arrives
    with an id, each of the three lists holds the answer of its read,
    or keeps its value when that read fails; a successful month read
    puts the calendar in sync with the server, and no toast is shown.
    When [GetTutorProfile] fails, no list is fetched and two toasts are
    shown. *)
Theorem onMount_spec u resp s td v :
  loggedIn u = true →
  (∀ data, resp = Ok (Some data) → truthy (td_id (tpd_tutor data)) = true →
     let '(_, v', effs) := onMount (Some u) resp s td v in
     monthStart v' = monthStart v ∧
     fetched (monthRead u s (monthStart v)) (bookedSlots v) (bookedSlots v') ∧
     (isOk (monthRead u s (monthStart v)) = true → synced u s v') ∧
     fetched (api_recent (user_id u) s) (recentBookedSlots v) (recentBookedSlots v') ∧
     fetched (api_past (user_id u) s) (pastBookedSlots v) (pastBookedSlots v') ∧ effs = []) ∧
  (∀ e, resp = Err e →
     onMount (Some u) resp s td v = (td, v, [MToast "Failed to fetch tutor details"; MToast "Failed to load tutor data."])).
Proof.
  intros Hl. pose proof Hl as [Hid Htok]%loggedIn_truthy. split.
  - intros data -> Ht. unfold onMount, fetchTutorDetails. rewrite Hid, Htok. simpl.
    set (v1 := fetchRecentPastBookings u s v). set (v2 := fetchBookingsForMonth u s v1).
    destruct (fetchRecentPastBookings_keeps u s v) as (Hb1 & Hm1 & Hr1).
    destruct (fetchBookingsForMonth_keeps u s v1) as (Hp2 & Hr2 & Hm2).
    destruct (fetchRecentBookings_keeps u s v2) as (Hb3 & Hm3 & Hp3).
    pose proof (fetchBookingsForMonth_fetched u s v1 Hl) as Hf.
    pose proof (fetchBookingsForMonth_synced u s v1 Hl) as Hsy.
    pose proof (fetchRecentBookings_fetched u s v2 Hl) as Hfr.
    pose proof (fetchRecentPastBookings_fetched u s v Hl) as Hfp.
    fold v1 in Hb1, Hm1, Hr1, Hfp. fold v2 in Hp2, Hr2, Hm2, Hf, Hsy.
    rewrite Hm1 in Hf, Hsy. rewrite Hb1 in Hf.
    destruct (tpd_stagedProfile data) as [sp|]; [destruct (String.eqb _ _)|]; simpl; rewrite Ht;
      split_and!; try congruence;
      [unfold synced in *; rewrite Hb3, Hm3; auto..].
  - intros e ->. unfold onMount, fetchTutorDetails. by rewrite Hid, Htok.
Qed.

(** C36: A month change reruns the whole mount effect.  When the
    profile arrives, the calendar holds the new month's rows if their
    read succeeds, and otherwise the rows of the month shown before,
    now under the new month; when [GetTutorProfile] fails, no month is
    fetched and the calendar keeps the old rows too. *)
Theorem onMonthChange_spec ms u resp s td v :
  loggedIn u = true →
  (∀ data, resp = Ok (Some data) → truthy (td_id (tpd_tutor data)) = true →
     let '(_, v', _) := onMonthChange ms (Some u) resp s td v in
     monthStart v' = ms ∧
     (isOk (monthRead u s ms) = true → synced u s v') ∧
     (isOk (monthRead u s ms) = false → bookedSlots v' = bookedSlots v)) ∧
  (∀ e, resp = Err e →
     let '(_, v', _) := onMonthChange ms (Some u) resp s td v in
     monthStart v' = ms ∧ bookedSlots v' = bookedSlots v).
Proof.
  intros Hl. destruct (onMount_spec u resp s td (mkTutorView (bookedSlots v) (recentBookedSlots v)
    (pastBookedSlots v) (selectedSlot v) (showModal v) ms) Hl) as [H1 H2]. unfold onMonthChange. split.
  - intros data Hr Ht. specialize (H1 data Hr Ht).
    destruct (onMount _ _ _ _ _) as [[? v'] ?]. destruct H1 as (Hm & Hf & Hs & _). cbn in *.
    split_and!; [done|done|]. unfold fetched in Hf. by destruct (monthRead u s ms).
  - intros e Hr. by rewrite (H2 e Hr).
Qed.
End Properties.

Section Claims.
Context {S : Type} `{!BookingApi S, !BookingApiLaws S}.
Implicit Types (s : S) (v : TutorView) (u : User).

(** C10: No handler of the modal moves the displayed month.  After
    [confirmBooking], and after the other handlers when the month read
    they end with succeeds, the month's list equals, up to order, what
    a reload of the month returns, so every day of the calendar shows
    what it would show after a reload (for [confirmBooking] this is the
    correctness of the optimistic patch).  When that refetch fails, the
    list is the one shown before the click, whatever the write did. *)
Theorem runAction_calendar_fresh u a s v s' v' n :
  loggedIn u = true → synced u s v → runAction (Some u) a s v = (s', v', n) →
  monthStart v' = monthStart v ∧
  (match a with DoConfirm _ => True | _ => isOk (monthRead u s' (monthStart v)) = true end →
   synced u s' v' ∧
   ∀ rt d en, getSlotStatus rt (toBookedSlot <$> bookedSlots v') d en =
              getSlotStatus rt (toBookedSlot <$> monthRows u s' (monthStart v')) d en) ∧
  (match a with DoConfirm _ => False | _ => isOk (monthRead u s' (monthStart v)) = false end →
   bookedSlots v' = bookedSlots v).
Proof.
  intros Hl Hs Ha. split_and!; [by eapply runAction_monthStart| |].
  - intros Hok. assert (synced u s' v') as Hs'.
    { destruct a; simpl in Ha;
        eauto using confirmBooking_synced, approveRescheduleBooking_synced, cancelBooking_synced. }
    split; [done|]. intros rt d en. by rewrite Hs'.
  - destruct a; simpl in Ha; [done|..];
      eauto using approveRescheduleBooking_failed, cancelBooking_failed.
Qed.

(** C11: Against a server in its invariant and a synchronised month, the
    modal of a date with a live row of the tutor shows that row, with
    accept and reject buttons for a pending or on-hold booking, and
    without buttons otherwise. *)
Theorem modal_shows_live_row u s v d r :
  api_wf s → synced u s v → r ∈ bookedSlots v → resp_date r = formatDate d →
  resp_status r ≠ "cancelled" →
  modal v d =
    Some (if String.eqb (resp_status r) "pending" then
            ModalAccept r (DoConfirm (resp_id r)) (DoCancel (resp_id r))
          else if String.eqb (resp_status r) "on_hold" then
            ModalAccept r (DoApprove (resp_id r)) (DoCancel (resp_id r))
          else ModalView r).
Proof.
  intros Hwf Hs Hr Hd Hst. unfold modal. rewrite (modalBooking_synced u s v d r) by done.
  by repeat case_match.
Qed.

(** On a pending row, both buttons succeed: accept confirms it, and
    reject cancels it through [CancelBooking] with the tutor as actor. *)
Theorem pending_row_buttons u s v p r :
  loggedIn u = true → synced u s v → selectedSlot v = Some p → r ∈ bookedSlots v →
  resp_status r = "pending" →
  (∃ s', api_accept (resp_id r) s = Ok s' ∧
     ∃ v', runAction (Some u) (DoConfirm (resp_id r)) s v = (s', v', BookingAccepted)) ∧
  (∃ s', api_cancel (resp_id r) (user_id u) s = Ok s' ∧
     ∃ v', runAction (Some u) (DoCancel (resp_id r)) s v = (s', v', BookingRejected)).
Proof.
  intros Hl Hs Hp Hr Hst. destruct (synced_elem u s v r Hs Hr) as [Hr' Ht]. split.
  - destruct (api_accept_pending s r Hr' Hst) as [s' E]. exists s'. split; [done|].
    destruct (loggedIn_truthy u Hl) as [Hid Htok].
    cbn [runAction]. unfold confirmBooking. rewrite Hp, Hid, Htok, E. by eexists.
  - destruct (api_cancel_party s r (user_id u) Hr' (or_introl Hst) (or_introl (eq_sym Ht)))
      as [s' E].
    exists s'. split; [done|]. cbn [runAction]. rewrite (cancelBooking_row u s v p r) by done.
    rewrite Hst. simpl. rewrite E. by eexists.
Qed.

(** C22: On an on-hold row, against a server in its invariant, both
    buttons succeed: accept approves the reschedule, and reject calls
    [RejectReschedule] (not [CancelBooking]). *)
Theorem onHold_row_buttons u s v p r :
  api_wf s → loggedIn u = true → synced u s v → selectedSlot v = Some p → r ∈ bookedSlots v →
  resp_status r = "on_hold" →
  (∃ s', api_approve (resp_id r) s = Ok s' ∧
     ∃ v', runAction (Some u) (DoApprove (resp_id r)) s v = (s', v', RescheduleApproved)) ∧
  (∃ s', api_reject (resp_id r) s = Ok s' ∧
     ∃ v', runAction (Some u) (DoCancel (resp_id r)) s v = (s', v', RescheduleRejected)).
Proof.
  intros Hwf Hl Hs Hp Hr Hst. destruct (synced_elem u s v r Hs Hr) as [Hr' Ht].
  destruct (api_onHold_resolvable s r Hwf Hr' Hst) as [[sa Ea] [sj Ej]]. split.
  - exists sa. split; [done|]. destruct (loggedIn_truthy u Hl) as [_ Htok].
    cbn [runAction]. unfold approveRescheduleBooking. rewrite Hp, Htok, Ea. by eexists.
  - exists sj. split; [done|]. cbn [runAction]. rewrite (cancelBooking_row u s v p r) by done.
    rewrite Hst. simpl. rewrite Ej. by eexists.
Qed.

(** [fetchBookingsForMonth] loads exactly the tutor's bookings
    dated in the displayed month: its [firstDay] and [lastDay]
    strings delimit that month. *)
Theorem fetchBookingsForMonth_rows u s v r :
  loggedIn u = true → isOk (monthRead u s (monthStart v)) = true → 0 <= getMonth (monthStart v) < 12 →
  1000 <= getFullYear (monthStart v) <= 9999 →
  r ∈ bookedSlots (fetchBookingsForMonth u s v) ↔
  r ∈ api_records s ∧ resp_tutorId r = user_id u ∧
  ∃ d, parseIsoDate (resp_date r) = Some d ∧
    getFullYear d = getFullYear (monthStart v) ∧ getMonth d = getMonth (monthStart v).
Proof.
  intros Hl Hok Hm Hy. rewrite (fetchBookingsForMonth_synced u s v Hl Hok).
  unfold monthRows. rewrite elem_of_rangeOf, (proj2 (proj2 (fetchBookingsForMonth_keeps u s v))).
  rewrite inRange_month by done. naive_solver.
Qed.
End Claims.

(** ** The session lists and the profile lock *)

Lemma timeDiffCmp_antisym x y : timeDiffCmp x y = Lt ↔ timeDiffCmp y x = Gt.
Proof.
  destruct x as [a|], y as [b|]; simpl; try (split; discriminate).
  rewrite (Z.compare_antisym a b). destruct (a ?= b)%Z; simpl; split; congruence.
Qed.

Lemma rowTime_antisym a b :
  timeDiffCmp (rowTime a) (rowTime b) = Lt ↔ timeDiffCmp (rowTime b) (rowTime a) = Gt.
Proof. apply timeDiffCmp_antisym. Qed.

(** A panel: the message when no row passes [shown], else the rows
    [keep] selects, sorted by [cmp]. *)
Lemma panel_spec (shown keep : BookingResponse → bool) (cmp : BookingResponse → BookingResponse → comparison)
    (Hcmp : ∀ a b, cmp a b = Lt ↔ cmp b a = Gt) (l : list BookingResponse) :
  match (if negb (length (List.filter shown l) =? 0)%nat then Some (sortBy cmp (List.filter keep l)) else None) with
  | Some r => r ≡ₚ List.filter keep l ∧ Sorted (cmpLe cmp) r
  | None => Forall (λ b, shown b = false) l
  end.
Proof.
  destruct (length (List.filter shown l) =? 0)%nat eqn:Hz; simpl.
  - by apply filter_length_zero, Nat.eqb_eq.
  - split; [apply sortBy_perm | by apply sortBy_sorted].
Qed.

(** The "Upcoming Sessions" panel shows the message exactly when
    every upcoming row is cancelled; otherwise it lists exactly the
    confirmed, pending and on-hold rows, each no later than the next. *)
Theorem upcomingSessions_spec v :
  match upcomingSessions v with
  | Some l => l ≡ₚ List.filter isUpcomingStatus (recentBookedSlots v) ∧
              Sorted (λ a b, timeDiffCmp (rowTime a) (rowTime b) ≠ Gt) l
  | None => Forall (λ b, isCancelled b = true) (recentBookedSlots v)
  end.
Proof.
  pose proof (panel_spec (λ b, negb (isCancelled b)) isUpcomingStatus _ rowTime_antisym
                (recentBookedSlots v)) as H.
  unfold upcomingSessions. revert H.
  destruct (length _ =? 0)%nat; simpl; [|done].
  intros H. eapply Forall_impl; [exact H|]. intros b. apply negb_false_iff.
Qed.

(** The "Past Sessions" panel lists exactly the confirmed rows
    dated before now, each no earlier than the next, and shows the
    message when no row is dated before now. *)
Theorem pastSessions_spec now v :
  match pastSessions now v with
  | Some l => l ≡ₚ List.filter (λ b, String.eqb (resp_status b) "confirmed" && beforeNow now b) (pastBookedSlots v) ∧
              Sorted (λ a b, timeDiffCmp (rowTime b) (rowTime a) ≠ Gt) l
  | None => Forall (λ b, beforeNow now b = false) (pastBookedSlots v)
  end.
Proof.
  exact (panel_spec (beforeNow now) _ (λ a b, timeDiffCmp (rowTime b) (rowTime a))
           (λ a b, rowTime_antisym b a) (pastBookedSlots v)).
Qed.

(** Every row of the Past Sessions panel reads "Confirmed". *)
Lemma pastRows_confirmed tz now v l :
  pastSessions now v = Some l → Forall (λ r, pr_status r = "Confirmed") (pastRow tz <$> l).
Proof.
  intros Hl. pose proof (pastSessions_spec now v) as Hs. rewrite Hl in Hs. destruct Hs as [Hp _].
  apply Forall_fmap, Forall_forall. intros b Hb. rewrite Hp, list_elem_of_In, filter_In in Hb.
  destruct Hb as [_ [Hc%String.eqb_eq _]%andb_true_iff]. simpl. by rewrite Hc.
Qed.

(** The day a row of either panel shows: the booking's date east of
    UTC, the day before it west of UTC. *)
Lemma panel_rows_day tz b d :
  calendarDate d → resp_date b = formatDate d →
  ur_day (upcomingRow tz b) = Some (utcMidnightToLocal tz d) ∧
  pr_day (pastRow tz b) = Some (utcMidnightToLocal tz d).
Proof. intros Hd Hb. simpl. rewrite Hb, jsDateOfString_formatDate by done. done. Qed.

(** A row dated today counts as "today or later" exactly in a zone
    not west of UTC: [new Date(b.date)] is UTC midnight, the bound is
    local midnight. *)
Lemma notBeforeToday_today rt b :
  1000 <= getFullYear (today rt) <= 9999 → validDate (today rt) = true →
  resp_date b = formatDate (today rt) → notBeforeToday rt b = (0 <=? tz rt)%Z.
Proof.
  intros Hy Hv Hd. unfold notBeforeToday, rowTime. rewrite Hd, parseIsoDate_formatDate by done.
  simpl. unfold utcMidnight, localMidnight.
  apply eq_true_iff_eq. rewrite !Z.leb_le. lia.
Qed.

(** A tutor whose only booking is a confirmed lesson today may
    still press "Update Profile" when the browser is west of UTC:
    [hasConfirmedBookings] is true exactly when the zone offset is not
    negative. *)
Theorem hasConfirmedBookings_today rt b sel sm ms :
  1000 <= getFullYear (today rt) <= 9999 → validDate (today rt) = true →
  resp_date b = formatDate (today rt) → resp_status b = "confirmed" →
  hasConfirmedBookings rt (mkTutorView [b] [b] [] sel sm ms) = (0 <=? tz rt)%Z ∧
  updateDisabled rt None (mkTutorView [b] [b] [] sel sm ms) = (0 <=? tz rt)%Z.
Proof.
  intros Hy Hv Hd Hs. unfold updateDisabled, hasConfirmedBookings. simpl.
  rewrite notBeforeToday_today, Hs by done. simpl.
  by destruct (0 <=? tz rt)%Z.
Qed.

(** When the server holds staged changes of a tutor awaiting
    approval, the dashboard shows the staged profile under the tutor's
    own id, badged "Pending Verification", and "Update Profile" is
    disabled. *)
Theorem fetchTutorDetails_staged token data sp old rt v :
  truthy token = true → td_status (tpd_tutor data) = "PENDING_APPROVAL" →
  tpd_stagedProfile data = Some sp →
  ∃ t, fetchTutorDetails token (Ok (Some data)) old = (Some t, Some t, ProfileLoaded) ∧
    td_id t = td_id (tpd_tutor data) ∧ td_availability t = td_availability sp ∧
    td_subject t = td_subject sp ∧ statusBadge t = PendingVerification ∧
    updateDisabled rt (Some t) v = true.
Proof.
  intros Htok Hst Hsp. unfold fetchTutorDetails. rewrite Htok, Hsp, Hst. simpl.
  eexists. split_and!; reflexivity.
Qed.

(** "Update Profile" is disabled exactly when a tooltip says why, and a
    click leads to the editor only on an enabled button the tutor
    confirms. *)
Lemma update_profile_explained rt td v confirmed :
  (updateTooltips rt td v = [] ↔ updateDisabled rt td v = false) ∧
  (updateProfileClick rt td v confirmed = Some "/tutor/profile" ↔ updateDisabled rt td v = false ∧ confirmed = true).
Proof.
  unfold updateTooltips, updateProfileClick, updateDisabled, pendingBanner, handleEdit.
  destruct td as [t|]; simpl; [destruct (String.eqb _ _)|]; destruct (hasConfirmedBookings rt v), confirmed;
    simpl; split; split; intros H; try done; by destruct H.
Qed.

Lemma modalBooking_date v d r : modalBooking v d = Some r → resp_date r = formatDate d.
Proof.
  intros H.
  assert (Hp : ∃ l, List.find (λ item, String.eqb (resp_date item) (formatDate d) &&
                                       negb (String.eqb (resp_status item) "cancelled")) l = Some r).
  { unfold modalBooking, orElse in H.
    destruct (List.find _ (bookedSlots v)) eqn:E1; [injection H as <-; by eexists|].
    destruct (List.find _ (recentBookedSlots v)) eqn:E2; [injection H as <-; by eexists|]. by eexists. }
  destruct Hp as [l E]. apply List.find_some in E as [_ [E _]%andb_true_iff]. by apply String.eqb_eq.
Qed.

(** The View button of an upcoming row opens the modal on the day
    [new Date(b.date)] reads locally: at or east of UTC the row's own
    date, whose first live booking the modal shows; west of UTC the
    day before, so the modal never shows the row that was clicked. *)
Theorem upcoming_view_day tz db b v :
  calendarDate db → 1001 <= getFullYear db → resp_date b = formatDate db →
  (0 <= tz → shownModal (viewUpcomingRow tz b v) = modal v db) ∧
  (tz < 0 → ∀ m, shownModal (viewUpcomingRow tz b v) = Some m → resp_date (modalRow m) ≠ resp_date b).
Proof.
  intros Hd Hy Hb. unfold viewUpcomingRow. rewrite Hb, jsDateOfString_formatDate by done.
  unfold utcMidnightToLocal, shownModal. simpl. split; intros Htz.
  - destruct (Z.ltb_spec tz 0); [lia|]. unfold modal, modalBooking. done.
  - destruct (Z.ltb_spec tz 0); [|lia]. intros m. unfold modal.
    replace (modalBooking _ (prevDay db)) with (modalBooking v (prevDay db)) by reflexivity.
    destruct (modalBooking v (prevDay db)) as [r|] eqn:E; [|done]. apply modalBooking_date in E.
    intros Hm.
    destruct (String.eqb _ "pending"); [|destruct (String.eqb _ "on_hold")]; injection Hm as <-; simpl;
      rewrite E; intros Heq; by apply (formatDate_prevDay_neq db).
Qed.
End TutorDashboard.

(** ** Witnesses *)

Definition exUpcomingRow : BookingResponse :=
  mkBookingResponse 4 "t1" "s1" "Tan" "Ann" "2025-11-10" "10:00" "11:00" "confirmed" "Piano".
Definition exUpcomingView : TutorDashboard.TutorView :=
  TutorDashboard.mkTutorView [] [exUpcomingRow] [] None false (mkJsDate 2025 10 1).

Lemma upcoming_view_day_witness :
  TutorDashboard.shownModal (TutorDashboard.viewUpcomingRow 480 exUpcomingRow exUpcomingView) =
  TutorDashboard.modal exUpcomingView (mkJsDate 2025 10 10).
Proof.
  apply (TutorDashboard.upcoming_view_day 480 (mkJsDate 2025 10 10) exUpcomingRow exUpcomingView).
  - split; [reflexivity|simpl; lia].
  - simpl; lia.
  - vm_compute. reflexivity.
  - lia.
Defined.
