(* ===== verification/Student.v ===== *)
(** * Student: the student's pages

    [pages/student/ViewTutorDetails.tsx] shows a tutor's calendar for a
    month ([bookedSlots] as [{date, status}] pairs) and books the
    clicked day through [components/BookingModal.tsx] (Module
    [BookingModal]: the lesson-type select, Confirm and the details it
    shows) next to the tutor's profile card; [confirmBooking]
    prices the slot, sends
    [CreateBooking], and on success appends a pending pair to the
    calendar's list instead of refetching.
    [pages/student/StudentDashboard.tsx] lists the student's bookings,
    filters the upcoming ones, and cancels one through the card of
    [components/BookingCard.tsx], whose hover overlays offer [Cancel] on
    a pending booking and [Reschedule] on a confirmed one, beside the
    student's profile, wallet and past-sessions cards; after a cancel
    it refetches the bookings and the wallet together.  A failed read
    keeps the list, with the toast the page's [catch] shows.  As in
    [Dashboard], the handlers are functions of the server state of any
    implementation of [Api.BookingApi]. *)

From S2P Require Import Prelude Dates DateFormat BookingTypes Calendar Cost Api Dashboard.
From Stdlib Require Import QArith.

Local Open Scope Z_scope.
Local Open Scope string_scope.

(** The logged-in student ([state.user]). *)
Record StudentUser := mkStudentUser { su_id : string; su_token : string; su_name : string }.

(** [components/BookingModal.tsx]: the lesson-type select and the
    Confirm button; the estimate is [Cost.bookingModalEstimate]. *)
Module BookingModal.

(** [useState(lessonTypes[0] || "")] *)
Definition initialLessonType (lessonTypes : list string) : string :=
  match lessonTypes with lt :: _ => if truthy lt then lt else "" | [] => "" end.

(** The select's [onChange]: one of its options. *)
Inductive select (lessonTypes : list string) : string → string → Prop :=
| select_option lt sel : lt ∈ lessonTypes → select lessonTypes sel lt.

(** [handleConfirm]: the lesson type passed to [onConfirm], if any. *)
Definition handleConfirm (selectedLessonType : string) : option string :=
  if truthy selectedLessonType then Some selectedLessonType else None.

(** [hourlyRate && estimatedCost !== null]: the cost line, with the
    rate and the hours it shows. *)
Definition costLine (hourlyRate : option Q) (e : Estimate) : option (Q * Q * option Q) :=
  match hourlyRate, estimatedCost e with
  | Some r, Some c => if Qeq_bool r 0 then None else Some (c, r, diffHours e)
  | _, _ => None
  end.

(** What the modal shows: [slot.date.toDateString()], [start - end],
    the options of the select, the selected one and the cost line. *)
Record Details := mkDetails {
  bm_date : string; bm_time : string; bm_options : list string; bm_selected : string;
  bm_cost : option (Q * Q * option Q)
}.

Definition details (d : JsDate) (slot : TimeSlot) (lessonTypes : list string) (selected : string)
    (hourlyRate : option Q) (e : Estimate) : Details :=
  mkDetails (toDateString d) (start slot +:+ " - " +:+ end_ slot) lessonTypes selected (costLine hourlyRate e).

End BookingModal.

Module ViewTutorDetails.

(** The fields of the tutor profile the page uses. *)
Record Tutor := mkTutor { userId : string; firstName : string; lastName : string; hourlyRate : Q }.

Record View := mkView {
  bookedSlots : list BookedSlot;
  selectedSlot : option (JsDate * TimeSlot);
  showModal : bool;
  monthStart : JsDate
}.

Definition setBookedSlots (l : list BookedSlot) (v : View) : View :=
  mkView l (selectedSlot v) (showModal v) (monthStart v).

(** [finally { setShowModal(false); setSelectedSlot(null); }] *)
Definition closeModal (v : View) : View := mkView (bookedSlots v) None false (monthStart v).

Inductive Toast := LoginAlert | InvalidCost | BookingCreated (amount : Q) | BookingFailed (e : BookingError).

(** [res.data.map((b) => ({ date: b.date, status: b.status }))] *)
Definition slotOfRow (b : BookingResponse) : BookedSlot := mkBookedSlot (resp_date b) (resp_status b).

(** [GetTutorById]'s answer, the fields the page reads; [None] is
    [undefined]. *)
Record TutorData := mkTutorData {
  d_tutor : Tutor; d_description : option string; d_subject : option string;
  d_lessonType : option (list string); d_reviews : option (list (string * Z * string));
  d_qualifications : list (string * string); d_profileImageUrl : string
}.

(** [tutorWithDefaults] *)
Record TutorDetails := mkTutorDetails {
  tutor : Tutor; description : string; subject : option string; lessonTypes : list string;
  reviews : list (string * Z * string); qualifications : list (string * string);
  profileImageUrl : string
}.

Definition withDefaults (d : TutorData) : TutorDetails :=
  mkTutorDetails (d_tutor d) (jsOrStr (d_description d) "No description provided") (d_subject d)
    (default ["Beginner Lesson"] (d_lessonType d)) (default [] (d_reviews d)) (d_qualifications d)
    (d_profileImageUrl d).

(** [loading] and [tutor]. *)
Record Page := mkPage { loading : bool; details : option TutorDetails }.

Definition initPage : Page := mkPage true None.

(** [fetchTutor]: the early [return] comes before [try], so without an
    id or a token the page keeps [loading]. *)
Definition fetchTutor (routeId token : string) (resp : result unit TutorData) (pg : Page) : Page :=
  if negb (truthy routeId && truthy token) then pg else
  match resp with
  | Ok d => mkPage false (Some (withDefaults d))
  | Err _ => mkPage false (details pg)
  end.

Inductive Shown := ShowLoading | TutorNotFound | ShowTutor (t : TutorDetails).

Definition shown (pg : Page) : Shown :=
  if loading pg then ShowLoading else match details pg with Some t => ShowTutor t | None => TutorNotFound end.

(** The subject badges: [tutor.subject?.split(",").map((sub) => sub.trim())]. *)
Definition subjects (t : TutorDetails) : list string :=
  match subject t with Some s => trim <$> splitChar "," s | None => [] end.

(** The profile card and the Lesson Types panel: the picture,
    [firstName lastName], the description, the subject badges,
    [SGD {hourlyRate}/hr], and one item a lesson type. *)
Record Profile := mkProfile {
  pf_img : ImgSrc; pf_name : string; pf_description : string; pf_subjects : list string; pf_rate : Q;
  pf_lessonTypes : list string
}.

Definition profile (t : TutorDetails) : Profile :=
  mkProfile (imgSrc (profileImageUrl t)) (firstName (tutor t) +:+ " " +:+ lastName (tutor t)) (description t)
    (subjects t) (hourlyRate (tutor t)) (lessonTypes t).

(** [tutor.lessonType || ["Beginner Lesson", "Advanced Lesson"]]: an
    array is truthy, so the fallback is never taken. *)
Definition modalLessonTypes (t : TutorDetails) : list string := lessonTypes t.

(** The Qualifications and Student Reviews panels: [None] is their
    message ("No qualifications uploaded.", "No reviews yet."). *)
Definition qualificationsShown (t : TutorDetails) : option (list (string * string)) :=
  match qualifications t with [] => None | l => Some l end.
Definition reviewsShown (t : TutorDetails) : option (list (string * Z * string)) :=
  match reviews t with [] => None | l => Some l end.

(** [handleSlotClick] and the calendar's [onMonthChange]. *)
Definition handleSlotClick (d : JsDate) (slot : TimeSlot) (v : View) : View :=
  mkView (bookedSlots v) (Some (d, slot)) true (monthStart v).

Definition onMonthChange (m : JsDate) (v : View) : View := mkView (bookedSlots v) (selectedSlot v) (showModal v) m.

(** The modal's [onClose={() => setShowModal(false)}]: the selected
    slot stays. *)
Definition closeBookingModal (v : View) : View := mkView (bookedSlots v) (selectedSlot v) false (monthStart v).

Section Handlers.
Context {S : Type} `{!BookingApi S}.

(** The effect that loads the month, once the tutor is loaded; its
    [catch] only logs, so a failed read keeps the list. *)
Definition fetchBookingsForMonth (tutor : Tutor) (user : option StudentUser) (s : S) (v : View) : View :=
  match user with
  | Some u =>
      if truthy (su_token u) then
        let '(firstDay, lastDay) := TutorDashboard.monthRange (monthStart v) in
        match api_range (userId tutor) firstDay lastDay s with
        | Ok l => setBookedSlots (slotOfRow <$> l) v
        | Err _ => v
        end
      else v
  | None => v
  end.

(** [confirmBooking(lessonType)]; [routeId] is the [:id] of the route. *)
Definition confirmBooking (user : option StudentUser) (routeId : string) (tutor : Tutor)
    (lessonType : string) (s : S) (v : View) : S * View * Toast :=
  match user, selectedSlot v with
  | Some u, Some (d, slot) =>
      if truthy (su_token u) && truthy (su_id u) && truthy routeId then
        let dateStr := formatDate d in
        match confirmBookingCost (hourlyRate tutor) (start slot) (end_ slot) with
        | None => (s, v, InvalidCost)
        | Some totalCost =>
            let bookingReq :=
              mkBookingRequest (userId tutor) (su_id u) (firstName tutor +:+ " " +:+ lastName tutor)
                (su_name u) dateStr (start slot) (end_ slot) lessonType (Some totalCost) in
            match api_create bookingReq s with
            | Ok (_, s') =>
                (s', closeModal (setBookedSlots (bookedSlots v ++ [mkBookedSlot dateStr "pending"]) v),
                 BookingCreated totalCost)
            | Err e => (s, closeModal v, BookingFailed e)
            end
        end
      else (s, v, LoginAlert)
  | _, _ => (s, v, LoginAlert)
  end.

(** What a successful refetch of the month shows, up to order. *)
Definition monthSlots (tutorId : string) (s : S) (ms : JsDate) : list BookedSlot :=
  slotOfRow <$> rangeOf tutorId (TutorDashboard.monthRange ms).1 (TutorDashboard.monthRange ms).2 s.

Definition synced (tutor : Tutor) (s : S) (v : View) : Prop :=
  bookedSlots v ≡ₚ monthSlots (userId tutor) s (monthStart v).
End Handlers.

(** The modal's selection is its initial value or one of its options. *)
Lemma select_reachable lts sel :
  star (BookingModal.select lts) (BookingModal.initialLessonType lts) sel →
  sel = BookingModal.initialLessonType lts ∨ sel ∈ lts.
Proof.
  intros Hr. apply (star_invariant (BookingModal.select lts) (λ x, x = BookingModal.initialLessonType lts ∨ x ∈ lts)
    (BookingModal.initialLessonType lts) sel); [|by left|exact Hr].
  intros x y _ [lt x' Hlt]. by right.
Qed.

(** Whatever option the student picked, the lesson type the booking
    modal confirms is a non-empty lesson type the tutor offers, or
    "Beginner Lesson" for a tutor whose profile has none. *)
Theorem booked_lessonType_offered d sel lt :
  star (BookingModal.select (modalLessonTypes (withDefaults d)))
    (BookingModal.initialLessonType (modalLessonTypes (withDefaults d))) sel →
  BookingModal.handleConfirm sel = Some lt →
  truthy lt = true ∧ match d_lessonType d with Some l => lt ∈ l | None => lt = "Beginner Lesson" end.
Proof.
  intros Hr Hc. unfold BookingModal.handleConfirm in Hc.
  destruct (truthy sel) eqn:Ht; [injection Hc as <-|done]. split; [done|].
  assert (Hin : sel ∈ modalLessonTypes (withDefaults d)).
  { destruct (select_reachable _ _ Hr) as [->|]; [|done].
    unfold BookingModal.initialLessonType in Ht |- *. destruct (modalLessonTypes _) as [|x l]; [done|].
    destruct (truthy x); [by left|done]. }
  unfold modalLessonTypes, withDefaults in Hin. simpl in Hin.
  destruct (d_lessonType d); simpl in Hin; [done|]. by apply list_elem_of_singleton in Hin.
Qed.

Section Properties.
Context {S : Type} `{!BookingApi S, !BookingApiLaws S}.
Implicit Types (s : S) (v : View).

Lemma inRange_requestRow_month t id req d ms :
  calendarDate d → getFullYear d = getFullYear ms → getMonth d = getMonth ms →
  req_tutorId req = t → req_date req = formatDate d →
  inRange t (TutorDashboard.monthRange ms).1 (TutorDashboard.monthRange ms).2 (requestRow id req) = true.
Proof.
  intros [Hv Hy] Hyear Hmonth Ht Hdate. pose proof Hv as [Hm _]%validDate_spec.
  apply TutorDashboard.inRange_month; [lia..|]. split; [done|].
  exists d. simpl. rewrite Hdate, parseIsoDate_formatDate by done. done.
Qed.

(** C15: The pending pair [confirmBooking] appends is the row a refetch
    of the month would add: the optimistic update keeps the calendar's
    list equal, up to order, to the server's rows of the month. *)
Theorem confirmBooking_keeps_month tutor user routeId lt s v s' v' n d slot :
  api_wf s → synced tutor s v → selectedSlot v = Some (d, slot) → calendarDate d →
  getFullYear d = getFullYear (monthStart v) → getMonth d = getMonth (monthStart v) →
  confirmBooking user routeId tutor lt s v = (s', v', n) → synced tutor s' v'.
Proof.
  intros Hwf Hs Hsel Hd Hy Hm. unfold confirmBooking. rewrite Hsel.
  destruct user as [u|]; [|by intros; simplify_eq].
  repeat case_match; intros; simplify_eq; try done.
  unfold synced, monthSlots in *. simpl.
  rewrite (rangeOf_create s s' _ _ _ _ _ Hwf ltac:(eassumption))
    by (apply (inRange_requestRow_month (userId tutor) _ _ d); done).
  rewrite fmap_cons, <- Hs. symmetry. apply Permutation_cons_append.
Qed.

(** C16: Once [confirmBooking] has booked a day, that day no longer shows
    [available] (in a zone at or east of UTC), so the student's click
    on it does nothing. *)
Theorem confirmBooking_blocks_day rt av user routeId tutor lt s v s' v' c d slot :
  0 <= tz rt → calendarDate d → selectedSlot v = Some (d, slot) →
  confirmBooking user routeId tutor lt s v = (s', v', BookingCreated c) →
  onDayClick rt student av (bookedSlots v') d = None.
Proof.
  intros Htz Hd Hsel. unfold confirmBooking. rewrite Hsel.
  destruct user as [u|]; [|by intros; simplify_eq].
  repeat case_match; intros; simplify_eq.
  unfold onDayClick. destruct (isPastDate _ _); [done|].
  destruct (slotOf av d) as [sl|]; [|done]. destruct (enabled sl); [|done]. simpl.
  rewrite bool_decide_eq_false_2; [done|].
  apply (getSlotStatus_live_row rt _ d _ "pending"); [done|done| |set_solver].
  simpl. apply in_or_app. by right; left.
Qed.
End Properties.

End ViewTutorDetails.

Module BookingCard.

(** The hover overlays. *)
Definition showCancelOverlay (isPastSession : bool) (status : string) (isHovered : bool) : bool :=
  negb isPastSession && String.eqb status "pending" && isHovered.

Definition showRescheduleOverlay (isPastSession : bool) (status : string) (isHovered : bool) : bool :=
  negb isPastSession && String.eqb status "confirmed" && isHovered.

(** The props a card reads; the lists spread a [BookingResponse] into it. *)
Record Props := mkProps {
  id : BookingId; tutorId : option string; tutorName : string; studentName : string;
  status : string; isPastSession : bool; isDashboard : bool
}.

Definition propsOf (b : BookingResponse) (isPast isDash : bool) : Props :=
  mkProps (resp_id b) (if truthy (resp_tutorId b) then Some (resp_tutorId b) else None)
    (resp_tutorName b) (resp_studentName b) (resp_status b) isPast isDash.

(** The badge: [status.split('_').map(capitalize).join(' ')]. *)
Definition statusLabel (status : string) : string := String.concat " " (capitalize <$> splitChar "_" status).

(** The right-hand side of the card. *)
Inductive Right := NoRight | ReviewButton | NotApplicable | Badge (label : string).

Definition rightPanel (p : Props) : Right :=
  if isDashboard p then NoRight
  else if isPastSession p then (if String.eqb (status p) "confirmed" then ReviewButton else NotApplicable)
  else Badge (statusLabel (status p)).

(** What the parent's callbacks receive. *)
Inductive Callback :=
| OnClick (id : BookingId) | OnCancel (id : BookingId)
| OnReschedule (id : BookingId) (tutorId tutorName studentName : string) | OnReview (id : BookingId).

Inductive Event := MouseEnter | MouseLeave | ClickCard | ClickCancel | ClickReschedule | ClickReview.

(** A card's reaction to an event: the new [isHovered] and the callbacks
    called.  The overlay and review buttons exist only when shown, and
    [stopPropagation] keeps their clicks from the card's [onClick]. *)
Definition onEvent (p : Props) (hovered : bool) (e : Event) : bool * list Callback :=
  match e with
  | MouseEnter => (if isPastSession p then hovered else true, [])
  | MouseLeave => (if isPastSession p then hovered else false, [])
  | ClickCard => (hovered, [OnClick (id p)])
  | ClickCancel =>
      (hovered, if showCancelOverlay (isPastSession p) (status p) hovered then [OnCancel (id p)] else [])
  | ClickReschedule =>
      (hovered, if showRescheduleOverlay (isPastSession p) (status p) hovered then
                  match tutorId p with Some t => [OnReschedule (id p) t (tutorName p) (studentName p)] | None => [] end
                else [])
  | ClickReview => (hovered, match rightPanel p with ReviewButton => [OnReview (id p)] | _ => [] end)
  end.

(** The hover state along a sequence of events, from [useState(false)]. *)
Definition hoverAfter (p : Props) (es : list Event) : bool := foldl (λ h e, (onEvent p h e).1) false es.

End BookingCard.

Module StudentDashboard.

Record View := mkView { bookings : list BookingResponse; showOnlyConfirmed : bool }.

Definition setBookings (l : list BookingResponse) (v : View) : View := mkView l (showOnlyConfirmed v).

Inductive Toast := CancelSucceeded | CancelFailed | NoToast.

(** [new Date(`${b.date}T${b.start}`)]: a date-time without a zone is
    local time; the model keeps the local date and the milliseconds
    since local midnight. *)
Definition localDateTime (date start : string) : option (JsDate * Z) :=
  d ← parseIsoDate date; m ← parseTimeOfDay start; Some (d, (60000 * m)%Z).

(** [>= now]; a [NaN] date compares false. *)
Definition notBefore (t now : JsDate * Z) : bool :=
  negb (dateLtb t.1 now.1) &&
  (dateLtb now.1 t.1 || (now.2 <=? t.2)%Z).

(** [upcomingBookings], and the [showOnlyConfirmed] filter. *)
Definition upcomingBookings (now : JsDate * Z) (v : View) : list BookingResponse :=
  let upcoming := List.filter (λ b, match localDateTime (resp_date b) (resp_start b) with
                                    | Some t => notBefore t now
                                    | None => false
                                    end) (bookings v) in
  if showOnlyConfirmed v then List.filter (λ b, String.eqb (resp_status b) "confirmed") upcoming
  else upcoming.

(** The body of [GetStudentByUserId], the fields the card reads. *)
Record StudentDetails := mkStudentDetails {
  sd_studentNumber : string; sd_gradeLevel : string; sd_profileImageUrl : string
}.

(** The right column and the reschedule target: [walletBalance],
    [loadingWallet], [studentDetails], [rescheduleBooking] and the
    profile-picture modal's [isModalOpen]. *)
Record Side := mkSide {
  walletBalance : Q; loadingWallet : bool; studentDetails : option StudentDetails;
  rescheduleBooking : option (BookingId * string * string * string); isModalOpen : bool
}.

Definition initSide : Side := mkSide 0%Q true None None false.

Inductive Effect := ShowToast (msg : string) | Navigate (to : string).

(** [fetchWallet]: [resp] is [GetWalletByUserId]'s [balance], if any;
    without a token the early [return] comes before [try], so the
    loading message stays. *)
Definition fetchWallet (token : string) (resp : result unit (option Q)) (sd : Side) : Side * list Effect :=
  if negb (truthy token) then (sd, []) else
  match resp with
  | Ok bal => (mkSide (default 0%Q bal) false (studentDetails sd) (rescheduleBooking sd) (isModalOpen sd), [])
  | Err _ => (mkSide (walletBalance sd) false (studentDetails sd) (rescheduleBooking sd) (isModalOpen sd),
              [ShowToast "Failed to fetch wallet balance"])
  end.

Section Handlers.
Context {S : Type} `{!BookingApi S}.

(** [fetchBookings]: its [catch] shows a toast and keeps the list. *)
Definition fetchBookings (u : StudentUser) (s : S) (v : View) : View * list Effect :=
  if truthy (su_token u) then
    match api_student (su_id u) s with
    | Ok l => (setBookings l v, [])
    | Err _ => (v, [ShowToast "Failed to fetch bookings"])
    end
  else (v, []).

(** [handleCancelBooking]; [confirmed] is the answer to
    [window.confirm] and [wallet] the answer of [GetWalletByUserId].
    After a successful cancel, [Promise.all] runs [fetchBookings] and
    [fetchWallet]; both catch their own errors, so the outer [catch]
    sees only a failed [CancelBooking].  The returned [Toast] is the
    handler's own, the effects are those of the two fetches. *)
Definition handleCancelBooking (user : option StudentUser) (confirmed : bool) (bookingId : nat)
    (wallet : result unit (option Q)) (s : S) (v : View) (sd : Side) : S * View * Side * Toast * list Effect :=
  match user with
  | Some u =>
      if truthy (su_token u) && confirmed then
        match api_cancel bookingId (su_id u) s with
        | Ok s' =>
            let '(v', e1) := fetchBookings u s' v in
            let '(sd', e2) := fetchWallet (su_token u) wallet sd in
            (s', v', sd', CancelSucceeded, (e1 ++ e2)%list)
        | Err _ => (s, v, sd, CancelFailed, [])
        end
      else (s, v, sd, NoToast, [])
  | None => (s, v, sd, NoToast, [])
  end.

Definition synced (u : StudentUser) (s : S) (v : View) : Prop :=
  bookings v ≡ₚ studentOf (su_id u) s.
End Handlers.

(** [fetchStudentDetails] *)
Definition fetchStudentDetails (token : string) (resp : result unit StudentDetails) (sd : Side) : Side * list Effect :=
  if negb (truthy token) then (sd, []) else
  match resp with
  | Ok d => (mkSide (walletBalance sd) (loadingWallet sd) (Some d) (rescheduleBooking sd) (isModalOpen sd), [])
  | Err _ => (sd, [ShowToast "Failed to fetch student details"])
  end.

(** The mount effect's guard. *)
Definition mountGuard (userId token : string) : list Effect :=
  if truthy userId && truthy token then [] else [ShowToast "User not logged in"; Navigate "/"].

(** The Show All / Hide Pending/Cancelled button. *)
Definition toggleShowOnlyConfirmed (v : View) : View := mkView (bookings v) (negb (showOnlyConfirmed v)).

(** [handleReschedule], the card's [onReschedule]. *)
Definition handleReschedule (bookingId : BookingId) (tutorId tutorName studentName : string) (sd : Side) : Side :=
  mkSide (walletBalance sd) (loadingWallet sd) (studentDetails sd) (Some (bookingId, tutorId, tutorName, studentName))
    (isModalOpen sd).

(** The card callbacks the dashboard passes: [onCancel] and
    [onReschedule]; it passes no [onClick] nor [onReview]. *)
Definition onCardCallback (c : BookingCard.Callback) (sd : Side) : Side * option BookingId :=
  match c with
  | BookingCard.OnReschedule i t tn sn => (handleReschedule i t tn sn sd, None)
  | BookingCard.OnCancel i => (sd, Some i)
  | _ => (sd, None)
  end.

(** The wallet card and its Manage Wallet button ([stopPropagation]),
    and the past-sessions card. *)
Definition walletCardClick : list Effect := [Navigate "/student/wallet"].
Definition manageWalletClick : list Effect := [Navigate "/student/wallet"].
Definition pastSessionsClick : list Effect := [Navigate "/student/past-sessions"].

(** [onClose] of the reschedule modal. *)
Definition closeReschedule (sd : Side) : Side := mkSide (walletBalance sd) (loadingWallet sd) (studentDetails sd) None (isModalOpen sd).

(** [onRescheduleConfirmed]: close the modal and refetch the bookings. *)
Definition onRescheduleConfirmed {S} `{!BookingApi S} (user : option StudentUser) (s : S) (sd : Side) (v : View)
    : Side * View * list Effect :=
  let '(v', effs) := match user with Some u => if truthy (su_id u) then fetchBookings u s v else (v, []) | None => (v, []) end in
  (closeReschedule sd, v', effs).

(** The label of the filter button. *)
Definition toggleLabel (v : View) : string := if showOnlyConfirmed v then "Show All" else "Hide Pending/Cancelled".

(** The Upcoming Sessions panel: [None] is "No upcoming sessions yet.". *)
Definition upcomingShown (now : JsDate * Z) (v : View) : option (list BookingResponse) :=
  match upcomingBookings now v with [] => None | l => Some l end.

(** The wallet card: the balance, or [None] for "Loading wallet...". *)
Definition walletShown (sd : Side) : option Q := if loadingWallet sd then None else Some (walletBalance sd).

(** The profile card: the picture, [user?.name || "N/A"],
    [user?.email || "N/A"], the student number and the grade; [None] is
    "Loading student details...". *)
Record ProfileCard := mkProfileCard {
  pc_img : ImgSrc; pc_fullName : string; pc_email : string; pc_studentNo : string; pc_gradeLevel : string
}.

Definition profileCard (userName userEmail : string) (sd : Side) : option ProfileCard :=
  (λ d, mkProfileCard (imgSrc (sd_profileImageUrl d)) (if truthy userName then userName else "N/A")
          (if truthy userEmail then userEmail else "N/A") (sd_studentNumber d) (sd_gradeLevel d))
  <$> studentDetails sd.

(** Change Profile Pic opens [ProfilePicModal]; its [onClose] closes it. *)
Definition setPicModal (b : bool) (sd : Side) : Side :=
  mkSide (walletBalance sd) (loadingWallet sd) (studentDetails sd) (rescheduleBooking sd) b.

(** The modal's [refreshProfile]: [if (user?.id) fetchStudentDetails(user.id)]. *)
Definition refreshProfile (userId token : string) (resp : result unit StudentDetails) (sd : Side)
    : Side * list Effect :=
  if truthy userId then fetchStudentDetails token resp sd else (sd, []).

Section Properties.
Context {S : Type} `{!BookingApi S, !BookingApiLaws S}.
Implicit Types (s : S) (v : View).

Lemma elem_of_upcomingBookings now v b : b ∈ upcomingBookings now v → b ∈ bookings v.
Proof.
  unfold upcomingBookings. rewrite !list_elem_of_In.
  destruct (showOnlyConfirmed v); [rewrite filter_In; intros [Hb _]|intros Hb];
    by apply filter_In in Hb as [? _].
Qed.

(** A successful read makes the list the student's bookings; a failed
    one keeps it and shows "Failed to fetch bookings". *)
Lemma fetchBookings_fetched u s v :
  truthy (su_token u) = true →
  fetched (api_student (su_id u) s) (bookings v) (bookings (fetchBookings u s v).1) ∧
  (isOk (api_student (su_id u) s) = true → synced u s (fetchBookings u s v).1 ∧ (fetchBookings u s v).2 = []) ∧
  (isOk (api_student (su_id u) s) = false → (fetchBookings u s v).2 = [ShowToast "Failed to fetch bookings"]).
Proof.
  intros Htok. unfold fetchBookings, fetched, synced. rewrite Htok.
  destruct (api_student _ _) eqn:E; simpl; split_and!; try done.
  intros _. split; [|done]. by apply api_student_ok.
Qed.

(** C30: The [Cancel] overlay of a card in the student's list is honoured
    by the server: the call succeeds with the student as actor, then
    both the bookings and the wallet are refetched, the list being
    again the student's bookings when its read succeeds. *)
Theorem card_cancel_succeeds u s v sd w now b hovered :
  synced u s v → truthy (su_token u) = true → b ∈ upcomingBookings now v →
  BookingCard.showCancelOverlay false (resp_status b) hovered = true →
  ∃ s', api_cancel (resp_id b) (su_id u) s = Ok s' ∧
    handleCancelBooking (Some u) true (resp_id b) w s v sd =
      (s', (fetchBookings u s' v).1, (fetchWallet (su_token u) w sd).1, CancelSucceeded,
       ((fetchBookings u s' v).2 ++ (fetchWallet (su_token u) w sd).2)%list) ∧
    loadingWallet (fetchWallet (su_token u) w sd).1 = false ∧
    (isOk (api_student (su_id u) s') = true → synced u s' (fetchBookings u s' v).1).
Proof.
  intros Hs Htok Hb Hov. apply elem_of_upcomingBookings in Hb.
  rewrite Hs, elem_of_studentOf in Hb. destruct Hb as [Hr Hst].
  unfold BookingCard.showCancelOverlay in Hov. simpl in Hov.
  apply andb_true_iff in Hov as [Hp%String.eqb_eq _].
  destruct (api_cancel_party s b (su_id u) Hr (or_introl Hp) (or_intror (eq_sym Hst))) as [s' E].
  exists s'. split_and!; [done| | |].
  - unfold handleCancelBooking. rewrite Htok, E. simpl.
    by destruct (fetchBookings u s' v), (fetchWallet (su_token u) w sd).
  - unfold fetchWallet. rewrite Htok. by destruct w.
  - intros Hok. by apply fetchBookings_fetched.
Qed.

(** C31: In the dashboard's default view ([showOnlyConfirmed]) every card
    is confirmed, so no card offers [Cancel]; a confirmed booking never
    offers it at all. *)
Theorem default_view_offers_no_cancel now v b past hovered :
  showOnlyConfirmed v = true → b ∈ upcomingBookings now v →
  resp_status b = "confirmed" ∧ BookingCard.showCancelOverlay past (resp_status b) hovered = false.
Proof.
  intros Hc Hb. unfold upcomingBookings in Hb. rewrite Hc, list_elem_of_In, filter_In in Hb.
  destruct Hb as [_ Hst%String.eqb_eq]. split; [done|].
  unfold BookingCard.showCancelOverlay. rewrite Hst. by destruct past.
Qed.
End Properties.

End StudentDashboard.

Module BookingCardProps.
Import BookingCard.

(** A past session's card never becomes hovered. *)
Lemma hoverAfter_past p es : isPastSession p = true → hoverAfter p es = false.
Proof.
  intros Hp. unfold hoverAfter.
  enough (∀ h0, foldl (λ h e, (onEvent p h e).1) h0 es = h0) by auto.
  induction es as [|e es IH]; intros h0; [done|]. simpl. rewrite IH. destruct e; simpl; rewrite ?Hp; done.
Qed.

(** Whatever the mouse did before, a click on a card calls at most one
    of the parent's callbacks, for the card's own booking: Cancel only
    on a pending upcoming booking, Reschedule only on a confirmed
    upcoming one with its tutor, Review only on a confirmed past
    session outside the dashboard, and the card's own [onClick] only
    for a click on the card itself. *)
Theorem card_callbacks p es e c :
  c ∈ (onEvent p (hoverAfter p es) e).2 →
  length (onEvent p (hoverAfter p es) e).2 = 1%nat ∧
  match c with
  | OnClick i => i = id p ∧ e = ClickCard
  | OnCancel i => i = id p ∧ e = ClickCancel ∧ status p = "pending" ∧ isPastSession p = false
  | OnReschedule i t tn sn =>
      i = id p ∧ e = ClickReschedule ∧ tutorId p = Some t ∧ tn = tutorName p ∧ sn = studentName p ∧
      status p = "confirmed" ∧ isPastSession p = false
  | OnReview i => i = id p ∧ e = ClickReview ∧ isPastSession p = true ∧ status p = "confirmed" ∧ isDashboard p = false
  end.
Proof.
  generalize (hoverAfter p es) as h. intros h.
  destruct e; simpl; try by intros ?%not_elem_of_nil.
  - intros Hc. in_list Hc. done.
  - unfold showCancelOverlay. destruct (isPastSession p), (String.eqb_spec (status p) "pending"), h; simpl;
      try by intros ?%not_elem_of_nil. intros Hc. in_list Hc. done.
  - unfold showRescheduleOverlay. destruct (isPastSession p), (String.eqb_spec (status p) "confirmed"), h; simpl;
      try by intros ?%not_elem_of_nil. destruct (tutorId p) eqn:Ht; [|by intros ?%not_elem_of_nil].
    intros Hc. in_list Hc. done.
  - unfold rightPanel. destruct (isDashboard p) eqn:Hd, (isPastSession p) eqn:Hp,
      (String.eqb_spec (status p) "confirmed"); simpl; try by intros ?%not_elem_of_nil.
    intros Hc. in_list Hc. done.
Qed.
End BookingCardProps.

Definition exPendingCard : BookingCard.Props := BookingCard.mkProps 7 (Some "t1") "Tan" "Ann" "pending" false false.

Lemma card_callbacks_witness :
  length (BookingCard.onEvent exPendingCard (BookingCard.hoverAfter exPendingCard [BookingCard.MouseEnter])
            BookingCard.ClickCancel).2 = 1%nat ∧
  BookingCard.statusLabel "reschedule_requested" = "Reschedule Requested".
Proof.
  split; [|reflexivity].
  destruct (BookingCardProps.card_callbacks exPendingCard [BookingCard.MouseEnter] BookingCard.ClickCancel
    (BookingCard.OnCancel 7)) as [H _]; [vm_compute; left|exact H].
Defined.
