(* ===== verification/Routes.v ===== *)
(** * Routes: the route table of [App.tsx] and the route guards

    [App.tsx] maps URL paths to pages, each protected page under one of
    the guards [components/routes/AdminRoute.tsx], [StudentRoute.tsx]
    and [UserRoute.tsx].  Matching is React Router's: a pattern and a
    path are split at "/", a trailing "/" is ignored, literal segments
    compare case-insensitively and a [:param] segment matches one
    non-empty segment.  Each guard is a small state machine
    ([Guard.step]): a one-second timer clears [loading], a change of
    user starts a role check against the server, and the check's answer
    sets the role flag. *)

From S2P Require Import Prelude.
From Stdlib Require Import Ascii.

Local Open Scope string_scope.

(** ** Path matching *)

(** [path.split("/")] *)
Definition splitSlash (s : string) : list string := splitChar "/" s.

(** The segments of a path, a trailing "/" dropped. *)
Definition segments (s : string) : list string :=
  let l := splitSlash s in
  if (1 <? length l)%nat && String.eqb (default "x" (last l)) "" then removelast l else l.

Definition isParam (seg : string) : bool :=
  match seg with String c _ => Ascii.eqb c ":" | EmptyString => false end.

Fixpoint segsMatch (pat path : list string) : bool :=
  match pat, path with
  | [], [] => true
  | p :: ps, q :: qs =>
      (if isParam p then negb (String.eqb q "") else String.eqb (lowerStr p) (lowerStr q))
      && segsMatch ps qs
  | _, _ => false
  end.

Definition matchPath (pattern path : string) : bool := segsMatch (segments pattern) (segments path).

(** ** The route table *)

Inductive Guard := AdminRoute | StudentRoute | UserRoute.

#[export] Instance Guard_eq_dec : EqDecision Guard.
Proof. solve_decision. Defined.

Inductive Page :=
| LoginUserPage | LoginAdminPage | Register
| AdminDashboard | ManageTutors | AdminViewTutorDetails | AdminViewAdminDetails
| AdminViewStudentDetails | ManageStudents | ManageAdmins | Transaction
| UserDashboard
| TutorDashboard | ViewTutorProfile | TutorWalletPage | Reviews
| StudentDashboard | FindTutor | ViewTutorDetails | Wallet | WalletSuccessPage
| WalletCancelPage | PastSessionsPage.

#[export] Instance Page_eq_dec : EqDecision Page.
Proof. solve_decision. Defined.

Record Route := mkRoute { path : string; guard : option Guard; element : Page }.

Definition routes : list Route := [
  mkRoute "/" None LoginUserPage;
  mkRoute "/admin/login" None LoginAdminPage;
  mkRoute "/register" None Register;
  mkRoute "/admin/dashboard" (Some AdminRoute) AdminDashboard;
  mkRoute "/admin/tutors" (Some AdminRoute) ManageTutors;
  mkRoute "/admin/tutors/:tutorId" (Some AdminRoute) AdminViewTutorDetails;
  mkRoute "/admin/admins/:adminId" (Some AdminRoute) AdminViewAdminDetails;
  mkRoute "/admin/students/:studentId" (Some AdminRoute) AdminViewStudentDetails;
  mkRoute "/admin/students" (Some AdminRoute) ManageStudents;
  mkRoute "/admin/admins" (Some AdminRoute) ManageAdmins;
  mkRoute "/admin/transaction" (Some AdminRoute) Transaction;
  mkRoute "/user/dashboard" (Some UserRoute) UserDashboard;
  mkRoute "/tutor/dashboard" (Some UserRoute) TutorDashboard;
  mkRoute "/tutor/profile" (Some UserRoute) ViewTutorProfile;
  mkRoute "/tutor/wallet" (Some UserRoute) TutorWalletPage;
  mkRoute "/tutor/reviews" (Some UserRoute) Reviews;
  mkRoute "/student/dashboard" (Some StudentRoute) StudentDashboard;
  mkRoute "/student/find-tutor" (Some StudentRoute) FindTutor;
  mkRoute "/student/view-tutor/:id" (Some StudentRoute) ViewTutorDetails;
  mkRoute "/student/wallet" (Some StudentRoute) Wallet;
  mkRoute "/wallet/success" (Some StudentRoute) WalletSuccessPage;
  mkRoute "/wallet/cancel" (Some StudentRoute) WalletCancelPage;
  mkRoute "/student/past-sessions" (Some StudentRoute) PastSessionsPage
].

(** The route a path renders: [<Routes>] picks the best match; the
    table's matches never overlap ([routes_unambiguous]), so it is the
    only one. *)
Definition routeFor (p : string) : option Route := List.find (λ r, matchPath (path r) p) routes.

(** Two segment lists no path matches both: different lengths, or two
    literals that differ at the same position. *)
Fixpoint segsDisjoint (ps qs : list string) : bool :=
  match ps, qs with
  | [], [] => false
  | p :: ps', q :: qs' =>
      (negb (isParam p) && negb (isParam q) && negb (String.eqb (lowerStr p) (lowerStr q)))
      || segsDisjoint ps' qs'
  | _, _ => true
  end.

(** Every two routes of [l] are disjoint. *)
Fixpoint pairwiseDisjoint (l : list Route) : bool :=
  match l with
  | [] => true
  | r :: l' => forallb (λ r', segsDisjoint (segments (path r)) (segments (path r'))) l'
               && pairwiseDisjoint l'
  end.

(** ** The guards *)

Module GuardMachine.

(** The guard's state: [loading] and the role flag ([isAdmin],
    [isStudent], [isUser]), the current [user?.token] ([""] when there
    is no user or no token), and the tokens whose role check is in
    flight. *)
Record State := mkState { loading : bool; isRole : bool; token : string; pending : list string }.

Inductive Event := TimerFired | UserChanged (tok : string) | CheckAnswered (i : nat).

(** The role-check effect, run on mount and on every change of [user]:
    with a token it calls [CurrentAdmin(user.token)] and leaves the flag
    as it is until the answer; without one it clears the flag. *)
Definition onUser (tok : string) (s : State) : State :=
  if truthy tok then mkState (loading s) (isRole s) tok (pending s ++ [tok])
  else mkState (loading s) false tok (pending s).

(** [setTimeout(() => setLoading(false), 1000)] *)
Definition onTimer (s : State) : State := mkState false (isRole s) (token s) (pending s).

(** The answer to the [i]th check in flight: [.then(() => setIsAdmin(true))]
    or [.catch(() => setIsAdmin(false))], whoever the current user is. *)
Definition onAnswer (i : nat) (ok : bool) (s : State) : State :=
  mkState (loading s) ok (token s) (delete i (pending s)).

Section Machine.
(** What the server's role check answers for a token. *)
Context (auth : string → bool).

Definition stepEvent (e : Event) (s : State) : option State :=
  match e with
  | TimerFired => if loading s then Some (onTimer s) else None
  | UserChanged tok => Some (onUser tok s)
  | CheckAnswered i => (λ tok, onAnswer i (auth tok) s) <$> pending s !! i
  end.

(** Checks in flight answer in any order. *)
Inductive step : State → State → Prop :=
| step_event e s s' : stepEvent e s = Some s' → step s s'.

(** The first render: [loading] set, the flag clear, and the mount
    effect run with the stored user's token. *)
Definition init (tok : string) : State := onUser tok (mkState true false "" []).

Definition reachable (tok0 : string) (s : State) : Prop := star step (init tok0) s.

(** A run in which the user changes only once no check is in flight. *)
Inductive seqStep : State → State → Prop :=
| seq_timer s : loading s = true → seqStep s (onTimer s)
| seq_user s tok : pending s = [] → seqStep s (onUser tok s)
| seq_answer s tok : pending s = [tok] → seqStep s (onAnswer 0 (auth tok) s).

(** The role of a token as the server sees it. *)
Definition authOf (tok : string) : bool := truthy tok && auth tok.
End Machine.

Inductive View := Loading | Outlet | Nothing.

(** What the guard renders. *)
Definition render (s : State) : View :=
  if loading s then Loading else if isRole s then Outlet else Nothing.

(** The redirect effect: [navigate(target, { replace: true })]. *)
Definition redirectTarget (g : Guard) : string :=
  match g with AdminRoute => "/admin/login" | StudentRoute | UserRoute => "/" end.

Definition redirect (g : Guard) (s : State) : option string :=
  if negb (loading s) && negb (isRole s) then Some (redirectTarget g) else None.

(** The toast the redirect effect shows before navigating. *)
Definition redirectToast (g : Guard) : string :=
  match g with
  | AdminRoute => "Please login as admin to continue"
  | StudentRoute => "Please login as student to continue"
  | UserRoute => "Please login as user to continue"
  end.

End GuardMachine.

(** ** [App.tsx]'s session restore *)

Module Session.

(** The effect [App] runs once on mount: [localStorage.getItem("user")];
    when the item is set (a non-empty string) [JSON.parse] reads it
    ([parse], [None] when it throws, which the effect does not catch) and
    [setUser] stores the user.  [tokenOf] is [user.token] of a parsed
    user. *)
Inductive Restore (U : Type) := NoStoredUser | Restored (u : U) | ParseThrows.
Arguments NoStoredUser {U}. Arguments Restored {U} u. Arguments ParseThrows {U}.

Definition restoreSession {U} (parse : string → option U) (stored : option string) : Restore U :=
  match stored with
  | Some raw => if truthy raw then match parse raw with Some u => Restored u | None => ParseThrows end
                else NoStoredUser
  | None => NoStoredUser
  end.

(** The guard's event the restore causes: [setUser] changes the store's
    user, which reruns the guard's role-check effect. *)
Definition restoreEvent {U} (tokenOf : U → string) (r : Restore U) : option GuardMachine.Event :=
  match r with Restored u => Some (GuardMachine.UserChanged (tokenOf u)) | _ => None end.

End Session.

(** ** Lemmas *)

Lemma segsDisjoint_sound ps qs l :
  segsDisjoint ps qs = true → segsMatch ps l = true → segsMatch qs l = false.
Proof.
  revert qs l. induction ps as [|p ps IH]; intros [|q qs] [|x l]; simpl; try done.
  intros [[[Hp Hq]%andb_true_iff Hne]%andb_true_iff | Hd]%orb_true_iff
         [Hx Hm]%andb_true_iff.
  - apply negb_true_iff in Hp, Hq, Hne. rewrite Hp in Hx. rewrite Hq.
    apply String.eqb_eq in Hx. by rewrite <- Hx, String.eqb_sym, Hne.
  - by rewrite (IH qs l Hd Hm), andb_false_r.
Qed.

Lemma segsMatch_literal pat l i p :
  segsMatch pat l = true → pat !! i = Some p → isParam p = false →
  lowerStr <$> l !! i = Some (lowerStr p).
Proof.
  revert l i. induction pat as [|p' pat IH]; intros [|x l] [|i]; simpl; try done.
  - intros [Hx _]%andb_true_iff [= ->] Hp. rewrite Hp in Hx. apply String.eqb_eq in Hx. by rewrite Hx.
  - intros [_ Hm]%andb_true_iff. apply IH, Hm.
Qed.

Lemma segsMatch_length pat l : segsMatch pat l = true → length pat = length l.
Proof.
  revert l. induction pat as [|p pat IH]; intros [|x l]; simpl; try done.
  intros [_ Hm]%andb_true_iff. by rewrite (IH l Hm).
Qed.

(** In a table whose patterns are pairwise disjoint, a path matches at
    most one route. *)
Lemma pairwiseDisjoint_unique l p :
  pairwiseDisjoint l = true → (length (List.filter (λ r, matchPath (path r) p) l) ≤ 1)%nat.
Proof.
  induction l as [|r l IH]; simpl; [lia|].
  intros [Hr Hl]%andb_true_iff. destruct (matchPath (path r) p) eqn:Hm; [|by apply IH].
  simpl. rewrite filter_all_false; [simpl; lia|].
  intros r' Hin. apply forallb_forall with (x := r') in Hr; [|done].
  exact (segsDisjoint_sound _ _ _ Hr Hm).
Qed.

(** The guard a route should have, by the first segment of its path:
    the admin pages but the login under [AdminRoute], the student and
    wallet pages under [StudentRoute], the tutor and user pages under
    [UserRoute], the rest open. *)
Definition expectedGuard (seg : string) (pg : Page) : option Guard :=
  if String.eqb seg "admin" then (if decide (pg = LoginAdminPage) then None else Some AdminRoute)
  else if String.eqb seg "student" || String.eqb seg "wallet" then Some StudentRoute
  else if String.eqb seg "tutor" || String.eqb seg "user" then Some UserRoute
  else None.

Definition firstSegment (p : string) : string := lowerStr (default "" (segments p !! 1)).

Definition routeGuardOk (r : Route) : bool :=
  match segments (path r) !! 1 with
  | Some lit => negb (isParam lit) && bool_decide (guard r = expectedGuard (lowerStr lit) (element r))
  | None => bool_decide (length (segments (path r)) = 1%nat ∧ guard r = expectedGuard "" (element r))
  end.

Lemma routeGuardOk_match r p :
  routeGuardOk r = true → matchPath (path r) p = true →
  guard r = expectedGuard (firstSegment p) (element r).
Proof.
  unfold routeGuardOk, matchPath, firstSegment. intros Hok Hm.
  destruct (segments (path r) !! 1) as [lit|] eqn:Hl.
  - apply andb_true_iff in Hok as [Hp Hg%bool_decide_eq_true]. apply negb_true_iff in Hp.
    pose proof (segsMatch_literal _ _ _ _ Hm Hl Hp) as Hx.
    destruct (segments p !! 1) as [x|]; [|discriminate]. injection Hx as Hx. simpl. by rewrite Hx.
  - apply bool_decide_eq_true in Hok as [Hlen Hg].
    pose proof (segsMatch_length _ _ Hm) as Hlen'.
    rewrite (proj2 (lookup_ge_None (segments p) 1)) by lia. exact Hg.
Qed.

(** ** Claims *)

(** No path matches two routes of the table, whatever its case
    and trailing slash, so the page a URL shows does not depend on
    React Router's ranking. *)
Theorem routes_unambiguous p :
  (length (List.filter (λ r, matchPath (path r) p) routes) ≤ 1)%nat ∧
  (∀ r, routeFor p = Some r ↔ List.filter (λ r, matchPath (path r) p) routes = [r]).
Proof.
  assert (Hd : pairwiseDisjoint routes = true) by (vm_compute; reflexivity).
  pose proof (pairwiseDisjoint_unique _ p Hd) as Hu. split; [done|].
  intros r. by apply find_filter_single.
Qed.

(** The page a path shows is guarded by its first segment, in any
    letter case: [/admin/...] by [AdminRoute] (the login apart),
    [/student/...] and [/wallet/...] by [StudentRoute], [/tutor/...]
    and [/user/...] by [UserRoute], and nothing else is guarded. *)
Theorem routeFor_guard p r :
  routeFor p = Some r → guard r = expectedGuard (firstSegment p) (element r).
Proof.
  intros Hr. apply find_some in Hr as [Hin Hm].
  assert (Hok : forallb routeGuardOk routes = true) by (vm_compute; reflexivity).
  apply routeGuardOk_match; [|done]. by apply (proj1 (forallb_forall _ _) Hok).
Qed.

Module GuardProps.
Import GuardMachine.

Section Props.
Context (auth : string → bool).

Lemma seqStep_step s s' : seqStep auth s s' → step auth s s'.
Proof.
  destruct 1 as [s Hl|s tok _|s tok Hp].
  - apply (step_event _ TimerFired). simpl. by rewrite Hl.
  - by apply (step_event _ (UserChanged tok)).
  - apply (step_event _ (CheckAnswered 0)). simpl. by rewrite Hp.
Qed.

(** The invariant of a sequential run: at most one check in flight, for
    the current token; with none, the flag is the current token's role. *)
Definition seqInv (s : State) : Prop :=
  (pending s = [] → isRole s = authOf auth (token s)) ∧
  Forall (λ t, t = token s ∧ truthy t = true) (pending s) ∧ (length (pending s) ≤ 1)%nat.

Lemma seqInv_init tok : seqInv (init tok).
Proof.
  unfold init, onUser, seqInv, authOf. simpl. destruct (truthy tok) eqn:Ht; simpl.
  - split_and!; [done|by repeat constructor|lia].
  - split_and!; [by rewrite Ht|constructor|lia].
Qed.

Lemma seqInv_step s s' : seqInv s → seqStep auth s s' → seqInv s'.
Proof.
  intros (H1 & H2 & H3). destruct 1 as [s Hl|s tok Hp|s tok Hp]; simpl in *.
  - by split_and!.
  - unfold onUser, seqInv, authOf. rewrite Hp. destruct (truthy tok) eqn:Ht; simpl.
    + split_and!; [done|by repeat constructor|lia].
    + split_and!; [by rewrite Ht|constructor|lia].
  - rewrite Hp in H2. apply Forall_singleton in H2 as [-> Ht].
    unfold seqInv, onAnswer, authOf. simpl. rewrite Hp, Ht. simpl. split_and!; [done|constructor|lia].
Qed.
(** Answering the checks in flight in the order they were sent empties
    [pending], keeps [loading] and [token], and leaves the flag of the
    last check sent (or the flag as it was, with none in flight). *)
Lemma answer_in_order s :
  ∃ s', star (step auth) s s' ∧ pending s' = [] ∧ loading s' = loading s ∧ token s' = token s ∧
        isRole s' = default (isRole s) (auth <$> last (pending s)).
Proof.
  destruct s as [l r t p]. revert r. induction p as [|tok p IH]; intros r.
  - by eexists; split_and!; [constructor| | | |].
  - destruct (IH (auth tok)) as (s' & Hs & Hp & Hl & Ht & Hr).
    exists s'. split_and!; [|done|done|done|].
    + eapply star_step; [|exact Hs]. by apply (step_event _ (CheckAnswered 0)).
    + rewrite Hr. destruct p as [|t2 p]; [done|]. cbn [pending]. rewrite last_cons_cons.
      destruct (last (t2 :: p)) eqn:E; [done|]. by apply last_None in E.
Qed.
End Props.

(** In a run where the user changes only once the last role check
    has answered, whenever no check is in flight the guard shows its
    page exactly to a token the server accepts. *)
Theorem guard_sequential_sound auth tok0 s :
  star (seqStep auth) (init tok0) s → pending s = [] →
  (render s = Outlet ↔ loading s = false ∧ authOf auth (token s) = true) ∧
  star (step auth) (init tok0) s.
Proof.
  intros Hs Hp. split.
  - assert (Hinv : seqInv auth s) by (eapply star_invariant; [apply seqInv_step|apply seqInv_init|exact Hs]).
    destruct Hinv as [Hr _]. unfold render. rewrite <- (Hr Hp).
    destruct (loading s), (isRole s); intuition congruence.
  - induction Hs as [|a b c Hab _ IH]; [constructor|]. econstructor; [|apply IH, Hp].
    by apply seqStep_step.
Qed.

(** C39: A check that answers after the user changed still sets the
    flag: from any session the server accepts, a later user with any
    token, none included (a logout), is shown the protected page once
    the first check answers last. *)
Theorem guard_stale_outlet auth tok tokB :
  truthy tok = true → auth tok = true →
  ∃ s, reachable auth tok s ∧ token s = tokB ∧ pending s = [] ∧ render s = Outlet.
Proof.
  intros Ht Ha. unfold reachable, init, onUser. rewrite Ht. simpl.
  set (s1 := onUser tokB (mkState true false tok [tok])).
  assert (H1 : step auth (mkState true false tok [tok]) s1) by by apply (step_event _ (UserChanged tokB)).
  unfold s1, onUser in *. simpl in *. destruct (truthy tokB) eqn:HtB; simpl in *.
  - exists (mkState false true tokB []). split_and!; try done.
    eapply star_right; [eapply star_right; [eapply star_right; [eapply star_one, H1|]|]|].
    + by apply (step_event _ (CheckAnswered 1)).
    + apply (step_event _ (CheckAnswered 0)). simpl. by rewrite Ha.
    + by apply (step_event _ TimerFired).
  - exists (mkState false true tokB []). split_and!; try done.
    eapply star_right; [eapply star_right; [eapply star_one, H1|]|].
    + apply (step_event _ (CheckAnswered 0)). simpl. by rewrite Ha.
    + by apply (step_event _ TimerFired).
Qed.

(** C20: The guard never stays on its spinner: from every state, answering
    the role checks in flight in the order they were sent and firing the
    timer reaches a state with no check in flight that shows the page or
    nothing, whose flag is the server's answer for the last check sent. *)
Theorem guard_settles auth s :
  ∃ s', star (step auth) s s' ∧ pending s' = [] ∧ render s' ≠ Loading ∧ token s' = token s ∧
        (∀ tok, last (pending s) = Some tok → isRole s' = auth tok).
Proof.
  destruct (answer_in_order auth s) as (s1 & Hs & Hp & Hl & Ht & Hr).
  exists (onTimer s1). split_and!; [|done|by unfold render; simpl; destruct (isRole s1)|done|].
  - destruct (loading s1) eqn:Hl1.
    + eapply star_right; [exact Hs|]. apply (step_event _ TimerFired). simpl. by rewrite Hl1.
    + by destruct s1; simpl in *; subst.
  - intros tok Htok. simpl. by rewrite Hr, Htok.
Qed.
(** The one-second timer does not wait for the role check: for an
    accepted token whose check answers after the timer, the guard first
    reaches a state whose effect redirects to the login page, and the
    late answer only then sets the flag. *)
Lemma slow_check_redirects auth g tok :
  truthy tok = true → auth tok = true →
  step auth (init tok) (onTimer (init tok)) ∧ redirect g (onTimer (init tok)) = Some (redirectTarget g) ∧
  step auth (onTimer (init tok)) (mkState false true tok []) ∧ render (mkState false true tok []) = Outlet.
Proof.
  intros Ht Ha. unfold init, onUser. rewrite Ht. split_and!; [|done| |done].
  - by apply (step_event _ TimerFired).
  - apply (step_event _ (CheckAnswered 0)). simpl. by rewrite Ha.
Qed.

(** A reload of a guarded page with a stored session: the guard's first
    render sees no user (React runs the guard's effects before [App]'s),
    [App] restores the user, and once the role check of the restored
    token answers within the timer the page shows; until then no
    redirect fires. *)
Lemma reload_restores_page {U} auth g (parse : string → option U) (tokenOf : U → string) raw u :
  truthy raw = true → parse raw = Some u → truthy (tokenOf u) = true → auth (tokenOf u) = true →
  ∃ e s1 s2, Session.restoreEvent tokenOf (Session.restoreSession parse (Some raw)) = Some e ∧
    stepEvent auth e (init "") = Some s1 ∧ redirect g s1 = None ∧
    step auth s1 s2 ∧ redirect g s2 = None ∧
    step auth s2 (onTimer s2) ∧ render (onTimer s2) = Outlet ∧ redirect g (onTimer s2) = None.
Proof.
  intros Hr Hp Ht Ha. unfold Session.restoreSession. rewrite Hr, Hp. simpl.
  exists (UserChanged (tokenOf u)), (mkState true false (tokenOf u) [tokenOf u]), (mkState true true (tokenOf u) []).
  unfold stepEvent, init, onUser. simpl. rewrite Ht.
  split_and!; try done.
  - apply (step_event _ (CheckAnswered 0)). simpl. by rewrite Ha.
  - by apply (step_event _ TimerFired).
Qed.

End GuardProps.

(** ** Witnesses *)

Definition exTutorDetailsRoute : Route := mkRoute "/admin/tutors/:tutorId" (Some AdminRoute) AdminViewTutorDetails.

Lemma routeFor_guard_witness :
  routeFor "/Admin/Tutors/7/" = Some exTutorDetailsRoute ∧ guard exTutorDetailsRoute = Some AdminRoute.
Proof. split; [reflexivity|]. exact (routeFor_guard "/Admin/Tutors/7/" exTutorDetailsRoute eq_refl). Defined.

(** A server that accepts one token. *)
Definition exAuth (t : string) : bool := String.eqb t "tokA".

Lemma guard_sequential_sound_witness :
  (GuardMachine.render (GuardMachine.mkState false true "tokA" []) = GuardMachine.Outlet ↔
     false = false ∧ GuardMachine.authOf exAuth "tokA" = true) ∧
  star (GuardMachine.step exAuth) (GuardMachine.init "tokA") (GuardMachine.mkState false true "tokA" []).
Proof.
  apply (GuardProps.guard_sequential_sound exAuth "tokA"); [|reflexivity].
  eapply star_right; [eapply star_one|].
  - exact (GuardMachine.seq_answer exAuth (GuardMachine.init "tokA") "tokA" eq_refl).
  - exact (GuardMachine.seq_timer exAuth (GuardMachine.mkState true true "tokA" []) eq_refl).
Defined.

Lemma guard_stale_outlet_witness :
  ∃ s, GuardMachine.reachable exAuth "tokA" s ∧ GuardMachine.token s = "" ∧
       GuardMachine.pending s = [] ∧ GuardMachine.render s = GuardMachine.Outlet.
Proof. apply (GuardProps.guard_stale_outlet exAuth "tokA" ""); reflexivity. Defined.
