(* ===== verification/JsNumber.v ===== *)
(** * JsNumber: JavaScript's [Number], [parseFloat] and [toFixed]

    The pages read amounts and rates from text: [Number(value)] of a
    number input ([TutorProfile.handleChange]), [parseFloat] of a number
    input or of a URL parameter ([Wallet]).  Numbers are exact
    rationals here, [NaN] is [None]; the hexadecimal, binary and
    [Infinity] forms are not modelled (no input of the pages produces
    them), nor is floating-point rounding. *)

From S2P Require Import Prelude DateFormat.
From Stdlib Require Import QArith Qround.

Local Open Scope string_scope.

(** ** [Number(s)] on the values of an [<input type="number">]

    The browser hands the page either [""] or a valid floating-point
    number: an optional sign, digits with an optional fraction (at least
    one digit in all), and an optional exponent.  [Number] trims, reads
    [""] as [0], and anything else as [NaN] ([None]). *)

Fixpoint digitsOf (s : string) (acc : Z) (n : nat) : Z * nat * string :=
  match s with
  | String c s' => match digitVal c with Some k => digitsOf s' (acc * 10 + k) (S n) | None => (acc, n, s) end
  | EmptyString => (acc, n, s)
  end.

(** An optional sign: [-1] for ["-"], [1] otherwise. *)
Definition signOf (s : string) : Z * string :=
  match s with
  | String c s' => if Ascii.eqb c "-" then (-1, s')%Z else if Ascii.eqb c "+" then (1, s')%Z else (1, s)%Z
  | EmptyString => (1, s)%Z
  end.

(** [m · 10^e] as an exact rational. *)
Definition scaleQ (m e : Z) : Q :=
  if (0 <=? e)%Z then inject_Z (m * 10 ^ e) else Qmake m (Z.to_pos (10 ^ (- e))).

Definition exponentOf (s : string) : option Z :=
  match s with
  | EmptyString => Some 0%Z
  | String c s' =>
      if Ascii.eqb c "e" || Ascii.eqb c "E" then
        let '(sg, r) := signOf s' in
        let '(e, ne, rest) := digitsOf r 0 0 in
        if (0 <? ne)%nat && String.eqb rest "" then Some (sg * e)%Z else None
      else None
  end.

Definition Number (s : string) : option Q :=
  let t := trim s in
  if String.eqb t "" then Some 0 else
  let '(sg, r) := signOf t in
  let '(ip, ni, r1) := digitsOf r 0 0 in
  let '(fp, nf, r2) :=
    match r1 with
    | String c r1' => if Ascii.eqb c "." then digitsOf r1' 0 0 else (0%Z, 0%nat, r1)
    | EmptyString => (0%Z, 0%nat, r1)
    end in
  if (0 <? ni + nf)%nat then
    (λ e, scaleQ (sg * (ip * 10 ^ Z.of_nat nf + fp)) (e - Z.of_nat nf)) <$> exponentOf r2
  else None.

(** [Number(x.toFixed(2))] for [x >= 0]: the nearest hundredth, ties
    up, on exact rationals. *)
Definition round2 (q : Q) : Q := Qmake (Qfloor (q * 100 + (1 # 2))%Q) 100.


(** The exponent of [parseFloat]: an [e] or [E] with an optional sign
    and at least one digit; anything else ends the literal. *)
Definition exponentPrefix (s : string) : Z :=
  match s with
  | String c s' =>
      if Ascii.eqb c "e" || Ascii.eqb c "E" then
        let '(sg, r) := signOf s' in
        let '(e, ne, _) := digitsOf r 0 0 in
        if (0 <? ne)%nat then (sg * e)%Z else 0%Z
      else 0%Z
  | EmptyString => 0%Z
  end.

(** [parseFloat(s)]: the longest prefix of [s], after leading white
    space, that is a decimal literal; [NaN] when there is none. *)
Definition parseFloat (s : string) : option Q :=
  let '(sg, r) := signOf (trimStart s) in
  let '(ip, ni, r1) := digitsOf r 0 0 in
  let '(fp, nf, r2) :=
    match r1 with
    | String c r1' => if Ascii.eqb c "." then digitsOf r1' 0 0 else (0%Z, 0%nat, r1)
    | EmptyString => (0%Z, 0%nat, r1)
    end in
  if (0 <? ni + nf)%nat then Some (scaleQ (sg * (ip * 10 ^ Z.of_nat nf + fp)) (exponentPrefix r2 - Z.of_nat nf))
  else None.
