(* ===== verification/RescheduleModal.v ===== *)
(** * RescheduleModal: [components/RescheduleModal.tsx]

    The student's dashboard opens this modal on a confirmed booking.  It
    loads the tutor's template ([fetchTutor]) and the tutor's bookings
    from today to three months ahead ([fetchBookings], whose [catch]
    shows "Failed to load booked slots"), shows them in an
    [AvailabilityCalendar] whose month arrows fetch nothing, and on the
    confirmation of the [BookingModal] sends [RequestReschedule] for
    the clicked day ([confirmReschedule]).  The handlers are functions
    of the server state of any implementation of [Api.BookingApi]. *)

From S2P Require Import Prelude Dates DateFormat BookingTypes Calendar Api Student.

Local Open Scope Z_scope.
Local Open Scope string_scope.

Module RescheduleModal.

(** The [booking] prop. *)
Record BookingProp := mkBookingProp {
  bookingId : nat; tutorId : string; tutorName : string; studentName : string
}.

Record View := mkView {
  tutorAvailability : gmap string TimeSlot;
  bookedSlots : list BookedSlot;
  selectedSlot : option (JsDate * TimeSlot);
  showBookingModal : bool;
  loading : bool;
  lessonTypes : list string
}.

Definition initView : View := mkView ∅ [] None false true [].

Definition setBookedSlots (l : list BookedSlot) (v : View) : View :=
  mkView (tutorAvailability v) l (selectedSlot v) (showBookingModal v) (loading v) (lessonTypes v).

(** [formatLocalDate] *)
Definition formatLocalDate (date : JsDate) : string :=
  Z_to_string (getFullYear date) ++ "-" ++ padStart2 (Z_to_string (getMonth date + 1)) ++ "-" ++
  padStart2 (Z_to_string (getDate date)).

(** The body of [GetTutorProfile] as the modal reads it. *)
Record TutorAnswer := mkTutorAnswer {
  ta_availability : option (gmap string TimeSlot);
  ta_lessonType : option (list string)
}.

Inductive Toast := LoadAvailabilityFailed | LoadBookedSlotsFailed | RescheduleSubmitted | RescheduleFailed (e : BookingError).

(** [fetchTutor]: [resp] is the answer of [GetTutorProfile], [Err] when
    it throws. *)
Definition fetchTutor (user : option StudentUser) (booking : BookingProp)
    (resp : result unit TutorAnswer) (v : View) : View * option Toast :=
  match user with
  | Some u =>
      if truthy (su_token u) && truthy (tutorId booking) then
        match resp with
        | Ok a =>
            (mkView (default ∅ (ta_availability a)) (bookedSlots v) (selectedSlot v)
               (showBookingModal v) false (default ["Beginner"; "Advanced"] (ta_lessonType a)), None)
        | Err _ =>
            (mkView (tutorAvailability v) (bookedSlots v) (selectedSlot v) (showBookingModal v)
               false (lessonTypes v), Some LoadAvailabilityFailed)
        end
      else (v, None)
  | None => (v, None)
  end.

(** [endDate]: [new Date(new Date().setMonth(new Date().getMonth() + 3))]. *)
Definition windowEnd (rt : Runtime) : JsDate := setMonth (today rt) (getMonth (today rt) + 3).

Definition handleSlotClick (date : JsDate) (slot : TimeSlot) (v : View) : View :=
  mkView (tutorAvailability v) (bookedSlots v) (Some (date, slot)) true (loading v) (lessonTypes v).

(** [finally { setShowBookingModal(false); setSelectedSlot(null); }] *)
Definition closeBookingModal (v : View) : View :=
  mkView (tutorAvailability v) (bookedSlots v) None false (loading v) (lessonTypes v).

(** The [onClose] of the [BookingModal]: [setShowBookingModal(false)],
    the selection kept. *)
Definition closeOnly (v : View) : View :=
  mkView (tutorAvailability v) (bookedSlots v) (selectedSlot v) false (loading v) (lessonTypes v).

(** The calendar's [onMonthChange={() => {}}]: a month change brings
    no new [bookedSlots] array. *)
Definition onMonthChange (ms : JsDate) : bool := false.

(** What the modal shows: "Loading availability..." (with no Close
    button) while [loading]; else the calendar of the tutor's
    availability and booked slots, the [BookingModal] with the lesson
    types and the selected slot when both are set, and Close. *)
Inductive Shown :=
| LoadingAvailability
| Picker (availability : gmap string TimeSlot) (booked : list BookedSlot)
         (modal : option (list string * (JsDate * TimeSlot))).

Definition shown (v : View) : Shown :=
  if loading v then LoadingAvailability
  else Picker (tutorAvailability v) (bookedSlots v)
         (if showBookingModal v then pair (lessonTypes v) <$> selectedSlot v else None).

Section Handlers.
Context {S : Type} `{!BookingApi S}.

(** [fetchBookings]: its [catch] shows "Failed to load booked slots"
    and keeps the list. *)
Definition fetchBookings (user : option StudentUser) (booking : BookingProp) (rt : Runtime)
    (s : S) (v : View) : View * option Toast :=
  match user with
  | Some u =>
      if truthy (su_token u) && truthy (tutorId booking) then
        let startDate := formatLocalDate (today rt) in
        let endDate := formatLocalDate (windowEnd rt) in
        match api_range (tutorId booking) startDate endDate s with
        | Ok l => (setBookedSlots (ViewTutorDetails.slotOfRow <$> l) v, None)
        | Err _ => (v, Some LoadBookedSlotsFailed)
        end
      else (v, None)
  | None => (v, None)
  end.

(** [confirmReschedule(lessonType)]: the new server state, the view, the
    toast, and whether [onRescheduleConfirmed] is called. *)
Definition confirmReschedule (user : option StudentUser) (booking : BookingProp) (lessonType : string)
    (s : S) (v : View) : S * View * option Toast * bool :=
  match selectedSlot v, user with
  | Some (date, slot), Some u =>
      if truthy (su_token u) then
        let req := mkBookingRequest (tutorId booking) (su_id u) (tutorName booking)
                     (studentName booking) (formatLocalDate date) (start slot) (end_ slot) lessonType None in
        match api_reschedule (bookingId booking) req s with
        | Ok s' => (s', closeBookingModal v, Some RescheduleSubmitted, true)
        | Err e => (s, closeBookingModal v, Some (RescheduleFailed e), false)
        end
      else (s, v, None, false)
  | _, _ => (s, v, None, false)
  end.
End Handlers.

(** ** Lemmas *)

Lemma formatLocalDate_formatDate : formatLocalDate = formatDate.
Proof. reflexivity. Qed.

(** A day no row is filed under shows available, when enabled and not past. *)
Lemma getSlotStatus_no_row rt bs d :
  (∀ b, In b bs → formatDateOpt (jsDateOfString (tz rt) (date b)) ≠ formatDate d) →
  isPastDate (today rt) d = false → getSlotStatus rt bs d true = available.
Proof.
  intros Hno Hp. unfold getSlotStatus, bookedDatesSet, pendingDatesSet, onHoldDatesSet,
    rescheduleDatesSet. cbn [negb]. rewrite Hp.
  repeat case_bool_decide; try done;
    match goal with H : _ ∈ datesSetWith _ _ _ |- _ =>
      apply elem_of_datesSetWith in H as (b & Hb & _ & Hk); exfalso; by apply (Hno b) end.
Qed.

(** A row the range read returns for [lo .. hi] is filed, east of UTC,
    under a date between [lo] and [hi]. *)
Lemma range_row_key rt t lo hi r :
  0 <= tz rt → calendarDate lo → calendarDate hi → inRange t (formatDate lo) (formatDate hi) r = true →
  ∃ dr, calendarDate dr ∧ dateLtb dr lo = false ∧ dateLtb hi dr = false ∧
        formatDateOpt (jsDateOfString (tz rt) (resp_date r)) = formatDate dr.
Proof.
  intros Htz [Hvl Hyl] [Hvh Hyh]. unfold inRange.
  rewrite !parseIsoDate_formatDate by done.
  destruct (parseIsoDate (resp_date r)) as [dr|] eqn:Hd; [|by rewrite andb_false_r].
  intros [_ [H1 H2]%andb_true_iff]%andb_true_iff. apply negb_true_iff in H1, H2.
  pose proof (dateLtb_false_year _ _ H1). pose proof (dateLtb_false_year _ _ H2).
  exists dr. split_and!; try done.
  - split; [by eapply parseIsoDate_valid|lia].
  - unfold jsDateOfString. rewrite Hd. simpl. unfold utcMidnightToLocal.
    by destruct (Z.ltb_spec (tz rt) 0); [lia|].
Qed.

Section Claims.
Context {S : Type} `{!BookingApi S, !BookingApiLaws S}.

(** The modal loads bookings up to three months ahead only, and
    its calendar never fetches more: east of UTC, every enabled day
    after that window that is not past would show available, whatever
    the tutor's bookings on it.  This holds of the initial, empty list
    too, which a failed read leaves in place (with its toast).  The
    calendar never gets there: a month arrow leaves it on its spinner
    (see below). *)
Theorem fetchBookings_beyond_window u bk rt s d :
  0 <= tz rt → truthy (su_token u) && truthy (tutorId bk) = true →
  calendarDate (today rt) → calendarDate (windowEnd rt) → calendarDate d →
  dateLtb (windowEnd rt) d = true → isPastDate (today rt) d = false →
  getSlotStatus rt (bookedSlots (fetchBookings (Some u) bk rt s initView).1) d true = available.
Proof.
  intros Htz Hok Hlo Hhi Hd Hafter Hp. unfold fetchBookings. rewrite Hok.
  destruct (api_range _ _ _ _) as [l|] eqn:E; [|by apply getSlotStatus_no_row]. simpl.
  apply getSlotStatus_no_row; [|done].
  intros b Hb Hk. apply list_elem_of_In, list_elem_of_fmap in Hb as (r & -> & Hr).
  apply api_range_ok in E. rewrite E in Hr. apply elem_of_rangeOf in Hr as [_ Hr].
  destruct (range_row_key rt _ _ _ _ Htz Hlo Hhi Hr) as (dr & Hdr & _ & Hhi' & Hkey).
  simpl in Hk. rewrite Hkey in Hk. destruct Hdr, Hd.
  apply formatDate_inj in Hk; [|done..]. subst dr. congruence.
Qed.

(** A confirmed reschedule sends the clicked local day, and the server
    then holds the request on hold and the original frozen; the modal
    closes and the dashboard is told. *)
Lemma confirmReschedule_ok u bk lt s v d slot :
  api_wf s → selectedSlot v = Some (d, slot) → truthy (su_token u) = true →
  let req := mkBookingRequest (tutorId bk) (su_id u) (tutorName bk) (studentName bk)
               (formatDate d) (start slot) (end_ slot) lt None in
  ∀ s', api_reschedule (bookingId bk) req s = Ok s' →
  confirmReschedule (Some u) bk lt s v = (s', closeBookingModal v, Some RescheduleSubmitted, true) ∧
  ∃ nid, api_records s' ≡ₚ withRespStatus "on_hold" (requestRow nid req) ::
                           (patchStatus (bookingId bk) "reschedule_requested" <$> api_records s).
Proof.
  intros Hwf Hsel Htok req s' Hr. split.
  - unfold confirmReschedule. rewrite Hsel, Htok, formatLocalDate_formatDate. unfold req in Hr. by rewrite Hr.
  - exact (api_reschedule_ok _ _ _ _ Hwf Hr).
Qed.
(** C32: The whole reschedule path of the student's dashboard: once the
    server accepts the request, the modal reports it confirmed and the
    dashboard closes it and refetches; when that read succeeds its list
    is the student's rows on the server, the new on-hold request among
    them, and when it fails the list is kept and a toast says so. *)
Theorem reschedule_flow_refreshes u bk lt s v d slot sd dv :
  api_wf s → selectedSlot v = Some (d, slot) → truthy (su_token u) = true → truthy (su_id u) = true →
  let req := mkBookingRequest (tutorId bk) (su_id u) (tutorName bk) (studentName bk)
               (formatDate d) (start slot) (end_ slot) lt None in
  ∀ s', api_reschedule (bookingId bk) req s = Ok s' →
  let '(s1, _, _, ok) := confirmReschedule (Some u) bk lt s v in
  ok = true ∧ s1 = s' ∧
  let '(sd', dv', effs) := StudentDashboard.onRescheduleConfirmed (Some u) s1 sd dv in
  StudentDashboard.rescheduleBooking sd' = None ∧
  (isOk (api_student (su_id u) s') = true → StudentDashboard.synced u s' dv' ∧ effs = [] ∧
     ∃ nid, withRespStatus "on_hold" (requestRow nid req) ∈ StudentDashboard.bookings dv') ∧
  (isOk (api_student (su_id u) s') = false →
     dv' = dv ∧ effs = [StudentDashboard.ShowToast "Failed to fetch bookings"]).
Proof.
  intros Hwf Hsel Htok Hid req s' Hr.
  destruct (confirmReschedule_ok u bk lt s v d slot Hwf Hsel Htok s' Hr) as [-> [nid Hrec]].
  unfold StudentDashboard.onRescheduleConfirmed. rewrite Hid.
  destruct (StudentDashboard.fetchBookings_fetched u s' dv Htok) as (Hf & Hok & Herr).
  destruct (StudentDashboard.fetchBookings u s' dv) as [dv' effs] eqn:E. simpl in *.
  split_and!; [done|done|done| |].
  - intros Hk. destruct (Hok Hk) as [Hs ->]. split_and!; [done|done|]. exists nid.
    rewrite Hs, elem_of_studentOf. split; [rewrite Hrec; by left|done].
  - intros Hk. split; [|by apply Herr].
    unfold StudentDashboard.fetchBookings in E. rewrite Htok in E.
    destruct (api_student _ _); [done|]. by simplify_eq.
Qed.
End Claims.

(** C38: [bookedSlots] is set only by the fetch of the mount effect,
    and [onMonthChange] does nothing: once the student clicks a month
    arrow of the modal's calendar after that fetch, the calendar shows
    its spinner for good, whatever arrows follow. *)
Theorem reschedule_calendar_spins rt av bs c arrow es :
  arrow = PrevMonth ∨ arrow = NextMonth → NewBookedSlots ∉ es →
  calShown rt av bs (calRun onMonthChange (arrow :: es) c) = None.
Proof. intros Ha Hn. exact (proj1 (calendar_spins_without_new_slots rt av bs c arrow es Ha) Hn). Qed.

End RescheduleModal.

Lemma reschedule_calendar_spins_witness :
  calShown (mkRuntime 0 (mkJsDate 2025 10 9)) ∅ [] (calRun RescheduleModal.onMonthChange [NextMonth; PrevMonth]
    (initCal None (mkJsDate 2025 10 9))) = None.
Proof.
  apply (RescheduleModal.reschedule_calendar_spins _ _ _ _ NextMonth [PrevMonth]); [by right|].
  intros H. apply list_elem_of_singleton in H. discriminate.
Defined.
