(* ===== verification/TutorProfile.v ===== *)
(** * TutorProfile: the tutor's profile editor

    [pages/tutor/TutorProfile.tsx] edits the tutor's profile and sends it
    for re-verification.  It embeds [components/AvailabilityPicker.tsx]
    (the weekly template, one entry per weekday key "Mon" .. "Sun") and
    [components/TutorLessonTypeInput.tsx] (the list of lesson types).
    Module [AvailabilityPicker] models the picker's state (a [gmap] from
    weekday key to [TimeSlot]) and its updates, [LessonTypeInput] the
    lesson list's add and remove, [TutorProfile] the page: the profile
    fetch, the file list, the hourly-rate field, the form's controls as
    the step relation [edit], and [handleSave], whose effects are a list
    in the order the code performs them. *)

From S2P Require Import Prelude Dates DateFormat Calendar JsNumber.
From Stdlib Require Import QArith Qround.

Local Open Scope string_scope.

#[export] Instance TimeSlot_eq_dec : EqDecision TimeSlot.
Proof. solve_decision. Defined.

Module AvailabilityPicker.

Definition daysOfWeek : list string := ["Mon"; "Tue"; "Wed"; "Thu"; "Fri"; "Sat"; "Sun"].

Definition defaultSlot : TimeSlot := mkTimeSlot false "09:00" "17:00".

(** [daysOfWeek.reduce(...)]: every day disabled, 09:00 to 17:00. *)
Definition defaultAvailability : gmap string TimeSlot :=
  list_to_map ((λ day, (day, defaultSlot)) <$> daysOfWeek).

(** The initial state: [value ? { ...defaultAvailability, ...value } :
    defaultAvailability]; the later spread wins, as [∪] keeps its left
    argument's entries. *)
Definition initAvailability (value : option (gmap string TimeSlot)) : gmap string TimeSlot :=
  match value with Some v => v ∪ defaultAvailability | None => defaultAvailability end.

Inductive Field := FStart (v : string) | FEnd (v : string) | FEnabled (v : bool).

Definition setField (f : Field) (t : TimeSlot) : TimeSlot :=
  match f with
  | FStart v => mkTimeSlot (enabled t) v (end_ t)
  | FEnd v => mkTimeSlot (enabled t) (start t) v
  | FEnabled v => mkTimeSlot v (start t) (end_ t)
  end.

(** [prev[day]] of a day without an entry is [undefined]; its spread has
    no fields, read here as disabled and empty.  The picker only edits
    the days of [daysOfWeek], which always have an entry
    ([daysPresent_reachable]). *)
Definition undefinedSlot : TimeSlot := mkTimeSlot false "" "".

(** [handleAvailabilityChange(day, field, value)] *)
Definition handleAvailabilityChange (day : string) (f : Field) (av : gmap string TimeSlot)
    : gmap string TimeSlot :=
  <[day := setField f (default undefinedSlot (av !! day))]> av.

(** The effect on [value]: when the parent's value differs, merge it in
    ([{ ...prev, ...value }]). *)
Definition syncValue (value : option (gmap string TimeSlot)) (av : gmap string TimeSlot)
    : gmap string TimeSlot :=
  match value with
  | Some v => if bool_decide (v = av) then av else v ∪ av
  | None => av
  end.

(** The picker's transitions: an edit of one of the rows it renders, or
    a new [value] from the parent. *)
Inductive step : gmap string TimeSlot → gmap string TimeSlot → Prop :=
| step_change day f av : day ∈ daysOfWeek → step av (handleAvailabilityChange day f av)
| step_sync value av : step av (syncValue value av).

Definition daysPresent (av : gmap string TimeSlot) : Prop := ∀ day, day ∈ daysOfWeek → is_Some (av !! day).

End AvailabilityPicker.

Module LessonTypeInput.

Record State := mkState { input : string; showSuggestions : bool }.

(** [addLesson(lesson)]: the list passed to [onChange], if it is called,
    and the new state. *)
Definition addLesson (lesson : string) (value : list string) (st : State) : option (list string) * State :=
  let trimmed := trim lesson in
  if negb (truthy trimmed) || bool_decide (trimmed ∈ value) then (None, st)
  else (Some (value ++ [trimmed])%list, mkState "" false).

(** [removeLesson(lesson)] *)
Definition removeLesson (lesson : string) (value : list string) : list string :=
  List.filter (λ l, negb (String.eqb l lesson)) value.

(** [filteredSuggestions] *)
Definition filteredSuggestions (suggestions : list string) (st : State) (value : list string) : list string :=
  List.filter (λ s, strIncludes (lowerStr s) (lowerStr (input st)) && negb (bool_decide (s ∈ value)))
    suggestions.

(** The text field's [onChange]. *)
Definition onInput (text : string) (st : State) : State := mkState text true.

(** [handleKeyDown]: Enter with a non-blank input adds it. *)
Definition handleKeyDown (key : string) (value : list string) (st : State) : option (list string) * State :=
  if String.eqb key "Enter" && truthy (trim (input st)) then addLesson (input st) value st
  else (None, st).

(** The list as the input changes it: an added lesson (typed or a
    suggestion) or a removed one. *)
Inductive step : list string → list string → Prop :=
| step_add lesson value st value' st' :
    addLesson lesson value st = (Some value', st') → step value value'
| step_remove lesson value : step value (removeLesson lesson value).

(** No duplicate, and every lesson non-empty and without white space
    at either end (what [trim] leaves). *)
Definition lessonsOk (value : list string) : Prop :=
  NoDup value ∧ Forall (λ l, truthy l = true ∧ trim l = l) value.

End LessonTypeInput.

Module TutorProfile.

Record File := mkFile { file_name : string; file_size : Z }.

(** [QualificationFileType]: the metadata of an uploaded file. *)
Record Qualification := mkQualification { q_name : string; q_hash : string; q_deleted : bool }.

(** [Tutor] as the page holds it; [hourlyRate] is [None] when [NaN]. *)
Record Profile := mkProfile {
  p_id : string; p_userId : string; p_subject : string; p_firstName : string; p_lastName : string;
  p_hourlyRate : option Q; p_qualifications : list Qualification;
  p_availability : gmap string TimeSlot; p_fileUploads : list File; p_description : string;
  p_lessonType : list string; p_profileImageUrl : string; p_status : string; p_email : string;
  p_rejectedReason : string
}.

(** [defaultProfile] *)
Definition defaultProfile : Profile :=
  mkProfile "" "" "" "" "" (Some 0) [] AvailabilityPicker.defaultAvailability [] "" [] "" "" "" "".

Definition setFileUploads (l : list File) (p : Profile) : Profile :=
  mkProfile (p_id p) (p_userId p) (p_subject p) (p_firstName p) (p_lastName p) (p_hourlyRate p)
    (p_qualifications p) (p_availability p) l (p_description p) (p_lessonType p)
    (p_profileImageUrl p) (p_status p) (p_email p) (p_rejectedReason p).
Definition setQualifications (l : list Qualification) (p : Profile) : Profile :=
  mkProfile (p_id p) (p_userId p) (p_subject p) (p_firstName p) (p_lastName p) (p_hourlyRate p)
    l (p_availability p) (p_fileUploads p) (p_description p) (p_lessonType p)
    (p_profileImageUrl p) (p_status p) (p_email p) (p_rejectedReason p).
Definition setHourlyRate (r : option Q) (p : Profile) : Profile :=
  mkProfile (p_id p) (p_userId p) (p_subject p) (p_firstName p) (p_lastName p) r
    (p_qualifications p) (p_availability p) (p_fileUploads p) (p_description p) (p_lessonType p)
    (p_profileImageUrl p) (p_status p) (p_email p) (p_rejectedReason p).
(** The description's [onChange]. *)
Definition setDescription (d : string) (p : Profile) : Profile :=
  mkProfile (p_id p) (p_userId p) (p_subject p) (p_firstName p) (p_lastName p) (p_hourlyRate p)
    (p_qualifications p) (p_availability p) (p_fileUploads p) d (p_lessonType p)
    (p_profileImageUrl p) (p_status p) (p_email p) (p_rejectedReason p).
(** The [onChange] of the [AvailabilityPicker]. *)
Definition setAvailability (av : gmap string TimeSlot) (p : Profile) : Profile :=
  mkProfile (p_id p) (p_userId p) (p_subject p) (p_firstName p) (p_lastName p) (p_hourlyRate p)
    (p_qualifications p) av (p_fileUploads p) (p_description p) (p_lessonType p)
    (p_profileImageUrl p) (p_status p) (p_email p) (p_rejectedReason p).
(** The [onChange] of the [TutorLessonTypeInput]. *)
Definition setLessonType (l : list string) (p : Profile) : Profile :=
  mkProfile (p_id p) (p_userId p) (p_subject p) (p_firstName p) (p_lastName p) (p_hourlyRate p)
    (p_qualifications p) (p_availability p) (p_fileUploads p) (p_description p) l
    (p_profileImageUrl p) (p_status p) (p_email p) (p_rejectedReason p).

(** [res.data] of [GetTutorProfile]: a field the body lacks is [None]. *)
Record RawProfile := mkRawProfile {
  r_id : option string; r_userId : option string; r_firstName : option string;
  r_lastName : option string; r_hourlyRate : option Q; r_subject : option string;
  r_qualifications : option (list Qualification); r_availability : option (gmap string TimeSlot);
  r_fileUploads : option (list File); r_description : option string; r_lessonType : option (list string);
  r_profileImageUrl : option string; r_status : option string; r_email : option string;
  r_rejectedReason : option string
}.

(** [newProfile]: each [res.data.x || defaultProfile.x].  A string or
    rate that is empty or zero is its own default, and arrays and
    objects are truthy, so [||] is [default]. *)
Definition newProfile (r : RawProfile) : Profile :=
  let d := defaultProfile in
  mkProfile (default (p_id d) (r_id r)) (default (p_userId d) (r_userId r))
    (default (p_subject d) (r_subject r)) (default (p_firstName d) (r_firstName r))
    (default (p_lastName d) (r_lastName r)) (Some (default 0 (r_hourlyRate r)))
    (default (p_qualifications d) (r_qualifications r)) (default (p_availability d) (r_availability r))
    (default (p_fileUploads d) (r_fileUploads r)) (default (p_description d) (r_description r))
    (default (p_lessonType d) (r_lessonType r)) (default (p_profileImageUrl d) (r_profileImageUrl r))
    (default (p_status d) (r_status r)) (default (p_email d) (r_email r))
    (default (p_rejectedReason d) (r_rejectedReason r)).

(** What [handleSave] puts in the [FormData]; the rate travels as
    [hourlyRate.toString()], the lists and the template as JSON. *)
Record UpdatePayload := mkUpdatePayload {
  up_userId : string; up_hourlyRate : option Q; up_lessonType : list string;
  up_description : string; up_subject : string; up_availability : gmap string TimeSlot;
  up_fileUploads : list File; up_qualifications : list Qualification
}.

Definition payloadOf (p : Profile) : UpdatePayload :=
  mkUpdatePayload (p_userId p) (p_hourlyRate p) (p_lessonType p) (p_description p) (p_subject p)
    (p_availability p) (p_fileUploads p) (p_qualifications p).

Inductive Toast :=
| NoTokenFound | NeedAvailability | NeedLessonType | NeedFile | ProfileUpdated | UpdateFailed.

Inductive Nav := NavRoot | NavBack.

(** The effects of the handlers, in order: the global loading overlay,
    toasts, navigation and the [UpdateTutorProfile] request. *)
Inductive Effect := SetLoading (b : bool) | ShowToast (t : Toast) | Navigate (n : Nav) | SendUpdate (u : UpdatePayload).

(** The mount effect [fetchProfile]: [resp] is the answer of
    [GetTutorProfile(user.token, user.id)], [Err] when it throws. *)
Definition fetchProfile (token : string) (resp : result unit RawProfile) (p : Profile)
    : Profile * list Effect :=
  if negb (truthy token) then
    (p, [SetLoading true; ShowToast NoTokenFound; Navigate NavRoot; SetLoading false])
  else
    match resp with
    | Ok r => (newProfile r, [SetLoading true; SetLoading false])
    | Err _ => (p, [SetLoading true; SetLoading false])
    end.

(** [onDrop(acceptedFiles)]: appends the files that match no upload by
    name and size and no qualification by name. *)
Definition onDrop (acceptedFiles : list File) (p : Profile) : Profile :=
  let existingFiles := p_fileUploads p in
  let existingMetas := p_qualifications p in
  let newOnes := List.filter (λ file,
      negb (existsb (λ f, String.eqb (file_name f) (file_name file) && Z.eqb (file_size f) (file_size file))
              existingFiles) &&
      negb (existsb (λ f, String.eqb (q_name f) (file_name file)) existingMetas)) acceptedFiles in
  setFileUploads (existingFiles ++ newOnes)%list p.

(** [handleDelete(fileToDelete)] *)
Definition handleDelete (fileToDelete : File) (p : Profile) : Profile :=
  setFileUploads (List.filter (λ f, negb (String.eqb (file_name f) (file_name fileToDelete) &&
                                          Z.eqb (file_size f) (file_size fileToDelete)))
                    (p_fileUploads p)) p.

(** [handleQualificationDelete(fileToDelete)] *)
Definition handleQualificationDelete (fileToDelete : Qualification) (p : Profile) : Profile :=
  setQualifications (List.filter (λ f, negb (String.eqb (q_name f) (q_name fileToDelete) &&
                                             String.eqb (q_hash f) (q_hash fileToDelete)))
                       (p_qualifications p)) p.

(** [handleChange]: the one input wired to it is [name="hourlyRate"],
    which stores [Number(value)]. *)
Definition handleChange (value : string) (p : Profile) : Profile := setHourlyRate (Number value) p.

(** [handleBlur]: a negative rate is negated, any other rounded to
    cents; [NaN] stays [NaN] ([NaN < 0] is false, [NaN.toFixed(2)] is
    ["NaN"]). *)
Definition handleBlur (p : Profile) : Profile :=
  setHourlyRate (match p_hourlyRate p with
                 | Some q => if Qlt_le_dec q 0 then Some (- q)%Q else Some (round2 q)
                 | None => None
                 end) p.

(** [Object.values(profile.availability).some(day => day.enabled)] *)
Definition hasEnabledDay (av : gmap string TimeSlot) : bool := existsb (λ kv, enabled kv.2) (map_to_list av).

(** [handleSave]: [confirmed] is the answer to [confirm(...)], [token]
    the user's token, [resp] the outcome of [UpdateTutorProfile].  The
    [finally] block runs after the early [return] of the token check. *)
Definition handleSave (p : Profile) (confirmed : bool) (token : string) (resp : result unit unit)
    : list Effect :=
  if negb (hasEnabledDay (p_availability p)) then [ShowToast NeedAvailability]
  else if bool_decide (p_lessonType p = []) then [ShowToast NeedLessonType]
  else if bool_decide (p_fileUploads p = []) then [ShowToast NeedFile]
  else
    (if confirmed then [SetLoading true] else []) ++
    (if negb (truthy token) then
       [ShowToast NoTokenFound; SetLoading false; Navigate NavRoot; SetLoading false]
     else
       SendUpdate (payloadOf p) ::
         (match resp with
          | Ok _ => [ShowToast ProfileUpdated; Navigate NavBack]
          | Err _ => [ShowToast UpdateFailed]
          end ++ [SetLoading false]))%list.

(** [handleCancel] *)
Definition handleCancel : list Effect := [Navigate NavBack].

(** The two disabled inputs: [user?.name] and [profile?.subject]. *)
Definition readOnlyFields (userName : string) (p : Profile) : string * string := (userName, p_subject p).

(** A file by name and size, the identity [onDrop] and [handleDelete]
    compare. *)
Definition fileKey (f : File) : string * Z := (file_name f, file_size f).

(** The form's controls: the description, the picker, the rate input
    ([onChange] and [onBlur]), the lesson input, the dropzone (a drop
    holds distinct files) and the two trash buttons. *)
Inductive edit : Profile → Profile → Prop :=
| edit_description d p : edit p (setDescription d p)
| edit_availability av p : edit p (setAvailability av p)
| edit_rate value p : edit p (handleChange value p)
| edit_blur p : edit p (handleBlur p)
| edit_lessonType l p : edit p (setLessonType l p)
| edit_drop files p : NoDup (fileKey <$> files) → edit p (onDrop files p)
| edit_delete f p : edit p (handleDelete f p)
| edit_qualificationDelete q p : edit p (handleQualificationDelete q p).

(** The files listed under the dropzone: the new uploads, then the
    qualifications not marked deleted. *)
Definition fileList (p : Profile) : list string :=
  (file_name <$> p_fileUploads p) ++ (q_name <$> List.filter (λ q, negb (q_deleted q)) (p_qualifications p)).

End TutorProfile.

(** ** The picker keeps an entry for every weekday *)

Module PickerProps.
Import AvailabilityPicker.

Lemma daysPresent_default : daysPresent defaultAvailability.
Proof.
  intros day Hd. repeat (apply elem_of_cons in Hd as [->|Hd]; [vm_compute; by eexists|]).
  by apply not_elem_of_nil in Hd.
Qed.

Lemma daysPresent_init value : daysPresent (initAvailability value).
Proof.
  destruct value as [v|]; simpl; [|apply daysPresent_default].
  intros day Hd. destruct (daysPresent_default day Hd) as [t Ht].
  rewrite lookup_union, Ht. destruct (v !! day); by eexists.
Qed.

Lemma daysPresent_step av av' : daysPresent av → step av av' → daysPresent av'.
Proof.
  intros Hav Hs. destruct Hs as [d f av0 Hd0|value av0]; intros day Hd.
  - unfold handleAvailabilityChange. destruct (decide (d = day)) as [->|Hne].
    + rewrite lookup_insert_eq. by eexists.
    + rewrite lookup_insert_ne by done. by apply Hav.
  - destruct value as [v|]; simpl; [|by apply Hav].
    case_bool_decide; [by apply Hav|].
    destruct (Hav day Hd) as [t Ht]. rewrite lookup_union, Ht. destruct (v !! day); by eexists.
Qed.

Lemma weekdayShort_daysOfWeek k : weekdayShort k ∈ daysOfWeek.
Proof. unfold weekdayShort, daysOfWeek. repeat case_match; set_solver. Qed.

(** Every edit of the picker finds the day's entry: the [undefined]
    branch of [handleAvailabilityChange] is never taken. *)
Lemma daysPresent_change av day f :
  daysPresent av → day ∈ daysOfWeek →
  ∃ t, av !! day = Some t ∧ handleAvailabilityChange day f av = <[day := setField f t]> av.
Proof.
  intros Hav Hd. destruct (Hav day Hd) as [t Ht]. exists t. split; [done|].
  unfold handleAvailabilityChange. by rewrite Ht.
Qed.

(** Whatever the tutor edits, the template has an entry under the key the
    calendar reads for every date ([dayKey], in an English locale), so
    no day of the calendar is disabled for want of an entry. *)
Theorem picker_covers_calendar value av :
  star step (initAvailability value) av → ∀ d, is_Some (av !! dayKey d).
Proof.
  intros Hs d. assert (Hp : daysPresent av)
    by (eapply star_invariant; [apply daysPresent_step|apply daysPresent_init|exact Hs]).
  apply Hp, weekdayShort_daysOfWeek.
Qed.
End PickerProps.

(** ** The lesson list stays free of blanks and duplicates *)

Module LessonProps.
Import LessonTypeInput.

Lemma addLesson_Some lesson value st value' st' :
  addLesson lesson value st = (Some value', st') →
  value' = (value ++ [trim lesson])%list ∧ truthy (trim lesson) = true ∧ trim lesson ∉ value.
Proof.
  unfold addLesson. destruct (truthy (trim lesson)) eqn:Ht; simpl; [|done].
  case_bool_decide; [done|]. intros [= <- _]. done.
Qed.

Lemma lessonsOk_step value value' : lessonsOk value → step value value' → lessonsOk value'.
Proof.
  intros [Hnd Hf] Hs. destruct Hs as [lesson v st v' st' Ha|lesson v].
  - apply addLesson_Some in Ha as (-> & Ht & Hn). split.
    + apply NoDup_app. split_and!; [done| |by apply NoDup_singleton].
      intros x Hx ->%list_elem_of_singleton. done.
    + apply Forall_app. split; [done|]. constructor; [|done]. split; [done|apply trim_idem].
  - unfold removeLesson. split; [by apply NoDup_List_filter|]. apply List.Forall_forall. intros x [Hx _]%filter_In.
    by apply (proj1 (List.Forall_forall _ _) Hf).
Qed.

(** C33: From a list of trimmed, non-empty lessons without duplicates,
    every sequence of adds (typed, or picked among the suggestions) and
    removals keeps it so: what is added is the trimmed input, never
    blank, and a lesson typed with surrounding blanks is not added next
    to its trimmed copy. *)
Theorem lessonTypes_invariant value value' :
  lessonsOk value → star step value value' → lessonsOk value'.
Proof. intros H Hs. eapply star_invariant; [apply lessonsOk_step|exact H|exact Hs]. Qed.
End LessonProps.

(** ** The page's handlers *)

Module ProfileProps.
Import TutorProfile.

Lemma handleSave_checked p c tok resp :
  hasEnabledDay (p_availability p) = true → p_lessonType p ≠ [] → p_fileUploads p ≠ [] →
  handleSave p c tok resp =
    ((if c then [SetLoading true] else []) ++
     (if negb (truthy tok) then [ShowToast NoTokenFound; SetLoading false; Navigate NavRoot; SetLoading false]
      else SendUpdate (payloadOf p) ::
             (match resp with Ok _ => [ShowToast ProfileUpdated; Navigate NavBack]
                            | Err _ => [ShowToast UpdateFailed] end ++ [SetLoading false])))%list.
Proof.
  intros Ha Hl Hf. unfold handleSave. rewrite Ha. simpl.
  by rewrite !bool_decide_eq_false_2 by done.
Qed.

(** C27: [confirm(...) && dispatch(setLoading(true))] gates only the
    loading overlay: for a profile that passes the checks, declining the
    confirmation produces the same effects minus the overlay, and with a
    token the update is sent all the same. *)
Theorem handleSave_ignores_confirm p tok resp :
  hasEnabledDay (p_availability p) = true → p_lessonType p ≠ [] → p_fileUploads p ≠ [] →
  handleSave p true tok resp = SetLoading true :: handleSave p false tok resp ∧
  (truthy tok = true → SendUpdate (payloadOf p) ∈ handleSave p false tok resp).
Proof.
  intros Ha Hl Hf. rewrite !handleSave_checked by done. split; [done|].
  intros Ht. rewrite Ht. simpl. by left.
Qed.

(** [handleSave] sends an update exactly when the template has an
    enabled day, a lesson type and a file are given, and there is a
    token; otherwise it shows the first failing check's toast. *)
Theorem handleSave_sends_iff p c tok resp :
  (∃ u, SendUpdate u ∈ handleSave p c tok resp) ↔
  hasEnabledDay (p_availability p) = true ∧ p_lessonType p ≠ [] ∧ p_fileUploads p ≠ [] ∧
  truthy tok = true.
Proof.
  split.
  - unfold handleSave. intros [u Hu].
    destruct (hasEnabledDay _); simpl in Hu; [|set_solver].
    case_bool_decide; [set_solver|]. case_bool_decide; [set_solver|].
    destruct c, (truthy tok), resp; simpl in Hu; set_solver.
  - intros (Ha & Hl & Hf & Ht). exists (payloadOf p). rewrite handleSave_checked, Ht by done.
    destruct c; simpl; set_solver.
Qed.

(** The files stay distinct by name and size: [onDrop] adds only new
    ones (given a drop without two equal files), [handleDelete] removes
    every copy. *)
Lemma onDrop_distinct acceptedFiles p :
  NoDup (fileKey <$> p_fileUploads p) → NoDup (fileKey <$> acceptedFiles) →
  NoDup (fileKey <$> p_fileUploads (onDrop acceptedFiles p)).
Proof.
  intros Hp Ha. simpl. rewrite fmap_app. apply NoDup_app. split_and!; [done| |].
  - intros k (f & -> & Hf)%list_elem_of_fmap (g & Hk & Hg)%list_elem_of_fmap.
    apply list_elem_of_In, filter_In in Hg as [_ [Hg _]%andb_true_iff].
    apply negb_true_iff in Hg. apply list_elem_of_In in Hf.
    pose proof (existsb_false _ _ _ Hg Hf) as Hfg. simpl in Hfg.
    unfold fileKey in Hk. injection Hk as Hn Hs. rewrite Hn, Hs, String.eqb_refl, Z.eqb_refl in Hfg.
    discriminate.
  - by apply NoDup_fmap_List_filter.
Qed.

Lemma handleDelete_removes f p : fileKey f ∉ fileKey <$> p_fileUploads (handleDelete f p).
Proof.
  simpl. intros (g & Hk & Hg)%list_elem_of_fmap. apply list_elem_of_In, filter_In in Hg as [_ Hg].
  unfold fileKey in Hk. injection Hk as Hn Hs. rewrite <- Hn, <- Hs, String.eqb_refl, Z.eqb_refl in Hg.
  discriminate.
Qed.
Lemma handleSave_sends_payload p c tok resp u : SendUpdate u ∈ handleSave p c tok resp → u = payloadOf p.
Proof.
  unfold handleSave. intros Hu.
  repeat (case_match; simpl in Hu; try (by in_list Hu)); rewrite ?elem_of_app in Hu;
    repeat match goal with H : _ ∨ _ |- _ => destruct H as [Hu|Hu] end; in_list Hu; done.
Qed.

Lemma edit_distinct p p' :
  NoDup (fileKey <$> p_fileUploads p) → edit p p' → NoDup (fileKey <$> p_fileUploads p').
Proof.
  intros Hp Hs. destruct Hs as [| | | | |files p Hf|f p|q p]; try exact Hp.
  - by apply onDrop_distinct.
  - apply NoDup_fmap_List_filter, Hp.
Qed.

(** Editing the profile never lists a new upload twice: from a fetched
    profile whose uploads are distinct by name and size, whatever the
    tutor edits, drops or deletes, the uploads stay distinct, and so do
    the files [handleSave] sends. *)
Theorem editor_files_distinct p0 p c tok resp u :
  NoDup (fileKey <$> p_fileUploads p0) → star edit p0 p → SendUpdate u ∈ handleSave p c tok resp →
  NoDup (fileKey <$> up_fileUploads u).
Proof.
  intros H0 Hr Hu.
  assert (Hp : NoDup (fileKey <$> p_fileUploads p))
    by (apply (star_invariant edit (λ p, NoDup (fileKey <$> p_fileUploads p)) p0 p); [apply edit_distinct|exact H0|exact Hr]).
  assert (u = payloadOf p) as -> by (eapply handleSave_sends_payload; exact Hu). exact Hp.
Qed.

(** A drop of two files of the same name and size adds both. *)
Lemma onDrop_same_drop_twice f : fileKey <$> p_fileUploads (onDrop [f; f] defaultProfile) = [fileKey f; fileKey f].
Proof. done. Qed.

Lemma round2_nonneg q : (0 <= q)%Q → (0 <= round2 q)%Q.
Proof.
  intros Hq. assert (H0 : (0 <= Qfloor (q * 100 + (1 # 2)))%Z).
  { change 0%Z with (Qfloor 0). apply Qfloor_resp_le.
    apply (Qle_trans _ (q * 100)); [|rewrite <- (Qplus_0_r (q * 100)) at 1; by apply Qplus_le_r].
    apply (Qmult_le_0_compat q 100); [done|discriminate]. }
  unfold round2, Qle. cbn [Qnum Qden]. lia.
Qed.

(** After the rate field loses focus the rate is not negative, unless it
    is [NaN]. *)
Theorem handleBlur_nonneg p :
  match p_hourlyRate (handleBlur p) with
  | Some q => (0 <= q)%Q
  | None => p_hourlyRate p = None
  end.
Proof.
  unfold handleBlur. destruct (p_hourlyRate p) as [q|]; simpl; [|done].
  destruct (Qlt_le_dec q 0) as [Hlt|Hle].
  - apply Qlt_le_weak, Qopp_le_compat in Hlt. exact Hlt.
  - by apply round2_nonneg.
Qed.
End ProfileProps.

(** ** Witnesses *)

Definition exProfile : TutorProfile.Profile :=
  TutorProfile.setFileUploads [TutorProfile.mkFile "diploma.pdf" 1024]
    (TutorProfile.setLessonType ["Beginner"]
       (TutorProfile.setAvailability
          (<["Mon" := mkTimeSlot true "09:00" "17:00"]> AvailabilityPicker.defaultAvailability)
          TutorProfile.defaultProfile)).

Lemma handleSave_ignores_confirm_witness :
  TutorProfile.handleSave exProfile true "tok" (Ok tt) =
    TutorProfile.SetLoading true :: TutorProfile.handleSave exProfile false "tok" (Ok tt) ∧
  (truthy "tok" = true →
   TutorProfile.SendUpdate (TutorProfile.payloadOf exProfile) ∈ TutorProfile.handleSave exProfile false "tok" (Ok tt)).
Proof.
  apply ProfileProps.handleSave_ignores_confirm; [vm_compute; reflexivity|discriminate|discriminate].
Defined.

Lemma lessonTypes_invariant_witness : LessonTypeInput.lessonsOk ["Math"; "Physics"].
Proof.
  apply (LessonProps.lessonTypes_invariant ["Math"]).
  - split; [apply NoDup_singleton|repeat constructor; vm_compute; reflexivity].
  - apply star_one. apply (LessonTypeInput.step_add " Physics " ["Math"] (LessonTypeInput.mkState "" false)
      ["Math"; "Physics"] (LessonTypeInput.mkState "" false)).
    vm_compute. reflexivity.
Defined.
