(* ===== verification/Wallet.v ===== *)
(** * Wallet: the wallet API and the wallet pages

    [api/walletAPI.ts] is a thin client of the wallet service, which is
    outside the specification (a payment collaborator): the class
    [WalletApi] has one operation per export, a failing request being an
    [Err] with the body's [message] and [error] fields.  The student's
    [pages/student/Wallet.tsx] and the tutor's
    [pages/tutor/TutorWalletPage.tsx] share their fetch and PIN logic,
    their balance card and their PIN modal ([WalletCore], parametric in
    the failure text, with the PIN modal as the step relation [step]);
    the student page adds
    the Stripe top-up with its Confirm Top-up modal ([StudentWallet]) and
    [pages/student/WalletSuccessPage.tsx] credits the wallet on return
    from Stripe ([WalletSuccess]).  Each handler returns the new server
    state, the new page state and its effects in order, the API calls
    included. *)

From S2P Require Import Prelude DateFormat JsNumber.
From Stdlib Require Import QArith.

Local Open Scope string_scope.

(** [err.response.data]: the fields the pages read. *)
Record ApiError := mkApiError { e_message : option string; e_error : option string }.

(** [walletRes.data] of [GetWalletByUserId]. *)
Record WalletInfo := mkWalletInfo { w_balance : option Q; w_pinSet : option bool }.

Record Txn := mkTxn {
  txn_id : string; txn_type : string; txn_description : string; txn_amount : Q; txn_createdAt : string
}.

Class WalletApi (S : Type) := {
  GetWalletByUserId : string → S → result ApiError WalletInfo;
  GetWalletTransactions : string → S → result ApiError (option (list Txn));
  (** The answer's [refId], if any. *)
  TopUpWallet : string → option Q → S → result ApiError (option string * S);
  DeductWalletCredits : string → Q → string → S → result ApiError S;
  (** The answer's [url], if any. *)
  CreateCheckoutSession : string → Q → S → result ApiError (option string);
  SetWalletPin : string → string → S → result ApiError S;
  VerifyWalletPin : string → string → S → result ApiError unit;
  (** The answer's [message], if any. *)
  WithdrawAllFunds : string → string → S → result ApiError (option string * S)
}.

(** The calls the pages make, as a log. *)
Inductive Call :=
| CallGetWallet (id : string) | CallGetTransactions (id : string)
| CallTopUp (id : string) (amount : option Q) | CallCheckout (id : string) (amount : Q)
| CallSetPin (id pin : string) | CallWithdraw (id pin : string).

Inductive ToastKind := TSuccess | TError | TInfo.

Inductive Effect :=
| Toast (k : ToastKind) (msg : string) | Navigate (to : string) | Redirect (url : string) | Api (c : Call).

(** [user] of the store: its [id] and [token]. *)
Record WalletUser := mkWalletUser { wu_id : string; wu_token : string }.

Definition loggedIn (user : option WalletUser) : option WalletUser :=
  match user with
  | Some u => if truthy (wu_id u) && truthy (wu_token u) then Some u else None
  | None => None
  end.

(** [searchParams.get(k)]: the first value of [k]. *)
Definition getParam (k : string) (params : list (string * string)) : option string :=
  snd <$> List.find (λ kv, String.eqb kv.1 k) params.

Definition notLoggedIn : list Effect := [Toast TError "User not logged in"; Navigate "/"].

Module WalletCore.

Record View := mkView {
  balance : Q; transactions : list Txn; loading : bool;
  showPinModal : bool; isPinSet : bool; pinInput : string; isProcessing : bool
}.

Definition initView : View := mkView 0 [] true false false "" false.

Definition setPinInput (pin : string) (v : View) : View :=
  mkView (balance v) (transactions v) (loading v) (showPinModal v) (isPinSet v) pin (isProcessing v).

(** The PIN modal's Cancel: [setShowPinModal(false); setPinInput("")]. *)
Definition closePinModal (v : View) : View :=
  mkView (balance v) (transactions v) (loading v) false (isPinSet v) "" (isProcessing v).

(** The PIN input: [maxLength={6}] keeps what is typed or pasted to six
    characters. *)
Definition maxPinLength : nat := 6.

(** The page under its header: the loading message, or the balance
    with the transaction table ([None]: "No transactions yet."). *)
Inductive Shown := ShowLoading | ShowBalance (balance : Q) (table : option (list Txn)).

Definition shown (v : View) : Shown :=
  if loading v then ShowLoading
  else ShowBalance (balance v) (match transactions v with [] => None | l => Some l end).

(** The sign written before an amount: [txn.amount > 0 ? "+" : ""]. *)
Definition amountSign (a : Q) : string := if Qle_bool a 0 then "" else "+".

(** The PIN modal: its title, its submit button's label and whether
    that button is disabled. *)
Record PinModal := mkPinModal { pm_title : string; pm_button : string; pm_disabled : bool }.

Definition pinModal (v : View) : option PinModal :=
  if showPinModal v then
    Some (mkPinModal (if isPinSet v then "Enter Wallet PIN" else "Set Wallet PIN")
            (if isProcessing v then "Processing..." else if isPinSet v then "Confirm Withdraw" else "Set PIN")
            (isProcessing v))
  else None.

Section Handlers.
Context {S : Type} `{!WalletApi S}.

(** [fetchWallet]: both reads in [Promise.all]; the first failure is
    taken to be the wallet read's when both fail.  The early [return]
    skips the [finally], so [loading] stays set. *)
Definition fetchWallet (user : option WalletUser) (s : S) (v : View) : View * list Effect :=
  match loggedIn user with
  | None => (v, notLoggedIn)
  | Some u =>
      let calls := [Api (CallGetWallet (wu_id u)); Api (CallGetTransactions (wu_id u))] in
      match GetWalletByUserId (wu_id u) s, GetWalletTransactions (wu_id u) s with
      | Ok w, Ok txns =>
          (mkView (default 0 (w_balance w)) (default [] txns) false (showPinModal v)
             (default false (w_pinSet w)) (pinInput v) (isProcessing v), calls)
      | Err e, _ | _, Err e =>
          (mkView (balance v) (transactions v) false (showPinModal v) (isPinSet v) (pinInput v)
             (isProcessing v),
           (calls ++ [Toast TError (default "Failed to fetch wallet details" (e_message e))])%list)
      end
  end.

(** [handleWithdrawClick] *)
Definition handleWithdrawClick (user : option WalletUser) (v : View) : View * list Effect :=
  match loggedIn user with
  | None => (v, notLoggedIn)
  | Some _ => (mkView (balance v) (transactions v) (loading v) true (isPinSet v) (pinInput v) (isProcessing v), [])
  end.

(** [handlePinSubmit]: [failMsg] is the page's fallback error text.
    Without a PIN set it sets one; with one it withdraws everything and
    refetches. *)
Definition handlePinSubmit (failMsg : string) (user : option WalletUser) (s : S) (v : View)
    : S * View * list Effect :=
  let pin := pinInput v in
  if negb (truthy pin) || (String.length pin <? 4)%nat then
    (s, v, [Toast TError "PIN must be at least 4 digits"])
  else
  match loggedIn user with
  | None => (s, v, notLoggedIn)
  | Some u =>
      let fail e :=
        (s, mkView (balance v) (transactions v) (loading v) (showPinModal v) (isPinSet v) pin false,
         [Toast TError (default failMsg (e_error e))]) in
      if negb (isPinSet v) then
        match SetWalletPin (wu_id u) pin s with
        | Ok s' =>
            (s', mkView (balance v) (transactions v) (loading v) false true "" false,
             [Api (CallSetPin (wu_id u) pin); Toast TSuccess "Wallet PIN set successfully"])
        | Err e => let '(s1, v1, eff) := fail e in (s1, v1, Api (CallSetPin (wu_id u) pin) :: eff)
        end
      else
        match WithdrawAllFunds (wu_id u) pin s with
        | Ok (msg, s') =>
            let '(v', eff) := fetchWallet user s' v in
            (s', mkView (balance v') (transactions v') (loading v') false (isPinSet v') "" false,
             Api (CallWithdraw (wu_id u) pin) ::
               Toast TSuccess (default "Withdrawal successful" msg) :: eff)
        | Err e => let '(s1, v1, eff) := fail e in (s1, v1, Api (CallWithdraw (wu_id u) pin) :: eff)
        end
  end.
(** What the user can do with the wallet card and the PIN modal:
    type in the PIN input, open the modal, cancel it, submit it, reload
    the wallet.  [failMsg] is the page's fallback error text. *)
Inductive step (failMsg : string) (user : option WalletUser) : S * View → S * View → Prop :=
| step_type x s v : (String.length x <= maxPinLength)%nat → step failMsg user (s, v) (s, setPinInput x v)
| step_open s v : step failMsg user (s, v) (s, (handleWithdrawClick user v).1)
| step_cancel s v : step failMsg user (s, v) (s, closePinModal v)
| step_submit s v : step failMsg user (s, v) (let '(s', v', _) := handlePinSubmit failMsg user s v in (s', v'))
| step_fetch s v : step failMsg user (s, v) (s, (fetchWallet user s v).1).
End Handlers.
End WalletCore.

Module StudentWallet.

(** The top-up modal's state. *)
Record TopUp := mkTopUp { showConfirmModal : bool; pendingAmount : option Q }.

Definition closedTopUp : TopUp := mkTopUp false None.

Definition invalidAmount : list Effect := [Toast TError "Please enter a valid top-up amount"].

(** [openTopUpModal(amount)]: [NaN] and amounts not above zero are
    refused. *)
Definition openTopUpModal (amount : option Q) (t : TopUp) : TopUp * list Effect :=
  match amount with
  | Some a => if Qlt_le_dec 0 a then (mkTopUp true (Some a), []) else (t, invalidAmount)
  | None => (t, invalidAmount)
  end.

(** The custom "Top-up" button: [parseFloat] of the number input. *)
Definition customTopUp (input : string) (t : TopUp) : TopUp * list Effect :=
  openTopUpModal (parseFloat input) t.

(** The modal's preview: [(balance + (pendingAmount ?? 0))]. *)
Definition previewBalance (balance : Q) (t : TopUp) : Q := (balance + default 0 (pendingAmount t))%Q.

Section Handlers.
Context {S : Type} `{!WalletApi S}.

(** [confirmTopUp]: a Stripe session for the pending amount; the early
    returns skip the [finally], which closes the modal. *)
Definition confirmTopUp (user : option WalletUser) (s : S) (t : TopUp) : TopUp * list Effect :=
  match pendingAmount t with
  | None => (t, [])
  | Some a =>
      if Qeq_bool a 0 then (t, []) else
      match loggedIn user with
      | None => (t, notLoggedIn)
      | Some u =>
          let c := Api (CallCheckout (wu_id u) a) in
          match CreateCheckoutSession (wu_id u) a s with
          | Ok (Some url) =>
              if truthy url then (closedTopUp, [c; Redirect url])
              else (closedTopUp, [c; Toast TError "Failed to create Stripe session"])
          | Ok None => (closedTopUp, [c; Toast TError "Failed to create Stripe session"])
          | Err e => (closedTopUp, [c; Toast TError (default "Stripe top-up failed" (e_message e))])
          end
      end
  end.

(** The student page's [handlePinSubmit]. *)
Definition handlePinSubmit := WalletCore.handlePinSubmit (S := S) "Failed to process request".
End Handlers.

(** The [status] effect: one toast for a Stripe return, then the
    parameter is removed ([Some] of the new parameters when
    [setSearchParams] is called). *)
Definition statusEffect (params : list (string * string)) : list Effect * option (list (string * string)) :=
  let status := getParam "status" params in
  let toasts :=
    match status with
    | Some st =>
        if String.eqb st "success" then [Toast TSuccess "Credits added successfully!"]
        else if String.eqb st "cancelled" then [Toast TInfo "Payment was cancelled — no credits added."]
        else []
    | None => []
    end in
  match status with
  | Some st => if truthy st then (toasts, Some (List.filter (λ kv, negb (String.eqb kv.1 "status")) params))
               else (toasts, None)
  | None => (toasts, None)
  end.

(** The Confirm Top-up modal, shown while [showConfirmModal]: the
    pending amount and the balance after it. *)
Definition confirmModal (balance : Q) (t : TopUp) : option (option Q * Q) :=
  if showConfirmModal t then Some (pendingAmount t, previewBalance balance t) else None.

(** "← Back" *)
Definition backClick : Effect := Navigate "/student/dashboard".

(** The top-up modal's transitions: a preset or custom amount, Cancel,
    or Yes with any user and server answer. *)
Inductive step : TopUp → TopUp → Prop :=
| step_open amount t : step t (openTopUpModal amount t).1
| step_cancel t : step t closedTopUp
| step_confirm {S} `{!WalletApi S} user (s : S) t : step t (confirmTopUp user s t).1.

End StudentWallet.

Module TutorWallet.
Section Handlers.
Context {S : Type} `{!WalletApi S}.
(** [TutorWalletPage]'s fetch and withdraw click are the student page's. *)
Definition fetchWallet := WalletCore.fetchWallet (S := S).
Definition handleWithdrawClick := WalletCore.handleWithdrawClick.
(** Its [handlePinSubmit] differs only in the fallback text. *)
Definition handlePinSubmit := WalletCore.handlePinSubmit (S := S) "Failed to process withdrawal".
End Handlers.
(** Its balance card, table and PIN modal are the student page's. *)
Definition shown := WalletCore.shown.
Definition pinModal := WalletCore.pinModal.
End TutorWallet.

Module WalletSuccess.

Inductive PayStatus := Processing | Succeeded | Failed.

(** [status] and [hasProcessedRef], which a new visit of the page resets. *)
Record Page := mkPage { status : PayStatus; hasProcessed : bool }.

Definition initPage : Page := mkPage Processing false.

Definition invalidPayment : list Effect := [Toast TError "Invalid payment details"].

Section Handlers.
Context {S : Type} `{!WalletApi S}.

(** [processTopUp]: [params] are the URL's, [storage] the keys of
    [localStorage], [now] is [Date.now()].  It credits the wallet first
    and consults [localStorage] afterwards. *)
Definition processTopUp (params : list (string * string)) (token : string) (storage : list string)
    (now : Z) (s : S) (pg : Page) : S * Page * list string * list Effect :=
  if hasProcessed pg then (s, pg, storage, []) else
  match getParam "studentId" params, getParam "amount" params with
  | Some sid, Some amt =>
      if truthy sid && truthy amt && truthy token then
        let c := Api (CallTopUp sid (parseFloat amt)) in
        match TopUpWallet sid (parseFloat amt) s with
        | Ok (ref, s') =>
            let refId := match ref with Some r => if truthy r then r else Z_to_string now
                                    | None => Z_to_string now end in
            let uniqueKey := "wallet-topup-" ++ sid ++ "-" ++ amt ++ "-" ++ refId in
            if bool_decide (uniqueKey ∈ storage) then (s', mkPage Succeeded true, storage, [c])
            else (s', mkPage Succeeded true, uniqueKey :: storage,
                  [c; Toast TSuccess (amt ++ " credits added to your wallet");
                   Navigate "/student/wallet?status=success"])
        | Err _ => (s, mkPage Failed true, storage, [c; Toast TError "Failed to update wallet balance"])
        end
      else (s, mkPage Failed true, storage, invalidPayment)
  | _, _ => (s, mkPage Failed true, storage, invalidPayment)
  end.
End Handlers.

(** What the page shows for each status: its title and whether the
    "Back to Wallet" button is there.  The success text promises a
    redirect, which only the first visit schedules. *)
Definition shown (pg : Page) : string * bool :=
  match status pg with
  | Processing => ("Processing Payment...", false)
  | Succeeded => ("Payment Successful! Redirecting you back to your wallet...", false)
  | Failed => ("Payment Failed", true)
  end.

(** "Back to Wallet" *)
Definition backToWallet : Effect := Navigate "/student/wallet".
End WalletSuccess.

(** ** Properties *)

Module WalletProps.

(** *** The PIN is checked before any PIN request *)

Section Pin.
Context {S : Type} `{!WalletApi S}.
Import WalletCore.

Lemma fetchWallet_no_pin user s v id pin :
  Api (CallSetPin id pin) ∉ (fetchWallet user s v).2 ∧ Api (CallWithdraw id pin) ∉ (fetchWallet user s v).2.
Proof.
  unfold fetchWallet. destruct (loggedIn user) as [w|]; [|split; intros H; in_list H].
  destruct (GetWalletByUserId (wu_id w) s), (GetWalletTransactions (wu_id w) s); simpl;
    split; intros H; in_list H.
Qed.

(** A PIN request carries the typed PIN, of four characters or more, and
    a withdrawal happens only once a PIN is set.  Letters pass: the
    check is on the length only. *)
Theorem handlePinSubmit_checked failMsg user s v s' v' eff :
  handlePinSubmit failMsg user s v = (s', v', eff) →
  (∀ id pin, Api (CallSetPin id pin) ∈ eff ∨ Api (CallWithdraw id pin) ∈ eff →
     pin = pinInput v ∧ (4 ≤ String.length pin)%nat) ∧
  (∀ id pin, Api (CallWithdraw id pin) ∈ eff → isPinSet v = true) ∧
  ((String.length (pinInput v) < 4)%nat → s' = s ∧ v' = v).
Proof.
  unfold handlePinSubmit. intros H.
  destruct (Nat.ltb_spec (String.length (pinInput v)) 4) as [Hl|Hl]; rewrite ?orb_true_r in H.
  { injection H as <- <- <-. split_and!; [intros id pin [Hin|Hin]; in_list Hin|intros id pin Hin; in_list Hin|done]. }
  rewrite orb_false_r in H. destruct (truthy (pinInput v)); simpl in H.
  2: { injection H as <- <- <-. split_and!; [intros id pin [Hin|Hin]; in_list Hin|intros id pin Hin; in_list Hin|lia]. }
  destruct (loggedIn user) as [u|].
  2: { injection H as <- <- <-. split_and!; [intros id pin [Hin|Hin]; in_list Hin|intros id pin Hin; in_list Hin|lia]. }
  destruct (isPinSet v) eqn:Hp; simpl in H.
  - destruct (WithdrawAllFunds _ _ _) as [[msg s1]|e]; simpl in H.
    + destruct (fetchWallet user s1 v) as [v1 l] eqn:Hf. injection H as <- <- <-.
      pose proof (fetchWallet_no_pin user s1 v) as Hn. rewrite Hf in Hn. simpl in Hn.
      split_and!; [|done|lia]. intros id pin Hin.
      destruct (Hn id pin) as [Hn1 Hn2].
      destruct Hin as [Hin|Hin]; apply elem_of_cons in Hin as [Hin|Hin]; simplify_eq/=; try (split; [done|lia]);
        apply elem_of_cons in Hin as [Hin|Hin]; simplify_eq/=; done.
    + injection H as <- <- <-. split_and!; [intros id pin [Hin|Hin]; in_list Hin; split; [done|lia]|done|lia].
  - destruct (SetWalletPin _ _ _) as [s1|e]; simpl in H; injection H as <- <- <-;
      (split_and!; [intros id pin [Hin|Hin]; in_list Hin; split; [done|lia]|intros id pin Hin; in_list Hin|lia]).
Qed.
Lemma fetchWallet_pinInput user s v : pinInput (fetchWallet user s v).1 = pinInput v.
Proof.
  unfold fetchWallet. by repeat case_match.
Qed.

(** The PIN input never holds more than six characters. *)
Definition pinShort (sv : S * View) : Prop := (String.length (pinInput sv.2) <= maxPinLength)%nat.

Lemma pinShort_step failMsg user sv sv' : pinShort sv → step failMsg user sv sv' → pinShort sv'.
Proof.
  unfold pinShort, maxPinLength. intros Hp Hs. destruct Hs as [x s v Hx|s v|s v|s v|s v]; simpl in *.
  - done.
  - unfold handleWithdrawClick. by destruct (loggedIn user).
  - lia.
  - unfold handlePinSubmit. repeat case_match; simplify_eq/=; try done; try lia.
  - by rewrite fetchWallet_pinInput.
Qed.

(** Whatever the user typed, cancelled or submitted before, every
    request that sets a PIN or withdraws carries the typed PIN, of four
    to six characters: the handler refuses shorter ones and the input's
    [maxLength] longer ones. *)
Theorem pin_requests_bounded failMsg user s0 s v s' v' eff :
  star (step failMsg user) (s0, initView) (s, v) → handlePinSubmit failMsg user s v = (s', v', eff) →
  ∀ id pin, Api (CallSetPin id pin) ∈ eff ∨ Api (CallWithdraw id pin) ∈ eff →
    pin = pinInput v ∧ (4 ≤ String.length pin ≤ 6)%nat.
Proof.
  intros Hr Hs id pin Hin.
  assert (Hp : pinShort (s, v)) by (apply (star_invariant (step failMsg user) pinShort (s0, initView) (s, v));
    [apply pinShort_step|unfold pinShort; simpl; lia|exact Hr]).
  destruct (handlePinSubmit_checked failMsg user s v s' v' eff Hs) as [H _].
  destruct (H id pin Hin) as [-> Hl]. unfold pinShort, maxPinLength in Hp. simpl in Hp. split; [done|lia].
Qed.
End Pin.

(** *** Top-ups are for positive amounts *)

Import StudentWallet.

Definition pendingPositive (t : TopUp) : Prop := ∀ a, pendingAmount t = Some a → (0 < a)%Q.

(** Yes, Top-up leaves the modal as it is or closes it. *)
Lemma confirmTopUp_fst {S} `{!WalletApi S} user (s : S) t :
  (confirmTopUp user s t).1 = t ∨ (confirmTopUp user s t).1 = closedTopUp.
Proof.
  unfold confirmTopUp. destruct (pendingAmount t); [|by left]. destruct (Qeq_bool _ 0); [by left|].
  destruct (loggedIn user); [|by left].
  destruct (CreateCheckoutSession _ _ _) as [[url|]|e]; [destruct (truthy url)|..]; by right.
Qed.

(** An amount chosen opens the modal with it, or leaves the state. *)
Lemma openTopUpModal_fst amount t :
  (openTopUpModal amount t).1 = t ∨ ∃ a, (0 < a)%Q ∧ (openTopUpModal amount t).1 = mkTopUp true (Some a).
Proof.
  destruct amount as [b|]; simpl; [|by left].
  destruct (Qlt_le_dec 0 b); [right; by exists b|by left].
Qed.

Lemma pendingPositive_step t t' : pendingPositive t → step t t' → pendingPositive t'.
Proof.
  intros Ht Hs. destruct Hs as [amount t|t|S0 api user s t].
  - destruct (openTopUpModal_fst amount t) as [->|(b & Hb & ->)]; [done|]. by intros a [= <-].
  - done.
  - destruct (confirmTopUp_fst user s t) as [->| ->]; done.
Qed.

(** While the modal shows, an amount is pending. *)
Definition modalArmed (t : TopUp) : Prop := showConfirmModal t = true → is_Some (pendingAmount t).

Lemma modalArmed_step t t' : modalArmed t → step t t' → modalArmed t'.
Proof.
  intros Ht Hs. destruct Hs as [amount t|t|S0 api user s t].
  - destruct (openTopUpModal_fst amount t) as [->|(b & Hb & ->)]; [done|]. by eexists.
  - done.
  - destruct (confirmTopUp_fst user s t) as [->| ->]; done.
Qed.

(** From the closed modal, the Confirm Top-up modal always names an
    amount above zero and a balance after it above the current one. *)
Lemma confirmModal_positive t balance amt after :
  star step closedTopUp t → confirmModal balance t = Some (amt, after) →
  ∃ a, amt = Some a ∧ (0 < a)%Q ∧ (balance < after)%Q.
Proof.
  intros Hr Hm. unfold confirmModal in Hm. destruct (showConfirmModal t) eqn:Hs; [|done].
  injection Hm as <- <-.
  assert (Hp : pendingPositive t).
  { eapply star_invariant; [apply pendingPositive_step| |exact Hr]. intros b Hb. discriminate Hb. }
  assert (Ha : modalArmed t) by (eapply star_invariant; [apply modalArmed_step| |exact Hr]; done).
  destruct (Ha Hs) as [a Hpa]. exists a. split_and!; [done|by apply Hp|].
  unfold previewBalance. rewrite Hpa. simpl. rewrite <- (Qplus_0_r balance) at 1.
  apply Qplus_lt_r, Hp, Hpa.
Qed.

(** From the closed modal, whatever the student types or clicks, every
    Stripe session the page requests is for an amount above zero. *)
Theorem checkout_amount_positive {S} `{!WalletApi S} t user (s : S) t' eff :
  star step closedTopUp t → confirmTopUp user s t = (t', eff) →
  ∀ id a, Api (CallCheckout id a) ∈ eff → (0 < a)%Q.
Proof.
  intros Hr Hc id a Hin.
  assert (Hp : pendingPositive t).
  { eapply star_invariant; [apply pendingPositive_step| |exact Hr]. intros b Hb. discriminate Hb. }
  unfold confirmTopUp in Hc. destruct (pendingAmount t) as [b|] eqn:Hb; [|injection Hc as _ <-; in_list Hin].
  destruct (Qeq_bool b 0); [injection Hc as _ <-; in_list Hin|].
  destruct (loggedIn user) as [u|]; [|injection Hc as _ <-; unfold notLoggedIn in Hin; in_list Hin].
  assert (a = b) as ->.
  { destruct (CreateCheckoutSession (wu_id u) b s) as [[url|]|e]; [destruct (truthy url)|..];
      injection Hc as _ <-; in_list Hin; done. }
  by apply Hp.
Qed.

(** The Stripe return toast shows once: the effect removes the
    parameter, and on the new parameters it does nothing. *)
Theorem statusEffect_once params eff params' :
  statusEffect params = (eff, Some params') → statusEffect params' = ([], None).
Proof.
  unfold statusEffect. intros H.
  assert (Hnone : getParam "status" (List.filter (λ kv, negb (String.eqb kv.1 "status")) params) = None).
  { unfold getParam. rewrite find_all_false; [done|].
    intros kv [_ Hk]%filter_In. by apply negb_true_iff in Hk. }
  destruct (getParam "status" params) as [st|]; [|done].
  destruct (truthy st); [|by destruct (String.eqb st "success"), (String.eqb st "cancelled")].
  assert (params' = List.filter (λ kv, negb (String.eqb kv.1 "status")) params) as ->
    by (destruct (String.eqb st "success"), (String.eqb st "cancelled"); by injection H).
  by rewrite Hnone.
Qed.

(** *** The success page credits on every visit *)

Import WalletSuccess.

(** C23: A refresh of the Stripe success page credits the wallet again:
    each visit calls [TopUpWallet] before it looks at [localStorage],
    so with the same reference the second visit still applies the
    top-up and the stored key only suppresses its toast. *)
Theorem success_page_refresh_tops_up_twice {S} `{!WalletApi S} params tok storage now1 now2
    (s s1 s2 : S) sid amt r :
  getParam "studentId" params = Some sid → getParam "amount" params = Some amt →
  truthy sid && truthy amt && truthy tok = true → truthy r = true →
  TopUpWallet sid (parseFloat amt) s = Ok (Some r, s1) →
  TopUpWallet sid (parseFloat amt) s1 = Ok (Some r, s2) →
  ∃ storage1 eff1,
    processTopUp params tok storage now1 s initPage = (s1, mkPage Succeeded true, storage1, eff1) ∧
    processTopUp params tok storage1 now2 s1 initPage =
      (s2, mkPage Succeeded true, storage1, [Api (CallTopUp sid (parseFloat amt))]).
Proof.
  intros Hsid Hamt Hok Hr H1 H2. unfold processTopUp. simpl. rewrite Hsid, Hamt, Hok, H1, H2, Hr.
  set (key := "wallet-topup-" ++ sid ++ "-" ++ amt ++ "-" ++ r).
  destruct (decide (key ∈ storage)) as [Hin|Hin].
  - rewrite bool_decide_eq_true_2 by done. exists storage. eexists. split; [reflexivity|].
    by rewrite bool_decide_eq_true_2.
  - rewrite bool_decide_eq_false_2 by done. do 2 eexists. split; [reflexivity|].
    rewrite bool_decide_eq_true_2 by set_solver. done.
Qed.
(** The effect runs again when the store's user changes, but
    [hasProcessedRef] is already set: a visit whose first run had no
    token ends on "Payment Failed" and never calls [TopUpWallet], even
    once the token is there. *)
Lemma success_page_late_token {S} `{!WalletApi S} params tok storage now1 now2 (s : S) :
  let '(s1, pg1, st1, eff1) := processTopUp params "" storage now1 s initPage in
  s1 = s ∧ pg1 = mkPage Failed true ∧ eff1 = invalidPayment ∧
  processTopUp params tok st1 now2 s1 pg1 = (s, mkPage Failed true, storage, []).
Proof.
  unfold processTopUp. simpl.
  destruct (getParam "studentId" params) as [sid|], (getParam "amount" params) as [amt|]; simpl;
    rewrite ?andb_false_r; done.
Qed.

(** A second visit with a stored key shows the success text, which
    announces a redirect, but navigates nowhere. *)
Lemma success_page_second_visit_stays {S} `{!WalletApi S} params tok storage now (s s' : S) pg eff storage' :
  processTopUp params tok storage now s initPage = (s', pg, storage', eff) →
  status pg = Succeeded → storage' = storage →
  (shown pg).1 = "Payment Successful! Redirecting you back to your wallet..." ∧ ∀ to, Navigate to ∉ eff.
Proof.
  unfold processTopUp. simpl. intros H Hst ->. unfold shown. rewrite Hst. split; [done|].
  repeat case_match; simplify_eq/=; try done; intros to Hin; in_list Hin;
    match goal with H : _ :: ?l = ?l |- _ => apply (f_equal length) in H; simpl in H; lia end.
Qed.
End WalletProps.

(** ** Witnesses *)

(** A wallet service answering every top-up of one Stripe session with
    the session's reference. *)
Record Ledger := mkLedger { balances : gmap string Q; pins : gmap string string }.

Definition credit (sid : string) (a : Q) (l : Ledger) : Ledger :=
  mkLedger (<[sid := (default 0 (balances l !! sid) + a)%Q]> (balances l)) (pins l).

#[local] Instance exWallet : WalletApi Ledger := {|
  GetWalletByUserId sid l := Ok (mkWalletInfo (balances l !! sid) (Some (bool_decide (is_Some (pins l !! sid)))));
  GetWalletTransactions _ _ := Ok (Some []);
  TopUpWallet sid a l :=
    match a with Some q => Ok (Some "cs_1", credit sid q l) | None => Err (mkApiError None (Some "bad amount")) end;
  DeductWalletCredits sid a _ l := Ok (credit sid (- a)%Q l);
  CreateCheckoutSession _ _ _ := Ok (Some "https://checkout.stripe.com/c/cs_1");
  SetWalletPin sid pin l := Ok (mkLedger (balances l) (<[sid := pin]> (pins l)));
  VerifyWalletPin sid pin l :=
    if bool_decide (pins l !! sid = Some pin) then Ok tt else Err (mkApiError None (Some "wrong PIN"));
  WithdrawAllFunds sid pin l :=
    if bool_decide (pins l !! sid = Some pin) then Ok (None, mkLedger (<[sid := 0%Q]> (balances l)) (pins l))
    else Err (mkApiError None (Some "wrong PIN"))
|}.

Definition exParams : list (string * string) := [("studentId", "s1"); ("amount", "50")].
Definition exLedger : Ledger := mkLedger {[ "s1" := 0%Q ]} ∅.

Lemma success_page_refresh_tops_up_twice_witness :
  ∃ storage1 eff1,
    WalletSuccess.processTopUp exParams "tok" [] 1000 exLedger WalletSuccess.initPage =
      (credit "s1" 50 exLedger, WalletSuccess.mkPage WalletSuccess.Succeeded true, storage1, eff1) ∧
    WalletSuccess.processTopUp exParams "tok" storage1 2000 (credit "s1" 50 exLedger) WalletSuccess.initPage =
      (credit "s1" 50 (credit "s1" 50 exLedger), WalletSuccess.mkPage WalletSuccess.Succeeded true, storage1,
       [Api (CallTopUp "s1" (parseFloat "50"))]).
Proof.
  apply (WalletProps.success_page_refresh_tops_up_twice exParams "tok" [] 1000 2000 exLedger
           (credit "s1" 50 exLedger) (credit "s1" 50 (credit "s1" 50 exLedger)) "s1" "50" "cs_1");
    reflexivity.
Defined.
