(* ===== verification/FindTutor.v ===== *)
(** * FindTutor: the student's tutor search, [pages/student/FindTutor.tsx]

    The page holds the search filters (name, subject, price range,
    weekday), sends them to [SearchTutors] on mount, on Search and after
    Clear Filters (through the [filtersCleared] effect), and lists the
    tutors found, each with its enabled days and a link to its profile.
    [SearchTutors] ([api/studentAPI.ts], not in the repository) is the
    answer function [resp] the handlers take.  The profile link is
    checked against the route table of [Routes]. *)

From S2P Require Import Prelude Calendar JsNumber Routes.
From Stdlib Require Import QArith.

Local Open Scope string_scope.

Module FindTutor.

(** [TutorSearchRequest]; [undefined] fields are [None]. *)
Record SearchRequest := mkSearchRequest {
  rq_name : option string; rq_subject : option string;
  rq_minPrice : Z; rq_maxPrice : Z; rq_availability : option string
}.

(** A tutor of the results, the fields the cards read; [availability]
    keeps the order of the object's keys. *)
Record TutorCard := mkTutorCard {
  t_id : string; t_firstName : string; t_lastName : string; t_subject : string;
  t_hourlyRate : Q; t_profileImageUrl : string; t_availability : list (string * TimeSlot)
}.

Record View := mkView {
  search : string; subject : string; priceRange : Z * Z; availability : string;
  tutorResults : list TutorCard; loading : bool; error : option string; filtersCleared : bool
}.

Definition initView : View := mkView "" "" (0, 100)%Z "" [] false None false.

Definition setSearch (x : string) (v : View) : View :=
  mkView x (subject v) (priceRange v) (availability v) (tutorResults v) (loading v) (error v) (filtersCleared v).
Definition setSubject (x : string) (v : View) : View :=
  mkView (search v) x (priceRange v) (availability v) (tutorResults v) (loading v) (error v) (filtersCleared v).
Definition setPriceRange (x : Z * Z) (v : View) : View :=
  mkView (search v) (subject v) x (availability v) (tutorResults v) (loading v) (error v) (filtersCleared v).
Definition setAvailability (x : string) (v : View) : View :=
  mkView (search v) (subject v) (priceRange v) x (tutorResults v) (loading v) (error v) (filtersCleared v).

(** [x || undefined] *)
Definition orUndefined (x : string) : option string := if truthy x then Some x else None.

(** [reqBody] *)
Definition requestOf (v : View) : SearchRequest :=
  mkSearchRequest (orUndefined (search v)) (orUndefined (subject v)) (priceRange v).1 (priceRange v).2
    (orUndefined (availability v)).

(** [handleSearch]: the new view and the request sent, if any. *)
Definition handleSearch (token : string) (resp : SearchRequest → result unit (list TutorCard)) (v : View)
    : View * option SearchRequest :=
  if negb (truthy token) then
    (mkView (search v) (subject v) (priceRange v) (availability v) (tutorResults v) false
       (Some "No auth token found. Please login.") (filtersCleared v), None)
  else
    let req := requestOf v in
    match resp req with
    | Ok l => (mkView (search v) (subject v) (priceRange v) (availability v) l false None (filtersCleared v), Some req)
    | Err _ =>
        (mkView (search v) (subject v) (priceRange v) (availability v) (tutorResults v) false
           (Some "Failed to fetch tutors. Please try again.") (filtersCleared v), Some req)
    end.

(** [handleClear] *)
Definition handleClear (v : View) : View :=
  mkView "" "" (0, 100)%Z "" (tutorResults v) (loading v) (error v) true.

(** The [filtersCleared] effect, run after the re-render. *)
Definition clearedEffect (token : string) (resp : SearchRequest → result unit (list TutorCard)) (v : View)
    : View * option SearchRequest :=
  if filtersCleared v then
    let '(v', r) := handleSearch token resp v in
    (mkView (search v') (subject v') (priceRange v') (availability v') (tutorResults v') (loading v')
       (error v') false, r)
  else (v, None).

(** "No tutors found" *)
Definition noResults (v : View) : bool := bool_decide (tutorResults v = []) && negb (loading v).

(** [day.charAt(0).toUpperCase() + day.slice(1).toLowerCase()] *)
Definition dayName (day : string) : string :=
  match day with String c rest => String (upperAscii c) (lowerStr rest) | EmptyString => "" end.

(** The "Available:" line: the enabled days in the object's order. *)
Definition availableLabel (av : list (string * TimeSlot)) : string :=
  String.concat ", "
    ((λ kv, dayName kv.1 ++ " (" ++ start kv.2 ++ " - " ++ end_ kv.2 ++ ")")
       <$> List.filter (λ kv, enabled kv.2) av).

(** The View Profile button's target. *)
Definition viewProfilePath (t : TutorCard) : string := "/student/view-tutor/" ++ t_id t.

(** ** The filter controls *)

(** [STEP], [MIN] and [MAX] of the price slider. *)
Definition STEP : Z := 1.
Definition MIN : Z := 0.
Definition MAX : Z := 100.

(** The values of the two selects, "All Subjects" and "Any Day" first. *)
Definition subjectOptions : list string := [""; "Math"; "Science"; "English"; "History"].
Definition dayOptions : list string :=
  [""; "MONDAY"; "TUESDAY"; "WEDNESDAY"; "THURSDAY"; "FRIDAY"; "SATURDAY"; "SUNDAY"].

(** The values [Range] passes to [onChange]: two thumbs on the
    [STEP] grid of [[MIN, MAX]] that do not cross. *)
Definition rangeOk (p : Z * Z) : bool := (MIN <=? p.1)%Z && (p.1 <=? p.2)%Z && (p.2 <=? MAX)%Z.

(** The Search button: [disabled={loading}], its label. *)
Definition searchButton (v : View) : bool * string :=
  (loading v, if loading v then "Searching..." else "Search").

(** What the student can do on the page: type a name, pick an option
    of a select, slide the range, press Search or Clear Filters (which
    reruns the search through the effect).  [token] and [resp] are the
    store's token and [SearchTutors]. *)
Inductive step (token : string) (resp : SearchRequest → result unit (list TutorCard)) : View → View → Prop :=
| step_name x v : step token resp v (setSearch x v)
| step_subject x v : x ∈ subjectOptions → step token resp v (setSubject x v)
| step_day x v : x ∈ dayOptions → step token resp v (setAvailability x v)
| step_slide p v : rangeOk p = true → step token resp v (setPriceRange p v)
| step_search v : step token resp v (handleSearch token resp v).1
| step_clear v : step token resp v (handleClear v)
| step_cleared v : step token resp v (clearedEffect token resp v).1.

(** ** Properties *)

(** Clear Filters sends the request of the first search on mount, and
    the effect runs once. *)
Theorem clear_repeats_initial_search token resp v :
  (clearedEffect token resp (handleClear v)).2 = (handleSearch token resp initView).2 ∧
  filtersCleared (clearedEffect token resp (handleClear v)).1 = false.
Proof.
  unfold clearedEffect, handleSearch. simpl.
  destruct (truthy token); simpl; [|done].
  assert (requestOf (handleClear v) = requestOf initView) as -> by reflexivity.
  by destruct (resp (requestOf initView)).
Qed.

(** A string without "/". *)
Definition noSlash (s : string) : bool := noChar "/" s.

Lemma segments_viewProfilePath t :
  truthy (t_id t) = true → noSlash (t_id t) = true →
  segments (viewProfilePath t) = [""; "student"; "view-tutor"; t_id t].
Proof.
  intros Ht Hs. unfold segments, viewProfilePath, splitSlash. simpl. rewrite splitChar_noChar by done.
  apply negb_true_iff in Ht. change ("" +:+ t_id t) with (t_id t). simpl. by rewrite Ht.
Qed.

(** Every View Profile button of the results, for a tutor id without
    "/", opens the student's [ViewTutorDetails] page behind
    [StudentRoute]. *)
Theorem viewProfile_route t :
  truthy (t_id t) = true → noSlash (t_id t) = true →
  routeFor (viewProfilePath t) = Some (mkRoute "/student/view-tutor/:id" (Some StudentRoute) ViewTutorDetails).
Proof.
  intros Ht Hs. unfold routeFor, matchPath. rewrite segments_viewProfilePath by done.
  simpl. unfold truthy in Ht. by rewrite Ht.
Qed.

(** The filters hold one option of each select and a range of the
    slider. *)
Definition filtersOk (v : View) : Prop :=
  subject v ∈ subjectOptions ∧ availability v ∈ dayOptions ∧ rangeOk (priceRange v) = true.

Lemma handleSearch_filters token resp v :
  let v' := (handleSearch token resp v).1 in
  subject v' = subject v ∧ availability v' = availability v ∧ priceRange v' = priceRange v.
Proof. unfold handleSearch. destruct (truthy token); simpl; [destruct (resp _)|]; done. Qed.

Lemma filtersOk_step token resp v v' : filtersOk v → step token resp v v' → filtersOk v'.
Proof.
  intros Hf Hs. destruct Hs as [x v|x v Hx|x v Hx|p v Hp|v|v|v]; try (destruct Hf as (? & ? & ?); by split_and!).
  - unfold filtersOk. by destruct (handleSearch_filters token resp v) as (-> & -> & ->).
  - split_and!; [by left|by left|done].
  - unfold clearedEffect. destruct (filtersCleared v); [|done].
    destruct (handleSearch token resp v) as [v1 r] eqn:E. simpl.
    pose proof (handleSearch_filters token resp v) as H. rewrite E in H. simpl in H.
    unfold filtersOk. simpl. destruct H as (-> & -> & ->). exact Hf.
Qed.

(** A select's value sent in a request: one of the options, not the
    empty "All" one. *)
Lemma orUndefined_option x y opts : orUndefined x = Some y → x ∈ "" :: opts → y ∈ opts.
Proof.
  unfold orUndefined, truthy. destruct (String.eqb_spec x ""); simpl; [done|].
  intros [= <-] [->|?]%elem_of_cons; done.
Qed.

(** Every search the page sends, whatever the student typed, picked,
    slid or cleared before, asks for a price range within 0 to 100 with
    its minimum below its maximum, a subject of the four offered or
    none, and a weekday or none. *)
Theorem search_request_in_range token resp v v' req :
  star (step token resp) initView v → handleSearch token resp v = (v', Some req) →
  (0 <= rq_minPrice req <= rq_maxPrice req ∧ rq_maxPrice req <= 100)%Z ∧
  (∀ x, rq_subject req = Some x → x ∈ tail subjectOptions) ∧
  (∀ x, rq_availability req = Some x → x ∈ tail dayOptions).
Proof.
  intros Hr Hs.
  assert (Hf : filtersOk v) by (apply (star_invariant (step token resp) filtersOk initView v);
    [apply filtersOk_step|split_and!; [by left|by left|done]|exact Hr]).
  assert (req = requestOf v) as ->.
  { unfold handleSearch in Hs. destruct (truthy token); [|done]. by destruct (resp _); injection Hs. }
  destruct Hf as (Hsub & Hday & Hrange). unfold rangeOk, MIN, MAX in Hrange.
  apply andb_true_iff in Hrange as [[H1 H2]%andb_true_iff H3]. apply Z.leb_le in H1, H2, H3.
  split_and!; simpl; try lia; intros x Hx; eapply orUndefined_option; eauto.
Qed.
End FindTutor.
