(* ===== verification/Reviews.v ===== *)
(** * Reviews: past sessions, the review modal and the tutor's reviews

    [pages/student/PastSessionsPage.tsx] lists the student's past
    sessions and opens [components/ReviewModal.tsx] on one of them; the
    modal takes a rating of one to five stars and a comment and sends
    [AddTutorReview].  [pages/tutor/Reviews.tsx] lists the tutor's
    reviews with a search box.  The API calls ([tutorAPI],
    [GetPastSessionsForStudent]) are the answers the handlers take. *)

From S2P Require Import Prelude BookingTypes.

Local Open Scope string_scope.

Module ReviewModal.

Record State := mkState { rating : Z; comment : string; loading : bool }.

Definition initState : State := mkState 0 "" false.

(** A click on star [star] of [[1, 2, 3, 4, 5]]. *)
Definition setRating (star : Z) (st : State) : State := mkState star (comment st) (loading st).

Definition setComment (c : string) (st : State) : State := mkState (rating st) c (loading st).

(** The body of [AddTutorReview]. *)
Record ReviewBody := mkReviewBody { rb_bookingId : string; rb_studentName : string; rb_rating : Z; rb_comment : string }.

Inductive Effect :=
| Warn (msg : string) | Success (msg : string) | Failure (msg : string)
| AddTutorReview (tutorId : string) (body : ReviewBody) | Close.

(** [handleSubmit]: [resp] is the outcome of [AddTutorReview], with the
    error body's [message] on failure. *)
Definition handleSubmit (tutorId bookingId studentName : string) (resp : result (option string) unit)
    (st : State) : State * list Effect :=
  if Z.eqb (rating st) 0 then (st, [Warn "Please provide a rating before submitting"]) else
  let call := AddTutorReview tutorId (mkReviewBody bookingId studentName (rating st) (comment st)) in
  match resp with
  | Ok _ => (mkState 0 "" false, [call; Success "Review submitted successfully!"; Close])
  | Err msg =>
      if strIncludes (default "" msg) "already reviewed" then
        (mkState (rating st) (comment st) false, [call; Warn "You’ve already submitted a review for this session."])
      else (mkState (rating st) (comment st) false, [call; Failure "Failed to submit review. Please try again."])
  end.

(** The five stars: [star <= rating] lit. *)
Definition modalStars (st : State) : list bool := (λ star, Z.leb star (rating st)) <$> [1; 2; 3; 4; 5]%Z.

(** Cancel and Submit: both disabled while [loading]; Submit's label. *)
Definition submitButton (st : State) : bool * string := (loading st, if loading st then "Submitting..." else "Submit").

(** The modal's transitions: a star, the comment, or Submit with any
    answer of the server. *)
Inductive step : State → State → Prop :=
| step_star star st : star ∈ [1; 2; 3; 4; 5]%Z → step st (setRating star st)
| step_comment c st : step st (setComment c st)
| step_submit tutorId bookingId studentName resp st :
    step st (handleSubmit tutorId bookingId studentName resp st).1.

End ReviewModal.

Module PastSessions.

Record View := mkView {
  pastSessions : list BookingResponse; loading : bool;
  selectedTutorId : option string; selectedBookingId : option nat; isModalOpen : bool
}.

Definition initView : View := mkView [] true None None false.

Inductive Effect := Toast (msg : string) | Navigate (to : string).

(** The mount effect: [resp] is [GetPastSessionsForStudent]'s answer,
    its [recentSessions] field when present. *)
Definition fetchPastSessions (userId token : string) (resp : result unit (option (list BookingResponse)))
    (v : View) : View * list Effect :=
  if negb (truthy userId && truthy token) then (v, [Toast "User not logged in"; Navigate "/"]) else
  match resp with
  | Ok l => (mkView (default [] l) false (selectedTutorId v) (selectedBookingId v) (isModalOpen v), [])
  | Err _ => (mkView (pastSessions v) false (selectedTutorId v) (selectedBookingId v) (isModalOpen v),
              [Toast "Failed to fetch past sessions"])
  end.

(** [handleOpenReview(tutorId, bookingId)] *)
Definition handleOpenReview (tutorId : string) (bookingId : nat) (v : View) : View :=
  mkView (pastSessions v) (loading v) (Some tutorId) (Some bookingId) true.

(** The modal's [onClose]. *)
Definition closeReview (v : View) : View :=
  mkView (pastSessions v) (loading v) (selectedTutorId v) (selectedBookingId v) false.

(** [isModalOpen && selectedTutorId && selectedBookingId && user?.token]:
    the tutor and booking the modal reviews, when shown.  Booking ids
    are non-empty strings in the code. *)
Definition shownReview (token : string) (v : View) : option (string * nat) :=
  if isModalOpen v && truthy token then
    match selectedTutorId v, selectedBookingId v with
    | Some t, Some b => if truthy t then Some (t, b) else None
    | _, _ => None
    end
  else None.

(** The list's three states. *)
Inductive Shown := ShowLoading | ShowEmpty | ShowCards (l : list BookingResponse).

Definition shown (v : View) : Shown :=
  if loading v then ShowLoading else
  match pastSessions v with [] => ShowEmpty | l => ShowCards l end.

End PastSessions.

Module TutorReviews.

Record Review := mkReview {
  r_bookingId : string; r_studentName : string; r_rating : Z; r_comment : string; r_createdAt : string
}.

Record View := mkView { reviews : list Review; searchTerm : string }.

Inductive Effect := SetLoading (b : bool) | Toast (msg : string).

(** [fetchReviews]: the early [return] inside [try] still runs the
    [finally]. *)
Definition fetchReviews (token userId : string) (resp : result unit (option (list Review))) (v : View)
    : View * list Effect :=
  if negb (truthy token && truthy userId) then (v, [SetLoading true; SetLoading false]) else
  match resp with
  | Ok l => (mkView (default [] l) (searchTerm v), [SetLoading true; SetLoading false])
  | Err _ => (v, [SetLoading true; Toast "Failed to fetch tutor reviews"; SetLoading false])
  end.

Definition setSearchTerm (t : string) (v : View) : View := mkView (reviews v) t.

(** [filteredReviews] *)
Definition filteredReviews (v : View) : list Review :=
  List.filter (λ r, strIncludes (lowerStr (r_studentName r)) (lowerStr (searchTerm v)) ||
                    strIncludes (lowerStr (r_comment r)) (lowerStr (searchTerm v))) (reviews v).

(** The five stars of a rating: [idx < review.rating]. *)
Definition stars (rating : Z) : list bool := (λ idx, Z.ltb idx rating) <$> [0; 1; 2; 3; 4]%Z.

(** The table: each filtered review with its five stars, or [None]
    for "No reviews yet.". *)
Definition reviewsTable (v : View) : option (list (Review * list bool)) :=
  match filteredReviews v with [] => None | l => Some ((λ r, (r, stars (r_rating r))) <$> l) end.

End TutorReviews.

(** ** Properties *)

Module ReviewProps.
Import ReviewModal.

Definition ratingOk (st : State) : Prop := (0 <= rating st <= 5)%Z.

Lemma ratingOk_step st st' : ratingOk st → step st st' → ratingOk st'.
Proof.
  unfold ratingOk. intros Hr Hs. destruct Hs as [star st Hin|c st|t b n resp st]; simpl.
  - repeat (apply elem_of_cons in Hin as [->|Hin]; [lia|]). by apply not_elem_of_nil in Hin.
  - done.
  - unfold handleSubmit. destruct (Z.eqb_spec (rating st) 0); [done|].
    destruct resp as [|msg]; simpl; [lia|]. destruct (strIncludes _ _); simpl; lia.
Qed.

(** C13: Whatever the student clicks, every review the modal sends has one
    to five stars: the stars set one to five, and Submit refuses none. *)
Theorem review_rating_in_range st tutorId bookingId studentName resp st' eff :
  star step initState st → handleSubmit tutorId bookingId studentName resp st = (st', eff) →
  ∀ t body, AddTutorReview t body ∈ eff → (1 <= rb_rating body <= 5)%Z.
Proof.
  intros Hr Hs t body Hin.
  assert (Hok : ratingOk st) by (apply (star_invariant step ratingOk initState st); [apply ratingOk_step|by compute|exact Hr]).
  unfold handleSubmit in Hs. unfold ratingOk in Hok. destruct (Z.eqb_spec (rating st) 0) as [H0|H0].
  - injection Hs as _ <-. in_list Hin.
  - destruct resp as [|msg]; [|destruct (strIncludes _ _)]; injection Hs as _ <-; in_list Hin; simpl; lia.
Qed.
End ReviewProps.

Module TutorReviewProps.
Import TutorReviews.

Lemma strIncludes_empty s : strIncludes s "" = true.
Proof. by destruct s. Qed.

(** An empty search box shows every review, and a search shows only
    reviews of the list, in their order. *)
Theorem filteredReviews_spec v :
  filteredReviews (mkView (reviews v) "") = reviews v ∧
  ∀ r, In r (filteredReviews v) ↔ In r (reviews v) ∧
    (strIncludes (lowerStr (r_studentName r)) (lowerStr (searchTerm v)) ||
     strIncludes (lowerStr (r_comment r)) (lowerStr (searchTerm v))) = true.
Proof.
  split.
  - unfold filteredReviews. simpl. induction (reviews v) as [|r l IH]; [done|].
    simpl. by rewrite strIncludes_empty, IH.
  - intros r. unfold filteredReviews. apply filter_In.
Qed.

(** A rating of zero to five fills exactly that many of the five stars,
    the first ones. *)
Theorem stars_spec rating :
  (0 <= rating <= 5)%Z →
  stars rating = (List.repeat true (Z.to_nat rating) ++ List.repeat false (5 - Z.to_nat rating))%list.
Proof.
  intros Hr.
  assert (rating = 0 ∨ rating = 1 ∨ rating = 2 ∨ rating = 3 ∨ rating = 4 ∨ rating = 5)%Z
    as [->|[->|[->|[->|[->| ->]]]]] by lia; reflexivity.
Qed.
End TutorReviewProps.

Module PastSessionProps.
Import PastSessions.

(** The Review button of a card opens the modal on that card's tutor and
    booking, Close hides it, and the next Review button opens it on the
    new card, whatever was selected before. *)
Theorem review_modal_targets token v t b :
  truthy token = true → truthy t = true →
  shownReview token (handleOpenReview t b v) = Some (t, b) ∧
  shownReview token (closeReview (handleOpenReview t b v)) = None.
Proof. intros Hk Ht. unfold shownReview. simpl. by rewrite Hk, Ht. Qed.

(** A failed fetch leaves the list as it was and stops the loading
    state, so the page shows the empty list or the former cards, never
    "Loading" forever. *)
Lemma fetchPastSessions_done userId token resp v :
  truthy userId = true → truthy token = true →
  shown (fetchPastSessions userId token resp v).1 ≠ ShowLoading.
Proof.
  intros Hu Ht. unfold fetchPastSessions. rewrite Hu, Ht. unfold shown.
  destruct resp; simpl; by case_match.
Qed.
End PastSessionProps.

(** ** Witnesses *)

Lemma review_rating_in_range_witness :
  (1 <= ReviewModal.rb_rating (ReviewModal.mkReviewBody "b1" "Ann" 4 "") <= 5)%Z.
Proof.
  eapply (ReviewProps.review_rating_in_range (ReviewModal.setRating 4 ReviewModal.initState) "t1" "b1" "Ann"
            (Ok ())).
  - apply star_one, ReviewModal.step_star. apply (bool_decide_unpack _). reflexivity.
  - reflexivity.
  - apply elem_of_cons. left. reflexivity.
Defined.
