(* ===== verification/Auth.v ===== *)
(** * Auth: the login pages and the registration form

    [pages/LoginUserPage.tsx] and [pages/LoginAdminPage.tsx] share one
    submit flow ([loginFlow]): validate the two required fields, call
    [LoginUser], refuse a user of the wrong role, store the user and
    navigate to the role's dashboard.  [pages/UserRegister.tsx] validates
    its form with react-hook-form (required fields, [maxLength], the
    e-mail pattern), fetches a student number when the role select
    shows "STUDENT", and sends [RegisterUser] with the role's extra
    fields.  [LoginUser], [RegisterUser] and [getNextStudentId] are the
    answers the handlers take. *)

From S2P Require Import Prelude Routes.

Local Open Scope string_scope.

(** The [user] of [LoginUser]'s answer, the fields the pages read. *)
Record User := mkUser { u_id : string; u_name : string; u_role : string; u_token : string }.

Module Login.

Inductive Effect :=
| SetLoading (b : bool) | LoginCall (email password : string)
| StoreUser (u : User) | SetUser (u : User)
| ToastSuccess (msg : string) | ToastError (msg : string) | Navigate (to : string).

(** What distinguishes the two pages: the roles a page accepts, its
    refusal and welcome messages and the dashboard of a user. *)
Record Page := mkPage {
  accepts : string → bool; refusal : string; welcome : string; dashboard : User → string
}.

(** [onSubmit]: [required] fails on an empty field; [resp] is
    [LoginUser]'s answer, or the error's [response.data.message]. *)
Definition loginFlow (pg : Page) (email password : string) (resp : result (option string) User)
    : list Effect :=
  if negb (truthy email && truthy password) then [] else
  [SetLoading true; LoginCall email password] ++
  match resp with
  | Ok u =>
      SetLoading false ::
      if negb (accepts pg (u_role u)) then [ToastError (refusal pg)]
      else [StoreUser u; SetUser u; ToastSuccess (welcome pg); Navigate (dashboard pg u)]
  | Err msg => [SetLoading false; ToastError (jsOrStr msg "Login failed")]
  end.

(** [LoginUserPage] *)
Definition userPage : Page :=
  mkPage (λ r, String.eqb r "STUDENT" || String.eqb r "TUTOR")
    "Please use the admin login page instead." "Welcome back!"
    (λ u, if String.eqb (u_role u) "STUDENT" then "/student/dashboard" else "/tutor/dashboard").

(** [LoginAdminPage] *)
Definition adminPage : Page :=
  mkPage (λ r, String.eqb r "ADMIN") "Only administrators can log in here." "Welcome back, Admin!"
    (λ _, "/admin/dashboard").

Definition onSubmitUser := loginFlow userPage.
Definition onSubmitAdmin := loginFlow adminPage.

(** The messages under the fields after [trigger()]: [required] fails
    on an empty value. *)
Definition fieldErrors (email password : string) : list string :=
  ((if truthy email then [] else ["Email is required."]) ++
   (if truthy password then [] else ["Password is required."]))%list.

(** The [Link]s of each page: to the registration and the admin login
    from [LoginUserPage], to the admin login (the logo) and home from
    [LoginAdminPage]. *)
Definition userLinks : list string := ["/register"; "/admin/login"].
Definition adminLinks : list string := ["/admin/login"; "/"].

End Login.

(** ** The e-mail pattern [/^[A-Z0-9._%+-]+@[A-Z0-9.-]+\.[A-Z]{2,}$/i] *)

Module Email.

Definition isLetter (c : ascii) : bool :=
  let n := nat_of_ascii c in (((65 <=? n) && (n <=? 90)) || ((97 <=? n) && (n <=? 122)))%nat.
Definition isDigit (c : ascii) : bool := let n := nat_of_ascii c in ((48 <=? n) && (n <=? 57))%nat.

(** [[A-Z0-9._%+-]] and [[A-Z0-9.-]] under the [i] flag. *)
Definition localChar (c : ascii) : bool :=
  isLetter c || isDigit c || existsb (Ascii.eqb c) ["."; "_"; "%"; "+"; "-"]%char.
Definition domainChar (c : ascii) : bool :=
  isLetter c || isDigit c || Ascii.eqb c "." || Ascii.eqb c "-".

(** What the pattern denotes: a local part, "@", a domain, and a final
    "." before two letters or more. *)
Definition emailPattern (l : list ascii) : Prop :=
  ∃ a d t, l = (a ++ "@"%char :: d ++ "."%char :: t)%list ∧
    a ≠ [] ∧ Forall (λ c, localChar c = true) a ∧
    d ≠ [] ∧ Forall (λ c, domainChar c = true) d ∧
    (2 ≤ length t)%nat ∧ Forall (λ c, isLetter c = true) t.

(** The text before and after the first [c]. *)
Fixpoint splitOn (c : ascii) (l : list ascii) : option (list ascii * list ascii) :=
  match l with
  | [] => None
  | x :: l' => if Ascii.eqb x c then Some ([], l') else prod_map (cons x) id <$> splitOn c l'
  end.

(** The matcher: the local part ends at the only "@", the top-level
    domain starts after the last ".". *)
Definition emailOk (s : string) : bool :=
  match splitOn "@"%char (String.list_ascii_of_string s) with
  | Some (a, rest) =>
      negb (bool_decide (a = [])) && forallb localChar a &&
      match splitOn "."%char (reverse rest) with
      | Some (tr, dr) =>
          (2 <=? length tr)%nat && forallb isLetter tr && negb (bool_decide (dr = [])) && forallb domainChar dr
      | None => false
      end
  | None => false
  end.

End Email.

Module Register.

(** The values react-hook-form holds for the registered fields. *)
Record Values := mkValues {
  firstname : string; lastname : string; email : string; password : string;
  role : string; gradeLevel : string; subject : string
}.

(** [selectedRole] and [studentNumber] are the page's own state. *)
Record State := mkState { selectedRole : string; studentNumber : string; values : Values }.

Definition initState : State := mkState "" "" (mkValues "" "" "" "" "" "" "").

Inductive Field := FFirstname | FLastname | FEmail | FPassword | FRole | FGradeLevel | FSubject.

(** The [onChange] that [register(name)] returns. *)
Definition setValue (f : Field) (x : string) (v : Values) : Values :=
  let '(mkValues fn ln em pw ro gl su) := v in
  match f with
  | FFirstname => mkValues x ln em pw ro gl su
  | FLastname => mkValues fn x em pw ro gl su
  | FEmail => mkValues fn ln x pw ro gl su
  | FPassword => mkValues fn ln em x ro gl su
  | FRole => mkValues fn ln em pw x gl su
  | FGradeLevel => mkValues fn ln em pw ro x su
  | FSubject => mkValues fn ln em pw ro gl x
  end.

(** The fields on screen: the grade level for a student, the subject
    for a tutor. *)
Definition mounted (st : State) (f : Field) : bool :=
  match f with
  | FGradeLevel => String.eqb (selectedRole st) "STUDENT"
  | FSubject => String.eqb (selectedRole st) "TUTOR"
  | _ => true
  end.

(** The role select: [onChange={(e) => setSelectedRole(e.target.value)}]
    comes after [{...register("role")}] and replaces its [onChange]. *)
Definition selectRole (r : string) (st : State) : State := mkState r (studentNumber st) (values st).

Definition input (f : Field) (x : string) (st : State) : State :=
  mkState (selectedRole st) (studentNumber st) (setValue f x (values st)).

(** [getNextStudentId().then((id) => setStudentNumber(id))] *)
Definition studentIdArrived (id : string) (st : State) : State := mkState (selectedRole st) id (values st).

(** The [selectedRole] effect asks for a student number. *)
Definition fetchesStudentId (st : State) : bool := String.eqb (selectedRole st) "STUDENT".

(** What the user can do: type in a field on screen whose [onChange] is
    [register]'s, pick a role, or receive the student number. *)
Inductive step : State → State → Prop :=
| step_input f x st : f ≠ FRole → mounted st f = true → step st (input f x st)
| step_role r st : r ∈ ["STUDENT"; "TUTOR"] → step st (selectRole r st)
| step_studentId id st : step st (studentIdArrived id st).

(** [trigger()]: the rules of the fields on screen. *)
Definition validate (st : State) : bool :=
  let v := values st in
  truthy (firstname v) && (String.length (firstname v) <=? 100)%nat &&
  truthy (lastname v) && (String.length (lastname v) <=? 100)%nat &&
  truthy (email v) && Email.emailOk (email v) &&
  truthy (password v) && truthy (role v) &&
  (negb (mounted st FGradeLevel) || truthy (gradeLevel v)) &&
  (negb (mounted st FSubject) || truthy (subject v)).

(** The body of [RegisterUser]: the role's fields are spread in only for
    that role. *)
Record Body := mkBody {
  b_firstname : string; b_lastname : string; b_email : string; b_password : string; b_role : string;
  b_studentNumber : option string; b_gradeLevel : option string; b_subject : option string
}.

Definition body (st : State) : Body :=
  let v := values st in
  let isStudent := String.eqb (role v) "STUDENT" in
  mkBody (firstname v) (lastname v) (email v) (password v) (role v)
    (if isStudent then Some (studentNumber st) else None)
    (if isStudent then Some (gradeLevel v) else None)
    (if String.eqb (role v) "TUTOR" then Some (subject v) else None).

Inductive Effect :=
| SetLoading (b : bool) | RegisterCall (b : Body) | ToastSuccess (msg : string) | ToastError (msg : string).

(** [onSubmit]: [resp] is [RegisterUser]'s status and message, or the
    error's [message]. *)
Definition onSubmit (st : State) (resp : result string (Z * string)) : list Effect :=
  if negb (validate st) then [] else
  [SetLoading true; RegisterCall (body st)] ++
  match resp with
  | Ok (status, msg) => [SetLoading false; if Z.eqb status 200 then ToastSuccess msg else ToastError msg]
  | Err msg => [SetLoading false; ToastError msg]
  end.

End Register.

(** ** Properties *)

Module EmailProps.
Import Email.

Lemma splitOn_Some c l p q :
  splitOn c l = Some (p, q) ↔ l = (p ++ c :: q)%list ∧ Forall (λ x, x ≠ c) p.
Proof.
  revert p q. induction l as [|x l IH]; intros p q; simpl.
  - split; [done|]. intros [Hl _]. by destruct p.
  - destruct (Ascii.eqb_spec x c) as [->|Hne].
    + split; [intros [= <- <-]; split; [done|constructor]|].
      intros [Hl Hp]. destruct p as [|y p]; simpl in Hl; [by injection Hl as ->|].
      injection Hl as -> Hl. by inversion Hp.
    + assert (Hrec : ∀ p q, x :: l = (p ++ c :: q)%list → Forall (λ x, x ≠ c) p →
                     ∃ p', p = x :: p' ∧ splitOn c l = Some (p', q)).
      { intros [|y p'] q' Hl' Hp'; simpl in Hl'; injection Hl' as -> Hl'; [done|].
        inversion Hp'; subst. exists p'. split; [done|]. by apply IH. }
      destruct (splitOn c l) as [[p' q']|]; simpl.
      * split.
        -- intros [= <- <-]. destruct (proj1 (IH p' q') eq_refl) as [-> Hp]. split; [done|by constructor].
        -- intros [Hl Hp]. destruct (Hrec p q Hl Hp) as (p'' & -> & E'). by simplify_eq.
      * split; [done|]. intros [Hl Hp]. destruct (Hrec p q Hl Hp) as (p'' & _ & E'). discriminate.
Qed.

Lemma reverse_ne_nil {A} (l : list A) : l ≠ [] → reverse l ≠ [].
Proof. intros Hl Hr. apply Hl. by rewrite <- (reverse_involutive l), Hr. Qed.

(** A character class without [c] keeps [splitOn c] off the text. *)
Lemma Forall_class_ne (f : ascii → bool) c l :
  f c = false → Forall (λ x, f x = true) l → Forall (λ x, x ≠ c) l.
Proof. intros Hc Hl. eapply Forall_impl; [exact Hl|]. intros x Hx ->. congruence. Qed.

(** The registration form's e-mail check accepts exactly the
    strings its pattern describes: a local part, "@", a domain and a
    final "." before two letters or more. *)
Theorem emailOk_spec s : emailOk s = true ↔ emailPattern (String.list_ascii_of_string s).
Proof.
  unfold emailOk, emailPattern. generalize (String.list_ascii_of_string s) as l. intros l. split.
  - destruct (splitOn _ l) as [[a rest]|] eqn:E1; [|done].
    destruct (splitOn _ (reverse rest)) as [[tr dr]|] eqn:E2; [|by rewrite andb_false_r].
    rewrite !andb_true_iff, !negb_true_iff, !bool_decide_eq_false, !forallb_Forall, Nat.leb_le.
    intros [[Ha Hla] [[[Ht Hlt] Hd] Hld]].
    apply splitOn_Some in E1 as [-> _]. apply splitOn_Some in E2 as [E2 _].
    exists a, (reverse dr), (reverse tr).
    rewrite <- (reverse_involutive rest), E2, reverse_app, reverse_cons, <- app_assoc.
    split_and!; try done.
    + by apply reverse_ne_nil.
    + by apply Forall_reverse.
    + by rewrite length_reverse.
    + by apply Forall_reverse.
  - intros (a & d & t & -> & Ha & Hla & Hd & Hld & Ht & Hlt).
    rewrite (proj2 (splitOn_Some _ _ a (d ++ "."%char :: t)%list)) by (split; [done|by eapply (Forall_class_ne localChar)]).
    rewrite reverse_app, reverse_cons, <- app_assoc.
    rewrite (proj2 (splitOn_Some _ _ (reverse t) (reverse d))).
    2: { split; [done|]. apply Forall_reverse. by eapply (Forall_class_ne isLetter). }
    rewrite !andb_true_iff, !negb_true_iff, !bool_decide_eq_false, !forallb_Forall, Nat.leb_le, length_reverse.
    split_and!; try done; try by apply Forall_reverse. by apply reverse_ne_nil.
Qed.
End EmailProps.

Module LoginProps.
Import Login.

(** A login stores a user only when the server returned it and the page
    accepts its role, and navigates only to that user's dashboard. *)
Lemma loginFlow_success pg email password resp e :
  e ∈ loginFlow pg email password resp →
  (∀ u, e = StoreUser u ∨ e = SetUser u → resp = Ok u ∧ accepts pg (u_role u) = true) ∧
  (∀ to, e = Navigate to → ∃ u, resp = Ok u ∧ accepts pg (u_role u) = true ∧ to = dashboard pg u).
Proof.
  unfold loginFlow. destruct (_ && _); simpl; [|by intros ?%not_elem_of_nil].
  intros He. destruct resp as [u|msg]; simpl in He; [destruct (accepts pg (u_role u)) eqn:Ha|];
    in_list He; split; intros; simplify_eq/=; try (destruct H; simplify_eq/=); eauto.
Qed.

(** C12: Each login page lets in only the roles it is for, and sends each
    user to a page the route table guards with that role's guard:
    students to [StudentRoute], tutors to [UserRoute] and
    administrators to [AdminRoute]. *)
Theorem login_lands_on_guarded_page email password resp to :
  (Navigate to ∈ onSubmitUser email password resp →
     ∃ u r, resp = Ok u ∧ routeFor to = Some r ∧
       ((u_role u = "STUDENT" ∧ guard r = Some StudentRoute) ∨ (u_role u = "TUTOR" ∧ guard r = Some UserRoute))) ∧
  (Navigate to ∈ onSubmitAdmin email password resp →
     ∃ u r, resp = Ok u ∧ routeFor to = Some r ∧ u_role u = "ADMIN" ∧ guard r = Some AdminRoute).
Proof.
  split; intros H%loginFlow_success; destruct H as [_ H];
    destruct (H to eq_refl) as (u & -> & Ha & ->); exists u; simpl in *.
  - destruct (String.eqb_spec (u_role u) "STUDENT") as [Hs|Hs]; simpl in Ha.
    + eexists. split_and!; [done|reflexivity|by left].
    + apply String.eqb_eq in Ha. eexists. split_and!; [done|reflexivity|by right].
  - eexists. split_and!; [done|reflexivity|by apply String.eqb_eq|done].
Qed.
(** Either page calls [LoginUser] exactly when it shows no field error,
    with the typed e-mail and password. *)
Lemma loginFlow_calls_iff pg email password resp e' p' :
  LoginCall e' p' ∈ loginFlow pg email password resp ↔ fieldErrors email password = [] ∧ e' = email ∧ p' = password.
Proof.
  unfold loginFlow, fieldErrors. destruct (truthy email), (truthy password); simpl.
  2-4: split; [intros H; in_list H|intros [[=] _]].
  split.
  - intros H. apply elem_of_cons in H as [H|H]; [done|]. apply elem_of_cons in H as [[= -> ->]|H]; [done|].
    exfalso. destruct resp as [u|m]; [destruct (accepts _ _)|]; in_list H.
  - intros (_ & -> & ->). right. left.
Qed.

(** Every link of the two login pages opens a page of the route table
    that no guard protects. *)
Lemma login_links_public to : to ∈ (userLinks ++ adminLinks)%list → (guard <$> routeFor to) = Some None.
Proof. intros H. unfold userLinks, adminLinks in H. simpl in H. in_list H; reflexivity. Qed.
End LoginProps.

(** ** A login survives a reload *)

Module SessionProps.
Import Login.

Section Json.
(** [JSON.stringify] and [JSON.parse] on the user object: parsing what
    was stringified gives the user back, and the string is never empty. *)
Context (stringify : User → string) (parse : string → option User).
Hypothesis parse_stringify : ∀ u, parse (stringify u) = Some u.
Hypothesis stringify_truthy : ∀ u, truthy (stringify u) = true.

(** [localStorage]'s ["user"] item after a run of effects:
    [localStorage.setItem("user", JSON.stringify(user))] of the last
    [StoreUser]. *)
Definition storedUser (effs : list Effect) (prev : option string) : option string :=
  foldl (λ acc e, match e with StoreUser u => Some (stringify u) | _ => acc end) prev effs.

(** After a successful login, a reload restores the same user, and the
    guard of its dashboard, whose role check accepts the token within
    the timer, shows the page. *)
Theorem login_survives_reload pg email password u prev auth g :
  truthy email = true → truthy password = true → accepts pg (u_role u) = true →
  truthy (u_token u) = true → auth (u_token u) = true →
  ∃ raw, storedUser (loginFlow pg email password (Ok u)) prev = Some raw ∧
    Session.restoreSession parse (Some raw) = Session.Restored u ∧
    ∃ s, star (GuardMachine.step auth) (GuardMachine.init "") s ∧ GuardMachine.render s = GuardMachine.Outlet ∧
         GuardMachine.redirect g s = None.
Proof.
  intros He Hp Ha Ht Hauth. exists (stringify u).
  assert (Hs : storedUser (loginFlow pg email password (Ok u)) prev = Some (stringify u)).
  { unfold loginFlow. rewrite He, Hp, Ha. reflexivity. }
  assert (Hr : Session.restoreSession parse (Some (stringify u)) = Session.Restored u).
  { unfold Session.restoreSession. by rewrite stringify_truthy, parse_stringify. }
  split_and!; [done|done|].
  destruct (GuardProps.reload_restores_page auth g parse u_token (stringify u) u) as
    (e & s1 & s2 & He' & H1 & _ & H2 & _ & H3 & Ho & Hno); auto.
  rewrite Hr in He'. simpl in He'. injection He' as <-.
  exists (GuardMachine.onTimer s2). split_and!; [|done|done].
  eapply star_step; [by apply (GuardMachine.step_event _ _ _ _ H1)|].
  eapply star_step; [exact H2|]. eapply star_step; [exact H3|constructor].
Qed.
End Json.
End SessionProps.

Module RegisterProps.
Import Register.

Lemma role_unset_step st st' : role (values st) = "" → step st st' → role (values st') = "".
Proof. intros Hr. destruct 1 as [f x st Hf _|r st _|id st]; simpl; [|done|done]. by destruct f, (values st). Qed.

(** C17: The registration form never sends [RegisterUser]: react-hook-form
    learns the role only through the [onChange] of [register("role")],
    which the select's own [onChange] replaces, so the required role is
    empty at every submit whatever the user types and picks. *)
Theorem register_never_sends st resp :
  star step initState st → onSubmit st resp = [] ∧ role (values st) = "".
Proof.
  intros Hs. assert (Hr : role (values st) = "") by (apply (star_invariant step (λ s, role (values s) = "") initState st); [apply role_unset_step|done|exact Hs]).
  split; [|done]. unfold onSubmit, validate. rewrite Hr. simpl. by rewrite !andb_false_r.
Qed.
End RegisterProps.

(** ** Witnesses *)

Definition exStudent : User := mkUser "s1" "Ann" "STUDENT" "tok".

Lemma login_lands_on_guarded_page_witness :
  ∃ u r, (Ok exStudent : result (option string) User) = Ok u ∧ routeFor "/student/dashboard" = Some r ∧
    ((u_role u = "STUDENT" ∧ guard r = Some StudentRoute) ∨ (u_role u = "TUTOR" ∧ guard r = Some UserRoute)).
Proof.
  apply (LoginProps.login_lands_on_guarded_page "ann@x.com" "pw" (Ok exStudent) "/student/dashboard").
  unfold Login.onSubmitUser, Login.loginFlow. simpl. rewrite !elem_of_cons. do 6 right. left. reflexivity.
Defined.

(** A student who picks the role, fills in every field, a valid e-mail
    included, and receives a student number. *)
Definition exFilled : Register.State :=
  Register.input Register.FGradeLevel "JC" (Register.input Register.FPassword "pw"
    (Register.input Register.FEmail "ann@x.com" (Register.input Register.FLastname "Lee"
      (Register.input Register.FFirstname "Ann"
        (Register.studentIdArrived "S0001" (Register.selectRole "STUDENT" Register.initState)))))).

Lemma register_never_sends_witness :
  Register.onSubmit exFilled (Ok (200, "Registered")%Z) = [] ∧ Register.role (Register.values exFilled) = "".
Proof.
  apply RegisterProps.register_never_sends.
  unfold exFilled.
  repeat (eapply star_right; [|apply Register.step_input; [discriminate|reflexivity]]).
  eapply star_right; [eapply star_right; [apply star_refl|]|].
  - apply Register.step_role. apply elem_of_cons. left. reflexivity.
  - apply Register.step_studentId.
Defined.
