(* ===== verification/Admin.v ===== *)
(** * Admin: the administrator's pages

    [pages/admin/ManageTutors.tsx], [ManageStudents.tsx] and
    [ManageAdmins.tsx] list the accounts [adminAPI] returns, filter them
    by the search box, sort the tutors by a clicked column and show ten
    tutors or students a page ([Paging], with the Prev, numbered and
    Next buttons of its pager).  Each row ([Rows]) offers View,
    Suspend/Activate and Delete, enabled by the administrator's
    permissions and the account's status; the handlers, shared by the
    three pages, are the Section of [Accounts] over the role and its
    noun.  The create-admin modal and the dashboard are in
    [AdminHome]. *)

From S2P Require Import Prelude Auth.
From Stdlib Require Import QArith.

Local Open Scope string_scope.

(** ** Pagination: [slice(indexOfFirst, indexOfLast)] and the controls *)

Module Paging.
Section Paging.
Context (perPage : nat).

(** [currentPage * perPage - perPage]; the page is at least 1. *)
Definition indexOfFirst (currentPage : nat) : nat := (currentPage * perPage - perPage)%nat.

(** [items.slice(indexOfFirst, indexOfLast)] *)
Definition currentItems {A} (currentPage : nat) (l : list A) : list A :=
  take perPage (drop (indexOfFirst currentPage) l).

(** [Math.ceil(length / perPage)] *)
Definition totalPages (n : nat) : nat := ((n + perPage - 1) / perPage)%nat.

(** [handlePageChange(page)] *)
Definition handlePageChange (page currentPage total : nat) : nat :=
  if ((0 <? page) && (page <=? total))%nat then page else currentPage.

(** [totalPages > 1 && (...)]: the Prev, numbered and Next buttons. *)
Definition showsControls (total : nat) : bool := (1 <? total)%nat.

End Paging.

(** The controls: Prev (disabled on page 1), one button a page from 1
    to [totalPages] (the current one highlighted), Next (disabled on the
    last page). *)
Record Pager := mkPager { prevDisabled : bool; pageButtons : list (nat * bool); nextDisabled : bool }.

Definition controls (currentPage total : nat) : option Pager :=
  if showsControls total then
    Some (mkPager (currentPage =? 1)%nat (map (λ i, (S i, currentPage =? S i)%nat) (seq 0 total))
            (currentPage =? total)%nat)
  else None.

Inductive PagerButton := Prev | PageNo (n : nat) | Next.

(** The page after a click: a disabled button does nothing, the others
    call [handlePageChange(currentPage - 1)], [handlePageChange(i + 1)]
    or [handlePageChange(currentPage + 1)]. *)
Definition click (b : PagerButton) (currentPage total : nat) : nat :=
  match b with
  | Prev => if (currentPage =? 1)%nat then currentPage else handlePageChange (currentPage - 1) currentPage total
  | PageNo n => handlePageChange n currentPage total
  | Next => if (currentPage =? total)%nat then currentPage else handlePageChange (S currentPage) currentPage total
  end.

End Paging.

(** ** The calls of [adminAPI] and the handlers' effects *)

Inductive Call :=
| GetAll (role : string) | ActivateUser (id role : string) | SuspendUser (id role : string)
| DeleteUser (id role : string).

Inductive Effect :=
| SetLoading (b : bool) | ApiCall (c : Call) | ToastSuccess (msg : string) | ToastError (msg : string)
| Refetch | Navigate (to : string).

(** An account as the rows read it. *)
Record Account := mkAccount { a_id : string; a_status : string }.

Module Accounts.
Section Accounts.
(** The role sent to the API ("TUTOR", "STUDENT") and the noun of the
    messages ("Tutor", "Student", and "tutor", "student"). *)
Context (role noun nounLower : string).

(** [handleSuspendModal(account)]: [confirmed] is [confirm]'s answer,
    [resp] the outcome of the call.  The refetch is not awaited. *)
Definition handleSuspendModal (confirmed : bool) (token : string) (resp : result unit unit) (a : Account)
    : list Effect :=
  let isSuspended := String.eqb (a_status a) "SUSPENDED" in
  let action := if isSuspended then "activate" else "suspend" in
  if negb confirmed then [] else
  if negb (truthy token) then [] else
  ApiCall (if isSuspended then ActivateUser (a_id a) role else SuspendUser (a_id a) role) ::
  match resp with
  | Ok _ => [ToastSuccess (noun ++ if isSuspended then " activated successfully" else " suspended successfully"); Refetch]
  | Err _ => [ToastError ("Failed to " ++ action ++ " " ++ nounLower)]
  end.

(** [handleDelete(id)] *)
Definition handleDelete (confirmed : bool) (token : string) (resp : result unit unit) (id : string)
    : list Effect :=
  if negb confirmed then [] else
  if negb (truthy token) then [] else
  ApiCall (DeleteUser id role) ::
  match resp with
  | Ok _ => [ToastSuccess (noun ++ " deleted successfully"); Refetch]
  | Err _ => [ToastError ("Failed to delete " ++ nounLower)]
  end.

(** [fetchTutors] / [fetchStudents]: the new list, if any, and the
    effects; the early [return] inside [try] still runs [finally]. *)
Definition fetchAll {A} (token : string) (resp : result unit (list A)) : option (list A) * list Effect :=
  if negb (truthy token) then (None, [SetLoading true; SetLoading false]) else
  match resp with
  | Ok l => (Some l, [SetLoading true; ApiCall (GetAll role); SetLoading false])
  | Err _ => (None, [SetLoading true; ApiCall (GetAll role); ToastError ("Failed to fetch " ++ nounLower ++ "s");
                     SetLoading false])
  end.

End Accounts.
End Accounts.

(** ** A row of the account tables *)

Module Rows.

(** The class of the status cell: [text-green-600] for "ACTIVE",
    [text-red-600] for "SUSPENDED", [text-gray-600] otherwise. *)
Inductive StatusColor := TextGreen | TextRed | TextGray.

Definition statusColor (status : string) : StatusColor :=
  if String.eqb status "ACTIVE" then TextGreen else if String.eqb status "SUSPENDED" then TextRed else TextGray.

(** [status === "SUSPENDED" ? "Activate" : "Suspend"] *)
Definition suspendText (status : string) : string := if String.eqb status "SUSPENDED" then "Activate" else "Suspend".

(** What a row shows: its cells, the class of the status cell, the label
    of the Suspend/Activate button and the [disabled] of both buttons. *)
Record Row := mkRow { cells : list string; color : StatusColor; suspendLabel : string; suspendOff : bool; deleteOff : bool }.

End Rows.

Module ManageTutors.

(** A tutor of [GetAllTutors], the fields the table reads. *)
Record Tutor := mkTutor { userId : string; firstName : string; lastName : string; email : string; status : string }.

Inductive SortKey := KFirstName | KEmail | KStatus.
Inductive Direction := Asc | Desc.
Record SortConfig := mkSortConfig { key : SortKey; direction : Direction }.

#[export] Instance SortKey_eq_dec : EqDecision SortKey.
Proof. solve_decision. Defined.

Record View := mkView { searchTerm : string; tutors : list Tutor; currentPage : nat; sortConfig : option SortConfig }.

Definition initView : View := mkView "" [] 1 None.

Definition tutorsPerPage : nat := 10.

Definition fieldOf (k : SortKey) (t : Tutor) : string :=
  match k with KFirstName => firstName t | KEmail => email t | KStatus => status t end.

(** [filteredTutors] *)
Definition filteredTutors (v : View) : list Tutor :=
  let term := lowerStr (searchTerm v) in
  List.filter (λ t, strIncludes (lowerStr (firstName t)) term || strIncludes (lowerStr (lastName t)) term ||
                    strIncludes (lowerStr (email t)) term || strIncludes (lowerStr (status t)) term) (tutors v).

(** The comparator: [a[key] > b[key] ? order : a[key] < b[key] ? -order : 0],
    and [0] with no sort. *)
Definition compareTutors (sc : option SortConfig) (a b : Tutor) : comparison :=
  match sc with
  | None => Eq
  | Some c =>
      match String.compare (fieldOf (key c) a) (fieldOf (key c) b), direction c with
      | Gt, Asc | Lt, Desc => Gt
      | Lt, Asc | Gt, Desc => Lt
      | Eq, _ => Eq
      end
  end.

(** [[...filteredTutors].sort(...)]: a stable sort. *)
Definition sortedTutors (v : View) : list Tutor := sortBy (compareTutors (sortConfig v)) (filteredTutors v).

Definition totalPages (v : View) : nat := Paging.totalPages tutorsPerPage (length (sortedTutors v)).

Definition currentTutors (v : View) : list Tutor :=
  Paging.currentItems tutorsPerPage (currentPage v) (sortedTutors v).

(** The S/N column of row [idx]. *)
Definition serialNumber (v : View) (idx : nat) : nat := Paging.indexOfFirst tutorsPerPage (currentPage v) + idx + 1.

Definition handlePageChange (page : nat) (v : View) : View :=
  mkView (searchTerm v) (tutors v) (Paging.handlePageChange page (currentPage v) (totalPages v)) (sortConfig v).

(** [handleSort(key)] *)
Definition handleSort (k : SortKey) (v : View) : View :=
  let sc := match sortConfig v with
            | Some c => if decide (key c = k) then mkSortConfig k (if direction c is Asc then Desc else Asc)
                        else mkSortConfig k Asc
            | None => mkSortConfig k Asc
            end in
  mkView (searchTerm v) (tutors v) (currentPage v) (Some sc).

(** The search box: [setSearchTerm] and [setCurrentPage(1)]. *)
Definition setSearchTerm (t : string) (v : View) : View := mkView t (tutors v) 1 (sortConfig v).

(** [setTutors(response.data)] after a fetch. *)
Definition pager (v : View) : option Paging.Pager := Paging.controls (currentPage v) (totalPages v).

Definition setTutors (l : list Tutor) (v : View) : View := mkView (searchTerm v) l (currentPage v) (sortConfig v).

Definition handleViewTutor (t : Tutor) : Effect := Navigate ("/admin/tutors/" ++ userId t).

Definition hasPermission (perms : list string) (p : string) : bool := bool_decide (p ∈ perms).

Definition suspendDisabled (perms : list string) (t : Tutor) : bool :=
  negb (hasPermission perms "SUSPEND_TUTOR") || String.eqb (status t) "DELETED" || String.eqb (status t) "REJECTED".

Definition deleteDisabled (perms : list string) (t : Tutor) : bool :=
  negb (hasPermission perms "DELETE_TUTOR") ||
  (negb (String.eqb (status t) "SUSPENDED") && negb (String.eqb (status t) "REJECTED")).

Definition suspendLabel (t : Tutor) : string := Rows.suspendText (status t).

(** [tutor.status === "DELETED" || tutor.status === "REJECTED" && <div>]:
    [&&] binds first, and React renders the [true] of a deleted tutor
    as nothing. *)
Definition statusTooltip (t : Tutor) : option string :=
  if String.eqb (status t) "DELETED" then None
  else if String.eqb (status t) "REJECTED" then Some "You can only suspend active tutors" else None.

Definition account (t : Tutor) : Account := mkAccount (userId t) (status t).

(** A click on Suspend/Activate: nothing when the button is disabled,
    else [perms.includes("SUSPEND_TUTOR") && handleSuspendModal(tutor)]. *)
Definition onSuspendClick (perms : list string) (confirmed : bool) (token : string) (resp : result unit unit)
    (t : Tutor) : list Effect :=
  if suspendDisabled perms t then [] else
  if hasPermission perms "SUSPEND_TUTOR" then
    Accounts.handleSuspendModal "TUTOR" "Tutor" "tutor" confirmed token resp (account t)
  else [].

Definition onDeleteClick (perms : list string) (confirmed : bool) (token : string) (resp : result unit unit)
    (t : Tutor) : list Effect :=
  if deleteDisabled perms t then [] else
  if hasPermission perms "DELETE_TUTOR" then Accounts.handleDelete "TUTOR" "Tutor" "tutor" confirmed token resp (userId t)
  else [].

(** The page's events: typing a search, a page button, a column header,
    and the answer of a (re)fetch. *)
Inductive step : View → View → Prop :=
| step_search t v : step v (setSearchTerm t v)
| step_page p v : step v (handlePageChange p v)
| step_sort k v : step v (handleSort k v)
| step_loaded l v : step v (setTutors l v).

End ManageTutors.

Module ManageStudents.

(** [StudentDetails] *)
Record Student := mkStudent {
  id : string; name : string; email : string; status : string;
  studentNumber : option string; gradeLevel : option string
}.

Record View := mkView { searchTerm : string; students : list Student; currentPage : nat }.

Definition studentsPerPage : nat := 10.

(** [filteredStudents]: by name only. *)
Definition filteredStudents (v : View) : list Student :=
  List.filter (λ s, strIncludes (lowerStr (name s)) (lowerStr (searchTerm v))) (students v).

Definition totalPages (v : View) : nat := Paging.totalPages studentsPerPage (length (filteredStudents v)).

Definition currentStudents (v : View) : list Student :=
  Paging.currentItems studentsPerPage (currentPage v) (filteredStudents v).

Definition handlePageChange (page : nat) (v : View) : View :=
  mkView (searchTerm v) (students v) (Paging.handlePageChange page (currentPage v) (totalPages v)).

Definition setSearchTerm (t : string) (v : View) : View := mkView t (students v) 1.

Definition handleViewStudent (s : Student) : Effect := Navigate ("/admin/students/" ++ id s).

(** [fetchStudents], [handleSuspendModal] and [handleDelete]: the
    handlers of [Accounts] for the role "STUDENT". *)
Definition fetchStudents (token : string) (resp : result unit (list Student)) : option (list Student) * list Effect :=
  Accounts.fetchAll "STUDENT" "student" token resp.
Definition handleSuspendModal := Accounts.handleSuspendModal "STUDENT" "Student" "student".
Definition handleDelete := Accounts.handleDelete "STUDENT" "Student" "student".

Definition suspendDisabled (perms : list string) (s : Student) : bool :=
  negb (ManageTutors.hasPermission perms "SUSPEND_STUDENT") || String.eqb (status s) "DELETED".

Definition deleteDisabled (perms : list string) (s : Student) : bool :=
  negb (ManageTutors.hasPermission perms "DELETE_STUDENT") || negb (String.eqb (status s) "SUSPENDED").

Definition onSuspendClick (perms : list string) (confirmed : bool) (token : string) (resp : result unit unit)
    (s : Student) : list Effect :=
  if suspendDisabled perms s then [] else
  if ManageTutors.hasPermission perms "SUSPEND_STUDENT" then
    handleSuspendModal confirmed token resp (mkAccount (id s) (status s))
  else [].

Definition onDeleteClick (perms : list string) (confirmed : bool) (token : string) (resp : result unit unit)
    (s : Student) : list Effect :=
  if deleteDisabled perms s then [] else
  if ManageTutors.hasPermission perms "DELETE_STUDENT" then
    handleDelete confirmed token resp (id s)
  else [].

(** A row of the table: [student.student?.studentNumber] and
    [gradeLevel] render nothing when the student record is missing. *)
Definition row (perms : list string) (s : Student) : Rows.Row :=
  Rows.mkRow [name s; email s; default "" (studentNumber s); default "" (gradeLevel s); status s]
    (Rows.statusColor (status s)) (Rows.suspendText (status s)) (suspendDisabled perms s) (deleteDisabled perms s).

Definition table (perms : list string) (v : View) : list Rows.Row := row perms <$> currentStudents v.

Definition pager (v : View) : option Paging.Pager := Paging.controls (currentPage v) (totalPages v).

(** [setStudents] of a (re)fetch: the page is kept. *)
Definition setStudents (l : list Student) (v : View) : View := mkView (searchTerm v) l (currentPage v).

(** The page's events: typing a search, a button of the pager, and the
    answer of a (re)fetch. *)
Inductive step : View → View → Prop :=
| step_search t v : step v (setSearchTerm t v)
| step_pager b v : step v (mkView (searchTerm v) (students v) (Paging.click b (currentPage v) (totalPages v)))
| step_loaded l v : step v (setStudents l v).

End ManageStudents.

Module ManageAdmins.

(** An admin of [GetAllAdmins], the fields the table reads. *)
Record AdminRow := mkAdminRow { id : string; name : string; email : string; status : string }.

Record View := mkView { searchTerm : string; admins : list AdminRow; isModalOpen : bool }.

(** [filteredAdmins]: by name only, and no pagination. *)
Definition filteredAdmins (v : View) : list AdminRow :=
  List.filter (λ a, strIncludes (lowerStr (name a)) (lowerStr (searchTerm v))) (admins v).

(** The Create Admin button is shown with [CREATE_ADMIN] only. *)
Definition showsCreate (perms : list string) : bool := ManageTutors.hasPermission perms "CREATE_ADMIN".

Definition handleViewAdmin (a : AdminRow) : Effect := Navigate ("/admin/admins/" ++ id a).

(** [fetchAdmins], [handleSuspendModal] and [handleDelete]: the
    handlers of [Accounts] for the role "ADMIN". *)
Definition fetchAdmins (token : string) (resp : result unit (list AdminRow)) : option (list AdminRow) * list Effect :=
  Accounts.fetchAll "ADMIN" "admin" token resp.
Definition handleSuspendModal := Accounts.handleSuspendModal "ADMIN" "Admin" "admin".
Definition handleDelete := Accounts.handleDelete "ADMIN" "Admin" "admin".

(** The search box; no page to reset here. *)
Definition setSearchTerm (t : string) (v : View) : View := mkView t (admins v) (isModalOpen v).

(** The Create Admin button, shown with [CREATE_ADMIN] only. *)
Definition openModal (perms : list string) (v : View) : View :=
  if showsCreate perms then mkView (searchTerm v) (admins v) true else v.

(** An administrator cannot suspend their own account. *)
Definition suspendDisabled (perms : list string) (selfId : string) (a : AdminRow) : bool :=
  negb (ManageTutors.hasPermission perms "SUSPEND_ADMIN") || String.eqb (id a) selfId || String.eqb (status a) "DELETED".

Definition deleteDisabled (perms : list string) (a : AdminRow) : bool :=
  negb (ManageTutors.hasPermission perms "DELETE_ADMIN") || negb (String.eqb (status a) "SUSPENDED").

Definition onSuspendClick (perms : list string) (selfId : string) (confirmed : bool) (token : string)
    (resp : result unit unit) (a : AdminRow) : list Effect :=
  if suspendDisabled perms selfId a then [] else
  if ManageTutors.hasPermission perms "SUSPEND_ADMIN" then
    handleSuspendModal confirmed token resp (mkAccount (id a) (status a))
  else [].

Definition onDeleteClick (perms : list string) (confirmed : bool) (token : string) (resp : result unit unit)
    (a : AdminRow) : list Effect :=
  if deleteDisabled perms a then [] else
  if ManageTutors.hasPermission perms "DELETE_ADMIN" then
    handleDelete confirmed token resp (id a)
  else [].

(** A row: the administrator's own row cannot be suspended. *)
Definition row (perms : list string) (selfId : string) (a : AdminRow) : Rows.Row :=
  Rows.mkRow [name a; email a; status a] (Rows.statusColor (status a)) (Rows.suspendText (status a))
    (suspendDisabled perms selfId a) (deleteDisabled perms a).

Definition table (perms : list string) (selfId : string) (v : View) : list Rows.Row :=
  row perms selfId <$> filteredAdmins v.

(** The modal's [onClose]: close it and refetch the list. *)
Definition closeModal (v : View) : View * list Effect := (mkView (searchTerm v) (admins v) false, [Refetch]).

End ManageAdmins.

(** ** Properties *)

Module PagingProps.
Import Paging.

Section Props.
Context (perPage : nat) (Hpp : (0 < perPage)%nat).

Lemma currentItems_S {A} p (l : list A) :
  (1 ≤ p)%nat → currentItems perPage (S p) l = currentItems perPage p (drop perPage l).
Proof.
  intros Hp. unfold currentItems, indexOfFirst. rewrite drop_drop. do 2 f_equal. nia.
Qed.

Lemma pages_concat {A} k (l : list A) :
  (length l ≤ k * perPage)%nat → concat ((λ p, currentItems perPage p l) <$> seq 1 k) = l.
Proof.
  revert l. induction k as [|k IH]; intros l Hl.
  - destruct l; simpl in *; [done|lia].
  - cbn [seq fmap list_fmap concat]. rewrite <- fmap_S_seq, <- list_fmap_compose.
    rewrite (list_fmap_ext _ (λ p, currentItems perPage p (drop perPage l))).
    + rewrite IH by (rewrite length_drop; lia). unfold currentItems, indexOfFirst.
      replace (1 * perPage - perPage)%nat with 0%nat by lia. apply take_drop.
    + intros i p Hi. apply lookup_seq in Hi as [-> _]. apply currentItems_S. lia.
Qed.

Lemma totalPages_covers n : (n ≤ totalPages perPage n * perPage)%nat.
Proof.
  unfold totalPages. pose proof (Nat.div_mod (n + perPage - 1) perPage) as Hd.
  pose proof (Nat.mod_upper_bound (n + perPage - 1) perPage). lia.
Qed.

Lemma totalPages_le n : (totalPages perPage n * perPage ≤ n + perPage - 1)%nat.
Proof. unfold totalPages. rewrite Nat.mul_comm. apply Nat.Div0.mul_div_le. Qed.

(** C21: The pages the controls number, [1] to [totalPages], show every item
    once and in order, at most [perPage] each and none of them empty;
    a page beyond [totalPages] shows nothing. *)
Theorem pages_partition {A} (l : list A) :
  concat ((λ p, currentItems perPage p l) <$> seq 1 (totalPages perPage (length l))) = l ∧
  (∀ p, length (currentItems perPage p l) ≤ perPage)%nat ∧
  (∀ p, 1 ≤ p ≤ totalPages perPage (length l) → currentItems perPage p l ≠ [])%nat ∧
  (∀ p, totalPages perPage (length l) < p → currentItems perPage p l = [])%nat.
Proof.
  pose proof (totalPages_le (length l)). split_and!.
  - apply pages_concat, totalPages_covers.
  - intros p. unfold currentItems. rewrite length_take. lia.
  - intros p Hp Hnil. unfold currentItems, indexOfFirst in Hnil.
    apply (f_equal length) in Hnil. rewrite length_take, length_drop in Hnil. simpl in Hnil. nia.
  - intros p Hp. pose proof (totalPages_covers (length l)). unfold currentItems, indexOfFirst.
    rewrite drop_ge; [apply take_nil|nia].
Qed.
End Props.

(** The buttons the controls number: pages 1 to [totalPages], the
    current one, and only it, highlighted. *)
Lemma controls_buttons cur total pg n h :
  controls cur total = Some pg → (n, h) ∈ pageButtons pg ↔ (1 ≤ n ≤ total)%nat ∧ h = (cur =? n)%nat.
Proof.
  unfold controls. case_match; intros; simplify_eq/=. rewrite list_elem_of_fmap.
  setoid_rewrite elem_of_seq. split.
  - intros (i & [= -> ->] & Hi). split; [lia|done].
  - intros [Hn ->]. exists (pred n). split; [f_equal; f_equal; lia|lia].
Qed.

(** From a page in range every click of the controls lands on a page in
    range. *)
Lemma click_in_range b cur total :
  (1 ≤ cur ≤ total)%nat → (1 ≤ click b cur total ≤ total)%nat.
Proof.
  intros Hc. unfold click, handlePageChange.
  destruct b; repeat case_match; rewrite ?andb_true_iff, ?Nat.ltb_lt, ?Nat.leb_le, ?Nat.eqb_eq in *;
    try lia; rewrite ?andb_false_iff, ?Nat.ltb_ge, ?Nat.leb_gt in *; lia.
Qed.

Lemma handlePageChange_pos p cur total : (1 ≤ cur)%nat → (1 ≤ handlePageChange p cur total)%nat.
Proof. intros Hc. unfold handlePageChange. case_match; [|done]. rewrite andb_true_iff, Nat.ltb_lt in *. lia. Qed.

Lemma click_pos b cur total : (1 ≤ cur)%nat → (1 ≤ click b cur total)%nat.
Proof. intros Hc. destruct b; simpl; repeat case_match; auto using handlePageChange_pos. Qed.

(** On a page beyond the last, Next is enabled and does nothing, and so
    does Prev unless the page is just past the last. *)
Lemma click_stranded cur total :
  (total < cur)%nat →
  (cur =? total)%nat = false ∧ click Next cur total = cur ∧
  ((total + 1 < cur)%nat → click Prev cur total = cur).
Proof.
  intros Hc. unfold click, handlePageChange.
  assert (E : (cur =? total)%nat = false) by (apply Nat.eqb_neq; lia). rewrite E.
  split_and!; [done| |intros Hp]; repeat case_match; rewrite ?andb_true_iff, ?Nat.ltb_lt, ?Nat.leb_le in *; lia.
Qed.
End PagingProps.

Module TutorTableProps.
Import ManageTutors.

Lemma compareTutors_antisym sc a b : compareTutors sc a b = Lt ↔ compareTutors sc b a = Gt.
Proof.
  destruct sc as [[k d]|]; simpl; [|done]. rewrite (String.compare_antisym (fieldOf k b)).
  destruct (String.compare (fieldOf k a) (fieldOf k b)), d; simpl; done.
Qed.

(** The table lists the tutors the search selects, each once: with no
    column clicked in the server's order, after a click sorted by the
    column (ascending, descending on a second click of the same
    column, ascending again on a third). *)
Theorem sortedTutors_spec v k :
  sortedTutors v ≡ₚ filteredTutors v ∧
  Sorted (λ a b, compareTutors (sortConfig v) a b ≠ Gt) (sortedTutors v) ∧
  (sortConfig v = None → sortedTutors v = filteredTutors v) ∧
  sortConfig (handleSort k v) = Some (mkSortConfig k
    (match sortConfig v with Some c => if decide (key c = k) then (if direction c is Asc then Desc else Asc) else Asc
     | None => Asc end)) ∧
  sortConfig (handleSort k (handleSort k (handleSort k initView))) = Some (mkSortConfig k Asc).
Proof.
  split_and!.
  - apply sortBy_perm.
  - apply sortBy_sorted. apply compareTutors_antisym.
  - intros Hn. unfold sortedTutors. rewrite Hn. by apply sortBy_all_eq.
  - unfold handleSort. simpl. destruct (sortConfig v) as [c|]; [|done]. by case_decide.
  - by destruct k.
Qed.

(** The page is always at least 1: the search resets it to 1 and a page
    button is followed only for a page between 1 and the last. *)
Lemma currentPage_pos v v' : (1 ≤ currentPage v)%nat → step v v' → (1 ≤ currentPage v')%nat.
Proof.
  intros Hv. destruct 1; simpl; try done. by apply PagingProps.handlePageChange_pos.
Qed.

(** C29: A refetch keeps the page: when the new list has fewer pages than the
    current page (after a deletion on the last page), the table shows
    no row, and with one page or none left no control to leave it,
    until the search box is typed in. *)
Theorem refetch_strands_page v l :
  (totalPages (setTutors l v) < currentPage v)%nat →
  currentTutors (setTutors l v) = [] ∧
  ((totalPages (setTutors l v) ≤ 1)%nat → Paging.showsControls (totalPages (setTutors l v)) = false) ∧
  ∀ p, handlePageChange p (setTutors l v) = setTutors l v ∨ (1 ≤ p ≤ totalPages (setTutors l v))%nat.
Proof.
  intros Hp. split_and!.
  - apply (PagingProps.pages_partition tutorsPerPage ltac:(unfold tutorsPerPage; lia)). exact Hp.
  - intros H. unfold Paging.showsControls. apply Nat.ltb_ge. lia.
  - intros p. unfold handlePageChange, Paging.handlePageChange.
    destruct (Nat.ltb_spec 0 p), (Nat.leb_spec p (totalPages (setTutors l v))); simpl; auto with lia.
Qed.
End TutorTableProps.

Module StudentTableProps.
Import ManageStudents.

(** Every event of the students' page keeps the page at least 1. *)
Lemma student_currentPage_pos v v' : (1 ≤ currentPage v)%nat → step v v' → (1 ≤ currentPage v')%nat.
Proof. intros Hv. destruct 1; simpl; [done| |done]. by apply PagingProps.click_pos. Qed.

End StudentTableProps.

Module AccountProps.

Lemma handleDelete_call role noun nounLower confirmed token resp id c :
  ApiCall c ∈ Accounts.handleDelete role noun nounLower confirmed token resp id →
  c = DeleteUser id role ∧ confirmed = true ∧ truthy token = true.
Proof.
  unfold Accounts.handleDelete. destruct confirmed, (truthy token); simpl; try by intros ?%not_elem_of_nil.
  destruct resp; intros Hc; in_list Hc; done.
Qed.

Lemma handleSuspendModal_call role noun nounLower confirmed token resp a c :
  ApiCall c ∈ Accounts.handleSuspendModal role noun nounLower confirmed token resp a →
  c = (if String.eqb (a_status a) "SUSPENDED" then ActivateUser else SuspendUser) (a_id a) role ∧
  confirmed = true ∧ truthy token = true.
Proof.
  unfold Accounts.handleSuspendModal. destruct confirmed, (truthy token); simpl; try by intros ?%not_elem_of_nil.
  destruct resp; intros Hc; in_list Hc; by destruct (String.eqb _ _).
Qed.

(** A disabled button or a missing permission makes no call. *)
Lemma guarded_click (disabled allowed : bool) (k : list Effect) c :
  ApiCall c ∈ (if disabled then [] else if allowed then k else []) →
  disabled = false ∧ allowed = true ∧ ApiCall c ∈ k.
Proof. destruct disabled, allowed; try by intros ?%not_elem_of_nil. done. Qed.

(** C35: The calls a Suspend/Activate or Delete click of the tutors' or
    the students' table can make: none without the permission, the
    confirmation and a token; Delete only on a suspended tutor or
    student, or a rejected tutor; Suspend/Activate never on a deleted
    account or a rejected tutor, and Activate exactly on a suspended
    one; each for the row's account and role. *)
Theorem admin_actions_guarded perms confirmed token resp (t : ManageTutors.Tutor) (s : ManageStudents.Student) c :
  (ApiCall c ∈ ManageTutors.onDeleteClick perms confirmed token resp t →
     c = DeleteUser (ManageTutors.userId t) "TUTOR" ∧ "DELETE_TUTOR" ∈ perms ∧ confirmed = true ∧
     truthy token = true ∧ (ManageTutors.status t = "SUSPENDED" ∨ ManageTutors.status t = "REJECTED")) ∧
  (ApiCall c ∈ ManageTutors.onSuspendClick perms confirmed token resp t →
     "SUSPEND_TUTOR" ∈ perms ∧ confirmed = true ∧ truthy token = true ∧
     ManageTutors.status t ≠ "DELETED" ∧ ManageTutors.status t ≠ "REJECTED" ∧
     c = (if String.eqb (ManageTutors.status t) "SUSPENDED" then ActivateUser else SuspendUser)
           (ManageTutors.userId t) "TUTOR") ∧
  (ApiCall c ∈ ManageStudents.onSuspendClick perms confirmed token resp s →
     "SUSPEND_STUDENT" ∈ perms ∧ confirmed = true ∧ truthy token = true ∧
     ManageStudents.status s ≠ "DELETED" ∧
     c = (if String.eqb (ManageStudents.status s) "SUSPENDED" then ActivateUser else SuspendUser)
           (ManageStudents.id s) "STUDENT") ∧
  (ApiCall c ∈ ManageStudents.onDeleteClick perms confirmed token resp s →
     c = DeleteUser (ManageStudents.id s) "STUDENT" ∧ "DELETE_STUDENT" ∈ perms ∧ confirmed = true ∧
     truthy token = true ∧ ManageStudents.status s = "SUSPENDED").
Proof.
  unfold ManageTutors.onDeleteClick, ManageTutors.onSuspendClick, ManageStudents.onSuspendClick,
    ManageStudents.onDeleteClick.
  split_and!; intros (Hd & Hp & Hc)%guarded_click; unfold ManageTutors.hasPermission in Hp;
    apply bool_decide_eq_true in Hp.
  - apply handleDelete_call in Hc as (-> & -> & ->). unfold ManageTutors.deleteDisabled in Hd.
    apply orb_false_iff in Hd as [_ [Hs|Hr]%andb_false_iff]; apply negb_false_iff, String.eqb_eq in Hs || apply negb_false_iff, String.eqb_eq in Hr;
    split_and!; auto.
  - apply handleSuspendModal_call in Hc as (-> & -> & ->). unfold ManageTutors.suspendDisabled in Hd.
    apply orb_false_iff in Hd as [[_ Hd]%orb_false_iff Hr]. apply String.eqb_neq in Hd, Hr. by split_and!.
  - apply handleSuspendModal_call in Hc as (-> & -> & ->). unfold ManageStudents.suspendDisabled in Hd.
    apply orb_false_iff in Hd as [_ Hd]. apply String.eqb_neq in Hd. by split_and!.
  - apply handleDelete_call in Hc as (-> & -> & ->). unfold ManageStudents.deleteDisabled in Hd.
    apply orb_false_iff in Hd as [_ Hs]. apply negb_false_iff, String.eqb_eq in Hs. by split_and!.
Qed.
End AccountProps.


Module AdminTableProps.
Import ManageAdmins.

(** No administrator can suspend or activate their own account. *)
Lemma no_self_suspend perms selfId confirmed token resp a c :
  ApiCall c ∈ onSuspendClick perms selfId confirmed token resp a → id a ≠ selfId.
Proof.
  unfold onSuspendClick. intros (Hd & _ & _)%AccountProps.guarded_click.
  unfold suspendDisabled in Hd. apply orb_false_iff in Hd as [[_ Hs]%orb_false_iff _].
  by apply String.eqb_neq in Hs.
Qed.
End AdminTableProps.


(** ** Witnesses *)

Definition exTutor (i : nat) : ManageTutors.Tutor :=
  ManageTutors.mkTutor (String (ascii_of_nat (65 + i)) EmptyString) "Tan" "Lee" "tan@x.com" "ACTIVE".

(** Eleven tutors, the table on its second page. *)
Definition exTutors : list ManageTutors.Tutor := exTutor <$> seq 0 11.
Definition exPage2 : ManageTutors.View := ManageTutors.mkView "" exTutors 2 None.

Lemma pages_partition_witness :
  concat ((λ p, Paging.currentItems 10 p exTutors) <$> seq 1 2) = exTutors ∧
  length (Paging.currentItems 10 2 exTutors) = 1%nat.
Proof.
  split; [|reflexivity].
  exact (proj1 (PagingProps.pages_partition 10 ltac:(lia) exTutors)).
Defined.

Lemma refetch_strands_page_witness :
  ManageTutors.currentTutors (ManageTutors.setTutors (take 10 exTutors) exPage2) = [] ∧
  Paging.showsControls (ManageTutors.totalPages (ManageTutors.setTutors (take 10 exTutors) exPage2)) = false ∧
  ManageTutors.filteredTutors (ManageTutors.setTutors (take 10 exTutors) exPage2) = take 10 exTutors.
Proof.
  destruct (TutorTableProps.refetch_strands_page exPage2 (take 10 exTutors)) as (H1 & H2 & _);
    [vm_compute; lia|].
  split_and!; [exact H1|apply H2; vm_compute; lia|reflexivity].
Defined.

Definition exSuspended : ManageTutors.Tutor := ManageTutors.mkTutor "t9" "Tan" "Lee" "tan@x.com" "SUSPENDED".

Lemma admin_actions_guarded_witness :
  DeleteUser "t9" "TUTOR" = DeleteUser (ManageTutors.userId exSuspended) "TUTOR" ∧
  (ManageTutors.status exSuspended = "SUSPENDED" ∨ ManageTutors.status exSuspended = "REJECTED").
Proof.
  assert (Hin : ApiCall (DeleteUser "t9" "TUTOR") ∈ ManageTutors.onDeleteClick ["DELETE_TUTOR"] true "tok" (Ok ()) exSuspended)
    by (vm_compute; left).
  destruct (proj1 (AccountProps.admin_actions_guarded ["DELETE_TUTOR"] true "tok" (Ok ()) exSuspended
     (ManageStudents.mkStudent "s1" "Ann" "ann@x.com" "ACTIVE" None None) (DeleteUser "t9" "TUTOR")) Hin)
     as (Hc & _ & _ & _ & Hs).
  split; [exact Hc|exact Hs].
Defined.

Lemma sortedTutors_spec_witness :
  ManageTutors.sortedTutors exPage2 = ManageTutors.filteredTutors exPage2.
Proof.
  destruct (TutorTableProps.sortedTutors_spec exPage2 ManageTutors.KEmail) as (_ & _ & H & _).
  apply H. reflexivity.
Defined.
