(* ===== verification/AdminHome.v ===== *)
(** * AdminHome: the create-admin modal and the administrator's dashboard

    [components/CreateAdminModal.tsx] ([CreateAdmin]) creates an admin
    with the permissions the current administrator may grant, as a step
    relation on the modal's state; [pages/admin/AdminDashboard.tsx]
    ([AdminDashboard]) loads the administrator's permissions and the
    counters of its rings, and shows them with the administrator's
    profile card, the pending tutors and the earnings panel; its effect
    reruns only when [user?.id] changes ([render], [renders]).  Both use
    the permission check and the tutor rows of [Admin]. *)

From S2P Require Import Prelude Auth Admin.
From Stdlib Require Import QArith.

Local Open Scope string_scope.

(** ** [components/CreateAdminModal.tsx], opened by [ManageAdmins]
    without an [admin], i.e. in its create mode *)

Module CreateAdmin.

Record Perm := mkPerm { permId : string; label : string; superOnly : bool }.

Definition permissions : list Perm := [
  mkPerm "VIEW_STUDENTS" "View Students" false; mkPerm "SUSPEND_STUDENT" "Suspend Student" false;
  mkPerm "DELETE_STUDENT" "Delete Student" false;
  mkPerm "VIEW_TUTORS" "View Tutors" false; mkPerm "APPROVE_TUTOR" "Approve Tutor" false;
  mkPerm "REJECT_TUTOR" "Reject Tutor" false; mkPerm "SUSPEND_TUTOR" "Suspend Tutor" false;
  mkPerm "DELETE_TUTOR" "Delete Tutor" false;
  mkPerm "VIEW_ADMIN" "View Admins" false; mkPerm "CREATE_ADMIN" "Create Admins" true;
  mkPerm "EDIT_ADMIN_ROLES" "Edit Admin Roles" true; mkPerm "SUSPEND_ADMIN" "Suspend Admins" true;
  mkPerm "DELETE_ADMIN" "Delete Admins" true; mkPerm "SUPER_ADMIN" "Super Admin" true;
  mkPerm "DELETE_BOOKING" "Delete Booking" true
].

Definition isSuperAdmin (userPerms : list string) : bool := ManageTutors.hasPermission userPerms "SUPER_ADMIN".

(** The checkboxes shown. *)
Definition offered (isSuper : bool) : list Perm := List.filter (λ p, isSuper || negb (superOnly p)) permissions.

(** The form's values: the four text fields and the ids checked. *)
Record Values := mkValues { firstname : string; lastname : string; email : string; password : string; checked : list string }.

Definition emptyValues : Values := mkValues "" "" "" "" [].

Record State := mkState { isOpen : bool; values : Values }.

(** [useEffect]: without an [admin], [reset()] on mount. *)
Definition initState : State := mkState false emptyValues.

(** The edit mode of the same effect, for an [admin] prop with its
    e-mail and, if any, its permissions: [setValue] of those two fields
    only, the others kept. *)
Definition adminEffect (admin : option (string * option (list string))) (v : Values) : Values :=
  match admin with
  | Some (em, perms) => mkValues (firstname v) (lastname v) em (password v) (default (checked v) perms)
  | None => emptyValues
  end.

Inductive TextField := FFirstname | FLastname | FEmail | FPassword.

Definition setText (f : TextField) (x : string) (v : Values) : Values :=
  let '(mkValues fn ln em pw ch) := v in
  match f with
  | FFirstname => mkValues x ln em pw ch | FLastname => mkValues fn x em pw ch
  | FEmail => mkValues fn ln x pw ch | FPassword => mkValues fn ln em x ch
  end.

(** A click on the checkbox of [p]. *)
Definition toggle (p : string) (v : Values) : Values :=
  mkValues (firstname v) (lastname v) (email v) (password v)
    (if bool_decide (p ∈ checked v) then List.filter (λ q, negb (String.eqb q p)) (checked v) else checked v ++ [p])%list.

(** [getValues().permissions]: the checked boxes in the order shown. *)
Definition selectedPerms (isSuper : bool) (v : Values) : list string :=
  List.filter (λ p, bool_decide (p ∈ checked v)) (permId <$> offered isSuper).

(** [/^[^\s@]+@[^\s@]+\.[^\s@]+$/]: one "@" with text before it, and
    after it a "." with text on both sides, none of it blank or "@". *)
Definition plainChar (c : ascii) : bool := negb (isSpace c) && negb (Ascii.eqb c "@"%char).

Definition adminEmailOk (s : string) : bool :=
  match Email.splitOn "@"%char (String.list_ascii_of_string s) with
  | Some (a, rest) =>
      negb (bool_decide (a = [])) && forallb plainChar a && forallb plainChar rest &&
      existsb (λ i, Ascii.eqb (nth i rest " "%char) "."%char) (seq 1 (length rest - 2))
  | None => false
  end.

Definition validate (v : Values) : bool :=
  truthy (firstname v) && truthy (lastname v) && truthy (email v) && adminEmailOk (email v) && truthy (password v).

Record Body := mkBody {
  b_firstname : string; b_lastname : string; b_email : string; b_password : string;
  b_role : string; b_permissions : list string
}.

Inductive Effect := SetLoading (b : bool) | RegisterCall (b : Body) | ToastSuccess (msg : string)
                  | ToastError (msg : string) | Close.

(** [onSubmit]: [resp] is [RegisterUser]'s status and message, or the
    error's [message]; a success calls [onClose] and keeps the values. *)
Definition onSubmit (isSuper : bool) (resp : result string (Z * string)) (st : State) : State * list Effect :=
  let v := values st in
  if negb (validate v) then (st, []) else
  let call := RegisterCall (mkBody (firstname v) (lastname v) (email v) (password v) "ADMIN" (selectedPerms isSuper v)) in
  match resp with
  | Ok (status, msg) =>
      if Z.eqb status 200 then (mkState false v, [SetLoading true; call; SetLoading false; ToastSuccess msg; Close])
      else (st, [SetLoading true; call; SetLoading false; ToastError msg])
  | Err msg => (st, [SetLoading true; call; SetLoading false; ToastError msg])
  end.

(** Cancel: [reset()] and [onClose()]. *)
Definition cancel (st : State) : State * list Effect := (mkState false emptyValues, [Close]).

(** The Create Admin button of the page. *)
Definition open_ (st : State) : State := mkState true (values st).

(** What the administrator can do with the modal. *)
Inductive step (isSuper : bool) : State → State → Prop :=
| step_open st : step isSuper st (open_ st)
| step_text f x st : isOpen st = true → step isSuper st (mkState true (setText f x (values st)))
| step_toggle p st : isOpen st = true → p ∈ permId <$> offered isSuper →
    step isSuper st (mkState true (toggle p (values st)))
| step_submit resp st : isOpen st = true → step isSuper st (onSubmit isSuper resp st).1
| step_cancel st : isOpen st = true → step isSuper st (cancel st).1.

End CreateAdmin.

(** ** [pages/admin/AdminDashboard.tsx] *)

Module AdminDashboard.

(** [TransactionSummary] and [TransactionMetrics] of
    [types/AdminDashboardType.ts]; numbers are exact rationals. *)
Record TransactionSummary := mkTransactionSummary { ts_description : string; ts_amount : Q }.

Record TransactionMetrics := mkTransactionMetrics {
  totalEarnings : Q; commissionCollected : Q;
  highestTransaction : option TransactionSummary; monthlyEarnings : list (string * Q)
}.

(** [AdminDashboardType], the counters the rings read, the pending
    tutors and the optional transaction metrics. *)
Record Metrics := mkMetrics {
  totalUsers : Z; activeUsers : Z; suspendedUsers : Z;
  totalTutors : Z; activeTutors : Z; suspendedTutors : Z; unverifiedTutors : Z;
  totalStudents : Z; activeStudents : Z; suspendedStudents : Z;
  totalAdmins : Z; activeAdmins : Z; suspendedAdmins : Z;
  pendingTutors : list ManageTutors.Tutor;
  transactionMetrics : option TransactionMetrics
}.

Record View := mkView { adminPermissions : option (list string); metrics : option Metrics }.

Definition initView : View := mkView None None.

(** The props of a [RingChart]. *)
Record Ring := mkRing { title : string; total : Z; active : Z; suspended : Z; pending : option Z; unverified : option Z }.

Definition rings (m : Metrics) : list Ring := [
  mkRing "All Users" (totalUsers m) (activeUsers m) (suspendedUsers m) None None;
  mkRing "Tutors" (totalTutors m) (activeTutors m) (suspendedTutors m)
    (Some (Z.of_nat (length (pendingTutors m)))) (Some (unverifiedTutors m));
  mkRing "Students" (totalStudents m) (activeStudents m) (suspendedStudents m) None None;
  mkRing "Admins" (totalStudents m) (activeAdmins m) (suspendedAdmins m) None None
].

Inductive Effect := SetLoading (b : bool) | Toast (msg : string) | Navigate (to : string)
                  | GetAdminByUserId | GetDashboardSummary.

(** [ensureAuthenticated] *)
Definition ensureAuthenticated (token userId : string) : option string * list Effect :=
  if negb (truthy token && truthy userId) then (None, [Toast "Session expired. Please log in again."; Navigate "/admin/login"])
  else (Some token, []).

(** [fetchAdminDetails]: [resp] is [GetAdminByUserId]'s permissions. *)
Definition fetchAdminDetails (token userId : string) (resp : result unit (list string)) (v : View) : View * list Effect :=
  match ensureAuthenticated token userId with
  | (None, eff) => (v, eff)
  | (Some _, _) =>
      match resp with
      | Ok ps => (mkView (Some ps) (metrics v), [GetAdminByUserId])
      | Err _ => (v, [GetAdminByUserId; Toast "Failed to fetch admin details"])
      end
  end.

(** [fetchMetrics]: a failure is only logged. *)
Definition fetchMetrics (token userId : string) (resp : result unit Metrics) (v : View) : View * list Effect :=
  match ensureAuthenticated token userId with
  | (None, eff) => (v, eff)
  | (Some _, _) =>
      match resp with
      | Ok m => (mkView (adminPermissions v) (Some m), [GetDashboardSummary])
      | Err _ => (v, [GetDashboardSummary])
      end
  end.

(** The mount effect: both fetches, the loader cleared after the
    metrics; nothing without a user id. *)
Definition onMount (token userId : string) (respAdmin : result unit (list string)) (respMetrics : result unit Metrics)
    (v : View) : View * list Effect :=
  if negb (truthy userId) then (v, []) else
  let '(v1, e1) := fetchAdminDetails token userId respAdmin v in
  let '(v2, e2) := fetchMetrics token userId respMetrics v1 in
  (v2, SetLoading true :: e1 ++ e2 ++ [SetLoading false]).

(** The page across renders: [pg_deps] is the value of [user?.id] at
    the last run of the effect ([None] before the first render). *)
Record Page := mkPage { pg_deps : option string; pg_view : View }.

Definition initPage : Page := mkPage None initView.

(** A render: React reruns the effect only when its dependency array
    [[user?.id]] changed since the last run; [ra] and [rm] are the
    answers the two requests would get. *)
Definition render (token userId : string) (ra : result unit (list string)) (rm : result unit Metrics)
    (p : Page) : Page * list Effect :=
  if decide (pg_deps p = Some userId) then (p, []) else
  let '(v', effs) := onMount token userId ra rm (pg_view p) in (mkPage (Some userId) v', effs).

(** A sequence of renders, each with the answers its requests would get. *)
Fixpoint renders (token userId : string) (rs : list (result unit (list string) * result unit Metrics))
    (p : Page) : Page * list Effect :=
  match rs with
  | [] => (p, [])
  | (ra, rm) :: rs' =>
      let '(p1, e1) := render token userId ra rm p in
      let '(p2, e2) := renders token userId rs' p1 in (p2, (e1 ++ e2)%list)
  end.

Inductive Shown := ShowLoading | ShowDashboard (perms : list string) (m : Metrics).

(** [!metrics || !adminDetails ? "Loading dashboard data..." : ...] *)
Definition shown (v : View) : Shown :=
  match adminPermissions v, metrics v with
  | Some ps, Some m => ShowDashboard ps m
  | _, _ => ShowLoading
  end.

(** The Admin Profile card: [user?.name], [user?.email] and one badge a
    permission. *)
Record AdminProfile := mkAdminProfile { ap_fullName : string; ap_email : string; ap_permissions : list string }.

(** The rings and the profile card of a loaded dashboard.  Both sit
    inside the branch where [metrics] and [adminDetails] are set, so
    their own fallbacks ("No users to show for summary.", "Loading admin
    details...") never show. *)
Definition panels (userName userEmail : string) (v : View) : option (list Ring * AdminProfile) :=
  match shown v with
  | ShowDashboard ps m => Some (rings m, mkAdminProfile userName userEmail ps)
  | ShowLoading => None
  end.

(** [metrics.pendingTutors.length > 0]: the pending list, or its message. *)
Definition pendingShown (m : Metrics) : option (list ManageTutors.Tutor) :=
  match pendingTutors m with [] => None | l => Some l end.

Definition viewPendingTutor (t : ManageTutors.Tutor) : Effect := Navigate ("/admin/tutors/" ++ ManageTutors.userId t).

(** The Earnings Overview: [metrics?.transactionMetrics?.totalEarnings ?]
    tests the number's truthiness, so zero earnings show the message
    "No earnings data available.".  The figures are shown through
    [toFixed(2)], whose formatting is not modelled; a missing highest
    transaction shows no amount. *)
Inductive Earnings := NoEarnings | EarningsPanel (total commission : Q) (highest : option TransactionSummary).

Definition earnings (m : Metrics) : Earnings :=
  match transactionMetrics m with
  | Some tm => if Qeq_bool (totalEarnings tm) 0 then NoEarnings
               else EarningsPanel (totalEarnings tm) (commissionCollected tm) (highestTransaction tm)
  | None => NoEarnings
  end.

(** The line chart, drawn when there are monthly earnings: its points. *)
Definition chartData (m : Metrics) : option (list (string * Q)) :=
  match transactionMetrics m with
  | Some tm => match monthlyEarnings tm with [] => None | l => Some l end
  | None => None
  end.

End AdminDashboard.

(** ** Properties *)

Module AdminModalProps.
Import CreateAdmin.

(** C26: A successful creation closes the modal without [reset()]: opening it
    again shows the last admin's names, e-mail, password and boxes,
    while Cancel empties it. *)
Theorem create_admin_keeps_values isSuper st msg :
  validate (values st) = true →
  Close ∈ (onSubmit isSuper (Ok (200%Z, msg)) st).2 ∧
  isOpen (onSubmit isSuper (Ok (200%Z, msg)) st).1 = false ∧
  values (open_ (onSubmit isSuper (Ok (200%Z, msg)) st).1) = values st ∧
  values (open_ (cancel st).1) = emptyValues.
Proof.
  intros Hv. unfold onSubmit. rewrite Hv. simpl. split_and!; [|done..].
  rewrite !elem_of_cons. do 4 right. by left.
Qed.

(** An administrator without [SUPER_ADMIN] grants only the permissions
    that are not reserved to super admins, and every admin the modal
    creates has the role ADMIN. *)
Lemma created_admin_perms isSuper resp st b :
  RegisterCall b ∈ (onSubmit isSuper resp st).2 →
  b_role b = "ADMIN" ∧ ∀ p, p ∈ b_permissions b → ∃ P, P ∈ offered isSuper ∧ permId P = p.
Proof.
  unfold onSubmit. destruct (validate (values st)); simpl; [|by intros ?%not_elem_of_nil].
  intros Hb. assert (b = mkBody (firstname (values st)) (lastname (values st)) (email (values st))
    (password (values st)) "ADMIN" (selectedPerms isSuper (values st))) as ->.
  { destruct resp as [[status m]|m]; [destruct (Z.eqb status 200)|]; in_list Hb; done. }
  split; [done|]. intros p Hp. unfold selectedPerms in Hp. simpl in Hp.
  apply list_elem_of_In, filter_In in Hp as [Hp _]. apply list_elem_of_In, list_elem_of_fmap in Hp as (P & -> & HP).
  by exists P.
Qed.
(** In its edit mode the modal still creates an account: with a valid
    form, Submit sends [RegisterUser] with role "ADMIN" for the e-mail of
    the admin being edited, and no other call. *)
Lemma edit_mode_registers isSuper em perms v resp st' eff :
  let st := mkState true (adminEffect (Some (em, perms)) v) in
  validate (values st) = true → onSubmit isSuper resp st = (st', eff) →
  ∃ b, RegisterCall b ∈ eff ∧ b_email b = em ∧ b_role b = "ADMIN" ∧
       ∀ b', RegisterCall b' ∈ eff → b' = b.
Proof.
  intros st Hv Hs. unfold onSubmit in Hs. rewrite Hv in Hs. simpl in Hs.
  eexists. assert (Heff : ∃ k, eff = SetLoading true :: RegisterCall
     (mkBody (firstname v) (lastname v) em (password v) "ADMIN" (selectedPerms isSuper (values st))) :: k ∧
     Forall (λ e, ∀ b', e ≠ RegisterCall b') k).
  { destruct resp as [[status msg]|msg]; [destruct (Z.eqb status 200)|]; simplify_eq/=;
      eexists; (split; [reflexivity|]); repeat constructor; by intros ?. }
  destruct Heff as (k & -> & Hk). split_and!; [by right; left|done|done|].
  intros b' Hb. apply elem_of_cons in Hb as [Hb|Hb]; [done|].
  apply elem_of_cons in Hb as [Hb|Hb]; [by simplify_eq|].
  rewrite Forall_forall in Hk. by destruct (Hk _ Hb b').
Qed.

End AdminModalProps.

Module DashboardProps.
Import AdminDashboard.

(** Renders with an unchanged [user?.id] neither run the effect nor
    change the page, whatever their requests would answer. *)
Lemma renders_same_id token userId rs v :
  renders token userId rs (mkPage (Some userId) v) = (mkPage (Some userId) v, []).
Proof.
  induction rs as [|[ra rm] rs IH]; [done|]. cbn [renders]. unfold render.
  rewrite decide_True by done. by rewrite IH.
Qed.

(** C14: On the first render of a logged-in administrator, the
    dashboard leaves its loading message only when both requests
    succeed, and then shows their answers; a failure of either, the
    metrics' one silent, leaves "Loading dashboard data..." on screen,
    and no later render for the same user retries: the page stays as it
    is and no request is sent, whatever the server would now answer. *)
Theorem dashboard_loading_until_both token userId ra rm rs :
  truthy token = true → truthy userId = true →
  let '(p, _) := render token userId ra rm initPage in
  (shown (pg_view p) = ShowLoading ↔ (∃ e, ra = Err e) ∨ (∃ e, rm = Err e)) ∧
  (∀ ps m, ra = Ok ps → rm = Ok m → shown (pg_view p) = ShowDashboard ps m) ∧
  renders token userId rs p = (p, []).
Proof.
  intros Ht Hu. unfold render. rewrite decide_False by done.
  unfold onMount, fetchAdminDetails, fetchMetrics, ensureAuthenticated. rewrite Ht, Hu.
  destruct ra, rm; simpl; (split_and!; [| |apply renders_same_id]); naive_solver.
Qed.
End DashboardProps.

(** ** Witnesses *)

Definition exFilledAdmin : CreateAdmin.State :=
  CreateAdmin.mkState true (CreateAdmin.mkValues "Ann" "Lee" "ann@x.com" "secret" ["VIEW_TUTORS"]).

Lemma create_admin_keeps_values_witness :
  CreateAdmin.values (CreateAdmin.open_ (CreateAdmin.onSubmit false (Ok (200%Z, "Created")) exFilledAdmin).1) =
  CreateAdmin.values exFilledAdmin.
Proof. exact (proj1 (proj2 (proj2 (AdminModalProps.create_admin_keeps_values false exFilledAdmin "Created" eq_refl)))). Defined.

Definition exMetrics : AdminDashboard.Metrics :=
  AdminDashboard.mkMetrics 12 10 2 4 3 1 0 7 6 1 1 1 0 [] None.

Lemma dashboard_loading_until_both_witness :
  let '(p, _) := AdminDashboard.render "tok" "a1" (Err ()) (Ok exMetrics) AdminDashboard.initPage in
  AdminDashboard.shown (AdminDashboard.pg_view p) = AdminDashboard.ShowLoading ∧
  AdminDashboard.renders "tok" "a1" [(Ok ["VIEW_TUTORS"], Ok exMetrics)] p = (p, []).
Proof.
  pose proof (DashboardProps.dashboard_loading_until_both "tok" "a1" (Err ()) (Ok exMetrics)
    [(Ok ["VIEW_TUTORS"], Ok exMetrics)] eq_refl eq_refl) as H.
  destruct (AdminDashboard.render _ _ _ _ _) as [p e]. destruct H as (H1 & _ & H3).
  split; [|exact H3]. apply H1. left. by exists ().
Defined.
