(* ===== verification/Nav.v ===== *)
(** * Nav: the navigation bar and its notifications

    [components/NavLinks.tsx] lists the links of each role with the
    permissions they need; [components/Navbar.tsx] shows the links of the
    current role that the user's permissions allow, highlights the one
    the path starts with, logs out to the role's login page, and keeps
    the list of notifications: fetched once, prepended by every message
    of the SSE stream ([subscribeToNotifications] of
    [api/notificationAPI.ts]), marked read one at a time.  The unused
    hook [hooks/useSseNotifications.ts] does the same on another stream
    URL.  For an administrator without permissions the bar fetches them
    and replaces the store's user, which reruns that effect
    ([Permissions]).  The links are checked against the route table of
    [Routes]. *)

From S2P Require Import Prelude Routes.

Local Open Scope string_scope.

Module NavLinks.

Record NavLink := mkNavLink { name : string; path : string; requiredPermissions : list string }.

(** [navConfig] *)
Definition navConfig (role : string) : list NavLink :=
  if String.eqb role "ADMIN" then [
    mkNavLink "Dashboard" "/admin/dashboard" [];
    mkNavLink "Students" "/admin/students" ["VIEW_STUDENTS"];
    mkNavLink "Tutors" "/admin/tutors" ["VIEW_TUTORS"];
    mkNavLink "Admins" "/admin/admins" ["VIEW_ADMIN"];
    mkNavLink "Transaction" "/admin/transaction" []]
  else if String.eqb role "STUDENT" then [
    mkNavLink "Home" "/student/dashboard" []; mkNavLink "Find a Tutor" "/student/find-tutor" []]
  else if String.eqb role "TUTOR" then [
    mkNavLink "Home" "/tutor/dashboard" []; mkNavLink "Reviews" "/tutor/reviews" []]
  else [].

(** [user?.role || "ADMIN"] *)
Definition roleOf (userRole : option string) : string :=
  match userRole with Some r => if truthy r then r else "ADMIN" | None => "ADMIN" end.

(** [navLinks]: no permission needed, or one of them held. *)
Definition navLinks (role : string) (perms : list string) : list NavLink :=
  List.filter (λ l, bool_decide (requiredPermissions l = []) ||
                    existsb (λ p, bool_decide (p ∈ perms)) (requiredPermissions l)) (navConfig role).

(** [location.pathname === link.path || location.pathname.startsWith(link.path)] *)
Definition isActive (pathname : string) (l : NavLink) : bool :=
  String.eqb pathname (path l) || String.prefix (path l) pathname.

(** [handleLogout]'s route. *)
Definition logoutRoute (role : string) : string := if String.eqb role "ADMIN" then "/admin/login" else "/".

Inductive Effect := RemoveItem (key : string) | SetUserNull | Navigate (to : string).

Definition handleLogout (role : string) : list Effect :=
  [RemoveItem "token"; RemoveItem "user"; SetUserNull; Navigate (logoutRoute role)].

(** [handleLogout] of [pages/user/UserDashboard.tsx]. *)
Definition userDashboardLogout : list Effect := [RemoveItem "token"; RemoveItem "user"; SetUserNull; Navigate "/"].

(** The guard of a role's pages. *)
Definition guardOf (role : string) : option Guard :=
  if String.eqb role "ADMIN" then Some AdminRoute
  else if String.eqb role "STUDENT" then Some StudentRoute
  else if String.eqb role "TUTOR" then Some UserRoute else None.

End NavLinks.

Module Notifications.

(** [NotificationType], the fields the bar reads. *)
Record Notification := mkNotification { n_id : string; read : bool; message : string }.

Record State := mkState { notifications : list Notification; isNotifOpen : bool }.

Definition initState : State := mkState [] false.

(** [fetchNotifications(...).then((res) => setNotifications(res.data))] *)
Definition onFetched (l : list Notification) (s : State) : State := mkState l (isNotifOpen s).

(** [setNotifications((prev) => [notif, ...prev])] *)
Definition onMessage (n : Notification) (s : State) : State := mkState (n :: notifications s) (isNotifOpen s).

(** [prev.map((n) => (n.id === id ? { ...n, read: true } : n))] *)
Definition markRead (id : string) (l : list Notification) : list Notification :=
  (λ n, if String.eqb (n_id n) id then mkNotification (n_id n) true (message n) else n) <$> l.

(** [handleMarkAsRead(id)]: [resp] is [markNotificationAsRead]'s outcome. *)
Definition handleMarkAsRead (token id : string) (resp : result unit unit) (s : State) : State :=
  if negb (truthy token) then s else
  match resp with Ok _ => mkState (markRead id (notifications s)) (isNotifOpen s) | Err _ => s end.

(** [unreadCount] *)
Definition unreadCount (s : State) : nat := length (List.filter (λ n, negb (read n)) (notifications s)).

(** The events of the bar, in the order they arrive. *)
Inductive Event := Fetched (l : list Notification) | Message (n : Notification) | MarkAsRead (token id : string) (resp : result unit unit)
                 | OpenBell | CloseBell.

Definition apply (e : Event) (s : State) : State :=
  match e with
  | Fetched l => onFetched l s
  | Message n => onMessage n s
  | MarkAsRead tok id r => handleMarkAsRead tok id r s
  | OpenBell => mkState (notifications s) true
  | CloseBell => mkState (notifications s) false
  end.

Definition run (es : list Event) (s : State) : State := foldl (λ s e, apply e s) s es.

(** The stream URL of [subscribeToNotifications] and of the hook. *)
Definition navbarStream (userId : string) : string := "/sse/notifications/stream/" ++ userId.
Definition hookStream (userId : string) : string := "/notifications/stream/" ++ userId.

End Notifications.

(** The bar's second effect, [[role, user, dispatch]]: an administrator
    without permissions in the store gets them from [GetAdminByUserId]
    and the store's user is replaced by a new object, which runs the
    effect again. *)
Module Permissions.

(** The store's user, the fields the effect reads; [None] is a missing
    [permissions]. *)
Record NavUser := mkNavUser { nu_id : string; nu_token : string; nu_role : option string; nu_permissions : option (list string) }.

Inductive Effect := GetAdminByUserId (id : string) | StoreUser (u : NavUser) | SetUser (u : NavUser).

(** One run of the effect: [resp] is [response.data.permissions] (a
    failure is only logged); the new user when [setUser] is dispatched. *)
Definition permissionEffect (resp : result unit (option (list string))) (u : NavUser) : option NavUser * list Effect :=
  if negb (String.eqb (NavLinks.roleOf (nu_role u)) "ADMIN") || negb (truthy (nu_id u)) || negb (truthy (nu_token u))
  then (None, []) else
  match nu_permissions u with
  | Some (_ :: _) => (None, [])
  | _ =>
      match resp with
      | Ok perms =>
          let u' := mkNavUser (nu_id u) (nu_token u) (nu_role u) (Some (default [] perms)) in
          (Some u', [GetAdminByUserId (nu_id u); StoreUser u'; SetUser u'])
      | Err _ => (None, [GetAdminByUserId (nu_id u)])
      end
  end.

(** The effect run again after each [setUser], at most [fuel] times,
    with the server answering alike each time. *)
Fixpoint runPermissions (fuel : nat) (resp : result unit (option (list string))) (u : NavUser) : list Effect :=
  match fuel with
  | 0 => []
  | S n =>
      let '(u', eff) := permissionEffect resp u in
      (eff ++ match u' with Some u'' => runPermissions n resp u'' | None => [] end)%list
  end.

Definition isCall (e : Effect) : bool := match e with GetAdminByUserId _ => true | _ => false end.

End Permissions.

(** ** Properties *)

Module NavProps.
Import NavLinks.

Lemma navLinks_sub role perms l : l ∈ navLinks role perms → l ∈ navConfig role.
Proof. unfold navLinks. intros Hl. apply list_elem_of_In, filter_In in Hl as [Hl _]. by apply list_elem_of_In. Qed.

(** Every link the bar shows, whatever the permissions, opens a page of
    the route table behind the guard of the user's role, and logging out
    leads to an unguarded login page. *)
Theorem navLinks_guarded role perms l :
  l ∈ navLinks role perms →
  ∃ r g, routeFor (path l) = Some r ∧ guard r = Some g ∧ guardOf role = Some g ∧
         (guard <$> routeFor (logoutRoute role)) = Some None.
Proof.
  intros Hl%navLinks_sub. unfold navConfig, guardOf, logoutRoute in *.
  destruct (String.eqb_spec role "ADMIN"); [|destruct (String.eqb_spec role "STUDENT");
    [|destruct (String.eqb_spec role "TUTOR"); [|by apply not_elem_of_nil in Hl]]];
    in_list Hl; eexists _, _; split_and!; reflexivity.
Qed.
(** The user dashboard logs out as the bar does for a student or a
    tutor. *)
Lemma userDashboardLogout_eq role : role ≠ "ADMIN" → userDashboardLogout = handleLogout role.
Proof. intros Hr. unfold handleLogout, logoutRoute. by rewrite (proj2 (String.eqb_neq _ _) Hr). Qed.
End NavProps.

Module PermissionProps.
Import Permissions.

(** An administrator the effect fetches permissions for. *)
Definition needsRefresh (u : NavUser) : Prop :=
  NavLinks.roleOf (nu_role u) = "ADMIN" ∧ truthy (nu_id u) = true ∧ truthy (nu_token u) = true ∧
  (nu_permissions u = None ∨ nu_permissions u = Some []).

Lemma permissionEffect_Ok u perms :
  needsRefresh u →
  permissionEffect (Ok perms) u =
    (Some (mkNavUser (nu_id u) (nu_token u) (nu_role u) (Some (default [] perms))),
     [GetAdminByUserId (nu_id u); StoreUser (mkNavUser (nu_id u) (nu_token u) (nu_role u) (Some (default [] perms)));
      SetUser (mkNavUser (nu_id u) (nu_token u) (nu_role u) (Some (default [] perms)))]).
Proof.
  intros (Hr & Hi & Ht & Hp). unfold permissionEffect. rewrite Hr, Hi, Ht. simpl.
  by destruct Hp as [-> | ->].
Qed.

(** C40: An administrator whose server holds no permission makes the bar
    call [GetAdminByUserId] again after every answer: [n] runs of the
    effect make [n] calls, for every [n], so the requests never stop.
    With a permission the second run stops. *)
Theorem permissions_refresh_loops u resp n :
  needsRefresh u →
  (resp = Ok None ∨ resp = Ok (Some []) → length (List.filter isCall (runPermissions n resp u)) = n) ∧
  (∀ p ps, resp = Ok (Some (p :: ps)) → runPermissions (S n) resp u = runPermissions 1 resp u).
Proof.
  intros Hu. split.
  - intros Hr. revert u Hu. induction n as [|n IH]; intros u Hu; [done|].
    destruct Hr as [-> | ->]; simpl; rewrite permissionEffect_Ok by done; simpl;
      rewrite IH; [done| |done|]; destruct Hu as (? & ? & ? & _); split_and!; auto.
  - intros p ps ->. simpl. rewrite permissionEffect_Ok by done. simpl.
    destruct n; [done|]. simpl. destruct Hu as (Hr & Hi & Ht & _). unfold permissionEffect at 1. simpl.
    rewrite Hr, Hi, Ht. done.
Qed.
End PermissionProps.

Module NotificationProps.
Import Notifications.

(** Marking a notification read lowers the unread count by the unread
    notifications with its id, and a second mark changes nothing. *)
Lemma markRead_count id s :
  length (List.filter (λ n, negb (read n)) (markRead id (notifications s))) =
    length (List.filter (λ n, negb (read n) && negb (String.eqb (n_id n) id)) (notifications s)) ∧
  markRead id (markRead id (notifications s)) = markRead id (notifications s).
Proof.
  destruct s as [l o]; simpl. induction l as [|n l [IH1 IH2]]; [done|]. simpl.
  destruct (String.eqb_spec (n_id n) id) as [He|Hne]; simpl.
  - rewrite andb_false_r, IH1, IH2. split; [done|]. by destruct (n_id n =? id).
  - assert (Hf : (n_id n =? id) = false) by (by apply String.eqb_neq).
    rewrite andb_true_r, Hf, IH2. destruct (read n); simpl; by rewrite IH1.
Qed.

Lemma run_notifications es s1 s2 :
  notifications s1 = notifications s2 → notifications (run es s1) = notifications (run es s2).
Proof.
  revert s1 s2. induction es as [|e es IH]; intros s1 s2 Hs; [done|]. apply IH.
  destruct e as [l|n|tok id r| |]; simpl; rewrite ?Hs; try done.
  unfold handleMarkAsRead. destruct (truthy tok), r; simpl; by rewrite ?Hs.
Qed.

(** C19: The initial fetch replaces the list: whatever the bar received
    before its answer, stream messages and reads alike, is forgotten,
    while a message after the answer is kept in front. *)
Theorem fetch_forgets_earlier es es' l n s :
  notifications (run (es ++ Fetched l :: es') s) = notifications (run es' (onFetched l initState)) ∧
  notifications (run [Fetched l; Message n] s) = n :: l.
Proof.
  split; [|done]. unfold run. rewrite foldl_app. simpl. by apply run_notifications.
Qed.
End NotificationProps.

(** ** Witnesses *)

Lemma navLinks_guarded_witness :
  ∃ r g, routeFor "/admin/tutors" = Some r ∧ guard r = Some g ∧ NavLinks.guardOf "ADMIN" = Some g ∧
         (guard <$> routeFor (NavLinks.logoutRoute "ADMIN")) = Some None.
Proof.
  apply (NavProps.navLinks_guarded "ADMIN" ["VIEW_TUTORS"] (NavLinks.mkNavLink "Tutors" "/admin/tutors" ["VIEW_TUTORS"])).
  vm_compute. right. left.
Defined.

Lemma permissions_refresh_loops_witness :
  length (List.filter Permissions.isCall
    (Permissions.runPermissions 3 (Ok (Some [])) (Permissions.mkNavUser "a1" "tok" (Some "ADMIN") (Some [])))) = 3.
Proof.
  apply (PermissionProps.permissions_refresh_loops (Permissions.mkNavUser "a1" "tok" (Some "ADMIN") (Some []))
           (Ok (Some [])) 3).
  - split_and!; [reflexivity|reflexivity|reflexivity|by right].
  - by right.
Defined.
