(* ===== verification/Endpoints.v ===== *)
(** * Endpoints: the requests of the thin API clients

    [api/tutorAPI.ts], [api/sequenceAPI.ts] and the URL helpers of
    [api/notificationAPI.ts] build one HTTP request each: a method, a
    path under the API base, a bearer token and, for uploads, the
    multipart content type.  [GetTutorFileViewUrl] passes the file key
    through [encodeURIComponent], modelled here on strings of code
    units below 256 (those from 128 on escaped as their two UTF-8
    bytes), with the [decodeURIComponent] the server's query parser
    applies.
    [api/bookingAPI.ts] ([BookingEndpoints]) builds its paths from
    template literals and its queries with axios's [params] encoder;
    [route] is the method and path segments a router sees, and
    [BookingRouteProps] shows which ids keep the routes apart. *)

From S2P Require Import Prelude.

Local Open Scope string_scope.

Inductive Method := GET | POST | PUT.

(** A request: the method, the path after the API base, the bearer
    token and the [Content-Type] header if set. *)
Record Request := mkRequest { method : Method; url : string; bearer : option string; contentType : option string }.

(** ** [encodeURIComponent] and [decodeURIComponent] *)

Module Uri.

(** The characters [encodeURIComponent] leaves alone:
    [A-Z a-z 0-9 - _ . ! ~ * ' ( )]. *)
Definition unreserved (c : ascii) : bool :=
  let n := nat_of_ascii c in
  ((65 <=? n) && (n <=? 90) || (97 <=? n) && (n <=? 122) || (48 <=? n) && (n <=? 57))%nat ||
  existsb (Ascii.eqb c) ["-"; "_"; "."; "!"; "~"; "*"; "'"; "("; ")"]%char.

(** An upper-case hexadecimal digit of [k < 16]. *)
Definition hexDigit (k : nat) : ascii := ascii_of_nat (if (k <? 10)%nat then 48 + k else 55 + k).

Definition hexVal (c : ascii) : option nat :=
  let n := nat_of_ascii c in
  if ((48 <=? n) && (n <=? 57))%nat then Some (n - 48)%nat
  else if ((65 <=? n) && (n <=? 70))%nat then Some (n - 55)%nat
  else if ((97 <=? n) && (n <=? 102))%nat then Some (n - 87)%nat
  else None.

(** The escape [%XY] of a byte [n < 256]. *)
Definition pct (n : nat) (rest : string) : string :=
  String "%" (String (hexDigit (n / 16)) (String (hexDigit (n mod 16)) rest)).

(** A character of the model is a code unit below 256; from 128 on,
    [encodeURIComponent] escapes the two bytes of its UTF-8 encoding,
    [0xC0 + n / 64] and [0x80 + n mod 64]. *)
Fixpoint encodeURIComponent (s : string) : string :=
  match s with
  | EmptyString => EmptyString
  | String c rest =>
      if unreserved c then String c (encodeURIComponent rest)
      else let n := nat_of_ascii c in
           if (n <? 128)%nat then pct n (encodeURIComponent rest)
           else pct (192 + n / 64) (pct (128 + n mod 64) (encodeURIComponent rest))
  end.

(** [decodeURIComponent]: [None] is the [URIError] of a malformed
    escape or of a byte sequence that is not UTF-8; a two-byte sequence
    of a code point from 256 on, which has no character in the model,
    is [None] too. *)
Fixpoint decodeURIComponent (s : string) : option string :=
  match s with
  | EmptyString => Some EmptyString
  | String c s' =>
      if Ascii.eqb c "%" then
        match s' with
        | String h1 (String h2 rest) =>
            a ← hexVal h1; b ← hexVal h2;
            let n := (16 * a + b)%nat in
            if (n <? 128)%nat then String (ascii_of_nat n) <$> decodeURIComponent rest
            else if ((194 <=? n) && (n <=? 195))%nat then
              match rest with
              | String p (String h3 (String h4 rest')) =>
                  if Ascii.eqb p "%" then
                    a' ← hexVal h3; b' ← hexVal h4;
                    let m := (16 * a' + b')%nat in
                    if ((128 <=? m) && (m <=? 191))%nat
                    then String (ascii_of_nat (64 * (n - 192) + (m - 128))) <$> decodeURIComponent rest'
                    else None
                  else None
              | _ => None
              end
            else None
        | _ => None
        end
      else String c <$> decodeURIComponent s'
  end.

(** The encoder axios applies to each [params] value:
    [encodeURIComponent] with [%3A], [%24], [%2C], [%20], [%5B] and
    [%5D] turned back into [:], [$], [,], [+], [[] and []].  An escape
    only comes from one character, so the replacement works character by
    character. *)
Fixpoint axiosEncode (s : string) : string :=
  match s with
  | EmptyString => EmptyString
  | String c rest =>
      if existsb (Ascii.eqb c) [":"; "$"; ","; "["; "]"]%char then String c (axiosEncode rest)
      else if Ascii.eqb c " " then String "+" (axiosEncode rest)
      else encodeURIComponent (String c EmptyString) ++ axiosEncode rest
  end.

End Uri.

(** ** [api/tutorAPI.ts] *)

Module TutorApi.

Definition BASE_URL : string := "/tutors".

Definition UpdateTutorProfile (token userId : string) : Request :=
  mkRequest PUT (BASE_URL ++ "/" ++ userId) (Some token) (Some "multipart/form-data").

Definition GetTutorProfile (token userId : string) : Request :=
  mkRequest GET (BASE_URL ++ "/" ++ userId) (Some token) None.

Definition GetTutorFileViewUrl (token fileKey : string) : Request :=
  mkRequest GET (BASE_URL ++ "/qualifications/url?key=" ++ Uri.encodeURIComponent fileKey) (Some token) None.

Definition UploadTutorProfilePicture (tutorId token : string) : Request :=
  mkRequest POST (BASE_URL ++ "/" ++ tutorId ++ "/profile-picture") (Some token) (Some "multipart/form-data").

Definition AddTutorReview (token tutorId : string) : Request :=
  mkRequest POST (BASE_URL ++ "/" ++ tutorId ++ "/review") (Some token) None.

Definition GetTutorReviewsByUserId (token userId : string) : Request :=
  mkRequest GET (BASE_URL ++ "/" ++ userId ++ "/reviews") (Some token) None.

End TutorApi.

(** ** [api/bookingAPI.ts] *)

Module BookingEndpoints.

Definition BASE_URL : string := "/bookings".

(** One call a export, with its arguments; request bodies are not part
    of the model. *)
Inductive Call :=
| CreateBooking (token : string)
| AcceptBooking (bookingId token : string)
| GetBookingsForTutor (tutorId date token : string)
| GetRecentBookingsForTutor (tutorId token : string)
| GetPastBookingsForTutor (tutorId token : string)
| GetBookingsForTutorRange (tutorId startDate endDate token : string)
| GetBookingsForStudent (studentId token : string)
| CancelBooking (bookingId currentUserId token : string)
| GetBookingById (bookingId token : string)
| RequestReschedule (bookingId token : string)
| ApproveReschedule (newBookingId token : string)
| RejectReschedule (newBookingId token : string)
| GetPastSessionsForStudent (studentId token : string).

Definition request (c : Call) : Request :=
  match c with
  | CreateBooking tok => mkRequest POST BASE_URL (Some tok) None
  | AcceptBooking b tok => mkRequest PUT (BASE_URL ++ "/" ++ b ++ "/accept") (Some tok) None
  | GetBookingsForTutor t d tok =>
      mkRequest GET (BASE_URL ++ "/tutor/" ++ t ++ "?date=" ++ Uri.axiosEncode d) (Some tok) None
  | GetRecentBookingsForTutor t tok => mkRequest GET (BASE_URL ++ "/tutor/range/" ++ t ++ "/upcoming") (Some tok) None
  | GetPastBookingsForTutor t tok => mkRequest GET (BASE_URL ++ "/tutor/range/" ++ t ++ "/past") (Some tok) None
  | GetBookingsForTutorRange t lo hi tok =>
      mkRequest GET (BASE_URL ++ "/tutor/range/" ++ t ++ "?startDate=" ++ Uri.axiosEncode lo ++
                     "&endDate=" ++ Uri.axiosEncode hi) (Some tok) None
  | GetBookingsForStudent st tok => mkRequest GET (BASE_URL ++ "/student/" ++ st) (Some tok) None
  | CancelBooking b u tok => mkRequest PUT (BASE_URL ++ "/" ++ b ++ "/cancel/" ++ u) (Some tok) None
  | GetBookingById b tok => mkRequest GET (BASE_URL ++ "/" ++ b) (Some tok) None
  | RequestReschedule b tok => mkRequest POST (BASE_URL ++ "/" ++ b ++ "/reschedule") (Some tok) None
  | ApproveReschedule n tok => mkRequest PUT (BASE_URL ++ "/reschedule/" ++ n ++ "/approve") (Some tok) None
  | RejectReschedule n tok => mkRequest PUT (BASE_URL ++ "/reschedule/" ++ n ++ "/reject") (Some tok) None
  | GetPastSessionsForStudent st tok => mkRequest GET (BASE_URL ++ "/student/" ++ st ++ "/past") (Some tok) None
  end.

(** The export a call is, and the arguments it puts in the path. *)
Definition opName (c : Call) : string :=
  match c with
  | CreateBooking _ => "CreateBooking" | AcceptBooking _ _ => "AcceptBooking"
  | GetBookingsForTutor _ _ _ => "GetBookingsForTutor"
  | GetRecentBookingsForTutor _ _ => "GetRecentBookingsForTutor"
  | GetPastBookingsForTutor _ _ => "GetPastBookingsForTutor"
  | GetBookingsForTutorRange _ _ _ _ => "GetBookingsForTutorRange"
  | GetBookingsForStudent _ _ => "GetBookingsForStudent" | CancelBooking _ _ _ => "CancelBooking"
  | GetBookingById _ _ => "GetBookingById" | RequestReschedule _ _ => "RequestReschedule"
  | ApproveReschedule _ _ => "ApproveReschedule" | RejectReschedule _ _ => "RejectReschedule"
  | GetPastSessionsForStudent _ _ => "GetPastSessionsForStudent"
  end.

Definition pathArgs (c : Call) : list string :=
  match c with
  | CreateBooking _ => []
  | AcceptBooking b _ | GetBookingById b _ | RequestReschedule b _ => [b]
  | GetBookingsForTutor t _ _ | GetRecentBookingsForTutor t _ | GetPastBookingsForTutor t _
  | GetBookingsForTutorRange t _ _ _ => [t]
  | GetBookingsForStudent st _ | GetPastSessionsForStudent st _ => [st]
  | CancelBooking b u _ => [b; u]
  | ApproveReschedule n _ | RejectReschedule n _ => [n]
  end.

(** The path segments of each call, as a server's router splits the
    path at ["/"]. *)
Definition routeSegs (c : Call) : list string :=
  match c with
  | CreateBooking _ => [""; "bookings"]
  | AcceptBooking b _ => [""; "bookings"; b; "accept"]
  | GetBookingsForTutor t _ _ => [""; "bookings"; "tutor"; t]
  | GetRecentBookingsForTutor t _ => [""; "bookings"; "tutor"; "range"; t; "upcoming"]
  | GetPastBookingsForTutor t _ => [""; "bookings"; "tutor"; "range"; t; "past"]
  | GetBookingsForTutorRange t _ _ _ => [""; "bookings"; "tutor"; "range"; t]
  | GetBookingsForStudent st _ => [""; "bookings"; "student"; st]
  | CancelBooking b u _ => [""; "bookings"; b; "cancel"; u]
  | GetBookingById b _ => [""; "bookings"; b]
  | RequestReschedule b _ => [""; "bookings"; b; "reschedule"]
  | ApproveReschedule n _ => [""; "bookings"; "reschedule"; n; "approve"]
  | RejectReschedule n _ => [""; "bookings"; "reschedule"; n; "reject"]
  | GetPastSessionsForStudent st _ => [""; "bookings"; "student"; st; "past"]
  end.

(** The literal segments of the paths. *)
Definition keywords : list string :=
  ["tutor"; "range"; "upcoming"; "past"; "student"; "accept"; "cancel"; "reschedule"; "approve"; "reject"].

(** An id the template literals can put in a path unharmed: not empty,
    without ["/"] or ["?"], and not one of the literal segments. *)
Definition safeArg (a : string) : bool :=
  truthy a && noChar "/" a && noChar "?" a && negb (bool_decide (a ∈ keywords)).

End BookingEndpoints.

(** The method and the path segments of a request, the query cut at
    the first ["?"]. *)
Definition route (r : Request) : Method * list string :=
  (method r, splitChar "/" (hd "" (splitChar "?" (url r)))).

(** ** [api/sequenceAPI.ts] and [api/notificationAPI.ts] *)

Module OtherApis.

Definition getNextStudentId : Request := mkRequest GET "/seq/next-id" None None.

(** [fetchNotifications]: the user id is put in the query unencoded. *)
Definition fetchNotifications (userId token : string) : Request :=
  mkRequest GET ("/notifications?userId=" ++ userId) (Some token) None.

Definition markNotificationAsRead (notificationId token : string) : Request :=
  mkRequest PUT ("/notifications/" ++ notificationId ++ "/read") (Some token) None.

Definition createNotification (token : string) : Request := mkRequest POST "/notifications" (Some token) None.

End OtherApis.

(** ** The query of a request *)

(** The value of the first [key=] parameter of a URL's query, decoded as
    a server's query parser does: the query starts after the first
    ["?"], parameters end at ["&"]. *)
Definition queryParam (key u : string) : option string :=
  match splitChar "?" u with
  | _ :: q :: _ =>
      let params := splitChar "&" q in
      match List.find (λ p, String.prefix (key ++ "=") p) params with
      | Some p => Uri.decodeURIComponent (String.substring (String.length key + 1) (String.length p) p)
      | None => None
      end
  | _ => None
  end.

(** ** Properties *)

Module UriProps.
Import Uri.

Lemma hexVal_hexDigit k : (k < 16)%nat → hexVal (hexDigit k) = Some k.
Proof. intros Hk. do 16 (destruct k as [|k]; [reflexivity|]). lia. Qed.

Lemma hexDigit_unreserved k : (k < 16)%nat → unreserved (hexDigit k) = true.
Proof. intros Hk. do 16 (destruct k as [|k]; [reflexivity|]). lia. Qed.

Lemma unreserved_not_pct c : unreserved c = true → Ascii.eqb c "%" = false.
Proof. intros Hu. by destruct (Ascii.eqb_spec c "%") as [->|]. Qed.

Lemma decode_cons c t : Ascii.eqb c "%" = false → decodeURIComponent (String c t) = String c <$> decodeURIComponent t.
Proof. intros Hc. cbn [decodeURIComponent]. by rewrite Hc. Qed.

Lemma byte_digits c : (nat_of_ascii c / 16 < 16 ∧ nat_of_ascii c mod 16 < 16)%nat.
Proof.
  pose proof (nat_ascii_bounded c). split; [apply Nat.Div0.div_lt_upper_bound; lia|].
  by apply Nat.mod_upper_bound.
Qed.

(** The two hexadecimal digits of a byte read back as the byte. *)
Lemma hex_pair n : (n < 256)%nat →
  hexVal (hexDigit (n / 16)) = Some (n / 16) ∧ hexVal (hexDigit (n mod 16)) = Some (n mod 16) ∧
  (16 * (n / 16) + n mod 16 = n)%nat.
Proof.
  intros Hn. split_and!; [apply hexVal_hexDigit, Nat.Div0.div_lt_upper_bound; lia
                         |apply hexVal_hexDigit, Nat.mod_upper_bound; lia|].
  symmetry. apply Nat.div_mod_eq.
Qed.

Lemma decode_pct_low n rest : (n < 128)%nat →
  decodeURIComponent (pct n rest) = String (ascii_of_nat n) <$> decodeURIComponent rest.
Proof.
  intros Hn. unfold pct. cbn [decodeURIComponent]. rewrite Ascii.eqb_refl.
  destruct (hex_pair n) as (H1 & H2 & H3); [lia|]. rewrite H1, H2. cbn -[decodeURIComponent Nat.div Nat.modulo Nat.mul Nat.add Nat.ltb Nat.leb Nat.sub]. rewrite H3.
  by rewrite (proj2 (Nat.ltb_lt _ _) Hn).
Qed.

Lemma decode_pct_high n m rest : (194 <= n <= 195)%nat → (128 <= m <= 191)%nat →
  decodeURIComponent (pct n (pct m rest)) =
  String (ascii_of_nat (64 * (n - 192) + (m - 128))) <$> decodeURIComponent rest.
Proof.
  intros Hn Hm. unfold pct at 1. cbn [decodeURIComponent]. rewrite Ascii.eqb_refl.
  destruct (hex_pair n) as (H1 & H2 & H3); [lia|]. rewrite H1, H2. cbn -[decodeURIComponent pct Nat.div Nat.modulo Nat.mul Nat.add Nat.ltb Nat.leb Nat.sub]. rewrite H3.
  rewrite (proj2 (Nat.ltb_ge n 128)) by lia.
  replace ((194 <=? n) && (n <=? 195))%nat with true by (symmetry; apply andb_true_iff; split; apply Nat.leb_le; lia).
  unfold pct. rewrite Ascii.eqb_refl.
  destruct (hex_pair m) as (H4 & H5 & H6); [lia|]. rewrite H4, H5. cbn -[decodeURIComponent Nat.div Nat.modulo Nat.mul Nat.add Nat.ltb Nat.leb Nat.sub]. rewrite H6.
  replace ((128 <=? m) && (m <=? 191))%nat with true by (symmetry; apply andb_true_iff; split; apply Nat.leb_le; lia).
  done.
Qed.

(** Decoding undoes [encodeURIComponent] on every string of the model. *)
Theorem encode_decode s : decodeURIComponent (encodeURIComponent s) = Some s.
Proof.
  induction s as [|c s IH]; [done|]. cbn [encodeURIComponent]. destruct (unreserved c) eqn:Hu.
  - by rewrite decode_cons, IH by (by apply unreserved_not_pct).
  - pose proof (nat_ascii_bounded c). destruct (Nat.ltb_spec (nat_of_ascii c) 128).
    + rewrite decode_pct_low, IH by done. simpl. by rewrite ascii_nat_embedding.
    + assert (nat_of_ascii c / 64 = 2 ∨ nat_of_ascii c / 64 = 3)%nat.
      { assert (2 <= nat_of_ascii c / 64)%nat by (apply Nat.div_le_lower_bound; lia).
        assert (nat_of_ascii c / 64 < 4)%nat by (apply Nat.Div0.div_lt_upper_bound; lia). lia. }
      pose proof (Nat.mod_upper_bound (nat_of_ascii c) 64 ltac:(lia)).
      rewrite decode_pct_high, IH by lia.
      replace (64 * (192 + nat_of_ascii c / 64 - 192) + (128 + nat_of_ascii c mod 64 - 128))%nat
        with (nat_of_ascii c) by (rewrite (Nat.div_mod_eq (nat_of_ascii c) 64) at 1; lia).
      by rewrite ascii_nat_embedding.
Qed.

Lemma noChar_pct sep n r :
  unreserved sep = false → Ascii.eqb sep "%" = false → (n < 256)%nat → noChar sep (pct n r) = noChar sep r.
Proof.
  intros Hs Hp Hn. unfold pct.
  assert (Hne : ∀ c, unreserved c = true → negb (Ascii.eqb c sep) = true)
    by (intros c' Hc'; apply negb_true_iff, Ascii.eqb_neq; intros ->; congruence).
  rewrite !noChar_cons, Ascii.eqb_sym, Hp, !Hne; [done|apply hexDigit_unreserved..].
  - apply Nat.mod_upper_bound. lia.
  - apply Nat.Div0.div_lt_upper_bound. lia.
Qed.

(** The encoding has no character that is neither left alone nor ["%"]:
    no ["?"], ["&"], ["#"], ["="] or space. *)
Lemma encode_noChar sep s :
  unreserved sep = false → Ascii.eqb sep "%" = false → noChar sep (encodeURIComponent s) = true.
Proof.
  intros Hs Hp. induction s as [|c s IH]; [done|]. cbn [encodeURIComponent].
  pose proof (nat_ascii_bounded c).
  assert (nat_of_ascii c / 64 < 4)%nat by (apply Nat.Div0.div_lt_upper_bound; lia).
  pose proof (Nat.mod_upper_bound (nat_of_ascii c) 64 ltac:(lia)).
  destruct (unreserved c) eqn:Hu; [|destruct (_ <? _)%nat; by rewrite ?noChar_pct by (done || lia)].
  rewrite noChar_cons, IH. apply andb_true_iff. split; [|done].
  apply negb_true_iff, Ascii.eqb_neq. intros ->. congruence.
Qed.

End UriProps.

Module QueryProps.
Import Uri UriProps.

Lemma prefix_app a b : String.prefix a (a ++ b) = true.
Proof. induction a as [|c a IH]; [by destruct b|]. simpl. by destruct (ascii_dec c c). Qed.

Lemma substring_0_all s m : (String.length s <= m)%nat → String.substring 0 m s = s.
Proof.
  revert m. induction s as [|c s IH]; intros [|m] Hm; simpl in *; [done|done|lia|]. rewrite IH by lia. done.
Qed.

Lemma length_str_app a b : String.length (a ++ b) = (String.length a + String.length b)%nat.
Proof.
  induction a as [|c a IH]; [done|].
  change (S (String.length (a ++ b)) = S (String.length a + String.length b))%nat. by rewrite IH.
Qed.

Lemma key_eq_length key : String.length (key ++ "=") = (String.length key + 1)%nat.
Proof. rewrite length_str_app. done. Qed.

Lemma substring_after a v m :
  (String.length v <= m)%nat → String.substring (String.length a) m (a ++ v) = v.
Proof.
  intros Hm. induction a as [|c a IH]; [by apply substring_0_all|].
  change (String.substring (String.length a) m (a ++ v) = v). exact IH.
Qed.

(** The value of a query that is one parameter [key=] followed by text
    without ["&"]. *)
Lemma queryParam_single path key v :
  noChar "?" path = true → noChar "?" (key ++ "=" ++ v) = true → noChar "&" (key ++ "=" ++ v) = true →
  queryParam key (path ++ String "?" (key ++ "=" ++ v)) = decodeURIComponent v.
Proof.
  intros Hp Hq Ha. unfold queryParam. rewrite splitChar_app, (splitChar_noChar _ _ Hq) by done.
  rewrite (splitChar_noChar _ _ Ha). simpl. rewrite <- str_app_assoc, prefix_app.
  f_equal. rewrite <- (key_eq_length key). apply substring_after. rewrite length_str_app. lia.
Qed.

(** C37: [GetTutorFileViewUrl] delivers every file key intact: the server
    reads back from the [key] parameter exactly the key the page passed,
    whatever characters ([?], [&], [#], [=], [%], spaces, and those from
    U+0080 to U+00FF, sent as their two UTF-8 bytes) it holds, since
    [encodeURIComponent] escapes them all and decoding undoes it. *)
Theorem file_view_url_key token fileKey :
  queryParam "key" (url (TutorApi.GetTutorFileViewUrl token fileKey)) = Some fileKey.
Proof.
  change (queryParam "key" ("/tutors/qualifications/url" ++ String "?" ("key" ++ "=" ++ encodeURIComponent fileKey))
          = Some fileKey).
  rewrite queryParam_single, encode_decode; try done; rewrite !noChar_app; by rewrite encode_noChar.
Qed.

(** [fetchNotifications] puts the user id in the query without
    escaping: an id holding ["&"] reaches the server cut at it. *)
Lemma fetchNotifications_unescaped :
  queryParam "userId" (url (OtherApis.fetchNotifications "u1&x=2" "tok")) = Some "u1".
Proof. reflexivity. Qed.

End QueryProps.

Module BookingRouteProps.
Import BookingEndpoints.

(** Here [simpl] may unfold an append whose left side is a literal. *)
#[local] Arguments String.append : simpl nomatch.

Ltac noChar_rw :=
  repeat match goal with
  | H : noChar ?c ?x = true |- context [splitChar ?c ?x] => rewrite (splitChar_noChar c x H)
  end.

(** With safe ids, the path of each call splits into its segments. *)
Lemma route_request c :
  forallb safeArg (pathArgs c) = true → route (request c) = (method (request c), routeSegs c).
Proof.
  intros Hs. unfold safeArg in Hs. destruct c; simpl in Hs;
    repeat match goal with H : _ && _ = true |- _ => apply andb_true_iff in H as [? ?] end;
    unfold route, request, BASE_URL; cbn [method url];
    repeat progress (rewrite ?splitChar_append; noChar_rw; simpl; rewrite ?str_app_nil); done.
Qed.

(** Whether two calls hit the same route depends only on [routeSegs]. *)
Lemma routeSegs_inj c1 c2 :
  forallb safeArg (pathArgs c1) = true → forallb safeArg (pathArgs c2) = true →
  method (request c1) = method (request c2) → routeSegs c1 = routeSegs c2 →
  opName c1 = opName c2 ∧ pathArgs c1 = pathArgs c2.
Proof.
  intros H1 H2 Hm Hr. destruct c1, c2; simpl in Hm, Hr; simplify_eq; try done;
    vm_compute in H1, H2; congruence.
Qed.

(** C34: Each call of [bookingAPI.ts] reaches a route of its own: two calls
    whose path ids are safe send the same method and path only when
    they are the same export with the same path ids. *)
Theorem booking_routes_distinct c1 c2 :
  forallb safeArg (pathArgs c1) = true → forallb safeArg (pathArgs c2) = true →
  route (request c1) = route (request c2) →
  opName c1 = opName c2 ∧ pathArgs c1 = pathArgs c2.
Proof.
  intros H1 H2 Hr. rewrite !route_request in Hr by done. injection Hr as Hm Hs.
  by apply routeSegs_inj.
Qed.

(** The ids go into the paths unescaped: an id holding ["/"], or equal
    to a literal segment, reaches another export's route. *)
Lemma unsafe_ids_collide :
  route (request (GetBookingById "student/s1" "tok")) = route (request (GetBookingsForStudent "s1" "tok")) ∧
  route (request (CancelBooking "reschedule" "approve" "tok")) = route (request (ApproveReschedule "cancel" "tok")).
Proof. split; vm_compute; reflexivity. Qed.

End BookingRouteProps.

(** ** Witnesses *)

Lemma booking_routes_distinct_witness :
  BookingEndpoints.opName (BookingEndpoints.AcceptBooking "b1" "t1") =
    BookingEndpoints.opName (BookingEndpoints.AcceptBooking "b1" "t2") ∧
  BookingEndpoints.pathArgs (BookingEndpoints.AcceptBooking "b1" "t1") =
    BookingEndpoints.pathArgs (BookingEndpoints.AcceptBooking "b1" "t2").
Proof.
  apply (BookingRouteProps.booking_routes_distinct (BookingEndpoints.AcceptBooking "b1" "t1")
           (BookingEndpoints.AcceptBooking "b1" "t2")); vm_compute; reflexivity.
Defined.
