(* ===== verification/Scenarios.v ===== *)
(** * Scenarios: the pages against the engine, on concrete data

    The pages of [Dashboard] and [Student] run against the engine of
    [Booking] through its instance of the API ([Backend]), in the
    concrete lifecycle of [Booking]: tutor [t1] (Mondays and Tuesdays,
    10:00 to 11:00), student [s1], today Sunday 9 November 2025, the
    calendar on November 2025.  Each lemma applies a theorem of the pages
    where its hypotheses hold. *)

From S2P Require Import Prelude Dates DateFormat BookingTypes Calendar Cost Booking Reschedule.
From S2P Require Import Api Backend Dashboard Student RescheduleModal.
From Stdlib Require Import QArith.

Local Open Scope Z_scope.

#[local] Instance exApi : BookingApi Store := engineApi exEnv.
#[local] Instance exLaws : BookingApiLaws Store := engineApiLaws exEnv.

Definition exMonth : JsDate := mkJsDate 2025 10 1.
Definition exSlot : TimeSlot := mkTimeSlot true "10:00" "11:00".
Definition exDay : JsDate := mkJsDate 2025 10 10.
Definition exTutorUser : TutorDashboard.User := TutorDashboard.mkUser "t1" "token".

(** The tutor's dashboard after a fresh load, with Monday the 10th clicked. *)
Definition exTutorView (s : Store) : TutorDashboard.TutorView :=
  TutorDashboard.mkTutorView (TutorDashboard.monthRows exTutorUser s exMonth) [] []
    (Some (exDay, exSlot)) true exMonth.

Definition exPendingRow : BookingResponse := toResponse 0 (newBooking (exReq "2025-11-10") Pending None).
Definition exOnHoldRow : BookingResponse :=
  toResponse 1 (newBooking (exReq "2025-11-11") OnHold (Some 0%nat)).

Definition exReject :=
  TutorDashboard.runAction (Some exTutorUser) (TutorDashboard.DoCancel 0) exStore1 (exTutorView exStore1).

Lemma runAction_calendar_fresh_witness :
  TutorDashboard.monthStart exReject.1.2 = exMonth ∧
  TutorDashboard.synced exTutorUser exReject.1.1 exReject.1.2 ∧
  ∀ rt d en, getSlotStatus rt (TutorDashboard.toBookedSlot <$> TutorDashboard.bookedSlots exReject.1.2) d en =
             getSlotStatus rt (TutorDashboard.toBookedSlot <$>
               TutorDashboard.monthRows exTutorUser exReject.1.1 (TutorDashboard.monthStart exReject.1.2)) d en.
Proof.
  destruct (TutorDashboard.runAction_calendar_fresh exTutorUser (TutorDashboard.DoCancel 0)
    exStore1 (exTutorView exStore1) exReject.1.1 exReject.1.2 exReject.2) as (Hm & Hok & _);
    [reflexivity|exact (Permutation_refl _)|vm_compute; reflexivity|].
  split; [exact Hm|]. apply Hok. vm_compute. reflexivity.
Defined.

Lemma modal_shows_live_row_witness :
  TutorDashboard.modal (exTutorView exStore1) exDay =
    Some (TutorDashboard.ModalAccept exPendingRow (TutorDashboard.DoConfirm 0) (TutorDashboard.DoCancel 0)).
Proof.
  apply (TutorDashboard.modal_shows_live_row exTutorUser exStore1 (exTutorView exStore1) exDay exPendingRow);
    [exact exStore1_reachable|exact (Permutation_refl _)|decide_prop|vm_compute; reflexivity|decide_prop].
Defined.

Lemma pending_row_buttons_witness :
  (∃ s', api_accept 0 exStore1 = Ok s' ∧
     ∃ v', TutorDashboard.runAction (Some exTutorUser) (TutorDashboard.DoConfirm 0) exStore1
             (exTutorView exStore1) = (s', v', TutorDashboard.BookingAccepted)) ∧
  (∃ s', api_cancel 0 "t1" exStore1 = Ok s' ∧
     ∃ v', TutorDashboard.runAction (Some exTutorUser) (TutorDashboard.DoCancel 0) exStore1
             (exTutorView exStore1) = (s', v', TutorDashboard.BookingRejected)).
Proof.
  apply (TutorDashboard.pending_row_buttons exTutorUser exStore1 (exTutorView exStore1) (exDay, exSlot)
    exPendingRow); [reflexivity|exact (Permutation_refl _)|reflexivity|decide_prop|reflexivity].
Defined.

Lemma onHold_row_buttons_witness :
  (∃ s', api_approve 1 exStore3 = Ok s' ∧
     ∃ v', TutorDashboard.runAction (Some exTutorUser) (TutorDashboard.DoApprove 1) exStore3
             (exTutorView exStore3) = (s', v', TutorDashboard.RescheduleApproved)) ∧
  (∃ s', api_reject 1 exStore3 = Ok s' ∧
     ∃ v', TutorDashboard.runAction (Some exTutorUser) (TutorDashboard.DoCancel 1) exStore3
             (exTutorView exStore3) = (s', v', TutorDashboard.RescheduleRejected)).
Proof.
  apply (TutorDashboard.onHold_row_buttons exTutorUser exStore3 (exTutorView exStore3) (exDay, exSlot)
    exOnHoldRow); [exact exStore3_reachable|reflexivity|exact (Permutation_refl _)|reflexivity|decide_prop|reflexivity].
Defined.

Lemma fetchBookingsForMonth_rows_witness :
  exPendingRow ∈ TutorDashboard.bookedSlots (TutorDashboard.fetchBookingsForMonth exTutorUser exStore1
                                               (exTutorView initStore)) ↔
  exPendingRow ∈ api_records exStore1 ∧ resp_tutorId exPendingRow = "t1" ∧
  ∃ d, parseIsoDate (resp_date exPendingRow) = Some d ∧ getFullYear d = 2025 ∧ getMonth d = 10.
Proof.
  apply (TutorDashboard.fetchBookingsForMonth_rows exTutorUser exStore1 (exTutorView initStore));
    decide_prop.
Defined.

(** The student's view of [t1]'s calendar, Monday the 10th clicked. *)
Definition exTutorProfile : ViewTutorDetails.Tutor := ViewTutorDetails.mkTutor "t1" "Tutor" "Lee" 50.
Definition exStudentUser : StudentUser := mkStudentUser "s1" "token" "Student".

Definition exStudentView (s : Store) : ViewTutorDetails.View :=
  ViewTutorDetails.mkView (ViewTutorDetails.monthSlots "t1" s exMonth) (Some (exDay, exSlot)) true exMonth.

Definition exBook :=
  ViewTutorDetails.confirmBooking (Some exStudentUser) "t1" exTutorProfile "Beginner Lesson"
    initStore (exStudentView initStore).

Lemma confirmBooking_keeps_month_witness :
  ViewTutorDetails.synced exTutorProfile exBook.1.1 exBook.1.2.
Proof.
  apply (ViewTutorDetails.confirmBooking_keeps_month exTutorProfile (Some exStudentUser) "t1"
    "Beginner Lesson" initStore (exStudentView initStore) _ _ exBook.2 exDay exSlot);
    [apply star_refl|exact (Permutation_refl _)|reflexivity|decide_prop|reflexivity|reflexivity|
     vm_compute; reflexivity].
Defined.

Definition exBookedAmount : Q :=
  match exBook.2 with ViewTutorDetails.BookingCreated c => c | _ => 0%Q end.

Lemma confirmBooking_blocks_day_witness :
  onDayClick (mkRuntime 480 (mkJsDate 2025 10 9)) student {[ "Mon" := exSlot ]}
    (ViewTutorDetails.bookedSlots exBook.1.2) exDay = None.
Proof.
  apply (ViewTutorDetails.confirmBooking_blocks_day (mkRuntime 480 (mkJsDate 2025 10 9))
    {[ "Mon" := exSlot ]} (Some exStudentUser) "t1" exTutorProfile "Beginner Lesson" initStore
    (exStudentView initStore) exBook.1.1 exBook.1.2 exBookedAmount exDay exSlot);
    [decide_prop|decide_prop|reflexivity|vm_compute; reflexivity].
Defined.

(** The student's dashboard on the store with the pending booking, all
    bookings shown; now is 9 November 2025, 08:00. *)
Definition exDashboardView (s : Store) (onlyConfirmed : bool) : StudentDashboard.View :=
  StudentDashboard.mkView (studentOf "s1" s) onlyConfirmed.

Definition exNow : JsDate * Z := (mkJsDate 2025 10 9, 8 * 3600000).

Lemma card_cancel_succeeds_witness :
  ∃ s', api_cancel 0 "s1" exStore1 = Ok s' ∧
    StudentDashboard.handleCancelBooking (Some exStudentUser) true 0 (Ok (Some 40%Q)) exStore1
        (exDashboardView exStore1 false) StudentDashboard.initSide =
      (s', (StudentDashboard.fetchBookings exStudentUser s' (exDashboardView exStore1 false)).1,
       (StudentDashboard.fetchWallet "token" (Ok (Some 40%Q)) StudentDashboard.initSide).1,
       StudentDashboard.CancelSucceeded,
       ((StudentDashboard.fetchBookings exStudentUser s' (exDashboardView exStore1 false)).2 ++
        (StudentDashboard.fetchWallet "token" (Ok (Some 40%Q)) StudentDashboard.initSide).2)%list) ∧
    StudentDashboard.loadingWallet (StudentDashboard.fetchWallet "token" (Ok (Some 40%Q)) StudentDashboard.initSide).1 = false ∧
    (isOk (api_student "s1" s') = true →
     StudentDashboard.synced exStudentUser s' (StudentDashboard.fetchBookings exStudentUser s'
                                                 (exDashboardView exStore1 false)).1).
Proof.
  apply (StudentDashboard.card_cancel_succeeds exStudentUser exStore1 (exDashboardView exStore1 false)
    StudentDashboard.initSide (Ok (Some 40%Q)) exNow exPendingRow true);
    [exact (Permutation_refl _)|reflexivity|decide_prop|reflexivity].
Defined.

Definition exConfirmedRow : BookingResponse :=
  toResponse 0 (withStatus Confirmed (newBooking (exReq "2025-11-10") Pending None)).

Lemma default_view_offers_no_cancel_witness :
  resp_status exConfirmedRow = "confirmed" ∧
  BookingCard.showCancelOverlay false (resp_status exConfirmedRow) true = false.
Proof.
  apply (StudentDashboard.default_view_offers_no_cancel exNow (exDashboardView exStore2 true));
    [reflexivity|decide_prop].
Defined.

(** A browser five hours west of UTC on 10 November 2025. *)
Definition exWest : Runtime := mkRuntime (-300) exDay.

Lemma hasConfirmedBookings_today_witness :
  TutorDashboard.hasConfirmedBookings exWest
    (TutorDashboard.mkTutorView [exConfirmedRow] [exConfirmedRow] [] None false exMonth) = false ∧
  TutorDashboard.updateDisabled exWest None
    (TutorDashboard.mkTutorView [exConfirmedRow] [exConfirmedRow] [] None false exMonth) = false.
Proof.
  apply (TutorDashboard.hasConfirmedBookings_today exWest exConfirmedRow None false exMonth);
    [decide_prop|reflexivity|reflexivity|reflexivity].
Defined.

(** A tutor awaiting approval of a change of subject and schedule. *)
Definition exStagedProfile : TutorDashboard.TutorDetails :=
  TutorDashboard.mkTutorDetails "draft" "ACTIVE" "Physics" "" "" {[ "Mon" := exSlot ]} ["Beginner Lesson"] [].
Definition exProfileData : TutorDashboard.TutorProfileData :=
  TutorDashboard.mkTutorProfileData
    (TutorDashboard.mkTutorDetails "t1" "PENDING_APPROVAL" "Maths" "" "" ∅ [] []) (Some exStagedProfile).

Lemma fetchTutorDetails_staged_witness :
  ∃ t, TutorDashboard.fetchTutorDetails "token" (Ok (Some exProfileData)) None =
         (Some t, Some t, TutorDashboard.ProfileLoaded) ∧
    TutorDashboard.td_id t = "t1" ∧ TutorDashboard.td_availability t = {[ "Mon" := exSlot ]} ∧
    TutorDashboard.td_subject t = "Physics" ∧
    TutorDashboard.statusBadge t = TutorDashboard.PendingVerification ∧
    TutorDashboard.updateDisabled exWest (Some t) (exTutorView exStore1) = true.
Proof.
  apply (TutorDashboard.fetchTutorDetails_staged "token" exProfileData exStagedProfile None exWest
           (exTutorView exStore1)); reflexivity.
Defined.

(** A browser one hour east of UTC on 9 November 2025: the modal loads
    up to 9 February 2026, and a Monday a week later shows available. *)
Definition exEast : Runtime := mkRuntime 60 (mkJsDate 2025 10 9).
Definition exBookingProp : RescheduleModal.BookingProp := RescheduleModal.mkBookingProp 0 "t1" "Tutor Lee" "Student".

Lemma fetchBookings_beyond_window_witness :
  RescheduleModal.windowEnd exEast = mkJsDate 2026 1 9 ∧
  getSlotStatus exEast
    (RescheduleModal.bookedSlots (RescheduleModal.fetchBookings (Some exStudentUser) exBookingProp exEast
                                    exStore3 RescheduleModal.initView).1)
    (mkJsDate 2026 1 16) true = available.
Proof.
  split; [reflexivity|].
  apply (RescheduleModal.fetchBookings_beyond_window exStudentUser exBookingProp exEast exStore3
           (mkJsDate 2026 1 16));
    [decide_prop|reflexivity|decide_prop|decide_prop|decide_prop|reflexivity|reflexivity].
Defined.

Definition exDecember : JsDate := mkJsDate 2025 11 1.

Lemma onMonthChange_spec_witness :
  let '(_, v', _) := TutorDashboard.onMonthChange exDecember (Some exTutorUser) (Err ()) exStore1 None
                       (exTutorView exStore1) in
  TutorDashboard.monthStart v' = exDecember ∧ TutorDashboard.bookedSlots v' = TutorDashboard.bookedSlots (exTutorView exStore1).
Proof.
  exact (proj2 (TutorDashboard.onMonthChange_spec exDecember exTutorUser (Err ()) exStore1 None
                  (exTutorView exStore1) eq_refl) () eq_refl).
Defined.

(** The student reschedules the confirmed booking of the 10th to Tuesday
    the 11th from the modal; the dashboard then refetches. *)
Definition exReschedView : RescheduleModal.View :=
  RescheduleModal.mkView ∅ [] (Some (mkJsDate 2025 10 11, exSlot)) true false ["Beginner Lesson"].
Definition exReschedReq : BookingRequest :=
  mkBookingRequest "t1" "s1" "Tutor Lee" "Student" (formatDate (mkJsDate 2025 10 11)) "10:00" "11:00"
    "Beginner Lesson" None.
Definition exReschedStore : Store :=
  match api_reschedule 0 exReschedReq exStore2 with Ok s' => s' | Err _ => exStore2 end.

Lemma reschedule_flow_refreshes_witness :
  let '(s1, _, _, ok) := RescheduleModal.confirmReschedule (Some exStudentUser) exBookingProp "Beginner Lesson"
                           exStore2 exReschedView in
  ok = true ∧ s1 = exReschedStore ∧
  let '(sd', dv', effs) := StudentDashboard.onRescheduleConfirmed (Some exStudentUser) s1
                             StudentDashboard.initSide (exDashboardView exStore2 true) in
  StudentDashboard.rescheduleBooking sd' = None ∧
  (isOk (api_student "s1" exReschedStore) = true → StudentDashboard.synced exStudentUser exReschedStore dv' ∧
     effs = [] ∧ ∃ nid, withRespStatus "on_hold" (requestRow nid exReschedReq) ∈ StudentDashboard.bookings dv') ∧
  (isOk (api_student "s1" exReschedStore) = false →
     dv' = exDashboardView exStore2 true ∧ effs = [StudentDashboard.ShowToast "Failed to fetch bookings"]).
Proof.
  exact (RescheduleModal.reschedule_flow_refreshes exStudentUser exBookingProp "Beginner Lesson" exStore2
    exReschedView (mkJsDate 2025 10 11) exSlot StudentDashboard.initSide (exDashboardView exStore2 true)
    exStore2_reachable eq_refl eq_refl eq_refl exReschedStore ltac:(vm_compute; reflexivity)).
Defined.
